(** * Verification of the anti-bot helpers, the pagination drivers and the
      SQLite sink of the quote scraper.

    The Python sources are embedded shallowly:
    - [src/antibot.py]            : Module [Antibot]
    - [final_antibot_scraper.py]  : Module [FinalAntibotScraper]
    - [advanced_scraper.py]       : Module [AdvancedScraper]
    - [src/database.py]           : Module [Database]
    - [db_scraper.py]             : Module [DbScraper]

    A Python float is a rational ([Q]).  Two operations are modelled as
    the doubles compute them: the power in [get_delay], which raises when
    its result leaves the range of a double, and the waiting time of the
    throttler, a difference of doubles that is rounded to the nearest one
    ([Py.round_double]) before it meets the clock.  The other arithmetic on
    floats is exact.  [datetime] values are integers counting microseconds,
    which is the resolution of the type.

    A [str] is read as the bytes of its UTF-8 encoding; [str.lower()] maps
    ASCII letters itself and takes the mapping of the other code points
    from the Unicode database, which is a parameter ([Py.Unicode]).  The
    ids that SQLite hands out are unbounded integers. *)

From Stdlib Require Import ZArith QArith Qabs Qminmax Qpower Qround List Sorted String Ascii Bool Lia Lqa.
From Stdlib Require Import Floats.SpecFloat.
From stdpp Require Import base gmap strings pretty.
Import ListNotations.

Local Open Scope Z_scope.

(** ** Python built-ins used by the sources *)
Module Py.

(** Exceptions that the modelled code can raise. *)
Inductive exn :=
| IndexError
| ValueError
| TypeError
| HTTPError (status : Z)
| ConnectionError
| Blocked (reason : string)
| IntegrityError
| OverflowError
| ZeroDivisionError.

(** Result of a call that may raise. *)
Inductive result (A : Type) :=
| Ok (a : A)
| Raise (e : exn).
Arguments Ok {A} a.
Arguments Raise {A} e.

(** [x and p(x)] for an optional integer [x]: [None] and [0] are falsy. *)
Definition int_and (x : option Z) (p : Z -> bool) : bool :=
  match x with
  | Some c => negb (c =? 0) && p c
  | None => false
  end.

(** [x and p(x)] for an optional string [x]: [None] and [''] are falsy. *)
Definition str_and (x : option string) (p : string -> bool) : bool :=
  match x with
  | Some EmptyString => false
  | Some s => p s
  | None => false
  end.

(** [c in {...}] for a set literal of integers. *)
Definition in_codes (c : Z) (codes : list Z) : bool :=
  existsb (Z.eqb c) codes.

(** [range(n)]. *)
Definition range (n : Z) : list Z :=
  List.map Z.of_nat (seq 0 (Z.to_nat n)).

(** A [str] is read as the bytes of its UTF-8 encoding.  The Unicode
    database of the interpreter is a parameter, as far as [str.lower()]
    reads it: [to_lower_full] is the lower-case mapping of a code point
    outside ASCII (other than the capital sigma), from its bytes to the
    bytes of its image, which can be several code points; [final_sigma]
    tells whether a capital sigma between the texts [before] and [after] is
    in the Final_Sigma context. *)
Class Unicode := {
  to_lower_full : string -> string;
  final_sigma : string -> string -> bool
}.

(** [str.lower()] on an ASCII character. *)
Definition lower_ascii (c : ascii) : ascii :=
  let n := N_of_ascii c in
  if ((65 <=? n) && (n <=? 90))%N then ascii_of_N (n + 32) else c.

Definition is_ascii (c : ascii) : bool := (N_of_ascii c <? 128)%N.

(** A byte [10xxxxxx], which continues the encoding of a code point. *)
Definition is_continuation (c : ascii) : bool :=
  let n := N_of_ascii c in ((128 <=? n) && (n <? 192))%N.

(** The number of continuation bytes that follow the leading byte [c]. *)
Definition trail (c : ascii) : nat :=
  let n := N_of_ascii c in
  if (n <? 192)%N then 0%nat
  else if (n <? 224)%N then 1%nat
  else if (n <? 240)%N then 2%nat
  else if (n <? 248)%N then 3%nat
  else 0%nat.

(** The first [n] bytes of [s] when they are continuation bytes. *)
Fixpoint continuation (n : nat) (s : string) : option string :=
  match n with
  | O => Some EmptyString
  | S k =>
      match s with
      | String c s' =>
          if is_continuation c
          then match continuation k s' with
               | Some rest => Some (String c rest)
               | None => None
               end
          else None
      | EmptyString => None
      end
  end.

Fixpoint drop (n : nat) (s : string) : string :=
  match n, s with
  | S k, String _ s' => drop k s'
  | _, _ => s
  end.

(** U+03A3, U+03C3 and U+03C2. *)
Definition capital_sigma : string :=
  String (ascii_of_N 206) (String (ascii_of_N 163) EmptyString).
Definition small_sigma : string :=
  String (ascii_of_N 207) (String (ascii_of_N 131) EmptyString).
Definition final_small_sigma : string :=
  String (ascii_of_N 207) (String (ascii_of_N 130) EmptyString).

(** [str.lower()], code point by code point: [skip] counts the bytes still
    to pass of a code point that has been mapped, [before] is the text read
    so far.  An ASCII character is mapped by [lower_ascii], the capital
    sigma by its context, any other code point by the database.  Bytes that
    encode no code point are kept; they occur in no [str]. *)
Fixpoint lower_from `{Unicode} (skip : nat) (before s : string) : string :=
  match s with
  | EmptyString => EmptyString
  | String c s' =>
      let before' := before +:+ String c EmptyString in
      if is_continuation c then
        match skip with
        | S k => lower_from k before' s'
        | O => String c (lower_from 0 before' s')
        end
      else if is_ascii c then String (lower_ascii c) (lower_from 0 before' s')
      else
        match trail c, continuation (trail c) s' with
        | S k, Some rest =>
            let point := String c rest in
            (if String.eqb point capital_sigma
             then if final_sigma before (drop (S k) s')
                  then final_small_sigma else small_sigma
             else to_lower_full point)
            +:+ lower_from (S k) before' s'
        | _, _ => String c (lower_from 0 before' s')
        end
  end.

(** [s.lower()]. *)
Definition lower `{Unicode} (s : string) : string :=
  lower_from 0 EmptyString s.

(** [s.isascii()]. *)
Fixpoint isascii (s : string) : bool :=
  match s with
  | EmptyString => true
  | String c s' => is_ascii c && isascii s'
  end.

(** [y] keeps the ASCII text of [x]: it is [x] with bytes outside ASCII
    replaced by any text, and with any end. *)
Inductive keeps_ascii : string -> string -> Prop :=
| keeps_end (y : string) : keeps_ascii EmptyString y
| keeps_same (c : ascii) (x y : string) :
    keeps_ascii x y -> keeps_ascii (String c x) (String c y)
| keeps_gap (c : ascii) (x y1 y : string) :
    is_ascii c = false -> keeps_ascii x y -> keeps_ascii (String c x) (y1 +:+ y).

(** U+212A, the Kelvin sign. *)
Definition kelvin_sign : string :=
  String (ascii_of_N 226) (String (ascii_of_N 132) (String (ascii_of_N 170) EmptyString)).

(** A database for running examples: of the code points outside ASCII it
    lower-cases the Kelvin sign, to the letter k, and no sigma is final. *)
Definition sample_unicode : Unicode :=
  {| to_lower_full point := if String.eqb point kelvin_sign then "k"%string else point;
     final_sigma _ _ := false |}.

(** Two ASCII characters that are equal up to the case of a letter. *)
Definition same_letter (a b : ascii) : bool :=
  let m := N_of_ascii a in
  let n := N_of_ascii b in
  ((m =? n)
   || ((65 <=? m) && (m <=? 90) && (n =? m + 32))
   || ((65 <=? n) && (n <=? 90) && (m =? n + 32)))%N.

(** [a] and [b] are ASCII texts that differ in the case of letters only. *)
Fixpoint case_variant (a b : string) : bool :=
  match a, b with
  | EmptyString, EmptyString => true
  | String x a', String y b' =>
      is_ascii x && is_ascii y && same_letter x y && case_variant a' b'
  | _, _ => false
  end.

(** [s.startswith(p)]. *)
Fixpoint startswith (p s : string) : bool :=
  match p, s with
  | EmptyString, _ => true
  | String a p', String b s' => Ascii.eqb a b && startswith p' s'
  | String _ _, EmptyString => false
  end.

(** [p in s] for strings. *)
Fixpoint contains (p s : string) : bool :=
  startswith p s ||
  match s with
  | EmptyString => false
  | String _ s' => contains p s'
  end.

(** [s.split(sep)] for a one-character separator. *)
Fixpoint split (sep : ascii) (s : string) : list string :=
  match s with
  | EmptyString => [EmptyString]
  | String c s' =>
      if Ascii.eqb c sep then EmptyString :: split sep s'
      else match split sep s' with
           | piece :: pieces => String c piece :: pieces
           | [] => [String c EmptyString]
           end
  end.

(** [s.replace(old, new)] for a non-empty [old]: occurrences are replaced
    from left to right without overlap.  [skip] counts the characters of a
    match that are still to be dropped. *)
Fixpoint replace_from (old new : string) (skip : nat) (s : string) : string :=
  match s with
  | EmptyString => EmptyString
  | String c s' =>
      match skip with
      | S k => replace_from old new k s'
      | O =>
          if startswith old s
          then String.append new (replace_from old new (String.length old - 1) s')
          else String c (replace_from old new O s')
      end
  end.

Definition replace (old new s : string) : string := replace_from old new O s.

(** The least magnitude that no longer rounds to a finite double: the
    largest double, [2^1024 - 2^971], and half a unit in its last place. *)
Definition float_limit : Q := inject_Z (2 ^ 1024 - 2 ^ 970).

(** A real number of this magnitude is beyond the range of a double. *)
Definition overflows (x : Q) : bool := Qle_bool float_limit (Qabs x).

(** [x ** n] for a float [x] and an int [n].  The int is converted to a
    float first; [0.0] has no negative power; a finite [x] whose power is
    beyond the range of a double raises [OverflowError]. *)
(** The exponent of a rational that is not zero: the integer [e] with
    [2^e <= |x| < 2^(e+1)]. *)
Definition exponent (x : Q) : Z :=
  let k := (Z.log2 (Z.abs (Qnum x)) - Z.log2 (Zpos (Qden x)))%Z in
  if Qle_bool (2 ^ k) (Qabs x) then k else (k - 1)%Z.

(** The integer nearest to a rational; of two that are equally near, the
    even one. *)
Definition nearest_even (x : Q) : Z :=
  let f := Qfloor x in
  match Qcompare (x - inject_Z f) (1 # 2) with
  | Lt => f
  | Gt => (f + 1)%Z
  | Eq => if Z.even f then f else (f + 1)%Z
  end.

(** The value of a finite binary64 number of the Standard Library's
    specification of IEEE 754, and the conversion of an integer to it. *)
Definition of_spec_float (f : spec_float) : option Q :=
  match f with
  | S754_zero _ => Some 0%Q
  | S754_finite s m e =>
      Some ((if s then -1 else 1) * inject_Z (Zpos m) * 2 ^ e)%Q
  | _ => None
  end.

Definition spec_float_of_Z (n : Z) : spec_float :=
  SFdiv 53 1024 (S754_finite (n <? 0) (Z.to_pos (Z.abs n)) 0)
                (S754_finite false 1 0).

(** The double nearest to a real number, as the IEEE 754 operations of
    Python round their exact results: 53 significant bits, and a unit in
    the last place of [2^-1074] at least.  It is used where a result stays
    within the range of a double. *)
Definition round_double (x : Q) : Q :=
  if Qeq_bool x 0 then 0%Q
  else
    let ulp := (2 ^ Z.max (exponent x - 52) (-1074))%Q in
    (inject_Z (nearest_even (x / ulp)) * ulp)%Q.

Definition float_pow (x : Q) (n : Z) : result Q :=
  if overflows (inject_Z n) then Raise OverflowError
  else if Qeq_bool x 0 && (n <? 0) then Raise ZeroDivisionError
  else if negb (overflows x) && overflows (x ^ n)%Q then Raise OverflowError
  else Ok (x ^ n)%Q.

End Py.

(** ** State-and-exception monad

    A computation reads and changes a state of type [S] and either answers
    or raises; the state reached when it raises is kept. *)
Module St.

Definition M (S A : Type) : Type := S -> Py.result A * S.

Definition ret {S A} (a : A) : M S A := fun s => (Py.Ok a, s).

Definition bind {S A B} (c : M S A) (k : A -> M S B) : M S B :=
  fun s =>
    match c s with
    | (Py.Ok a, s') => k a s'
    | (Py.Raise e, s') => (Py.Raise e, s')
    end.

Definition raise {S A} (e : Py.exn) : M S A := fun s => (Py.Raise e, s).

(** [try: c  except Exception as e: h(e)]. *)
Definition try_except {S A} (c : M S A) (h : Py.exn -> M S A) : M S A :=
  fun s =>
    match c s with
    | (Py.Ok a, s') => (Py.Ok a, s')
    | (Py.Raise e, s') => h e s'
    end.

Definition update {S} (f : S -> S) : M S unit := fun s => (Py.Ok tt, f s).

Definition get {S} : M S S := fun s => (Py.Ok s, s).

End St.

Notation "'do' x <- c ; k" := (St.bind c (fun x => k))
  (at level 10, x name, c at level 100, k at level 200).
Notation "'do' ' pat <- c ; k" :=
  (St.bind c (fun x => match x with pat => k end))
  (at level 10, pat pattern, c at level 100, k at level 200).
Notation "'run' c ; k" := (St.bind c (fun _ => k))
  (at level 10, c at level 100, k at level 200).

(** ** The process and its surroundings

    The scripts read the clock, sleep, draw random numbers, perform HTTP GET
    requests and write result files.  These effects are threaded through a
    [world]; what the surroundings answer is scripted by its [script]. *)
Module Rt.

(** A scraped item: the dict [{'text': .., 'author': .., 'tags': [..]}]. *)
Record quote := mk_quote {
  text : string;
  author : string;
  tags : list string
}.

(** Answer of [requests.get]: a response, or a connection/timeout error. *)
Inductive http_result :=
| Response (status_code : Z) (body : string)
| Unreachable.

(** The five counters kept by the scripts ([Stats] / [stats]). *)
Record stats := mk_stats {
  requests : Z;
  successful : Z;
  failed : Z;
  captchas : Z;
  blocks : Z
}.

Definition no_stats : stats := mk_stats 0 0 0 0 0.

Record env := mk_env {
  (** answer to the [k]-th GET, given its URL *)
  transport : nat -> string -> http_result;
  (** value of the [k]-th draw when it is a [random.random()], in [0, 1) *)
  random : nat -> Q;
  (** raw integer of the [k]-th draw when it selects a position in a
      sequence; it is reduced modulo the length *)
  pick : nat -> nat;
  (** microseconds that pass, beyond what was asked for, at the [k]-th
      reading of the clock or sleep *)
  lag : nat -> Z
}.

Record world := mk_world {
  script : env;
  clock : Z;                 (** microseconds *)
  ticks : nat;               (** clock readings and sleeps so far *)
  fetched : list string;     (** URLs given to [requests.get], oldest first *)
  draws : nat;               (** random numbers drawn so far *)
  slept : list Q;            (** arguments of [time.sleep], oldest first *)
  counters : stats;
  files : list (string * list quote)  (** files written, oldest first *)
}.

(** The monad of the scripts. *)
Abbreviation M := (St.M world).
Definition ret {A} (a : A) : M A := St.ret a.
Definition raise {A} (e : Py.exn) : M A := St.raise e.
Definition try_except {A} (c : M A) (h : Py.exn -> M A) : M A :=
  St.try_except c h.
Definition update (f : world -> world) : M unit := St.update f.

Definition with_clock (c : Z) (w : world) : world :=
  mk_world (script w) c (S (ticks w)) (fetched w) (draws w) (slept w)
           (counters w) (files w).

Definition with_counters (f : stats -> stats) (w : world) : world :=
  mk_world (script w) (clock w) (ticks w) (fetched w) (draws w) (slept w)
           (f (counters w)) (files w).

(** [datetime.now()]. *)
Definition now : M Z :=
  fun w =>
    let c := clock w + lag (script w) (ticks w) in
    (Py.Ok c, with_clock c w).

(** [timedelta.total_seconds()] of a difference of two clock values: the
    number of microseconds divided by [10**6], as a double. *)
Definition total_seconds (d : Z) : Q := Py.round_double (inject_Z d / 1000000).

Definition micro (x : Q) : Z := Qfloor (x * 1000000).

(** [time.sleep(x)]: raises [ValueError] on a negative length, otherwise
    returns once at least [x] seconds have passed. *)
Definition sleep (x : Q) : M unit :=
  fun w =>
    if Qlt_le_dec x 0 then (Py.Raise Py.ValueError, w)
    else
      let c := clock w + micro x + lag (script w) (ticks w) in
      (Py.Ok tt,
       mk_world (script w) c (S (ticks w)) (fetched w) (draws w)
                (slept w ++ [x]) (counters w) (files w)).

(** [random.random()]. *)
Definition random_random : M Q :=
  fun w =>
    (Py.Ok (random (script w) (draws w)),
     mk_world (script w) (clock w) (ticks w) (fetched w) (S (draws w))
              (slept w) (counters w) (files w)).

(** [random.uniform(a, b)] is [a + (b - a) * random()]. *)
Definition uniform (a b : Q) : M Q :=
  do r <- random_random;
  ret (a + (b - a) * r)%Q.

(** [random.choice(l)]: the element at a drawn position; [IndexError] on an
    empty sequence. *)
Definition choice {A} (l : list A) : M A :=
  fun w =>
    let w' := mk_world (script w) (clock w) (ticks w) (fetched w)
                       (S (draws w)) (slept w) (counters w) (files w) in
    match l !! (pick (script w) (draws w) mod length l)%nat with
    | Some a => (Py.Ok a, w')
    | None => (Py.Raise Py.IndexError, w)
    end.

(** [requests.get(url, ...)]. *)
Definition requests_get (url : string) : M (Z * string) :=
  fun w =>
    let w' := mk_world (script w) (clock w) (ticks w) (fetched w ++ [url])
                       (draws w) (slept w) (counters w) (files w) in
    match transport (script w) (length (fetched w)) url with
    | Response status body => (Py.Ok (status, body), w')
    | Unreachable => (Py.Raise Py.ConnectionError, w')
    end.

(** [response.raise_for_status()]. *)
Definition raise_for_status (status : Z) : M unit :=
  if (400 <=? status) && (status <? 600) then raise (Py.HTTPError status)
  else ret tt.

(** Writing [data] to the file [name]. *)
Definition write_file (name : string) (data : list quote) : M unit :=
  update (fun w =>
    mk_world (script w) (clock w) (ticks w) (fetched w) (draws w) (slept w)
             (counters w) (files w ++ [(name, data)])).

(** The clock of the world does not run backwards. *)
Definition steady (w : world) : Prop :=
  forall k, 0 <= lag (script w) k.

(** [w'] is a later state of the world [w]. *)
Definition later (w w' : world) : Prop :=
  script w' = script w /\ clock w <= clock w'.

(** The draws of [random.random()] lie in [0, 1). *)
Definition fair (w : world) : Prop :=
  forall k, (0 <= random (script w) k)%Q /\ (random (script w) k < 1)%Q.

(** The draw of [random.uniform(-1, 1)] that a world supplies next. *)
Definition next_jitter (w : world) : Q :=
  -1 + (1 - -1) * random (script w) (draws w).

(** A computation that writes no file and leaves the request counter. *)
Definition frame_ok {A} (c : M A) : Prop :=
  forall w r w', c w = (r, w') ->
    files w' = files w /\
    requests (counters w') = requests (counters w).

(** The counters that only the callers of the retry loops change. *)
Definition tally (w : world) : Z * Z * Z * Z :=
  (requests (counters w), successful (counters w), failed (counters w),
   captchas (counters w)).

(** A computation that leaves them alone. *)
Definition tally_ok {A} (c : M A) : Prop :=
  forall w r w', c w = (r, w') -> tally w' = tally w.

End Rt.

Module Antibot.

(** *** class ProxyConfig *)
Module ProxyConfig.

Record t := mk {
  host : string;
  port : Z;
  username : option string;
  password : option string;
  protocol : string
}.

(** The key [f"{p.host}:{p.port}"] under which the rotator files a proxy. *)
Definition host_port (p : t) : string :=
  host p +:+ ":" +:+ pretty (port p).

(** [to_dict()]: the [requests] proxy mapping. *)
Definition to_dict (self : t) : gmap string string :=
  let proxy_url :=
    match username self, password self with
    | Some (String a u), Some (String b pw) =>
        protocol self +:+ "://" +:+ String a u +:+ ":" +:+ String b pw
          +:+ "@" +:+ host_port self
    | _, _ => protocol self +:+ "://" +:+ host_port self
    end in
  <["http" := proxy_url]> (<["https" := proxy_url]> ∅).

(** The pair taken when [self.username and self.password] holds. *)
Definition credentials (self : t) : option (string * string) :=
  match username self, password self with
  | Some (String a u), Some (String b pw) => Some (String a u, String b pw)
  | _, _ => None
  end.

End ProxyConfig.

(** *** class UserAgentRotator *)
Module UserAgentRotator.

Definition USER_AGENTS : list string :=
  [ "Mozilla/5.0 (Windows NT 10.0; Win64; x64) AppleWebKit/537.36 (KHTML, like Gecko) Chrome/120.0.0.0 Safari/537.36";
    "Mozilla/5.0 (Windows NT 10.0; Win64; x64) AppleWebKit/537.36 (KHTML, like Gecko) Chrome/119.0.0.0 Safari/537.36";
    "Mozilla/5.0 (Windows NT 11.0; Win64; x64) AppleWebKit/537.36 (KHTML, like Gecko) Chrome/120.0.0.0 Safari/537.36";
    "Mozilla/5.0 (Macintosh; Intel Mac OS X 10_15_7) AppleWebKit/537.36 (KHTML, like Gecko) Chrome/120.0.0.0 Safari/537.36";
    "Mozilla/5.0 (Macintosh; Intel Mac OS X 14_0) AppleWebKit/537.36 (KHTML, like Gecko) Chrome/120.0.0.0 Safari/537.36";
    "Mozilla/5.0 (Windows NT 10.0; Win64; x64; rv:121.0) Gecko/20100101 Firefox/121.0";
    "Mozilla/5.0 (Windows NT 10.0; Win64; x64; rv:120.0) Gecko/20100101 Firefox/120.0";
    "Mozilla/5.0 (Macintosh; Intel Mac OS X 10.15; rv:121.0) Gecko/20100101 Firefox/121.0";
    "Mozilla/5.0 (Macintosh; Intel Mac OS X 10_15_7) AppleWebKit/605.1.15 (KHTML, like Gecko) Version/17.0 Safari/605.1.15";
    "Mozilla/5.0 (Macintosh; Intel Mac OS X 14_0) AppleWebKit/605.1.15 (KHTML, like Gecko) Version/17.0 Safari/605.1.15";
    "Mozilla/5.0 (Windows NT 10.0; Win64; x64) AppleWebKit/537.36 (KHTML, like Gecko) Chrome/120.0.0.0 Safari/537.36 Edg/120.0.0.0";
    "Mozilla/5.0 (X11; Linux x86_64) AppleWebKit/537.36 (KHTML, like Gecko) Chrome/120.0.0.0 Safari/537.36";
    "Mozilla/5.0 (X11; Ubuntu; Linux x86_64; rv:121.0) Gecko/20100101 Firefox/121.0"
  ]%string.

Record t := mk {
  user_agents : list string;
  current_index : nat;
  last_used : option string
}.

(** [UserAgentRotator(custom_agents)]: [None] and the empty list are falsy. *)
Definition init (custom_agents : option (list string)) : t :=
  mk (match custom_agents with
      | Some (agent :: agents) => agent :: agents
      | _ => USER_AGENTS
      end) 0 None.

(** [get_random()]. *)
Definition get_random (self : t) (w : Rt.world) : Py.result string * t * Rt.world :=
  match Rt.choice (user_agents self) w with
  | (Py.Ok agent, w) =>
      (Py.Ok agent, mk (user_agents self) (current_index self) (Some agent), w)
  | (Py.Raise e, w) => (Py.Raise e, self, w)
  end.

(** [get_next()]. *)
Definition get_next (self : t) : Py.result string * t :=
  match user_agents self !! current_index self with
  | None => (Py.Raise Py.IndexError, self)
  | Some agent =>
      (Py.Ok agent,
       mk (user_agents self)
          ((current_index self + 1) mod length (user_agents self))%nat
          (Some agent))
  end.

(** A client that calls [get_next] [k] times and collects the answers. *)
Fixpoint get_next_times (k : nat) (self : t) : list (Py.result string) * t :=
  match k with
  | O => ([], self)
  | S k' =>
      let (r, self) := get_next self in
      let (rs, self) := get_next_times k' self in
      (r :: rs, self)
  end.

End UserAgentRotator.

(** *** class ProxyRotator *)
Module ProxyRotator.

Record t := mk {
  proxies : list ProxyConfig.t;
  current_index : nat;
  failed_proxies : gset string;
  (** per key, the counters [(success, failure)] *)
  proxy_stats : gmap string (Z * Z)
}.

(** [ProxyRotator(proxies)]. *)
Definition init (proxies : list ProxyConfig.t) : t :=
  mk proxies 0 ∅ ∅.

Definition add_proxy (self : t) (proxy : ProxyConfig.t) : t :=
  mk (proxies self ++ [proxy]) (current_index self) (failed_proxies self)
     (<[ProxyConfig.host_port proxy := (0, 0)]> (proxy_stats self)).

Definition is_failed (self : t) (p : ProxyConfig.t) : bool :=
  bool_decide (ProxyConfig.host_port p ∈ failed_proxies self).

(** [get_random()]. *)
Definition get_random (self : t) : Rt.M (option (gmap string string)) :=
  let available :=
    List.filter (fun p => negb (is_failed self p)) (proxies self) in
  match available with
  | [] => Rt.ret None
  | _ => do proxy <- Rt.choice available; Rt.ret (Some (ProxyConfig.to_dict proxy))
  end.

(** The [while attempts < len(self.proxies)] loop of [get_next].  The third
    component of the answer counts the executions of the loop body; [None]
    means that [fuel] did not suffice. *)
Fixpoint get_next_while (fuel : nat) (attempts : nat) (self : t)
  : option (Py.result (option (gmap string string)) * t * nat) :=
  if (attempts <? length (proxies self))%nat then
    match fuel with
    | O => None
    | S fuel' =>
        match proxies self !! current_index self with
        | None => Some (Py.Raise Py.IndexError, self, 1%nat)
        | Some proxy =>
            let self' :=
              mk (proxies self)
                 ((current_index self + 1) mod length (proxies self))%nat
                 (failed_proxies self) (proxy_stats self) in
            if negb (is_failed self proxy)
            then Some (Py.Ok (Some (ProxyConfig.to_dict proxy)), self', 1%nat)
            else
              match get_next_while fuel' (attempts + 1) self' with
              | Some (r, s, n) => Some (r, s, S n)
              | None => None
              end
        end
    end
  else Some (Py.Ok None, self, 0%nat).

(** [get_next()]. *)
Definition get_next (self : t)
  : option (Py.result (option (gmap string string)) * t * nat) :=
  match proxies self with
  | [] => Some (Py.Ok None, self, 0%nat)
  | _ => get_next_while (length (proxies self)) 0 self
  end.

(** The [host:port] that [mark_failed] and [mark_success] read off a proxy
    mapping. *)
Definition extract_host_port (proxy_dict : gmap string string) : Py.result string :=
  let proxy_url := default EmptyString (proxy_dict !! "http"%string) in
  if Py.contains "@" proxy_url then
    match Py.split "@" proxy_url !! 1%nat with
    | Some host_port => Py.Ok host_port
    | None => Py.Raise Py.IndexError
    end
  else Py.Ok (Py.replace "https://" "" (Py.replace "http://" "" proxy_url)).

Definition mark_failed (self : t) (proxy_dict : gmap string string)
  : Py.result unit * t :=
  match extract_host_port proxy_dict with
  | Py.Raise e => (Py.Raise e, self)
  | Py.Ok host_port =>
      (Py.Ok tt,
       mk (proxies self) (current_index self)
          ({[host_port]} ∪ failed_proxies self)
          (match proxy_stats self !! host_port with
           | Some (ok, ko) => <[host_port := (ok, ko + 1)]> (proxy_stats self)
           | None => proxy_stats self
           end))
  end.

Definition mark_success (self : t) (proxy_dict : gmap string string)
  : Py.result unit * t :=
  match extract_host_port proxy_dict with
  | Py.Raise e => (Py.Raise e, self)
  | Py.Ok host_port =>
      (Py.Ok tt,
       mk (proxies self) (current_index self) (failed_proxies self)
          (match proxy_stats self !! host_port with
           | Some (ok, ko) => <[host_port := (ok + 1, ko)]> (proxy_stats self)
           | None => proxy_stats self
           end))
  end.

Definition reset_failed (self : t) : t :=
  mk (proxies self) (current_index self) ∅ (proxy_stats self).

(** A call made by a client of the rotator, and the rotator it leaves
    behind.  [get_random] assigns no attribute, and [add_proxies_from_list]
    changes the rotator through calls of [add_proxy] only. *)
Inductive call :=
| AddProxy (proxy : ProxyConfig.t)
| GetRandom
| GetNext
| MarkFailed (proxy_dict : gmap string string)
| MarkSuccess (proxy_dict : gmap string string)
| ResetFailed.

Definition step (self : t) (c : call) : t :=
  match c with
  | AddProxy proxy => add_proxy self proxy
  | GetRandom => self
  | GetNext =>
      match get_next self with
      | Some (_, self', _) => self'
      | None => self
      end
  | MarkFailed proxy_dict => snd (mark_failed self proxy_dict)
  | MarkSuccess proxy_dict => snd (mark_success self proxy_dict)
  | ResetFailed => reset_failed self
  end.

Definition steps (self : t) (calls : list call) : t :=
  fold_left step calls self.

(** The index stays inside a non-empty pool. *)
Definition index_ok (self : t) : Prop :=
  (current_index self = 0 \/ current_index self < length (proxies self))%nat.

End ProxyRotator.

(** *** class RequestThrottler *)
Module RequestThrottler.

Record t := mk {
  min_delay : Q;
  max_delay : Q;
  requests_per_minute : Z;
  request_times : list Z;
  consecutive_errors : Z
}.

(** [RequestThrottler(min_delay, max_delay, requests_per_minute)]. *)
Definition init (min_delay max_delay : Q) (requests_per_minute : Z) : t :=
  mk min_delay max_delay requests_per_minute [] 0.

Definition with_times (self : t) (times : list Z) : t :=
  mk (min_delay self) (max_delay self) (requests_per_minute self) times
     (consecutive_errors self).

(** [timedelta(minutes=1)]. *)
Definition minute : Z := 60000000.

(** [60 - (datetime.now() - self.request_times[0]).total_seconds()] when
    the oldest kept time is [age] microseconds old: a difference of doubles,
    hence a double. *)
Definition wait_time (age : Z) : Q :=
  Py.round_double (60 - Rt.total_seconds age).

(** The same waiting time computed by the binary64 division and
    subtraction of the Standard Library's specification of IEEE 754. *)
Definition wait_time_ieee (age : Z) : option Q :=
  Py.of_spec_float
    (SFsub 53 1024 (Py.spec_float_of_Z 60)
       (SFdiv 53 1024 (Py.spec_float_of_Z age) (Py.spec_float_of_Z 1000000))).

(** The part of [wait] that follows the cleaning of [request_times]; it
    answers the time to record.  In the rate-limit branch the clock is read
    before [request_times[0]] is looked up. *)
Definition wait_body (self : t) : Rt.M Z :=
  run (if requests_per_minute self <=? Z.of_nat (length (request_times self))
       then
         do now <- Rt.now;
         match request_times self with
         | [] => Rt.raise Py.IndexError
         | oldest :: _ =>
             let wait_time := wait_time (now - oldest) in
             if Qlt_le_dec 0 wait_time then Rt.sleep wait_time else Rt.ret tt
         end
       else Rt.ret tt);
  do base_delay <- Rt.uniform (min_delay self) (max_delay self);
  let error_multiplier :=
    (1 + inject_Z (consecutive_errors self) * (1 # 2))%Q in
  let actual_delay := (base_delay * error_multiplier)%Q in
  run Rt.sleep actual_delay;
  Rt.now.

(** [wait()].  The cleaned list is stored before anything can raise. *)
Definition wait (self : t) (w : Rt.world) : Py.result unit * t * Rt.world :=
  match Rt.now w with
  | (Py.Raise e, w1) => (Py.Raise e, self, w1)
  | (Py.Ok now, w1) =>
      let cutoff := now - minute in
      let self1 :=
        with_times self
          (List.filter (fun t => cutoff <? t) (request_times self)) in
      match wait_body self1 w1 with
      | (Py.Raise e, w2) => (Py.Raise e, self1, w2)
      | (Py.Ok recorded, w2) =>
          (Py.Ok tt, with_times self1 (request_times self1 ++ [recorded]), w2)
      end
  end.

Definition record_success (self : t) : t :=
  mk (min_delay self) (max_delay self) (requests_per_minute self)
     (request_times self) 0.

Definition record_error (self : t) : t :=
  mk (min_delay self) (max_delay self) (requests_per_minute self)
     (request_times self) (consecutive_errors self + 1).

(** A client of the throttler: the object, the world, and the record of
    every time [wait] has appended to [request_times] so far. *)
Record session := mk_session {
  throttler : t;
  world : Rt.world;
  history : list Z
}.

Inductive call :=
| Wait
| RecordSuccess
| RecordError.

Definition step (s : session) (c : call) : session :=
  match c with
  | Wait =>
      match wait (throttler s) (world s) with
      | (Py.Ok _, self, w) =>
          mk_session self w (history s ++ [List.last (request_times self) 0])
      | (Py.Raise _, self, w) => mk_session self w (history s)
      end
  | RecordSuccess =>
      mk_session (record_success (throttler s)) (world s) (history s)
  | RecordError =>
      mk_session (record_error (throttler s)) (world s) (history s)
  end.

Definition steps (s : session) (calls : list call) : session :=
  fold_left step calls s.

(** Number of the times in [l] that lie in the 60 seconds up to [t]. *)
Definition in_window (t : Z) (l : list Z) : Z :=
  Z.of_nat (length (List.filter (fun x => (t - minute <? x) && (x <=? t)) l)).

(** Number of the times in [l] that are later than [c]. *)
Definition newer_than (c : Z) (l : list Z) : Z :=
  Z.of_nat (length (List.filter (fun x => c <? x) l)).

(** The age, in microseconds, that the oldest kept time has when the next
    call of [wait] computes its waiting time; [None] when that call computes
    none. *)
Definition next_age (self : t) (w : Rt.world) : option Z :=
  let now0 := Rt.clock w + Rt.lag (Rt.script w) (Rt.ticks w) in
  let kept := List.filter (fun t => now0 - minute <? t) (request_times self) in
  if requests_per_minute self <=? Z.of_nat (length kept) then
    match kept with
    | oldest :: _ => Some (now0 + Rt.lag (Rt.script w) (S (Rt.ticks w)) - oldest)
    | [] => None
    end
  else None.

(** Rounding takes no microsecond off the waiting time for this age. *)
Definition unshortened (age : Z) : bool :=
  (minute <=? age) || (minute - age <=? Rt.micro (wait_time age)).

(** No waiting time computed along a sequence of calls is shortened by
    rounding. *)
Fixpoint exact_waits (s : session) (calls : list call) : bool :=
  match calls with
  | [] => true
  | c :: rest =>
      match c, next_age (throttler s) (world s) with
      | Wait, Some age => unshortened age
      | _, _ => true
      end && exact_waits (step s c) rest
  end.

(** What [wait] asks of the throttler to go through. *)
Definition fit (self : t) : Prop :=
  1 <= requests_per_minute self /\
  (0 <= min_delay self)%Q /\
  (min_delay self <= max_delay self)%Q /\
  0 <= consecutive_errors self.

(** The delay that follows the check of the rate limit lasts a microsecond
    at least, whatever is drawn. *)
Definition paced (self : t) : Prop :=
  0 <= consecutive_errors self /\
  (1 # 1000000 <= min_delay self)%Q /\
  (min_delay self <= max_delay self)%Q.

(** What holds of a session between two calls whatever the rounding does. *)
Record sound (N : Z) (s : session) : Prop := mk_sound {
  sound_rpm : requests_per_minute (throttler s) = N;
  sound_steady : Rt.steady (world s);
  sound_past : Forall (fun t => t <= Rt.clock (world s)) (history s);
  sound_kept : request_times (throttler s) `sublist_of` history s
}.

(** What holds of a session between two calls when no waiting time has been
    shortened, or the delays last a microsecond at least. *)
Record inv (N : Z) (s : session) : Prop := mk_inv {
  inv_rpm : requests_per_minute (throttler s) = N;
  inv_steady : Rt.steady (world s);
  inv_past : Forall (fun t => t <= Rt.clock (world s)) (history s);
  inv_recent : forall c, Rt.clock (world s) - minute <= c ->
      newer_than c (history s) = newer_than c (request_times (throttler s));
  inv_kept : request_times (throttler s) `sublist_of` history s;
  inv_window : forall t, in_window t (history s) <= N
}.

End RequestThrottler.

(** *** class RetryHandler *)
Module RetryHandler.

Record t := mk {
  max_retries : Z;
  base_delay : Q;
  max_delay : Q;
  exponential_base : Q
}.

(** [RetryHandler()] with the default arguments of [__init__]. *)
Definition defaults : t :=
  {| max_retries := 3; base_delay := 1%Q; max_delay := 60%Q;
     exponential_base := 2%Q |}.

(** The body of [get_delay] once [random.uniform(-1, 1)] has answered [u]. *)
Definition jittered_delay (self : t) (attempt : Z) (u : Q) : Q :=
  let delay := (base_delay self * (exponential_base self ^ attempt))%Q in
  let jitter := (delay * (1 # 4) * u)%Q in
  let delay := (delay + jitter)%Q in
  Qmin delay (max_delay self).

(** [get_delay(attempt)].  The power [exponential_base ** attempt] is
    formed first and can raise; when it does not, it is the power that
    [jittered_delay] uses. *)
Definition get_delay (self : t) (attempt : Z) : Rt.M Q :=
  match Py.float_pow (exponential_base self) attempt with
  | Py.Raise e => Rt.raise e
  | Py.Ok _ =>
      do u <- Rt.uniform (-1) 1;
      Rt.ret (jittered_delay self attempt u)
  end.

(** The power and the products that [get_delay] forms for this attempt are
    within the range of a double. *)
Definition in_range (self : t) (attempt : Z) : Prop :=
  Py.overflows (inject_Z attempt) = false /\
  Py.overflows (exponential_base self ^ attempt)%Q = false /\
  Py.overflows ((5 # 4) * (base_delay self * exponential_base self ^ attempt))%Q
    = false.

Definition retryable_codes : list Z := [408; 429; 500; 502; 503; 504].

(** [should_retry(attempt, status_code=None)]. *)
Definition should_retry (self : t) (attempt : Z) (status_code : option Z) : bool :=
  if max_retries self <=? attempt then false
  else if Py.int_and status_code (fun c => Py.in_codes c retryable_codes)
  then true
  else if Py.int_and status_code
            (fun c => (400 <=? c) && (c <? 500) && negb (c =? 429))
  then false
  else true.

(** The [for attempt in range(self.max_retries + 1)] loop of
    [execute_with_retry], with the exception kept in [last_exception]. *)
Fixpoint retry_loop {A} (self : t) (func : Rt.M A) (attempts : list Z)
    (last_exception : option Py.exn) : Rt.M A :=
  match attempts with
  | [] =>
      match last_exception with
      | Some e => Rt.raise e
      | None => Rt.raise Py.TypeError
      end
  | attempt :: rest =>
      Rt.try_except func (fun e =>
        run (if attempt <? max_retries self
             then (do delay <- get_delay self attempt; Rt.sleep delay)
             else Rt.ret tt);
        retry_loop self func rest (Some e))
  end.

(** [execute_with_retry(func)]. *)
Definition execute_with_retry {A} (self : t) (func : Rt.M A) : Rt.M A :=
  retry_loop self func (Py.range (max_retries self + 1)) None.

End RetryHandler.

(** *** class CaptchaDetector *)
Module CaptchaDetector.

Definition CAPTCHA_INDICATORS : list string :=
  [ "captcha"; "recaptcha"; "hcaptcha"; "challenge"; "verify you are human";
    "verify you're human"; "are you a robot"; "bot detection";
    "access denied"; "blocked"; "unusual traffic"; "automated access";
    "please verify"; "security check"; "cloudflare"; "ddos protection";
    "incapsula"; "distil networks"; "imperva"; "perimeterx"; "datadome"
  ]%string.

Definition CAPTCHA_URLS : list string :=
  [ "google.com/recaptcha"; "hcaptcha.com"; "challenges.cloudflare.com";
    "captcha"; "challenge" ]%string.

(** The double quote, which the element patterns contain. *)
Definition dq : string := String (ascii_of_nat 34) EmptyString.

Definition captcha_elements : list string :=
  [ "id=" +:+ dq +:+ "captcha" +:+ dq;
    "class=" +:+ dq +:+ "captcha" +:+ dq;
    "id=" +:+ dq +:+ "recaptcha" +:+ dq;
    "class=" +:+ dq +:+ "g-recaptcha" +:+ dq;
    "class=" +:+ dq +:+ "h-captcha" +:+ dq;
    "data-sitekey=";
    "cf-turnstile" ]%string.

(** [is_captcha_page(html, url=None)]. *)
Definition is_captcha_page `{Py.Unicode} (html : string) (url : option string) : bool :=
  let html_lower := Py.lower html in
  if existsb (fun indicator => Py.contains indicator html_lower)
             CAPTCHA_INDICATORS then true
  else if Py.str_and url (fun u =>
            let url_lower := Py.lower u in
            existsb (fun pattern => Py.contains pattern url_lower) CAPTCHA_URLS)
  then true
  else if existsb (fun element => Py.contains element html_lower)
                  captcha_elements then true
  else false.

Definition blocked_codes : list Z := [403; 429; 503].

(** [is_blocked(status_code, html=None)]. *)
Definition is_blocked `{Py.Unicode} (status_code : Z) (html : option string) : bool :=
  if Py.in_codes status_code blocked_codes then true
  else if Py.str_and html (fun h => is_captcha_page h None) then true
  else false.

(** [get_block_reason(status_code, html=None)]. *)
Definition get_block_reason `{Py.Unicode} (status_code : Z) (html : option string) : string :=
  if status_code =? 403 then "Access Forbidden - IP may be blocked"
  else if status_code =? 429 then "Too Many Requests - Rate limited"
  else if status_code =? 503 then "Service Unavailable - May be under protection"
  else if Py.str_and html (fun h => is_captcha_page h None)
  then "CAPTCHA Challenge Detected"
  else "Unknown block reason".

End CaptchaDetector.

End Antibot.

(** ** final_antibot_scraper.py *)
Module FinalAntibotScraper.

Definition OUTPUT_DIR : string := "data".
Definition BASE_URL : string := "https://quotes.toscrape.com".

Definition USER_AGENTS : list string :=
  [ "Mozilla/5.0 (Windows NT 10.0; Win64; x64) AppleWebKit/537.36 (KHTML, like Gecko) Chrome/120.0.0.0 Safari/537.36";
    "Mozilla/5.0 (Macintosh; Intel Mac OS X 10_15_7) AppleWebKit/537.36 (KHTML, like Gecko) Chrome/120.0.0.0 Safari/537.36";
    "Mozilla/5.0 (Windows NT 10.0; Win64; x64; rv:121.0) Gecko/20100101 Firefox/121.0";
    "Mozilla/5.0 (Macintosh; Intel Mac OS X 10_15_7) AppleWebKit/605.1.15 (KHTML, like Gecko) Version/17.0 Safari/605.1.15";
    "Mozilla/5.0 (Windows NT 10.0; Win64; x64) AppleWebKit/537.36 (KHTML, like Gecko) Chrome/120.0.0.0 Safari/537.36 Edg/120.0.0.0"
  ]%string.

(** [get_headers()]; of the mapping only the drawn user agent varies. *)
Definition get_headers : Rt.M string := Rt.choice USER_AGENTS.

(** [smart_delay(min_sec, max_sec)]. *)
Definition smart_delay (min_sec max_sec : Q) : Rt.M unit :=
  do delay <- Rt.uniform min_sec max_sec;
  Rt.sleep delay.

Definition block_indicators : list string :=
  [ "captcha"; "blocked"; "access denied"; "unusual traffic" ]%string.

(** [is_blocked(status_code, html)]. *)
Definition is_blocked `{Py.Unicode} (status_code : Z) (html : string) : bool :=
  if Py.in_codes status_code [403; 429; 503] then true
  else
    let html_lower := Py.lower html in
    existsb (fun indicator => Py.contains indicator html_lower) block_indicators.

(** How one pass through the body of a [for] loop ends. *)
Inductive ctrl (A : Type) :=
| Continue
| Return (a : A).
Arguments Continue {A}.
Arguments Return {A} a.

Definition bump_requests (s : Rt.stats) : Rt.stats :=
  Rt.mk_stats (Rt.requests s + 1) (Rt.successful s) (Rt.failed s)
              (Rt.captchas s) (Rt.blocks s).
Definition bump_successful (s : Rt.stats) : Rt.stats :=
  Rt.mk_stats (Rt.requests s) (Rt.successful s + 1) (Rt.failed s)
              (Rt.captchas s) (Rt.blocks s).
Definition bump_failed (s : Rt.stats) : Rt.stats :=
  Rt.mk_stats (Rt.requests s) (Rt.successful s) (Rt.failed s + 1)
              (Rt.captchas s) (Rt.blocks s).
Definition bump_captchas (s : Rt.stats) : Rt.stats :=
  Rt.mk_stats (Rt.requests s) (Rt.successful s) (Rt.failed s)
              (Rt.captchas s + 1) (Rt.blocks s).
Definition bump_blocks (s : Rt.stats) : Rt.stats :=
  Rt.mk_stats (Rt.requests s) (Rt.successful s) (Rt.failed s)
              (Rt.captchas s) (Rt.blocks s + 1).

(** [wait = (2 ** attempt) + random.uniform(0, 1); time.sleep(wait)]. *)
Definition backoff (attempt : Z) : Rt.M unit :=
  do u <- Rt.uniform 0 1;
  let wait := (inject_Z (2 ^ attempt) + u)%Q in
  Rt.sleep wait.

(** The value of [wait] in [backoff] when the world supplies the draw of
    [random.uniform(0, 1)] after one more draw (the choice of the user
    agent). *)
Definition backoff_wait (w : Rt.world) (attempt : Z) : Q :=
  inject_Z (2 ^ attempt) + (0 + (1 - 0) * Rt.random (Rt.script w) (S (Rt.draws w))).

(** The [try] statement that makes up the body of the loop of
    [fetch_with_retry]. *)
Definition fetch_attempt `{Py.Unicode} (url : string) (max_retries : Z) (attempt : Z)
  : Rt.M (ctrl (option string)) :=
  Rt.try_except
    (do _ <- get_headers;
     do ' (status_code, text) <- Rt.requests_get url;
     if is_blocked status_code text then
       run Rt.update (Rt.with_counters bump_blocks);
       if attempt <? max_retries - 1
       then (run backoff attempt; Rt.ret Continue)
       else Rt.ret (Return None)
     else
       run Rt.raise_for_status status_code;
       run Rt.update (Rt.with_counters bump_successful);
       Rt.ret (Return (Some text)))
    (fun _ =>
       run Rt.update (Rt.with_counters bump_failed);
       run (if attempt <? max_retries - 1 then backoff attempt
            else Rt.ret tt);
       Rt.ret Continue).

(** The [for attempt in range(max_retries)] loop of [fetch_with_retry]. *)
Fixpoint fetch_loop `{Py.Unicode} (url : string) (max_retries : Z) (attempts : list Z)
  : Rt.M (option string) :=
  match attempts with
  | [] => Rt.ret None
  | attempt :: rest =>
      do c <- fetch_attempt url max_retries attempt;
      match c with
      | Continue => fetch_loop url max_retries rest
      | Return r => Rt.ret r
      end
  end.

(** [fetch_with_retry(url, max_retries=3)]. *)
Definition fetch_with_retry `{Py.Unicode} (url : string) (max_retries : Z)
  : Rt.M (option string) :=
  run Rt.update (Rt.with_counters bump_requests);
  fetch_loop url max_retries (Py.range max_retries).

(** [fetch_page(url)]. *)
Definition fetch_page `{Py.Unicode} (url : string) : Rt.M (option string) :=
  run smart_delay (3 # 2) (7 # 2);
  fetch_with_retry url 3.

Definition save_to_csv (data : list Rt.quote) (filename : string) : Rt.M string :=
  let filepath := OUTPUT_DIR +:+ "/" +:+ filename in
  run Rt.write_file filepath data;
  Rt.ret filepath.

Definition save_to_json (data : list Rt.quote) (filename : string) : Rt.M string :=
  let filepath := OUTPUT_DIR +:+ "/" +:+ filename in
  run Rt.write_file filepath data;
  Rt.ret filepath.

Section Main.

(** The module constant [MAX_PAGES] (5 in the source). *)
Variable MAX_PAGES : Z.

(** The two HTML readers built on BeautifulSoup. *)
Variable parse_quotes : string -> list Rt.quote.
Variable get_next_page : string -> option string.

(** The [while current_url and page_number <= MAX_PAGES] loop of [main];
    it answers [all_quotes], or [None] when [fuel] did not suffice. *)
Fixpoint main_loop `{Py.Unicode} (fuel : nat) (all_quotes : list Rt.quote)
    (current_url : string) (page_number : Z)
  : Rt.M (option (list Rt.quote)) :=
  if negb (String.eqb current_url "") && (page_number <=? MAX_PAGES) then
    match fuel with
    | O => Rt.ret None
    | S fuel' =>
        do html <- fetch_page current_url;
        match html with
        | None => Rt.ret (Some all_quotes)
        | Some html =>
            let quotes := parse_quotes html in
            let all_quotes := (all_quotes ++ quotes)%list in
            match get_next_page html with
            | Some (String c rest) =>
                main_loop fuel' all_quotes (BASE_URL +:+ String c rest)
                          (page_number + 1)
            | _ => Rt.ret (Some all_quotes)
            end
        end
    end
  else Rt.ret (Some all_quotes).

(** [main()]; the answer is the final value of [all_quotes]. *)
Definition main `{Py.Unicode} : Rt.M (option (list Rt.quote)) :=
  do r <- main_loop (Z.to_nat MAX_PAGES) [] BASE_URL 1;
  match r with
  | None => Rt.ret None
  | Some all_quotes =>
      run (match all_quotes with
           | [] => Rt.ret tt
           | _ =>
               do _ <- save_to_csv all_quotes "quotes_antibot.csv";
               do _ <- save_to_json all_quotes "quotes_antibot.json";
               Rt.ret tt
           end);
      Rt.ret (Some all_quotes)
  end.

End Main.

End FinalAntibotScraper.

(** ** advanced_scraper.py *)
Module AdvancedScraper.

Definition OUTPUT_DIR : string := "data".
Definition BASE_URL : string := "https://quotes.toscrape.com".

Module UserAgentRotator.

Definition USER_AGENTS : list string :=
  [ "Mozilla/5.0 (Windows NT 10.0; Win64; x64) AppleWebKit/537.36 (KHTML, like Gecko) Chrome/120.0.0.0 Safari/537.36";
    "Mozilla/5.0 (Windows NT 10.0; Win64; x64) AppleWebKit/537.36 (KHTML, like Gecko) Chrome/119.0.0.0 Safari/537.36";
    "Mozilla/5.0 (Macintosh; Intel Mac OS X 10_15_7) AppleWebKit/537.36 (KHTML, like Gecko) Chrome/120.0.0.0 Safari/537.36";
    "Mozilla/5.0 (Windows NT 10.0; Win64; x64; rv:121.0) Gecko/20100101 Firefox/121.0";
    "Mozilla/5.0 (Macintosh; Intel Mac OS X 10_15_7) AppleWebKit/605.1.15 (KHTML, like Gecko) Version/17.0 Safari/605.1.15";
    "Mozilla/5.0 (Windows NT 10.0; Win64; x64) AppleWebKit/537.36 (KHTML, like Gecko) Chrome/120.0.0.0 Safari/537.36 Edg/120.0.0.0";
    "Mozilla/5.0 (X11; Linux x86_64) AppleWebKit/537.36 (KHTML, like Gecko) Chrome/120.0.0.0 Safari/537.36"
  ]%string.

Definition get_random : Rt.M string := Rt.choice USER_AGENTS.

(** [get_headers()]; of the mapping only the drawn user agent varies. *)
Definition get_headers : Rt.M string := get_random.

End UserAgentRotator.

(** The class [RequestThrottler] of this script repeats the one of
    [src/antibot.py] statement by statement (it prints where that one
    logs). *)
Module RequestThrottler := Antibot.RequestThrottler.

Module RetryHandler.

Record t := mk {
  max_retries : Z;
  base_delay : Q
}.

(** The body of [get_delay] once [random.uniform(-1, 1)] has answered [u]. *)
Definition jittered_delay (self : t) (attempt : Z) (u : Q) : Q :=
  let delay := (base_delay self * inject_Z (2 ^ attempt))%Q in
  let jitter := (delay * (1 # 4) * u)%Q in
  Qmin (delay + jitter) 60.

(** [get_delay(attempt)].  [2 ** attempt] is an int, which the product
    with the float [base_delay] converts to a float; Python raises
    [OverflowError] when the int is beyond the range of a double. *)
Definition get_delay (self : t) (attempt : Z) : Rt.M Q :=
  if Py.overflows (inject_Z (2 ^ attempt)) then Rt.raise Py.OverflowError
  else
    do u <- Rt.uniform (-1) 1;
    Rt.ret (jittered_delay self attempt u).

(** The [for attempt in range(self.max_retries + 1)] loop of [execute]. *)
Fixpoint retry_loop {A} (self : t) (func : Rt.M A) (attempts : list Z)
    (last_error : option Py.exn) : Rt.M A :=
  match attempts with
  | [] =>
      match last_error with
      | Some e => Rt.raise e
      | None => Rt.raise Py.TypeError
      end
  | attempt :: rest =>
      Rt.try_except func (fun e =>
        run (if attempt <? max_retries self
             then (do delay <- get_delay self attempt; Rt.sleep delay)
             else Rt.ret tt);
        retry_loop self func rest (Some e))
  end.

Definition execute {A} (self : t) (func : Rt.M A) : Rt.M A :=
  retry_loop self func (Py.range (max_retries self + 1)) None.

End RetryHandler.

Module CaptchaDetector.

Definition INDICATORS : list string :=
  [ "captcha"; "recaptcha"; "hcaptcha"; "verify you are human";
    "access denied"; "blocked"; "unusual traffic"; "cloudflare" ]%string.

Definition is_blocked `{Py.Unicode} (status_code : Z) (html : option string) : bool :=
  if Py.in_codes status_code [403; 429; 503] then true
  else Py.str_and html (fun h =>
         let html_lower := Py.lower h in
         existsb (fun indicator => Py.contains indicator html_lower) INDICATORS).

Definition get_reason (status_code : Z) : string :=
  if status_code =? 403 then "Access Forbidden"
  else if status_code =? 429 then "Rate Limited"
  else if status_code =? 503 then "Service Unavailable"
  else "Unknown".

End CaptchaDetector.

(** The nested function [do_request] of [fetch_page]. *)
Definition do_request `{Py.Unicode} (url : string) : Rt.M string :=
  do _ <- UserAgentRotator.get_headers;
  do ' (status_code, text) <- Rt.requests_get url;
  run Rt.raise_for_status status_code;
  if CaptchaDetector.is_blocked status_code (Some text) then
    run Rt.update (Rt.with_counters FinalAntibotScraper.bump_blocks);
    Rt.raise (Py.Blocked (CaptchaDetector.get_reason status_code))
  else Rt.ret text.

(** [fetch_page(url, ua_rotator, throttler, retry_handler, stats)]; the
    throttler is an object that the call changes, so it is handed back. *)
Definition fetch_page `{Py.Unicode} (url : string) (throttler : RequestThrottler.t)
    (retry_handler : RetryHandler.t) (w : Rt.world)
  : Py.result (option string) * RequestThrottler.t * Rt.world :=
  match RequestThrottler.wait throttler w with
  | (Py.Raise e, throttler, w) => (Py.Raise e, throttler, w)
  | (Py.Ok _, throttler, w) =>
      let w := Rt.with_counters FinalAntibotScraper.bump_requests w in
      match RetryHandler.execute retry_handler (do_request url) w with
      | (Py.Ok html, w) =>
          (Py.Ok (Some html), RequestThrottler.record_success throttler,
           Rt.with_counters FinalAntibotScraper.bump_successful w)
      | (Py.Raise _, w) =>
          (Py.Ok None, RequestThrottler.record_error throttler,
           Rt.with_counters FinalAntibotScraper.bump_failed w)
      end
  end.

(** [save_data(data, filename)] writes the CSV and the JSON file. *)
Definition save_data (data : list Rt.quote) (filename : string) : Rt.M unit :=
  run Rt.write_file (OUTPUT_DIR +:+ "/" +:+ filename +:+ ".csv") data;
  Rt.write_file (OUTPUT_DIR +:+ "/" +:+ filename +:+ ".json") data.

Section Main.

(** The module constant [MAX_PAGES] (5 in the source). *)
Variable MAX_PAGES : Z.

(** The two HTML readers built on BeautifulSoup. *)
Variable parse_quotes : string -> list Rt.quote.
Variable get_next_page : string -> option string.

(** The [while] loop of [main]; [None] when [fuel] did not suffice. *)
Fixpoint main_loop `{Py.Unicode} (fuel : nat) (throttler : RequestThrottler.t)
    (retry_handler : RetryHandler.t) (all_quotes : list Rt.quote)
    (current_url : string) (page_number : Z) (w : Rt.world)
  : Py.result (option (list Rt.quote)) * RequestThrottler.t * Rt.world :=
  if negb (String.eqb current_url "") && (page_number <=? MAX_PAGES) then
    match fuel with
    | O => (Py.Ok None, throttler, w)
    | S fuel' =>
        match fetch_page current_url throttler retry_handler w with
        | (Py.Raise e, throttler, w) => (Py.Raise e, throttler, w)
        | (Py.Ok None, throttler, w) => (Py.Ok (Some all_quotes), throttler, w)
        | (Py.Ok (Some html), throttler, w) =>
            if CaptchaDetector.is_blocked 200 (Some html) then
              (Py.Ok (Some all_quotes), throttler,
               Rt.with_counters FinalAntibotScraper.bump_captchas w)
            else
              let quotes := parse_quotes html in
              let all_quotes := (all_quotes ++ quotes)%list in
              match get_next_page html with
              | Some (String c rest) =>
                  main_loop fuel' throttler retry_handler all_quotes
                            (BASE_URL +:+ String c rest) (page_number + 1) w
              | _ => (Py.Ok (Some all_quotes), throttler, w)
              end
        end
    end
  else (Py.Ok (Some all_quotes), throttler, w).

(** [main()]; the answer is the final value of [all_quotes].  The counters
    of the world stand for the dictionary [stats], which starts at zero. *)
Definition main `{Py.Unicode} (w : Rt.world) : Py.result (option (list Rt.quote)) * Rt.world :=
  let throttler := RequestThrottler.init (3 # 2) 3 20 in
  let retry_handler := RetryHandler.mk 3 1 in
  let w := Rt.with_counters (fun _ => Rt.no_stats) w in
  match main_loop (Z.to_nat MAX_PAGES) throttler retry_handler [] BASE_URL 1 w with
  | (Py.Raise e, _, w) => (Py.Raise e, w)
  | (Py.Ok None, _, w) => (Py.Ok None, w)
  | (Py.Ok (Some all_quotes), _, w) =>
      match all_quotes with
      | [] => (Py.Ok (Some all_quotes), w)
      | _ =>
          match save_data all_quotes "quotes_antibot" w with
          | (Py.Ok _, w) => (Py.Ok (Some all_quotes), w)
          | (Py.Raise e, w) => (Py.Raise e, w)
          end
      end
  end.

End Main.

End AdvancedScraper.

(** ** src/database.py *)
Module Database.

(** A row of the table [quotes]. *)
Record quote_row := mk_row {
  q_id : Z;
  q_text : string;
  q_author_id : Z;
  q_source_url : option string
}.

(** Content of the database file: the tables that [insert_quote] touches
    and, for each AUTOINCREMENT key, the largest id handed out so far. *)
Record db := mk_db {
  authors : list (Z * string);
  authors_seq : Z;
  quotes : list quote_row;
  quotes_seq : Z;
  tags : list (Z * string);
  tags_seq : Z;
  quote_tags : list (Z * Z)
}.

(** The file right after [init_database()] created the tables. *)
Definition empty : db := mk_db [] 0 [] 0 [] 0 [].

(** An open connection: what the file holds, and what the connection sees
    (the file plus the changes of the running transaction). *)
Record connection := mk_conn {
  stored : db;
  current : db
}.

Abbreviation M := (St.M connection).

(** [get_connection()]. *)
Definition get_connection (file : db) : connection := mk_conn file file.

Definition commit : M unit :=
  St.update (fun c => mk_conn (current c) (current c)).

Definition rollback : M unit :=
  St.update (fun c => mk_conn (stored c) (stored c)).

(** [conn.close()]: the file keeps what was committed. *)
Definition close (c : connection) : db := stored c.

Definition change (f : db -> db) : M unit :=
  St.update (fun c => mk_conn (stored c) (f (current c))).

(** A statement that leaves the committed content alone. *)
Definition keeps_stored {A} (c : M A) : Prop :=
  forall conn r conn', c conn = (r, conn') -> stored conn' = stored conn.

(** A value bound to a [?]: a Python string, or [None], which SQLite reads
    as NULL. *)
Definition value := option string.

(** First id of the rows of [rows] whose name is [name]; NULL equals
    nothing. *)
Definition lookup_name (name : value) (rows : list (Z * string)) : option Z :=
  match name with
  | None => None
  | Some n =>
      match List.find (fun r => String.eqb (snd r) n) rows with
      | Some r => Some (fst r)
      | None => None
      end
  end.

(** [SELECT id FROM quotes WHERE text = ?] followed by [fetchone()]. *)
Definition select_quote (text : value) : M (option Z) :=
  do c <- St.get;
  St.ret
    match text with
    | None => None
    | Some t =>
        match List.find (fun r => String.eqb (q_text r) t) (quotes (current c)) with
        | Some r => Some (q_id r)
        | None => None
        end
    end.

(** [SELECT id FROM authors WHERE name = ?] followed by [fetchone()]. *)
Definition select_author (name : value) : M (option Z) :=
  do c <- St.get; St.ret (lookup_name name (authors (current c))).

(** [SELECT id FROM tags WHERE name = ?] followed by [fetchone()]. *)
Definition select_tag (name : value) : M (option Z) :=
  do c <- St.get; St.ret (lookup_name name (tags (current c))).

(** [INSERT INTO authors (name) VALUES (?)]; answers [lastrowid].  The
    column is [TEXT UNIQUE NOT NULL]. *)
Definition insert_author (name : value) : M Z :=
  do c <- St.get;
  match name with
  | None => St.raise Py.IntegrityError
  | Some n =>
      if existsb (fun r => String.eqb (snd r) n) (authors (current c))
      then St.raise Py.IntegrityError
      else
        let id := authors_seq (current c) + 1 in
        run change (fun d =>
          mk_db (authors d ++ [(id, n)]) id (quotes d) (quotes_seq d)
                (tags d) (tags_seq d) (quote_tags d));
        St.ret id
  end.

(** [INSERT INTO quotes (text, author_id, source_url) VALUES (?, ?, ?)];
    answers [lastrowid].  [text] is [TEXT UNIQUE NOT NULL]. *)
Definition insert_quote_row (text : value) (author_id : Z) (source_url : value)
  : M Z :=
  do c <- St.get;
  match text with
  | None => St.raise Py.IntegrityError
  | Some t =>
      if existsb (fun r => String.eqb (q_text r) t) (quotes (current c))
      then St.raise Py.IntegrityError
      else
        let id := quotes_seq (current c) + 1 in
        run change (fun d =>
          mk_db (authors d) (authors_seq d)
                (quotes d ++ [mk_row id t author_id source_url]) id
                (tags d) (tags_seq d) (quote_tags d));
        St.ret id
  end.

(** [INSERT INTO tags (name) VALUES (?)]; answers [lastrowid]. *)
Definition insert_tag (name : value) : M Z :=
  do c <- St.get;
  match name with
  | None => St.raise Py.IntegrityError
  | Some n =>
      if existsb (fun r => String.eqb (snd r) n) (tags (current c))
      then St.raise Py.IntegrityError
      else
        let id := tags_seq (current c) + 1 in
        run change (fun d =>
          mk_db (authors d) (authors_seq d) (quotes d) (quotes_seq d)
                (tags d ++ [(id, n)]) id (quote_tags d));
        St.ret id
  end.

(** [INSERT OR IGNORE INTO quote_tags (quote_id, tag_id) VALUES (?, ?)]. *)
Definition insert_quote_tag (quote_id tag_id : Z) : M unit :=
  change (fun d =>
    if existsb (fun r => (fst r =? quote_id) && (snd r =? tag_id)) (quote_tags d)
    then d
    else mk_db (authors d) (authors_seq d) (quotes d) (quotes_seq d)
               (tags d) (tags_seq d) (quote_tags d ++ [(quote_id, tag_id)])).

(** The [for tag_name in tags] loop of [insert_quote]. *)
Fixpoint add_tags (quote_id : Z) (tags : list value) : M unit :=
  match tags with
  | [] => St.ret tt
  | tag_name :: rest =>
      do tag_result <- select_tag tag_name;
      do tag_id <- match tag_result with
                   | Some id => St.ret id
                   | None => insert_tag tag_name
                   end;
      run insert_quote_tag quote_id tag_id;
      add_tags quote_id rest
  end.

(** The [try] block of [insert_quote]. *)
Definition insert_quote_try (text author : value) (tags : list value)
    (source_url : value) : M (option Z) :=
  do found <- select_quote text;
  match found with
  | Some _ => St.ret None
  | None =>
      do result <- select_author author;
      do author_id <- match result with
                      | Some id => St.ret id
                      | None => insert_author author
                      end;
      do quote_id <- insert_quote_row text author_id source_url;
      run add_tags quote_id tags;
      run commit;
      St.ret (Some quote_id)
  end.

(** [insert_quote(text, author, tags, source_url=None)], from the content of
    the file before the call to the answer and the content after it. *)
Definition insert_quote (text author : value) (tags : list value)
    (source_url : value) (file : db) : Py.result (option Z) * db :=
  let conn := get_connection file in
  match St.try_except (insert_quote_try text author tags source_url)
                      (fun e => run rollback; St.raise e) conn with
  | (r, conn) => (r, close conn)
  end.

(** An element of the list given to [insert_quotes_batch]. *)
Record item := mk_item {
  text : value;
  author : value;
  item_tags : list value
}.

(** The answer [{'added': .., 'skipped': ..}]. *)
Record counts := mk_counts {
  added : Z;
  skipped : Z
}.

(** The [for quote in quotes] loop of [insert_quotes_batch]. *)
Fixpoint batch_loop (quotes : list item) (source_url : value)
    (added skipped : Z) (file : db) : Py.result counts * db :=
  match quotes with
  | [] => (Py.Ok (mk_counts added skipped), file)
  | quote :: rest =>
      match insert_quote (text quote) (author quote) (item_tags quote)
                         source_url file with
      | (Py.Raise e, file) => (Py.Raise e, file)
      | (Py.Ok result, file) =>
          if Py.int_and result (fun _ => true)
          then batch_loop rest source_url (added + 1) skipped file
          else batch_loop rest source_url added (skipped + 1) file
      end
  end.

(** [insert_quotes_batch(quotes, source_url=None)]. *)
Definition insert_quotes_batch (quotes : list item) (source_url : value)
    (file : db) : Py.result counts * db :=
  batch_loop quotes source_url 0 0 file.

(** Number of rows of [quotes] that hold the text [t]
    ([SELECT COUNT( * ) FROM quotes WHERE text = ?]). *)
Definition stored_with_text (t : string) (file : db) : nat :=
  length (List.filter (fun r => String.eqb (q_text r) t) (quotes file)).

(** A row of the table [scraping_sessions].  Of the two timestamps only
    whether [ended_at] is set is kept. *)
Record session_row := mk_session_row {
  s_id : Z;
  s_ended : bool;
  s_pages_scraped : Z;
  s_quotes_added : Z;
  s_quotes_skipped : Z;
  s_status : string
}.

(** The table and its AUTOINCREMENT counter. *)
Record sessions := mk_sessions {
  session_rows : list session_row;
  sessions_seq : Z
}.

(** [start_session()]: [INSERT INTO scraping_sessions DEFAULT VALUES]; answers
    [lastrowid]. *)
Definition start_session (s : sessions) : Z * sessions :=
  let id := sessions_seq s + 1 in
  (id, mk_sessions (session_rows s ++ [mk_session_row id false 0 0 0 "running"]) id).

(** [update_session(session_id, pages, added, skipped, status)]. *)
Definition update_session (session_id pages n_added n_skipped : Z)
    (status : string) (s : sessions) : sessions :=
  mk_sessions
    (List.map (fun r => if s_id r =? session_id
                        then mk_session_row (s_id r) true pages n_added n_skipped status
                        else r)
              (session_rows s))
    (sessions_seq s).

(** Integrity of the content of the file: no key and no UNIQUE column holds
    a value twice, the ids handed out are positive and not above the
    AUTOINCREMENT counters, and the foreign keys point to rows. *)
Record consistent (d : db) : Prop := mk_consistent {
  author_ids : List.NoDup (List.map fst (authors d));
  author_names : List.NoDup (List.map snd (authors d));
  author_range : Forall (fun r => 1 <= fst r <= authors_seq d) (authors d);
  quote_ids : List.NoDup (List.map q_id (quotes d));
  quote_texts : List.NoDup (List.map q_text (quotes d));
  quote_range : Forall (fun r => 1 <= q_id r <= quotes_seq d) (quotes d);
  tag_ids : List.NoDup (List.map fst (tags d));
  tag_names : List.NoDup (List.map snd (tags d));
  tag_range : Forall (fun r => 1 <= fst r <= tags_seq d) (tags d);
  link_keys : List.NoDup (quote_tags d);
  quote_author :
    Forall (fun r => In (q_author_id r) (List.map fst (authors d))) (quotes d);
  link_ends :
    Forall (fun l => In (fst l) (List.map q_id (quotes d)) /\
                     In (snd l) (List.map fst (tags d))) (quote_tags d);
  counters_start : 0 <= authors_seq d /\ 0 <= quotes_seq d /\ 0 <= tags_seq d
}.

End Database.

(** ** db_scraper.py *)
Module DbScraper.

Definition BASE_URL : string := "https://quotes.toscrape.com".

Definition USER_AGENTS : list string :=
  [ "Mozilla/5.0 (Windows NT 10.0; Win64; x64) AppleWebKit/537.36 Chrome/120.0.0.0 Safari/537.36";
    "Mozilla/5.0 (Macintosh; Intel Mac OS X 10_15_7) AppleWebKit/537.36 Chrome/120.0.0.0 Safari/537.36";
    "Mozilla/5.0 (Windows NT 10.0; Win64; x64; rv:121.0) Gecko/20100101 Firefox/121.0";
    "Mozilla/5.0 (X11; Linux x86_64) AppleWebKit/537.36 Chrome/120.0.0.0 Safari/537.36"
  ]%string.

(** [fetch_page(url)]. *)
Definition fetch_page (url : string) : Rt.M (option string) :=
  do delay <- Rt.uniform 1 2;
  run Rt.sleep delay;
  do _ <- Rt.choice USER_AGENTS;
  Rt.try_except
    (do ' (status_code, text) <- Rt.requests_get url;
     run Rt.raise_for_status status_code;
     Rt.ret (Some text))
    (fun _ => Rt.ret None).

(** The dict that [parse_quotes] builds, as [insert_quotes_batch] reads it. *)
Definition to_item (q : Rt.quote) : Database.item :=
  Database.mk_item (Some (Rt.text q)) (Some (Rt.author q))
                   (List.map Some (Rt.tags q)).

(** The local variables of [main] that the loop changes. *)
Record locals := mk_locals {
  total_added : Z;
  total_skipped : Z;
  pages_scraped : Z;
  current_url : string
}.

(** What [main] works on: the surroundings, the tables that
    [insert_quote] fills, and the table of the sessions. *)
Record state := mk_state {
  world : Rt.world;
  file : Database.db;
  session_log : Database.sessions
}.

Section Main.

(** The module constant [MAX_PAGES] (10 in the source). *)
Variable MAX_PAGES : Z.

(** The two HTML readers built on BeautifulSoup. *)
Variable parse_quotes : string -> list Rt.quote.
Variable get_next_page : string -> option string.

(** The [while current_url and pages_scraped < MAX_PAGES] loop of [main].
    It answers the exception that ended it, if one did, and the locals as
    they were then; [None] when [fuel] did not suffice. *)
Fixpoint main_loop (fuel : nat) (l : locals) (w : Rt.world) (file : Database.db)
  : option (option Py.exn * locals * Rt.world * Database.db) :=
  if negb (String.eqb (current_url l) "") && (pages_scraped l <? MAX_PAGES) then
    match fuel with
    | O => None
    | S fuel' =>
        let l := mk_locals (total_added l) (total_skipped l)
                           (pages_scraped l + 1) (current_url l) in
        match fetch_page (current_url l) w with
        | (Py.Raise e, w) => Some (Some e, l, w, file)
        | (Py.Ok None, w) => Some (None, l, w, file)
        | (Py.Ok (Some html), w) =>
            let quotes := parse_quotes html in
            match Database.insert_quotes_batch (List.map to_item quotes)
                    (Some (current_url l)) file with
            | (Py.Raise e, file) => Some (Some e, l, w, file)
            | (Py.Ok result, file) =>
                let l := mk_locals (total_added l + Database.added result)
                                   (total_skipped l + Database.skipped result)
                                   (pages_scraped l) (current_url l) in
                match get_next_page html with
                | Some (String c rest) =>
                    main_loop fuel'
                      (mk_locals (total_added l) (total_skipped l)
                                 (pages_scraped l) (BASE_URL +:+ String c rest))
                      w file
                | _ => Some (None, l, w, file)
                end
            end
        end
    end
  else Some (None, l, w, file).

(** [main()], after [init_database()] has made sure that the tables exist. *)
Definition main (st : state) : option state :=
  let (session_id, log) := Database.start_session (session_log st) in
  match main_loop (Z.to_nat MAX_PAGES) (mk_locals 0 0 0 BASE_URL)
                  (world st) (file st) with
  | None => None
  | Some (exn, l, w, file) =>
      let status := match exn with
                    | None => "completed"
                    | Some _ => "failed"
                    end%string in
      Some (mk_state w file
              (Database.update_session session_id (pages_scraped l) (total_added l)
                              (total_skipped l) status log))
  end.

End Main.

End DbScraper.

(** * Properties *)

(** ** Retry policy and backoff delays ([Antibot.RetryHandler]) *)
Section RetryPolicy.

Import Antibot.RetryHandler.

Variable self : t.

Lemma in_codes_In (c : Z) (codes : list Z) :
  Py.in_codes c codes = true <-> In c codes.
Proof.
  unfold Py.in_codes. rewrite existsb_exists. split.
  - intros [x [Hin Heq]]. apply Z.eqb_eq in Heq. now subst.
  - intros Hin. exists c. split; [assumption | apply Z.eqb_refl].
Qed.

Lemma should_retry_exhausted (attempt : Z) (status_code : option Z) :
  max_retries self <= attempt -> should_retry self attempt status_code = false.
Proof.
  intros H. unfold should_retry.
  destruct (Z.leb_spec (max_retries self) attempt); [reflexivity | lia].
Qed.

Lemma should_retry_no_status (attempt : Z) :
  attempt < max_retries self -> should_retry self attempt None = true.
Proof.
  intros H. unfold should_retry.
  destruct (Z.leb_spec (max_retries self) attempt); [lia | reflexivity].
Qed.

Lemma should_retry_retryable (attempt c : Z) :
  attempt < max_retries self -> In c retryable_codes ->
  should_retry self attempt (Some c) = true.
Proof.
  intros H Hin. unfold should_retry.
  destruct (Z.leb_spec (max_retries self) attempt); [lia |].
  assert (Hc : c <> 0) by (intros ->; simpl in Hin; lia).
  apply in_codes_In in Hin. unfold Py.int_and.
  apply Z.eqb_neq in Hc. rewrite Hc, Hin. reflexivity.
Qed.

Lemma should_retry_client_error (attempt c : Z) :
  attempt < max_retries self -> 400 <= c <= 499 -> ~ In c retryable_codes ->
  should_retry self attempt (Some c) = false.
Proof.
  intros H Hc Hnin. unfold should_retry.
  destruct (Z.leb_spec (max_retries self) attempt); [lia |].
  assert (Hcodes : Py.in_codes c retryable_codes = false).
  { destruct (Py.in_codes c retryable_codes) eqn:E; [| reflexivity].
    apply in_codes_In in E. contradiction. }
  assert (H429 : c <> 429) by (intros ->; apply Hnin; simpl; tauto).
  unfold Py.int_and. rewrite Hcodes, andb_false_r.
  replace (c =? 0) with false by (symmetry; apply Z.eqb_neq; lia).
  replace (400 <=? c) with true by (symmetry; apply Z.leb_le; lia).
  replace (c <? 500) with true by (symmetry; apply Z.ltb_lt; lia).
  replace (c =? 429) with false by (symmetry; apply Z.eqb_neq; lia).
  reflexivity.
Qed.

Lemma should_retry_other (attempt c : Z) :
  attempt < max_retries self -> ~ (400 <= c <= 499) ->
  should_retry self attempt (Some c) = true.
Proof.
  intros H Hc. unfold should_retry.
  destruct (Z.leb_spec (max_retries self) attempt); [lia |].
  unfold Py.int_and.
  destruct (negb (c =? 0) && Py.in_codes c retryable_codes); [reflexivity |].
  destruct (Z.leb_spec 400 c), (Z.ltb_spec c 500); try lia;
    rewrite ?andb_false_r, ?andb_false_l; reflexivity.
Qed.

(** C1. [should_retry] answers false once [attempt >= max_retries],
    whatever the status code.  Below that bound it answers true for each of
    408, 429, 500, 502, 503 and 504, false for every other status code from
    400 to 499, and true in every remaining case, among them the call
    without a status code. *)
Theorem should_retry_policy (attempt : Z) :
  (max_retries self <= attempt ->
     forall status_code, should_retry self attempt status_code = false) /\
  (attempt < max_retries self ->
     (forall c, In c [408; 429; 500; 502; 503; 504] ->
        should_retry self attempt (Some c) = true) /\
     (forall c, 400 <= c <= 499 -> ~ In c [408; 429; 500; 502; 503; 504] ->
        should_retry self attempt (Some c) = false) /\
     (forall c, ~ (400 <= c <= 499) ->
        should_retry self attempt (Some c) = true) /\
     should_retry self attempt None = true).
Proof.
  split.
  - intros H status_code. now apply should_retry_exhausted.
  - intros H. repeat split.
    + intros c Hin. now apply should_retry_retryable.
    + intros c Hc Hnin. now apply should_retry_client_error.
    + intros c Hc. now apply should_retry_other.
    + now apply should_retry_no_status.
Qed.

End RetryPolicy.

(** Default handler: exhausted at attempt 3; before that 503 and a missing
    status retry, 404 does not, 200 does. *)
Lemma should_retry_policy_witness :
  Antibot.RetryHandler.should_retry Antibot.RetryHandler.defaults 3 (Some 503) = false /\
  Antibot.RetryHandler.should_retry Antibot.RetryHandler.defaults 0 (Some 503) = true /\
  Antibot.RetryHandler.should_retry Antibot.RetryHandler.defaults 0 (Some 404) = false /\
  Antibot.RetryHandler.should_retry Antibot.RetryHandler.defaults 0 (Some 200) = true /\
  Antibot.RetryHandler.should_retry Antibot.RetryHandler.defaults 0 None = true.
Proof.
  pose proof (should_retry_policy Antibot.RetryHandler.defaults 3) as [Hge _].
  pose proof (should_retry_policy Antibot.RetryHandler.defaults 0) as [_ Hlt].
  assert (H3 : Antibot.RetryHandler.max_retries Antibot.RetryHandler.defaults <= 3)
    by (simpl; lia).
  assert (H0 : 0 < Antibot.RetryHandler.max_retries Antibot.RetryHandler.defaults)
    by (simpl; lia).
  destruct (Hlt H0) as [Hretry [Hclient [Hother Hnone]]].
  split; [exact (Hge H3 (Some 503)) |].
  split; [apply Hretry; simpl; tauto |].
  split; [apply Hclient; [lia | simpl; lia] |].
  split; [apply Hother; lia | exact Hnone].
Defined.

(** ** Powers of floats ([Py.float_pow]) *)
Section Powers.

Local Open Scope Q_scope.

Lemma overflows_false (x : Q) :
  Py.overflows x = false <-> Qabs x < Py.float_limit.
Proof.
  unfold Py.overflows. split.
  - intros H. apply Qnot_le_lt. intros Hle. apply Qle_bool_iff in Hle. congruence.
  - intros H. destruct (Qle_bool Py.float_limit (Qabs x)) eqn:E; [| reflexivity].
    apply Qle_bool_iff in E. exfalso. exact (Qlt_not_le _ _ H E).
Qed.

Lemma overflows_le (x y : Q) :
  Qabs x <= Qabs y -> Py.overflows y = false -> Py.overflows x = false.
Proof.
  intros Hle Hy. apply overflows_false. apply overflows_false in Hy.
  exact (Qle_lt_trans _ _ _ Hle Hy).
Qed.

(** A power within the range of a double is answered. *)
Lemma float_pow_fits (x : Q) (n : Z) :
  (0 <= n)%Z -> Py.overflows (inject_Z n) = false ->
  Py.overflows (x ^ n) = false -> Py.float_pow x n = Py.Ok (x ^ n).
Proof.
  intros Hn Hint Hpow. unfold Py.float_pow. rewrite Hint, Hpow.
  replace (n <? 0)%Z with false by (symmetry; apply Z.ltb_ge; lia).
  now rewrite !andb_false_r.
Qed.

(** A power of a finite float beyond that range raises. *)
Lemma float_pow_beyond (x : Q) (n : Z) :
  (0 <= n)%Z -> Py.overflows (inject_Z n) = false ->
  Py.overflows x = false -> Py.overflows (x ^ n) = true ->
  Py.float_pow x n = Py.Raise Py.OverflowError.
Proof.
  intros Hn Hint Hx Hpow. unfold Py.float_pow. rewrite Hint, Hx, Hpow.
  replace (n <? 0)%Z with false by (symmetry; apply Z.ltb_ge; lia).
  now rewrite andb_false_r.
Qed.

(** The powers 0 and 1 of any float are answered. *)
Lemma float_pow_first (x : Q) (n : Z) :
  n = 0%Z \/ n = 1%Z -> Py.float_pow x n = Py.Ok (x ^ n).
Proof.
  intros [-> | ->]; unfold Py.float_pow.
  - replace (Py.overflows (inject_Z 0)) with false by (vm_compute; reflexivity).
    rewrite andb_false_r. cbn [Qpower].
    replace (Py.overflows 1) with false by (vm_compute; reflexivity).
    rewrite andb_false_r. reflexivity.
  - replace (Py.overflows (inject_Z 1)) with false by (vm_compute; reflexivity).
    rewrite andb_false_r. change (x ^ 1) with x.
    now destruct (Py.overflows x).
Qed.

End Powers.

Section Backoff.

Import Antibot.RetryHandler.
Local Open Scope Q_scope.

Variable self : t.

Lemma jittered_delay_le_cap (attempt : Z) (u : Q) :
  jittered_delay self attempt u <= max_delay self.
Proof. unfold jittered_delay. apply Q.le_min_r. Qed.

Lemma jittered_delay_centre (attempt : Z) :
  jittered_delay self attempt 0 ==
  Qmin (base_delay self * exponential_base self ^ attempt) (max_delay self).
Proof.
  unfold jittered_delay.
  assert (E : base_delay self * exponential_base self ^ attempt +
              base_delay self * exponential_base self ^ attempt * (1 # 4) * 0 ==
              base_delay self * exponential_base self ^ attempt) by ring.
  rewrite E. reflexivity.
Qed.

Lemma exponential_mono (a b : Z) :
  0 <= base_delay self -> 1 <= exponential_base self -> (a <= b)%Z ->
  base_delay self * exponential_base self ^ a <=
  base_delay self * exponential_base self ^ b.
Proof.
  intros Hbase Hexp Hab.
  pose proof (Qpower_le_compat_l (exponential_base self) a b Hab Hexp) as Hpow.
  nra.
Qed.

Lemma capped_delay_mono (a b : Z) :
  0 <= base_delay self -> 1 <= exponential_base self -> (a <= b)%Z ->
  Qmin (base_delay self * exponential_base self ^ a) (max_delay self) <=
  Qmin (base_delay self * exponential_base self ^ b) (max_delay self).
Proof.
  intros Hbase Hexp Hab.
  apply Q.min_le_compat_r. now apply exponential_mono.
Qed.

Lemma jittered_delay_mono (a b : Z) (u : Q) :
  0 <= base_delay self -> 1 <= exponential_base self -> (a <= b)%Z ->
  -1 <= u -> jittered_delay self a u <= jittered_delay self b u.
Proof.
  intros Hbase Hexp Hab Hu. unfold jittered_delay.
  apply Q.min_le_compat_r.
  pose proof (exponential_mono a b Hbase Hexp Hab) as Hraw.
  nra.
Qed.

(** What [get_delay] answers in a world when the power is formed: the
    jittered delay for the draw that the world supplies. *)
Lemma get_delay_run (attempt : Z) (w : Rt.world) :
  Py.float_pow (exponential_base self) attempt
    = Py.Ok (exponential_base self ^ attempt) ->
  exists w',
    get_delay self attempt w =
    (Py.Ok (jittered_delay self attempt (Rt.next_jitter w)), w').
Proof. intros Hpow. unfold get_delay. rewrite Hpow. eexists. reflexivity. Qed.

(** When the power is beyond the range of a double, [get_delay] raises
    before it draws. *)
Lemma get_delay_overflow (attempt : Z) (w : Rt.world) :
  Py.float_pow (exponential_base self) attempt = Py.Raise Py.OverflowError ->
  get_delay self attempt w = (Py.Raise Py.OverflowError, w).
Proof. intros Hpow. unfold get_delay. now rewrite Hpow. Qed.

(** The default handler keeps its numbers within the range of a double up
    to attempt 1023. *)
Lemma defaults_in_range (attempt : Z) :
  (0 <= attempt <= 1023)%Z -> in_range defaults attempt.
Proof.
  intros [H0 H1].
  assert (Hpow : 0 <= 2 ^ attempt /\ 2 ^ attempt <= 2 ^ 1023).
  { split.
    - apply Qpower_0_le. discriminate.
    - apply Qpower_le_compat_l; [exact H1 | discriminate]. }
  destruct Hpow as [Hp0 Hp1].
  unfold in_range. cbn [exponential_base base_delay defaults].
  assert (Ha : 0 <= inject_Z attempt /\ inject_Z attempt <= inject_Z 1023).
  { split; [change (inject_Z 0 <= inject_Z attempt) |];
      rewrite <- Zle_Qle; assumption. }
  destruct Ha as [Ha0 Ha1].
  split; [| split].
  - apply (overflows_le _ (inject_Z 1023)); [| vm_compute; reflexivity].
    rewrite (Qabs_pos (inject_Z attempt)) by exact Ha0.
    rewrite (Qabs_pos (inject_Z 1023)) by discriminate. exact Ha1.
  - apply (overflows_le _ (2 ^ 1023)); [| vm_compute; reflexivity].
    rewrite (Qabs_pos (2 ^ attempt)) by exact Hp0.
    rewrite (Qabs_pos (2 ^ 1023)) by discriminate. exact Hp1.
  - apply (overflows_le _ ((5 # 4) * (1 * 2 ^ 1023))); [| vm_compute; reflexivity].
    rewrite (Qabs_pos ((5 # 4) * (1 * 2 ^ attempt))) by nra.
    rewrite (Qabs_pos ((5 # 4) * (1 * 2 ^ 1023))) by discriminate. nra.
Qed.


End Backoff.


(** The claim as first stated fails at attempt 1024: the default handler
    forms [2.0 ** 1024], which is beyond the range of a double, and
    [get_delay] raises instead of answering a delay of at most 60 s. *)
Lemma get_delay_fails_at_1024 :
  let w := Rt.mk_world
    (Rt.mk_env (fun _ _ => Rt.Unreachable) (fun _ => 1 # 2) (fun _ => O)
               (fun _ => 0)) 0 O [] O [] Rt.no_stats [] in
  Antibot.RetryHandler.get_delay Antibot.RetryHandler.defaults 1024 w
    = (Py.Raise Py.OverflowError, w) /\
  ~ (exists d w',
       Antibot.RetryHandler.get_delay Antibot.RetryHandler.defaults 1024 w
         = (Py.Ok d, w') /\
       (d <= Antibot.RetryHandler.max_delay Antibot.RetryHandler.defaults)%Q).
Proof.
  intros w.
  assert (E : Antibot.RetryHandler.get_delay Antibot.RetryHandler.defaults 1024 w
              = (Py.Raise Py.OverflowError, w)) by (vm_compute; reflexivity).
  split; [exact E |].
  intros (d & w' & Hrun & _). rewrite E in Hrun. discriminate Hrun.
Qed.

(** ** Rounding to doubles ([Py.round_double]) *)
Section Doubles.

Local Open Scope Q_scope.

Lemma nearest_even_error (y : Q) :
  Qabs (inject_Z (Py.nearest_even y) - y) <= 1 # 2.
Proof.
  unfold Py.nearest_even.
  pose proof (Qfloor_le y) as Hlo. pose proof (Qlt_floor y) as Hhi.
  rewrite inject_Z_plus in Hhi.
  apply Qabs_Qle_condition.
  destruct (Qcompare (y - inject_Z (Qfloor y)) (1 # 2)) eqn:E.
  - apply Qeq_alt in E.
    destruct (Z.even (Qfloor y)); [| rewrite inject_Z_plus];
      change (inject_Z 1) with 1 in *; split; lra.
  - apply Qlt_alt in E. change (inject_Z 1) with 1 in *. split; lra.
  - apply Qgt_alt in E. rewrite inject_Z_plus.
    change (inject_Z 1) with 1 in *. split; lra.
Qed.

Lemma pow2_pos (e : Z) : 0 < 2 ^ e.
Proof. apply Qpower_0_lt. reflexivity. Qed.

Lemma pow2_le (a b : Z) : (a <= b)%Z -> 2 ^ a <= 2 ^ b.
Proof. intros H. apply Qpower_le_compat_l; [exact H | discriminate]. Qed.

(** A double is at most half a unit in the last place away. *)
Lemma round_double_error (x : Q) :
  Qabs (Py.round_double x - x)
  <= (1 # 2) * 2 ^ (Z.max (Py.exponent x - 52) (-1074)).
Proof.
  unfold Py.round_double.
  set (ulp := 2 ^ (Z.max (Py.exponent x - 52) (-1074))).
  assert (Hulp : 0 < ulp) by apply pow2_pos.
  destruct (Qeq_bool x 0) eqn:E.
  - apply Qeq_bool_eq in E.
    assert (E0 : 0 - x == 0) by (rewrite E; ring).
    rewrite E0. change (Qabs 0) with 0. lra.
  - pose proof (nearest_even_error (x / ulp)) as Herr.
    assert (Ex : inject_Z (Py.nearest_even (x / ulp)) * ulp - x
                 == (inject_Z (Py.nearest_even (x / ulp)) - x / ulp) * ulp)
      by (field; lra).
    rewrite Ex, Qabs_Qmult, (Qabs_pos ulp) by lra.
    apply Qmult_le_compat_r; [exact Herr | lra].
Qed.

Lemma exponent_low (x : Q) : ~ x == 0 -> 2 ^ Py.exponent x <= Qabs x.
Proof.
  intros Hx. unfold Py.exponent.
  set (n := Z.abs (Qnum x)). set (d := Zpos (Qden x)).
  set (a := Z.log2 n). set (b := Z.log2 d).
  destruct (Qle_bool (2 ^ (a - b)) (Qabs x)) eqn:E.
  - now apply Qle_bool_iff.
  - assert (Hn : (0 < n)%Z).
    { unfold n. destruct x as [[| p | p] q]; simpl; try lia.
      exfalso. apply Hx. reflexivity. }
    assert (Hd : (0 < d)%Z) by (unfold d; lia).
    destruct (Z.log2_spec n Hn) as [Hn1 _].
    destruct (Z.log2_spec d Hd) as [_ Hd2].
    fold a in Hn1. fold b in Hd2.
    assert (Ha : (0 <= a)%Z) by apply Z.log2_nonneg.
    assert (Hb : (0 <= b)%Z) by apply Z.log2_nonneg.
    replace (a - b - 1)%Z with (a - (b + 1))%Z by lia.
    rewrite Qpower_minus by discriminate.
    change 2 with (inject_Z 2).
    rewrite <- !Zpower_Qpower by lia.
    assert (Eabs : Qabs x == inject_Z n / inject_Z d).
    { unfold n, d. destruct x as [p q]. simpl. apply Qmake_Qdiv. }
    rewrite Eabs.
    assert (P1 : 0 < inject_Z (2 ^ (b + 1))).
    { change 0 with (inject_Z 0). rewrite <- Zlt_Qlt. lia. }
    assert (P2 : 0 < inject_Z d).
    { change 0 with (inject_Z 0). rewrite <- Zlt_Qlt. lia. }
    apply Qle_shift_div_l; [exact P2 |].
    assert (E2 : inject_Z (2 ^ a) / inject_Z (2 ^ (b + 1)) * inject_Z d
                 == inject_Z (2 ^ a) * inject_Z d / inject_Z (2 ^ (b + 1)))
      by (field; lra).
    rewrite E2. apply Qle_shift_div_r; [exact P1 |].
    rewrite <- !inject_Z_mult, <- Zle_Qle. nia.
Qed.

Lemma exponent_below (x : Q) (k : Z) :
  ~ x == 0 -> Qabs x < 2 ^ k -> (Py.exponent x < k)%Z.
Proof.
  intros Hx Hlt.
  destruct (Z.lt_ge_cases (Py.exponent x) k) as [H | H]; [exact H |].
  exfalso. pose proof (exponent_low x Hx) as Hlow.
  pose proof (pow2_le _ _ H) as Hle. lra.
Qed.

(** Below 64 a double is at most [2^-48] away. *)
Lemma round_double_near (x : Q) :
  Qabs x < 64 -> Qabs (Py.round_double x - x) <= 2 ^ (-48).
Proof.
  intros Hx.
  destruct (Qeq_dec x 0) as [E | N].
  - unfold Py.round_double. apply Qeq_bool_iff in E. rewrite E.
    apply Qeq_bool_iff in E. assert (E0 : 0 - x == 0) by (rewrite E; ring).
    rewrite E0. discriminate.
  - eapply Qle_trans; [apply round_double_error |].
    assert (He : (Py.exponent x < 6)%Z)
      by (apply exponent_below; [exact N | exact Hx]).
    assert (Hm : (Z.max (Py.exponent x - 52) (-1074) <= -47)%Z) by lia.
    pose proof (pow2_le _ _ Hm) as Hle.
    assert (E48 : 2 ^ (-48) == (1 # 2) * 2 ^ (-47)) by reflexivity.
    rewrite E48. lra.
Qed.

Import Antibot.RequestThrottler.

(** The waiting time that [wait] computes is within [2^-47] s of 60 s
    minus the age. *)
Lemma wait_time_near (age : Z) :
  (0 <= age < minute)%Z ->
  60 - inject_Z age / 1000000 - 2 ^ (-47) <= wait_time age /\
  wait_time age <= 60 - inject_Z age / 1000000 + 2 ^ (-47).
Proof.
  unfold minute. intros [H0 H1].
  assert (Hx : 0 <= inject_Z age / 1000000 /\ inject_Z age / 1000000 < 60).
  { split.
    - apply Qle_shift_div_l; [reflexivity |].
      change (0 * 1000000) with (inject_Z 0). rewrite <- Zle_Qle. exact H0.
    - apply Qlt_shift_div_r; [reflexivity |].
      change (60 * 1000000) with (inject_Z 60000000). rewrite <- Zlt_Qlt. exact H1. }
  destruct Hx as [Hx0 Hx1].
  unfold wait_time, Rt.total_seconds.
  set (x := inject_Z age / 1000000) in *.
  assert (A1 : Qabs (Py.round_double x - x) <= 2 ^ (-48)).
  { apply round_double_near. rewrite Qabs_pos by exact Hx0. lra. }
  apply Qabs_Qle_condition in A1 as [A1l A1u].
  assert (S48 : 2 ^ (-48) < 1) by reflexivity.
  assert (A2 : Qabs (Py.round_double (60 - Py.round_double x)
                     - (60 - Py.round_double x)) <= 2 ^ (-48)).
  { apply round_double_near. apply Qabs_Qlt_condition. split; lra. }
  apply Qabs_Qle_condition in A2 as [A2l A2u].
  assert (E47 : 2 ^ (-47) == 2 ^ (-48) + 2 ^ (-48)) by reflexivity.
  rewrite E47. split; lra.
Qed.

(** Counted in microseconds, it is 60 s minus the age, or one less. *)
Lemma micro_wait_time (age : Z) :
  (0 <= age < minute)%Z ->
  (minute - age - 1 <= Rt.micro (wait_time age) <= minute - age)%Z.
Proof.
  intros Hage. destruct (wait_time_near age Hage) as [Hlo Hhi].
  unfold Rt.micro, minute.
  assert (S : 2 ^ (-47) * 1000000 < 1) by reflexivity.
  assert (E : forall k : Z,
             inject_Z (60000000 - age + k)
             == (60 - inject_Z age / 1000000) * 1000000 + inject_Z k).
  { intros k. unfold Zminus. rewrite !inject_Z_plus, !inject_Z_opp. field. }
  split.
  - replace (60000000 - age - 1)%Z with (60000000 - age + -1)%Z by lia.
    rewrite <- (Qfloor_Z (60000000 - age + -1)). apply Qfloor_resp_le.
    rewrite E. change (inject_Z (-1)) with (-1). nra.
  - apply Z.lt_succ_r. rewrite Zlt_Qlt.
    eapply Qle_lt_trans; [apply Qfloor_le |].
    unfold Z.succ. rewrite (E 1%Z). change (inject_Z 1) with 1. nra.
Qed.

(** [wait_time] against the IEEE 754 operations, on sample ages. *)
Lemma wait_time_ieee_samples :
  forallb (fun age =>
             match wait_time_ieee age with
             | Some q => Qeq_bool q (wait_time age)
             | None => false
             end)
          [1; 7; 2000; 123456; 2005000; 30000001; 59999000; 59999999]%Z
  = true.
Proof. vm_compute. reflexivity. Qed.

Lemma wait_time_positive (age : Z) :
  (0 <= age < minute)%Z -> 0 < wait_time age.
Proof.
  intros Hage. destruct (wait_time_near age Hage) as [Hnear _].
  assert (Hx : inject_Z age / 1000000 <= 60 - (1 # 1000000)).
  { apply Qle_shift_div_r; [reflexivity |].
    assert (Ec : (60 - (1 # 1000000)) * 1000000 == inject_Z 59999999)
      by reflexivity.
    rewrite Ec, <- Zle_Qle. unfold minute in Hage. lia. }
  assert (S : 2 ^ (-47) < 1 # 1000000) by reflexivity.
  lra.
Qed.

End Doubles.

(** ** Rate limiting ([Antibot.RequestThrottler]) *)
Section Throttle.

Import Antibot.RequestThrottler.

Lemma later_refl w : Rt.later w w.
Proof. split; [reflexivity | lia]. Qed.

Lemma later_trans w1 w2 w3 : Rt.later w1 w2 -> Rt.later w2 w3 -> Rt.later w1 w3.
Proof. intros [S1 C1] [S2 C2]. split; [congruence | lia]. Qed.

Lemma later_steady w w' : Rt.later w w' -> Rt.steady w -> Rt.steady w'.
Proof. intros [S _] H k. rewrite S. apply H. Qed.

Lemma now_later w :
  Rt.steady w ->
  exists w', Rt.now w = (Py.Ok (Rt.clock w'), w') /\ Rt.later w w' /\
             Rt.clock w' = Rt.clock w + Rt.lag (Rt.script w) (Rt.ticks w).
Proof.
  intros H.
  exists (Rt.with_clock (Rt.clock w + Rt.lag (Rt.script w) (Rt.ticks w)) w).
  split; [reflexivity |]. split; [| reflexivity].
  split; [reflexivity |]. simpl. specialize (H (Rt.ticks w)). lia.
Qed.

Lemma micro_nonneg (x : Q) : (0 <= x)%Q -> 0 <= Rt.micro x.
Proof.
  intros H. unfold Rt.micro. change 0 with (Qfloor 0).
  apply Qfloor_resp_le. nra.
Qed.

Lemma sleep_later w x :
  Rt.steady w ->
  forall r w', Rt.sleep x w = (r, w') ->
    Rt.later w w' /\
    (r = Py.Ok tt -> Rt.clock w + Rt.micro x <= Rt.clock w') /\
    ((0 <= x)%Q -> r = Py.Ok tt).
Proof.
  intros H r w' Hrun. unfold Rt.sleep in Hrun.
  destruct (Qlt_le_dec x 0) as [Hneg | Hpos].
  - injection Hrun as <- <-. split; [apply later_refl |].
    split; [discriminate |]. intros Hx. exfalso. apply (Qlt_not_le _ _ Hneg Hx).
  - injection Hrun as <- <-. pose proof (micro_nonneg x Hpos).
    specialize (H (Rt.ticks w)).
    split; [split; [reflexivity | simpl; lia] |].
    split; [intros _; simpl; lia | reflexivity].
Qed.

Lemma uniform_later a b w :
  exists x w', Rt.uniform a b w = (Py.Ok x, w') /\ Rt.later w w' /\
               Rt.clock w' = Rt.clock w.
Proof.
  eexists _, _. split; [reflexivity |]. split; [| reflexivity].
  split; [reflexivity | simpl; lia].
Qed.

Lemma uniform_value a b w :
  exists w',
    Rt.uniform a b w
    = (Py.Ok (a + (b - a) * Rt.random (Rt.script w) (Rt.draws w))%Q, w') /\
    Rt.later w w' /\ Rt.clock w' = Rt.clock w.
Proof.
  eexists. split; [reflexivity |]. split; [| reflexivity].
  split; [reflexivity | simpl; lia].
Qed.

Lemma later_fair w w' : Rt.later w w' -> Rt.fair w -> Rt.fair w'.
Proof. intros [S _] H k. rewrite S. apply H. Qed.

(** With a minimum of a microsecond the delay advances the clock. *)
Lemma paced_delay (self : t) (r : Q) :
  paced self -> (0 <= r)%Q ->
  1 <= Rt.micro ((min_delay self + (max_delay self - min_delay self) * r)
                 * (1 + inject_Z (consecutive_errors self) * (1 # 2))).
Proof.
  intros (Hce & Hmin & Hmax) Hr. unfold Rt.micro.
  apply (Qfloor_resp_le 1).
  assert (Hc : (0 <= inject_Z (consecutive_errors self))%Q).
  { change 0%Q with (inject_Z 0). now rewrite <- Zle_Qle. }
  set (c := inject_Z (consecutive_errors self)) in *.
  set (a := min_delay self) in *. set (b := max_delay self) in *.
  assert (H1 : (a <= a + (b - a) * r)%Q) by nra.
  assert (H2 : (a + (b - a) * r <= (a + (b - a) * r) * (1 + c * (1 # 2)))%Q) by nra.
  set (d := ((a + (b - a) * r) * (1 + c * (1 # 2)))%Q) in *.
  lra.
Qed.

Lemma unshortened_spec (age : Z) :
  unshortened age = true <->
  minute <= age \/ minute - age <= Rt.micro (wait_time age).
Proof.
  unfold unshortened. rewrite orb_true_iff, !Z.leb_le. reflexivity.
Qed.

(** The check of the rate limit under a full window: when it lets the call
    go on, the oldest kept time is 60 seconds old, or a microsecond less if
    rounding has shortened the waiting time. *)
Lemma limit_check_spec (self : t) (w : Rt.world) r w1 :
  Rt.steady w ->
  Forall (fun t => t <= Rt.clock w) (request_times self) ->
  (do now <- Rt.now;
   match request_times self with
   | [] => Rt.raise Py.IndexError
   | oldest :: _ =>
       let wait_time := wait_time (now - oldest) in
       if Qlt_le_dec 0 wait_time then Rt.sleep wait_time else Rt.ret tt
   end) w = (r, w1) ->
  Rt.later w w1 /\
  (r = Py.Ok tt ->
   exists oldest rest,
     request_times self = oldest :: rest /\
     oldest + minute - 1 <= Rt.clock w1 /\
     (unshortened (Rt.clock w + Rt.lag (Rt.script w) (Rt.ticks w) - oldest) = true ->
      oldest + minute <= Rt.clock w1)).
Proof.
  intros Hsteady Hpast. unfold St.bind.
  destruct (now_later w Hsteady) as (wn & Hnow & Hl & Hc).
  rewrite Hnow. rewrite <- Hc.
  destruct (request_times self) as [| oldest rest].
  - intros H. injection H as <- <-. split; [exact Hl | discriminate].
  - apply Forall_cons_iff in Hpast as [Hold _].
    assert (Hage : 0 <= Rt.clock wn - oldest) by (destruct Hl as [_ ?]; lia).
    cbv zeta.
    destruct (Qlt_le_dec 0 (wait_time (Rt.clock wn - oldest))) as [Hpos | Hnonpos].
    + intros Hrun. apply sleep_later in Hrun as (Hl2 & Hc2 & _);
        [| exact (later_steady _ _ Hl Hsteady)].
      split; [exact (later_trans _ _ _ Hl Hl2) |].
      intros ->. specialize (Hc2 eq_refl).
      exists oldest, rest. split; [reflexivity |].
      destruct (Z.lt_ge_cases (Rt.clock wn - oldest) minute) as [Hyoung | Hold'].
      * pose proof (micro_wait_time (Rt.clock wn - oldest) ltac:(lia)) as [Hm _].
        split; [lia |].
        intros Hexact. apply unshortened_spec in Hexact. lia.
      * pose proof (micro_nonneg _ (Qlt_le_weak _ _ Hpos)).
        split; [lia | intros _; lia].
    + intros H. injection H as <- <-. split; [exact Hl |].
      intros _. exists oldest, rest. split; [reflexivity |].
      destruct (Z.lt_ge_cases (Rt.clock wn - oldest) minute) as [Hyoung | Hold'].
      * exfalso. apply (Qlt_not_le _ _ (wait_time_positive _ (conj Hage Hyoung))).
        exact Hnonpos.
      * split; [lia | intros _; lia].
Qed.

(** The body of [wait]: where it leaves the world, and how old the oldest
    kept time is when a new one is recorded under a full window. *)
Lemma wait_body_spec (self : t) (w : Rt.world) r w' :
  Rt.steady w ->
  Forall (fun t => t <= Rt.clock w) (request_times self) ->
  wait_body self w = (r, w') ->
  Rt.later w w' /\
  forall recorded, r = Py.Ok recorded ->
    Rt.clock w' = recorded /\
    (requests_per_minute self <= Z.of_nat (length (request_times self)) ->
     exists oldest rest,
       request_times self = oldest :: rest /\
       oldest + minute - 1 <= recorded /\
       (unshortened (Rt.clock w + Rt.lag (Rt.script w) (Rt.ticks w) - oldest) = true
        \/ (Rt.fair w /\ paced self) ->
        oldest + minute <= recorded)).
Proof.
  intros Hsteady Hpast. unfold wait_body. unfold St.bind at 1.
  set (full := requests_per_minute self <=? Z.of_nat (length (request_times self))).
  match goal with
  | |- context [(if full then ?c else _) w] =>
      assert (Hfirst : forall r1 w1,
                (if full then c else Rt.ret tt) w = (r1, w1) ->
                Rt.later w w1 /\
                (r1 = Py.Ok tt -> full = true ->
                 exists oldest rest,
                   request_times self = oldest :: rest /\
                   oldest + minute - 1 <= Rt.clock w1 /\
                   (unshortened (Rt.clock w + Rt.lag (Rt.script w) (Rt.ticks w)
                                 - oldest) = true ->
                    oldest + minute <= Rt.clock w1)))
  end.
  { intros r1 w1. destruct full.
    - intros Hrun. apply limit_check_spec in Hrun as [Hl Hok]; try assumption.
      split; [exact Hl | intros E _; exact (Hok E)].
    - intros H. injection H as <- <-. split; [apply later_refl | discriminate]. }
  match goal with
  | |- context [(if full then ?c else _) w] =>
      destruct ((if full then c else Rt.ret tt) w) as [[[] | e1] w1] eqn:Hlimit
  end.
  2:{ intros H. injection H as <- <-. split; [| discriminate].
      exact (proj1 (Hfirst _ _ eq_refl)). }
  destruct (Hfirst _ _ eq_refl) as [Hl1 Hfull]. specialize (Hfull eq_refl).
  pose proof (later_steady _ _ Hl1 Hsteady) as Hs1.
  unfold St.bind at 1.
  destruct (uniform_value (min_delay self) (max_delay self) w1)
    as (w2 & Hun & Hl2 & Hc2).
  rewrite Hun.
  pose proof (later_steady _ _ Hl2 Hs1) as Hs2.
  unfold St.bind at 1. cbv zeta.
  match goal with
  | |- context [Rt.sleep ?x w2] => destruct (Rt.sleep x w2) as [[[] | e3] w3] eqn:Hsleep
  end.
  2:{ intros H. injection H as <- <-. split; [| discriminate].
      apply sleep_later in Hsleep as [Hl3 _]; [| exact Hs2].
      exact (later_trans _ _ _ Hl1 (later_trans _ _ _ Hl2 Hl3)). }
  apply sleep_later in Hsleep as (Hl3 & Hc3 & _); [| exact Hs2].
  specialize (Hc3 eq_refl).
  pose proof (later_steady _ _ Hl3 Hs2) as Hs3.
  destruct (now_later w3 Hs3) as (w4 & Hnow & Hl4 & Hc4).
  rewrite Hnow. intros H. injection H as <- <-.
  split.
  { exact (later_trans _ _ _ Hl1 (later_trans _ _ _ Hl2 (later_trans _ _ _ Hl3 Hl4))). }
  intros recorded Hrec. injection Hrec as <-. split; [reflexivity |].
  intros Hge. destruct Hfull as (oldest & rest & Hk & Hold & Hexact).
  { unfold full. now apply Z.leb_le. }
  exists oldest, rest. split; [exact Hk |].
  destruct Hl2 as [_ ?], Hl3 as [_ ?], Hl4 as [_ ?].
  split; [lia |].
  intros [Hu | [Hfair Hpaced]]; [specialize (Hexact Hu); lia |].
  pose proof (paced_delay self (Rt.random (Rt.script w1) (Rt.draws w1)) Hpaced
                (proj1 (later_fair _ _ Hl1 Hfair _))).
  lia.
Qed.

Lemma list_filter_sublist {A} (p : A -> bool) (l : list A) :
  List.filter p l `sublist_of` l.
Proof.
  induction l as [| x l IH]; simpl; [constructor |].
  destruct (p x); now constructor.
Qed.

Lemma sublist_Forall_le (l1 l2 : list Z) (c : Z) :
  l1 `sublist_of` l2 -> Forall (fun t => t <= c) l2 -> Forall (fun t => t <= c) l1.
Proof.
  intros Hsub H2. rewrite List.Forall_forall in *. intros x Hx.
  apply H2. apply list_elem_of_In. apply list_elem_of_In in Hx.
  eapply elem_of_sublist; eassumption.
Qed.

Lemma Forall_le_weaken (l : list Z) (a b : Z) :
  a <= b -> Forall (fun t => t <= a) l -> Forall (fun t => t <= b) l.
Proof.
  intros Hab H. induction H as [| x l Hx _ IH]; constructor; [lia | exact IH].
Qed.

Lemma wait_spec (self : t) (w : Rt.world) r self' w' :
  Rt.steady w ->
  Forall (fun t => t <= Rt.clock w) (request_times self) ->
  wait self w = (r, self', w') ->
  let now0 := Rt.clock w + Rt.lag (Rt.script w) (Rt.ticks w) in
  let kept := List.filter (fun t => now0 - minute <? t) (request_times self) in
  Rt.later w w' /\ now0 <= Rt.clock w' /\
  requests_per_minute self' = requests_per_minute self /\
  (paced self -> paced self') /\
  match r with
  | Py.Raise _ => request_times self' = kept
  | Py.Ok _ =>
      exists recorded,
        request_times self' = (kept ++ [recorded])%list /\
        Rt.clock w' = recorded /\
        (requests_per_minute self <= Z.of_nat (length kept) ->
         exists oldest rest,
           kept = oldest :: rest /\
           next_age self w = Some (now0 + Rt.lag (Rt.script w) (S (Rt.ticks w)) - oldest) /\
           oldest + minute - 1 <= recorded /\
           (unshortened (now0 + Rt.lag (Rt.script w) (S (Rt.ticks w)) - oldest) = true
            \/ (Rt.fair w /\ paced self) ->
            oldest + minute <= recorded))
  end.
Proof.
  intros Hsteady Hpast Hrun now0 kept. unfold wait in Hrun.
  destruct (now_later w Hsteady) as (w1 & Hnow & Hl1 & Hc1).
  assert (Hw1 : w1 = Rt.with_clock now0 w).
  { unfold Rt.now in Hnow. now injection Hnow as _ <-. }
  rewrite Hnow in Hrun. rewrite Hc1 in Hrun. fold now0 in Hrun. fold kept in Hrun.
  assert (Hkp : Forall (fun t => t <= Rt.clock w1)
                  (request_times (with_times self kept))).
  { cbn [request_times with_times].
    apply (Forall_le_weaken _ (Rt.clock w)); [destruct Hl1; lia |].
    apply (sublist_Forall_le _ (request_times self)); [| exact Hpast].
    apply list_filter_sublist. }
  destruct (wait_body (with_times self kept) w1) as [[recorded | e] w2] eqn:Hbody;
    injection Hrun as <- <- <-;
    apply wait_body_spec in Hbody as [Hl2 Hrec];
    try exact (later_steady _ _ Hl1 Hsteady); try exact Hkp.
  - split; [exact (later_trans _ _ _ Hl1 Hl2) |].
    split; [destruct Hl2 as [_ ?]; unfold now0; lia |].
    split; [reflexivity |]. split; [exact (fun H => H) |].
    destruct (Hrec recorded eq_refl) as [Hclock Hfull].
    exists recorded. split; [reflexivity |]. split; [exact Hclock |].
    intros Hge. destruct (Hfull Hge) as (oldest & rest & Hk & Hslack & Hexact).
    cbn [request_times with_times] in Hk.
    exists oldest, rest. split; [exact Hk |]. split; [| split; [exact Hslack |]].
    + unfold next_age. fold now0. fold kept.
      replace (requests_per_minute self <=? Z.of_nat (length kept)) with true
        by (symmetry; now apply Z.leb_le).
      now rewrite Hk.
    + intros [Hu | [Hfair Hpaced]]; apply Hexact.
      * left. rewrite Hw1. exact Hu.
      * right. split; [exact (later_fair _ _ Hl1 Hfair) | exact Hpaced].
  - split; [exact (later_trans _ _ _ Hl1 Hl2) |].
    split; [destruct Hl2 as [_ ?]; unfold now0; lia |].
    split; [reflexivity |]. split; [exact (fun H => H) | reflexivity].
Qed.

Lemma filter_length_le {A} (p q : A -> bool) (l : list A) :
  (forall x, In x l -> p x = true -> q x = true) ->
  (length (List.filter p l) <= length (List.filter q l))%nat.
Proof.
  induction l as [| x l IH]; intros H; simpl; [lia |].
  assert (IH' := IH (fun y Hy => H y (or_intror Hy))).
  destruct (p x) eqn:Hp.
  - rewrite (H x (or_introl eq_refl) Hp). simpl. lia.
  - destruct (q x); simpl; lia.
Qed.

Lemma filter_length_eq {A} (p q : A -> bool) (l : list A) :
  (forall x, In x l -> p x = q x) ->
  length (List.filter p l) = length (List.filter q l).
Proof.
  intros H. apply Nat.le_antisymm; apply filter_length_le;
    intros x Hx; rewrite (H x Hx); auto.
Qed.

Lemma newer_than_le_length c l : newer_than c l <= Z.of_nat (length l).
Proof. unfold newer_than. pose proof (List.filter_length_le (fun x => c <? x) l). lia. Qed.

Lemma newer_than_mono c c' l : c <= c' -> newer_than c' l <= newer_than c l.
Proof.
  intros H. unfold newer_than. apply inj_le. apply filter_length_le.
  intros x _ Hx. apply Z.ltb_lt in Hx. apply Z.ltb_lt. lia.
Qed.

Lemma newer_than_app c l x :
  newer_than c (l ++ [x]) = newer_than c l + (if c <? x then 1 else 0).
Proof.
  unfold newer_than. rewrite List.filter_app, length_app. simpl.
  destruct (c <? x); simpl; lia.
Qed.

Lemma newer_than_kept c0 c l :
  c0 <= c -> newer_than c (List.filter (fun t => c0 <? t) l) = newer_than c l.
Proof.
  intros H. unfold newer_than. f_equal.
  induction l as [| x l IH]; simpl; [reflexivity |].
  destruct (Z.ltb_spec c0 x); simpl.
  - destruct (c <? x); simpl; now rewrite IH.
  - destruct (Z.ltb_spec c x); [lia | exact IH].
Qed.

Lemma in_window_le_newer t l : in_window t l <= newer_than (t - minute) l.
Proof.
  unfold in_window, newer_than. apply inj_le. apply filter_length_le.
  intros x _ Hx. now apply andb_true_iff in Hx as [Hx _].
Qed.

Lemma in_window_past t l :
  Forall (fun x => x <= t) l -> in_window t l = newer_than (t - minute) l.
Proof.
  intros Hpast. unfold in_window, newer_than. f_equal.
  apply filter_length_eq. intros x Hx.
  rewrite List.Forall_forall in Hpast. specialize (Hpast x Hx).
  replace (x <=? t) with true by (symmetry; apply Z.leb_le; lia).
  apply andb_true_r.
Qed.

Lemma in_window_app t l x :
  in_window t (l ++ [x]) =
  in_window t l + (if (t - minute <? x) && (x <=? t) then 1 else 0).
Proof.
  unfold in_window. rewrite List.filter_app, length_app. simpl.
  destruct ((t - minute <? x) && (x <=? t)); simpl; lia.
Qed.

Lemma sublist_filter_length {A} (p : A -> bool) (l1 l2 : list A) :
  l1 `sublist_of` l2 ->
  (length (List.filter p l1) <= length (List.filter p l2))%nat.
Proof.
  induction 1 as [| x l1 l2 _ IH | x l1 l2 _ IH]; simpl; [lia | |].
  - destruct (p x); simpl; lia.
  - destruct (p x); simpl; lia.
Qed.

Lemma sound_times (N : Z) (s : session) :
  sound N s ->
  Forall (fun t => t <= Rt.clock (world s)) (request_times (throttler s)).
Proof.
  intros [_ _ Hpast Hkept]. now apply (sublist_Forall_le _ (history s)).
Qed.

Lemma sound_step (N : Z) (s : session) (c : call) :
  sound N s -> sound N (step s c).
Proof.
  intros Hs. pose proof (sound_times N s Hs) as Htimes.
  destruct Hs as [Hrpm Hsteady Hpast Hkept].
  destruct c; [| constructor; assumption | constructor; assumption].
  unfold step.
  destruct (wait (throttler s) (world s)) as [[r self'] w'] eqn:Hrun.
  apply wait_spec in Hrun; [| exact Hsteady | exact Htimes].
  destruct Hrun as (Hlater & Hnow & Hrpm' & _ & Hres).
  assert (Hclk : Rt.clock (world s) <= Rt.clock w') by (destruct Hlater; lia).
  destruct r as [[] | e].
  - destruct Hres as (recorded & Htimes' & Hclock & _).
    rewrite Htimes', last_last. subst recorded.
    constructor; simpl.
    + congruence.
    + exact (later_steady _ _ Hlater Hsteady).
    + apply Forall_app. split.
      * apply (Forall_le_weaken _ (Rt.clock (world s))); [lia | exact Hpast].
      * constructor; [lia | constructor].
    + rewrite Htimes'. apply sublist_app; [| reflexivity].
      transitivity (request_times (throttler s)); [| exact Hkept].
      apply list_filter_sublist.
  - constructor; simpl.
    + congruence.
    + exact (later_steady _ _ Hlater Hsteady).
    + apply (Forall_le_weaken _ (Rt.clock (world s))); [lia | exact Hpast].
    + rewrite Hres.
      transitivity (request_times (throttler s)); [| exact Hkept].
      apply list_filter_sublist.
Qed.

Lemma sound_steps (N : Z) (calls : list call) (s : session) :
  sound N s -> sound N (steps s calls).
Proof.
  revert s. induction calls as [| c calls IH]; intros s Hs; simpl.
  - exact Hs.
  - apply IH. now apply sound_step.
Qed.

Lemma sound_init (N : Z) (min_delay max_delay : Q) (w : Rt.world) :
  Rt.steady w -> sound N (mk_session (init min_delay max_delay N) w []).
Proof.
  intros Hsteady. constructor; simpl;
    [reflexivity | exact Hsteady | constructor | constructor].
Qed.

Lemma inv_sound (N : Z) (s : session) : inv N s -> sound N s.
Proof. intros [Hrpm Hsteady Hpast _ Hkept _]. now constructor. Qed.

(** A call of [wait] whose waiting time is not shortened keeps the bound. *)
Lemma inv_wait (N : Z) (s : session) :
  inv N s ->
  match next_age (throttler s) (world s) with
  | Some age => unshortened age
  | None => true
  end = true \/ (Rt.fair (world s) /\ paced (throttler s)) ->
  inv N (step s Wait).
Proof.
  intros Hinv Hexact. pose proof (sound_times N s (inv_sound N s Hinv)) as Htimes.
  destruct Hinv as [Hrpm Hsteady Hpast Hrecent Hkept Hwindow].
  unfold step.
  destruct (wait (throttler s) (world s)) as [[r self'] w'] eqn:Hrun.
  apply wait_spec in Hrun; [| exact Hsteady | exact Htimes].
  set (now0 := Rt.clock (world s) + Rt.lag (Rt.script (world s)) (Rt.ticks (world s))) in *.
  set (kept := List.filter (fun t => now0 - minute <? t)
                           (request_times (throttler s))) in *.
  destruct Hrun as (Hlater & Hnow & Hrpm' & _ & Hres).
  assert (Hclk : Rt.clock (world s) <= now0).
  { unfold now0. specialize (Hsteady (Rt.ticks (world s))). lia. }
  assert (F1 : forall c, now0 - minute <= c ->
                 newer_than c (history s) = newer_than c kept).
  { intros c Hc. rewrite Hrecent by lia. unfold kept.
    symmetry. now apply newer_than_kept. }
  assert (F2 : Z.of_nat (length kept) <= N).
  { change (Z.of_nat (length kept))
      with (newer_than (now0 - minute) (request_times (throttler s))).
    rewrite <- Hrecent by lia.
    rewrite <- in_window_past; [apply Hwindow |].
    now apply (Forall_le_weaken _ (Rt.clock (world s))). }
  destruct r as [[] | e].
  - destruct Hres as (recorded & Htimes' & Hclock & Hfull).
    rewrite Htimes', last_last. subst recorded.
    constructor; simpl.
    + congruence.
    + exact (later_steady _ _ Hlater Hsteady).
    + apply Forall_app. split.
      * apply (Forall_le_weaken _ (Rt.clock (world s))); [lia | exact Hpast].
      * constructor; [lia | constructor].
    + intros c Hc. rewrite Htimes', !newer_than_app, F1 by lia. reflexivity.
    + rewrite Htimes'. apply sublist_app; [| reflexivity].
      transitivity (request_times (throttler s)); [| exact Hkept].
      apply list_filter_sublist.
    + intros t. rewrite in_window_app.
      destruct ((t - minute <? Rt.clock w') && (Rt.clock w' <=? t)) eqn:Hin.
      2:{ specialize (Hwindow t). lia. }
      apply andb_true_iff in Hin as [_ Hle]. apply Z.leb_le in Hle.
      pose proof (in_window_le_newer t (history s)) as H1.
      pose proof (newer_than_mono (Rt.clock w' - minute) (t - minute) (history s)
                    ltac:(lia)) as H2.
      rewrite (F1 (Rt.clock w' - minute)) in H2 by lia.
      enough (newer_than (Rt.clock w' - minute) kept + 1 <= N) by lia.
      destruct (Z.le_gt_cases (requests_per_minute (throttler s))
                              (Z.of_nat (length kept))) as [Hge | Hlt].
      * destruct (Hfull Hge) as (oldest & rest & Hk & Hage & _ & Hold).
        rewrite Hage in Hexact.
        assert (Hgap : oldest + minute <= Rt.clock w').
        { apply Hold. destruct Hexact as [Hu | Hp]; [now left | now right]. }
        clear Hold.
        rewrite Hk in *. unfold newer_than. simpl.
        destruct (Z.ltb_spec (Rt.clock w' - minute) oldest); [lia |].
        pose proof (List.filter_length_le
                      (fun x => Rt.clock w' - minute <? x) rest).
        simpl in F2. lia.
      * pose proof (newer_than_le_length (Rt.clock w' - minute) kept). lia.
  - constructor; simpl.
    + congruence.
    + exact (later_steady _ _ Hlater Hsteady).
    + apply (Forall_le_weaken _ (Rt.clock (world s))); [lia | exact Hpast].
    + intros c Hc. rewrite Hres. apply F1. lia.
    + rewrite Hres.
      transitivity (request_times (throttler s)); [| exact Hkept].
      apply list_filter_sublist.
    + exact Hwindow.
Qed.

Lemma paced_step (N : Z) (s : session) (c : call) :
  sound N s -> Rt.fair (world s) -> paced (throttler s) ->
  Rt.fair (world (step s c)) /\ paced (throttler (step s c)).
Proof.
  intros Hs Hfair Hpaced. pose proof (sound_times N s Hs) as Htimes.
  destruct Hs as [_ Hsteady _ _].
  destruct c; cbn [step].
  - destruct (wait (throttler s) (world s)) as [[r self'] w'] eqn:Hrun.
    apply wait_spec in Hrun; [| exact Hsteady | exact Htimes].
    destruct Hrun as (Hlater & _ & _ & Hp & _).
    destruct r as [[] | e]; cbn [world throttler];
      (split; [exact (later_fair _ _ Hlater Hfair) | exact (Hp Hpaced)]).
  - split; [exact Hfair |]. destruct Hpaced as (_ & Hmin & Hmax).
    split; [simpl; lia | split; assumption].
  - split; [exact Hfair |]. destruct Hpaced as (Hce & Hmin & Hmax).
    split; [simpl; lia | split; assumption].
Qed.

Lemma inv_record (N : Z) (s : session) (c : call) :
  c <> Wait -> inv N s -> inv N (step s c).
Proof.
  intros Hc Hinv. destruct c; [congruence | |];
    destruct Hinv; constructor; assumption.
Qed.

Lemma inv_next (N : Z) (c : call) (calls : list call) (s : session) :
  inv N s ->
  exact_waits s (c :: calls) = true
  \/ (Rt.fair (world s) /\ paced (throttler s)) ->
  inv N (step s c) /\
  (exact_waits (step s c) calls = true
   \/ (Rt.fair (world (step s c)) /\ paced (throttler (step s c)))).
Proof.
  intros Hinv Hexact. split.
  - destruct c; [| now apply inv_record | now apply inv_record].
    apply inv_wait; [exact Hinv |].
    destruct Hexact as [Hexact | Hp]; [left | now right].
    cbn [exact_waits] in Hexact. apply andb_true_iff in Hexact as [Hc _].
    destruct (next_age (throttler s) (world s)); [exact Hc | reflexivity].
  - destruct Hexact as [Hexact | [Hfair Hpaced]].
    + left. cbn [exact_waits] in Hexact. now apply andb_true_iff in Hexact as [_ ?].
    + right. now apply (paced_step N); [apply inv_sound | |].
Qed.

Lemma inv_steps (N : Z) (calls : list call) (s : session) :
  inv N s ->
  exact_waits s calls = true \/ (Rt.fair (world s) /\ paced (throttler s)) ->
  inv N (steps s calls).
Proof.
  revert s. induction calls as [| c calls IH]; intros s Hinv Hexact; simpl.
  - exact Hinv.
  - destruct (inv_next N c calls s Hinv Hexact) as [Hstep Hrest].
    now apply IH.
Qed.

Lemma inv_init (N : Z) (min_delay max_delay : Q) (w : Rt.world) :
  0 <= N -> Rt.steady w ->
  inv N (mk_session (init min_delay max_delay N) w []).
Proof.
  intros HN Hsteady. constructor; simpl.
  - reflexivity.
  - exact Hsteady.
  - constructor.
  - reflexivity.
  - constructor.
  - intros t. exact HN.
Qed.

Lemma sleep_slept w x r w' :
  Rt.sleep x w = (r, w') ->
  Rt.slept w' = (Rt.slept w ++ match r with Py.Ok _ => [x] | Py.Raise _ => [] end)%list.
Proof.
  unfold Rt.sleep. destruct (Qlt_le_dec x 0); intros H; injection H as <- <-; simpl.
  - now rewrite app_nil_r.
  - reflexivity.
Qed.

(** The length of the sleep that [wait] asks for under a full window. *)
Lemma wait_sleeps (self : t) (w : Rt.world) (age : Z) :
  next_age self w = Some age ->
  (0 < wait_time age)%Q ->
  exists more, Rt.slept (snd (wait self w)) = (Rt.slept w ++ wait_time age :: more)%list.
Proof.
  unfold next_age.
  set (now0 := Rt.clock w + Rt.lag (Rt.script w) (Rt.ticks w)).
  set (kept := List.filter (fun t => now0 - minute <? t) (request_times self)).
  destruct (requests_per_minute self <=? Z.of_nat (length kept)) eqn:Hfull;
    [| discriminate].
  destruct kept as [| oldest rest] eqn:Hkept; [discriminate |].
  intros [= <-] Hpos.
  unfold wait. cbn [Rt.now]. fold now0. fold kept.
  unfold wait_body. rewrite Hkept.
  cbn [with_times request_times requests_per_minute].
  rewrite Hfull.
  unfold St.bind at 1. unfold St.bind at 1. cbn [Rt.now].
  cbn [Rt.clock Rt.with_clock Rt.script Rt.ticks]. cbv zeta.
  destruct (Qlt_le_dec 0 (wait_time (now0 + Rt.lag (Rt.script w) (S (Rt.ticks w)) - oldest)))
    as [_ | Hle]; [| exfalso; exact (Qlt_not_le _ _ Hpos Hle)].
  unfold Rt.sleep at 1.
  destruct (Qlt_le_dec (wait_time (now0 + Rt.lag (Rt.script w) (S (Rt.ticks w)) - oldest)) 0)
    as [Hlt | _]; [exfalso; exact (Qlt_irrefl _ (Qlt_trans _ _ _ Hpos Hlt)) |].
  unfold St.bind at 1. unfold Rt.uniform, St.bind at 1, Rt.random_random, Rt.ret, St.ret.
  cbn [Rt.slept Rt.script Rt.draws].
  unfold St.bind at 1.
  match goal with
  | |- context [Rt.sleep ?x ?w2] =>
      destruct (Rt.sleep x w2) as [[[] | e] w3] eqn:Hsleep;
      apply sleep_slept in Hsleep; simpl in Hsleep
  end.
  - eexists. cbn [snd Rt.now Rt.with_clock Rt.slept]. rewrite Hsleep.
    rewrite <- app_assoc. reflexivity.
  - eexists. cbn [snd]. rewrite Hsleep, app_nil_r. reflexivity.
Qed.


End Throttle.

(** ** Block and CAPTCHA detection ([Antibot.CaptchaDetector]) *)
Section Classifier.

Import Antibot.CaptchaDetector.

Context {unicode : Py.Unicode}.

Lemma startswith_spec (p s : string) :
  Py.startswith p s = true <-> exists post, s = p +:+ post.
Proof.
  revert s. induction p as [| a p IH]; intros s; simpl.
  - split; [intros _; now exists s | reflexivity].
  - destruct s as [| b s].
    + split; [discriminate | intros [post H]; discriminate].
    + rewrite andb_true_iff, IH. split.
      * intros [Hab [post ->]]. apply Ascii.eqb_eq in Hab. subst.
        now exists post.
      * intros [post H]. injection H as -> ->. split.
        -- apply Ascii.eqb_refl.
        -- now exists post.
Qed.

(** [Py.contains] is the literal substring test. *)
Lemma contains_spec (p s : string) :
  Py.contains p s = true <-> exists pre post, s = pre +:+ p +:+ post.
Proof.
  induction s as [| c s IH].
  - simpl. rewrite orb_false_r, startswith_spec. split.
    + intros [post H]. now exists EmptyString, post.
    + intros [pre [post H]]. destruct pre; [now exists post | discriminate].
  - simpl Py.contains. rewrite orb_true_iff, startswith_spec, IH. split.
    + intros [[post H] | [pre [post H]]].
      * now exists EmptyString, post.
      * exists (String c pre), post. simpl. now rewrite H.
    + intros [pre [post H]]. destruct pre as [| c' pre].
      * left. now exists post.
      * right. simpl in H. injection H as -> ->. now exists pre, post.
Qed.

Lemma append_nil (b : string) : EmptyString +:+ b = b.
Proof. reflexivity. Qed.

Lemma append_cons (x : ascii) (a b : string) :
  String x a +:+ b = String x (a +:+ b).
Proof. reflexivity. Qed.

Lemma append_assoc (a b c : string) : (a +:+ b) +:+ c = a +:+ (b +:+ c).
Proof.
  induction a as [|x a IH]; [reflexivity |].
  rewrite !append_cons. now rewrite IH.
Qed.

Lemma contains_embedded (p s pre post : string) :
  Py.contains p s = true -> Py.contains p (pre +:+ s +:+ post) = true.
Proof.
  rewrite !contains_spec. intros (a & b & ->).
  exists (pre +:+ a), (b +:+ post). now rewrite !append_assoc.
Qed.

Lemma continuation_not_ascii (c : ascii) :
  Py.is_continuation c = true -> Py.is_ascii c = false.
Proof.
  unfold Py.is_continuation, Py.is_ascii. intros H.
  apply andb_true_iff in H as [H _]. apply N.leb_le in H.
  apply N.ltb_ge. exact H.
Qed.

Lemma ascii_not_continuation (c : ascii) :
  Py.is_ascii c = true -> Py.is_continuation c = false.
Proof.
  intros H. destruct (Py.is_continuation c) eqn:E; [| reflexivity].
  apply continuation_not_ascii in E. congruence.
Qed.

Lemma continuation_app (n : nat) (s post rest : string) :
  Py.continuation n s = Some rest -> Py.continuation n (s +:+ post) = Some rest.
Proof.
  revert s rest. induction n as [| n IH]; intros s rest; simpl; [trivial |].
  destruct s as [| c s]; [discriminate |]. rewrite append_cons.
  destruct (Py.is_continuation c); [| discriminate].
  destruct (Py.continuation n s) as [r |] eqn:E; [| discriminate].
  now rewrite (IH _ _ E).
Qed.

(** What [Py.keeps_ascii] keeps: the ASCII words found. *)
Lemma keeps_startswith (x y p : string) :
  Py.keeps_ascii x y -> Py.isascii p = true ->
  Py.startswith p x = true -> Py.startswith p y = true.
Proof.
  intros Hk. revert p. induction Hk as [y | c x y Hk IH | c x y1 y Hc Hk IH];
    intros p Hp Hs.
  - destruct p; [reflexivity | discriminate].
  - destruct p as [| a p]; [reflexivity |]. simpl in *.
    apply andb_true_iff in Hp as [_ Hp]. apply andb_true_iff in Hs as [Ha Hs].
    rewrite Ha. simpl. now apply IH.
  - destruct p as [| a p]; [reflexivity |]. simpl in *.
    apply andb_true_iff in Hp as [Ha _]. apply andb_true_iff in Hs as [Hac _].
    apply Ascii.eqb_eq in Hac. subst. congruence.
Qed.

Lemma contains_startswith (p s : string) :
  Py.startswith p s = true -> Py.contains p s = true.
Proof. intros H. destruct s; simpl in *; now rewrite H. Qed.

Lemma contains_after (p pre s : string) :
  Py.contains p s = true -> Py.contains p (pre +:+ s) = true.
Proof.
  intros H. apply contains_spec in H as (a & b & ->). apply contains_spec.
  exists (pre +:+ a), b. now rewrite append_assoc.
Qed.

Lemma keeps_contains (x y p : string) :
  Py.keeps_ascii x y -> Py.isascii p = true ->
  Py.contains p x = true -> Py.contains p y = true.
Proof.
  intros Hk Hp. induction Hk as [y | c x y Hk IH | c x y1 y Hc Hk IH]; intros Hx.
  - apply contains_startswith. apply (keeps_startswith EmptyString); try assumption.
    + constructor.
    + simpl in Hx. now rewrite orb_false_r in Hx.
  - simpl in Hx. apply orb_true_iff in Hx as [Hs | Hx].
    + apply contains_startswith.
      apply (keeps_startswith (String c x)); try assumption. now constructor.
    + simpl. rewrite (IH Hx). apply orb_true_r.
  - simpl in Hx. apply orb_true_iff in Hx as [Hs | Hx].
    + apply contains_startswith.
      apply (keeps_startswith (String c x)); try assumption. now constructor.
    + apply contains_after. now apply IH.
Qed.

Lemma keeps_app (m x y : string) :
  Py.keeps_ascii x y -> Py.keeps_ascii (m +:+ x) (m +:+ y).
Proof.
  intros H. induction m as [| c m IH]; [exact H |].
  rewrite !append_cons. now constructor.
Qed.

(** Replacing a text of two bytes outside ASCII. *)
Lemma keeps_two (a b : ascii) (y1 x y : string) :
  Py.is_ascii a = false -> Py.is_ascii b = false ->
  Py.keeps_ascii x y ->
  Py.keeps_ascii (String a (String b x)) (y1 +:+ y).
Proof.
  intros Ha Hb H.
  apply (Py.keeps_gap a (String b x) EmptyString (y1 +:+ y) Ha).
  now apply Py.keeps_gap.
Qed.

(** One step of [Py.lower_from]. *)
Lemma lower_from_cons (skip : nat) (before : string) (c : ascii) (s' : string) :
  Py.lower_from skip before (String c s') =
  let before' := before +:+ String c EmptyString in
  if Py.is_continuation c then
    match skip with
    | S k => Py.lower_from k before' s'
    | O => String c (Py.lower_from 0 before' s')
    end
  else if Py.is_ascii c then String (Py.lower_ascii c) (Py.lower_from 0 before' s')
  else
    match Py.trail c, Py.continuation (Py.trail c) s' with
    | S k, Some rest =>
        let point := String c rest in
        (if String.eqb point Py.capital_sigma
         then if Py.final_sigma before (Py.drop (S k) s')
              then Py.final_small_sigma else Py.small_sigma
         else Py.to_lower_full point)
        +:+ Py.lower_from (S k) before' s'
    | _, _ => String c (Py.lower_from 0 before' s')
    end.
Proof. reflexivity. Qed.

(** The capital sigma becomes one of two code points outside ASCII. *)
Lemma keeps_sigma (f1 f2 : bool) (x y : string) :
  Py.keeps_ascii x y ->
  Py.keeps_ascii
    ((if f1 then Py.final_small_sigma else Py.small_sigma) +:+ x)
    ((if f2 then Py.final_small_sigma else Py.small_sigma) +:+ y).
Proof.
  intros Hk. destruct f1; apply keeps_two; try reflexivity; exact Hk.
Qed.

(** Lower-casing a text and lower-casing it with more text behind, from a
    state that is the same or comes out of text in front. *)
Lemma lower_from_keeps (s : string) :
  forall (j j' : nat) (b b' post : string),
    j = j' \/ j = 0%nat ->
    Py.keeps_ascii (Py.lower_from j b s) (Py.lower_from j' b' (s +:+ post)).
Proof.
  induction s as [| c s IH]; intros j j' b b' post Hj; [constructor |].
  rewrite append_cons, !lower_from_cons. cbv zeta.
  destruct (Py.is_continuation c) eqn:Econt.
  { pose proof (continuation_not_ascii c Econt) as Hc.
    destruct j as [| j], j' as [| j'].
    - constructor. apply IH. now left.
    - apply (Py.keeps_gap c _ EmptyString); [exact Hc |]. apply IH. now right.
    - destruct Hj; discriminate.
    - apply IH. destruct Hj as [Hj | Hj]; [left; congruence | discriminate]. }
  destruct (Py.is_ascii c) eqn:Eascii.
  { constructor. apply IH. now left. }
  destruct (Py.trail c) as [| k] eqn:Etrail.
  { constructor. apply IH. now left. }
  destruct (Py.continuation (S k) s) as [rest |] eqn:Erest.
  - rewrite (continuation_app _ _ post _ Erest).
    destruct (String.eqb (String c rest) Py.capital_sigma).
    + apply keeps_sigma. apply IH. now left.
    + apply keeps_app. apply IH. now left.
  - destruct (Py.continuation (S k) (s +:+ post)) as [rest' |].
    + apply Py.keeps_gap; [exact Eascii |]. apply IH. now right.
    + constructor. apply IH. now left.
Qed.

(** Text in front leaves a lower-cased text in front. *)
Lemma lower_from_front (pre : string) :
  forall (j : nat) (b t : string),
  exists y j' b',
    Py.lower_from j b (pre +:+ t) = y +:+ Py.lower_from j' b' t.
Proof.
  induction pre as [| c pre IH]; intros j b t.
  - now exists EmptyString, j, b.
  - rewrite append_cons, lower_from_cons. cbv zeta.
    assert (Hone : forall j1 b1 m,
              exists y j' b',
                m +:+ Py.lower_from j1 b1 (pre +:+ t)
                = y +:+ Py.lower_from j' b' t).
    { intros j1 b1 m. destruct (IH j1 b1 t) as (y & j' & b' & ->).
      exists (m +:+ y), j', b'. now rewrite append_assoc. }
    destruct (Py.is_continuation c).
    { destruct j as [| j].
      - apply (Hone 0%nat _ (String c EmptyString)).
      - apply (Hone j _ EmptyString). }
    destruct (Py.is_ascii c).
    { apply (Hone 0%nat _ (String (Py.lower_ascii c) EmptyString)). }
    destruct (Py.trail c) as [| k].
    { apply (Hone 0%nat _ (String c EmptyString)). }
    destruct (Py.continuation (S k) (pre +:+ t)) as [rest |].
    + apply Hone.
    + apply (Hone 0%nat _ (String c EmptyString)).
Qed.

(** Text before and after a page hides no ASCII word of the lower-cased
    page. *)
Lemma lower_embedded (p html pre post : string) :
  Py.isascii p = true ->
  Py.contains p (Py.lower html) = true ->
  Py.contains p (Py.lower (pre +:+ html +:+ post)) = true.
Proof.
  intros Hp Hc. unfold Py.lower.
  destruct (lower_from_front pre 0%nat EmptyString (html +:+ post))
    as (y & j' & b' & ->).
  apply contains_after.
  apply (keeps_contains (Py.lower_from 0 EmptyString html)); try assumption.
  apply lower_from_keeps. now right.
Qed.

Lemma existsb_lower_embedded (patterns : list string) (html pre post : string) :
  forallb Py.isascii patterns = true ->
  existsb (fun p => Py.contains p (Py.lower html)) patterns = true ->
  existsb (fun p => Py.contains p (Py.lower (pre +:+ html +:+ post))) patterns
  = true.
Proof.
  intros Hall. rewrite !existsb_exists. intros (p & Hin & Hp).
  exists p. split; [exact Hin |]. apply lower_embedded; [| exact Hp].
  rewrite forallb_forall in Hall. now apply Hall.
Qed.

Lemma same_letter_lower (x y : ascii) :
  Py.same_letter x y = true -> Py.lower_ascii x = Py.lower_ascii y.
Proof.
  unfold Py.same_letter, Py.lower_ascii. cbv zeta.
  pose proof (ascii_N_embedding x) as Ex. pose proof (ascii_N_embedding y) as Ey.
  set (m := N_of_ascii x) in *. set (n := N_of_ascii y) in *.
  clearbody m n. subst x y.
  rewrite !orb_true_iff, !andb_true_iff, !N.leb_le, !N.eqb_eq.
  intros [[E | [[H1 H2] E]] | [[H1 H2] E]].
  - now rewrite E.
  - replace ((65 <=? m) && (m <=? 90))%N with true
      by (symmetry; apply andb_true_iff; split; now apply N.leb_le).
    replace ((65 <=? n) && (n <=? 90))%N with false
      by (symmetry; apply andb_false_iff; right; apply N.leb_gt; lia).
    now rewrite E.
  - replace ((65 <=? n) && (n <=? 90))%N with true
      by (symmetry; apply andb_true_iff; split; now apply N.leb_le).
    replace ((65 <=? m) && (m <=? 90))%N with false
      by (symmetry; apply andb_false_iff; right; apply N.leb_gt; lia).
    now rewrite E.
Qed.

(** Texts that differ in the case of letters have one lower-cased text. *)
Lemma lower_from_variant (a : string) :
  forall (b : string) (j j' : nat) (x x' : string),
    Py.case_variant a b = true ->
    Py.lower_from j x a = Py.lower_from j' x' b.
Proof.
  induction a as [| c a IH]; intros [| d b] j j' x x' Hv; try discriminate.
  - reflexivity.
  - simpl in Hv. apply andb_true_iff in Hv as [Hv Hrest].
    apply andb_true_iff in Hv as [Hv Hsame].
    apply andb_true_iff in Hv as [Hc Hd].
    rewrite !lower_from_cons. cbv zeta.
    rewrite (ascii_not_continuation c Hc), (ascii_not_continuation d Hd), Hc, Hd.
    rewrite (same_letter_lower c d Hsame). f_equal. now apply IH.
Qed.

Lemma lower_variant (a b : string) :
  Py.case_variant a b = true -> Py.lower a = Py.lower b.
Proof. apply lower_from_variant. Qed.

(** Without a URL, a page is a CAPTCHA page exactly when its lower-cased
    text contains one of the indicator words or element patterns. *)
Lemma is_captcha_page_spec (html : string) :
  is_captcha_page html None = true <->
  exists pattern,
    In pattern (CAPTCHA_INDICATORS ++ captcha_elements) /\
    Py.contains pattern (Py.lower html) = true.
Proof.
  unfold is_captcha_page. cbn [Py.str_and].
  set (found := fun pattern : string => Py.contains pattern (Py.lower html)).
  transitivity (existsb found (CAPTCHA_INDICATORS ++ captcha_elements) = true).
  - rewrite existsb_app.
    destruct (existsb found CAPTCHA_INDICATORS),
             (existsb found captcha_elements); simpl; tauto.
  - apply existsb_exists.
Qed.

Lemma is_blocked_by_status (status_code : Z) (html : option string) :
  In status_code [403; 429; 503] -> is_blocked status_code html = true.
Proof.
  intros Hin. unfold is_blocked.
  assert (H : Py.in_codes status_code blocked_codes = true)
    by now apply in_codes_In.
  now rewrite H.
Qed.

Lemma patterns_lower_case :
  forallb (fun p => String.eqb (Py.lower p) p && Py.isascii p)
          (CAPTCHA_INDICATORS ++ captcha_elements) = true.
Proof. vm_compute. reflexivity. Qed.

Lemma contains_refl (p : string) : Py.contains p p = true.
Proof.
  apply contains_spec. exists EmptyString, EmptyString.
  rewrite append_nil. induction p as [| c p IH]; [reflexivity |].
  rewrite append_cons. now rewrite <- IH.
Qed.

(** A page on which [is_captcha_page] answers [True] is reported as blocked
    whatever the status. *)
Lemma is_blocked_page (status_code : Z) (html : string) :
  is_captcha_page html None = true ->
  is_blocked status_code (Some html) = true /\
  (Py.in_codes status_code blocked_codes = false ->
   get_block_reason status_code (Some html) = "CAPTCHA Challenge Detected"%string).
Proof.
  intros Hpage.
  assert (Hand : Py.str_and (Some html) (fun h => is_captcha_page h None) = true).
  { destruct html as [| c html]; [discriminate | exact Hpage]. }
  split.
  - unfold is_blocked. rewrite Hand. now destruct (Py.in_codes _ _).
  - unfold get_block_reason, Py.in_codes, blocked_codes. simpl existsb.
    rewrite Hand. intros Hcodes.
    apply orb_false_elim in Hcodes as [H403 Hcodes].
    apply orb_false_elim in Hcodes as [H429 Hcodes].
    apply orb_false_elim in Hcodes as [H503 _].
    now rewrite H403, H429, H503.
Qed.

(** C5. Status 403 classifies as blocked whatever the body is (with the
    reason for a forbidden access), and so do 429 and 503: the status is
    looked at before the body.  With status 200 the page holding the
    reCAPTCHA widget is classified as a CAPTCHA page and the plain page as
    not blocked.  The body test is a literal substring test on the
    lower-cased page against the fixed words and element patterns, and it
    ignores the case of letters: a word or pattern of the vocabulary
    written in any mix of upper and lower case, with any text before and
    after it, makes a CAPTCHA page, and two ASCII pages that differ in
    letter case only are classified alike.  The page is lower-cased as
    [str.lower()] does it, by the Unicode database: a page that spells
    BLOCKED with the Kelvin sign for its K is a CAPTCHA page, as that sign
    has the lower case k. *)
Theorem block_classifier_cases :
  (forall html, is_blocked 403 html = true /\
                get_block_reason 403 html = "Access Forbidden - IP may be blocked") /\
  (forall html, is_blocked 429 html = true /\ is_blocked 503 html = true) /\
  (is_captcha_page "<div class='g-recaptcha' data-sitekey='x'></div>" None = true /\
   is_blocked 200 (Some "<div class='g-recaptcha' data-sitekey='x'></div>") = true /\
   get_block_reason 200 (Some "<div class='g-recaptcha' data-sitekey='x'></div>")
     = "CAPTCHA Challenge Detected") /\
  (is_captcha_page "<html>hello</html>" None = false /\
   is_blocked 200 (Some "<html>hello</html>") = false) /\
  (forall html,
     is_captcha_page html None = true <->
     exists pattern pre post,
       In pattern (CAPTCHA_INDICATORS ++ captcha_elements) /\
       Py.lower html = pre +:+ pattern +:+ post) /\
  (forall pattern variant pre post,
     In pattern (CAPTCHA_INDICATORS ++ captcha_elements) ->
     Py.case_variant variant pattern = true ->
     is_captcha_page (pre +:+ variant +:+ post) None = true /\
     is_blocked 200 (Some (pre +:+ variant +:+ post)) = true /\
     get_block_reason 200 (Some (pre +:+ variant +:+ post))
       = "CAPTCHA Challenge Detected") /\
  (forall html html',
     Py.case_variant html html' = true ->
     is_captcha_page html None = is_captcha_page html' None /\
     forall status_code,
       is_blocked status_code (Some html) = is_blocked status_code (Some html')) /\
  (is_captcha_page "<HTML>Please solve the CAPTCHA</HTML>" None = true /\
   is_blocked 200 (Some "<H1>ACCESS DENIED</H1>") = true /\
   is_captcha_page "<HTML>HELLO</HTML>" None = false) /\
  (Py.to_lower_full Py.kelvin_sign = "k" ->
   is_captcha_page ("<p>BLOC" +:+ Py.kelvin_sign +:+ "ED</p>") None = true).
Proof.
  split; [| split; [| split; [| split; [| split; [| split; [| split; [| split]]]]]]].
  - intros html. split; [apply is_blocked_by_status; simpl; tauto | reflexivity].
  - intros html. split; apply is_blocked_by_status; simpl; tauto.
  - repeat split; vm_compute; reflexivity.
  - split; vm_compute; reflexivity.
  - intros html. rewrite is_captcha_page_spec. split.
    + intros [pattern [Hin Hc]]. apply contains_spec in Hc as [pre [post Hl]].
      now exists pattern, pre, post.
    + intros [pattern [pre [post [Hin Hl]]]]. exists pattern. split; [exact Hin |].
      apply contains_spec. now exists pre, post.
  - intros pattern variant pre post Hin Hv.
    assert (Hpage : is_captcha_page (pre +:+ variant +:+ post) None = true).
    { apply is_captcha_page_spec. exists pattern. split; [exact Hin |].
      pose proof patterns_lower_case as Hall.
      rewrite forallb_forall in Hall. specialize (Hall pattern Hin).
      apply andb_true_iff in Hall as [Hlow Hascii].
      apply String.eqb_eq in Hlow.
      apply lower_embedded; [exact Hascii |].
      rewrite (lower_variant _ _ Hv), Hlow. apply contains_refl. }
    split; [exact Hpage |].
    destruct (is_blocked_page 200 _ Hpage) as [Hb Hr].
    split; [exact Hb | now apply Hr].
  - intros html html' Hv.
    assert (Hpage : is_captcha_page html None = is_captcha_page html' None).
    { unfold is_captcha_page. now rewrite (lower_variant _ _ Hv). }
    split; [exact Hpage |].
    intros status_code. unfold is_blocked.
    destruct html as [| c html], html' as [| c' html']; try discriminate.
    + reflexivity.
    + cbn [Py.str_and]. now rewrite Hpage.
  - repeat split; vm_compute; reflexivity.
  - intros Hk. apply is_captcha_page_spec. exists "blocked"%string.
    split; [simpl; tauto |].
    assert (El : Py.lower ("<p>BLOC" +:+ Py.kelvin_sign +:+ "ED</p>")
                 = ("<p>bloc" +:+ Py.to_lower_full Py.kelvin_sign +:+ "ed</p>")%string)
      by reflexivity.
    rewrite El, Hk. reflexivity.
Qed.

End Classifier.

(** ** Proxy rotation ([Antibot.ProxyRotator]) *)
Section Proxies.

Import Antibot.ProxyRotator.
Local Open Scope nat_scope.

Lemma get_next_while_total (fuel attempts : nat) (self : t) :
  current_index self < length (proxies self) ->
  length (proxies self) <= attempts + fuel ->
  exists r self' n,
    get_next_while fuel attempts self = Some (Py.Ok r, self', n) /\
    n + attempts <= Nat.max attempts (length (proxies self)) /\
    proxies self' = proxies self /\
    failed_proxies self' = failed_proxies self /\
    current_index self' < length (proxies self') /\
    (Forall (fun p => is_failed self p = true) (proxies self) -> r = None) /\
    (forall d, r = Some d ->
       exists p, In p (proxies self) /\ is_failed self p = false /\
                 d = Antibot.ProxyConfig.to_dict p).
Proof.
  revert attempts self.
  induction fuel as [| fuel IH]; intros attempts self Hidx Hfuel.
  - simpl. destruct (Nat.ltb_spec attempts (length (proxies self))); [lia |].
    exists None, self, 0. repeat split; try lia; try discriminate.
  - simpl. destruct (Nat.ltb_spec attempts (length (proxies self))) as [Hlt | Hge].
    2:{ exists None, self, 0. repeat split; try lia; try discriminate. }
    destruct (proxies self !! current_index self) as [proxy |] eqn:Hget.
    2:{ apply lookup_ge_None in Hget. lia. }
    assert (Hin : In proxy (proxies self)).
    { apply list_elem_of_In. eapply list_elem_of_lookup_2. exact Hget. }
    set (self' := mk (proxies self)
                     ((current_index self + 1) mod length (proxies self))
                     (failed_proxies self) (proxy_stats self)).
    assert (Hidx' : current_index self' < length (proxies self')).
    { simpl. apply Nat.mod_upper_bound. lia. }
    destruct (is_failed self proxy) eqn:Hfailed; simpl.
    + destruct (IH (attempts + 1) self' Hidx') as
        (r & s & n & Hrun & Hn & Hp & Hf & Hi & Hall & Hsome).
      { simpl. lia. }
      rewrite Hrun. exists r, s, (S n). simpl in *.
      repeat split; try assumption; try lia.
    + exists (Some (Antibot.ProxyConfig.to_dict proxy)), self', 1.
      repeat split; try assumption; try (simpl; lia).
      * intros Hall. rewrite Forall_forall in Hall.
        specialize (Hall proxy (proj2 (list_elem_of_In _ _) Hin)). congruence.
      * intros d Hd. injection Hd as <-. exists proxy. repeat split; assumption.
Qed.

Lemma get_next_total (self : t) :
  index_ok self ->
  exists r self' n,
    get_next self = Some (Py.Ok r, self', n) /\
    n <= length (proxies self) /\
    proxies self' = proxies self /\
    failed_proxies self' = failed_proxies self /\
    index_ok self' /\
    (Forall (fun p => is_failed self p = true) (proxies self) -> r = None) /\
    (forall d, r = Some d ->
       exists p, In p (proxies self) /\ is_failed self p = false /\
                 d = Antibot.ProxyConfig.to_dict p).
Proof.
  intros Hok. unfold get_next.
  destruct (proxies self) as [| p0 ps] eqn:Hps.
  - exists None, self, 0. rewrite Hps.
    repeat split; try (simpl; lia); try discriminate. exact Hok.
  - rewrite <- Hps.
    assert (Hidx : current_index self < length (proxies self)).
    { destruct Hok as [Hzero | Hlt]; [rewrite Hzero, Hps; simpl; lia | exact Hlt]. }
    destruct (get_next_while_total (length (proxies self)) 0 self Hidx)
      as (r & s & n & Hrun & Hn & Hp & Hf & Hi & Hall & Hsome); [lia |].
    exists r, s, n. repeat split; try assumption; try lia. now right.
Qed.

Lemma step_index_ok (self : t) (c : call) :
  index_ok self -> index_ok (step self c).
Proof.
  intros Hok. destruct c as [proxy | | | d | d |]; simpl.
  - unfold index_ok in *. simpl. rewrite length_app. simpl. lia.
  - exact Hok.
  - destruct (get_next_total self Hok) as (r & s & n & Hrun & _ & _ & _ & Hi & _).
    now rewrite Hrun.
  - unfold mark_failed. destruct (extract_host_port d); exact Hok.
  - unfold mark_success. destruct (extract_host_port d); exact Hok.
  - exact Hok.
Qed.

Lemma steps_index_ok (calls : list call) (self : t) :
  index_ok self -> index_ok (steps self calls).
Proof.
  revert self. induction calls as [| c calls IH]; intros self Hok; simpl.
  - exact Hok.
  - apply IH. now apply step_index_ok.
Qed.

Lemma init_index_ok (pool : list Antibot.ProxyConfig.t) : index_ok (init pool).
Proof. now left. Qed.

Lemma step_keeps_failed (self : t) (c : call) (k : string) :
  c <> ResetFailed -> k ∈ failed_proxies self -> k ∈ failed_proxies (step self c).
Proof.
  intros Hc Hk. destruct c as [proxy | | | d | d |]; simpl.
  - exact Hk.
  - exact Hk.
  - destruct (get_next self) as [[[r self'] n] |] eqn:Hrun; [| exact Hk].
    enough (failed_proxies self' = failed_proxies self) as -> by exact Hk.
    unfold get_next in Hrun. destruct (proxies self) eqn:Hps.
    + now injection Hrun as _ <- _.
    + rewrite <- Hps in Hrun. clear Hps Hk.
      remember (length (proxies self)) as fuel eqn:Hfuel. clear Hfuel.
      remember 0 as attempts eqn:Ha. clear Ha.
      revert attempts self r self' n Hrun.
      induction fuel as [| fuel IH]; intros attempts self r self' n Hrun;
        simpl in Hrun;
        destruct (attempts <? length (proxies self)); try discriminate;
        try (now injection Hrun as _ <- _).
      destruct (proxies self !! current_index self); [| now injection Hrun as _ <- _].
      destruct (negb _); [now injection Hrun as _ <- _ |].
      match type of Hrun with
      | context [get_next_while fuel ?a ?s] =>
          destruct (get_next_while fuel a s) as [[[r1 s1] n1] |] eqn:Hrec;
          [| discriminate]
      end.
      injection Hrun as _ <- _. now apply IH in Hrec.
  - unfold mark_failed. destruct (extract_host_port d); simpl; [| exact Hk].
    apply elem_of_union_r. exact Hk.
  - unfold mark_success. destruct (extract_host_port d); exact Hk.
  - congruence.
Qed.

Lemma steps_keep_failed (calls : list call) (self : t) (k : string) :
  ~ In ResetFailed calls -> k ∈ failed_proxies self ->
  k ∈ failed_proxies (steps self calls).
Proof.
  revert self. induction calls as [| c calls IH]; intros self Hno Hk; simpl.
  - exact Hk.
  - apply IH.
    + intros Hin. apply Hno. now right.
    + apply step_keeps_failed; [| exact Hk].
      intros ->. apply Hno. now left.
Qed.

(** C8. Take a rotator as the constructor and any calls leave it.
    [get_next] comes back after at most as many passes through its loop as
    the pool has proxies, and it does not raise.  A proxy it hands out
    belongs to the pool and its key is not in the failed set.  With an
    empty pool, or with the key of every proxy in the failed set, the
    answer is [None].  A key in the failed set stays there under every
    sequence of calls without [reset_failed]; in particular [mark_success]
    does not take it out, while [mark_failed] puts the key it reads off the
    mapping in. *)
Theorem proxy_rotation_skips_failed :
  (forall pool calls,
     let self := steps (init pool) calls in
     exists r self' n,
       get_next self = Some (Py.Ok r, self', n) /\
       n <= length (proxies self) /\
       (forall d, r = Some d ->
          exists p, In p (proxies self) /\
                    (Antibot.ProxyConfig.host_port p ∉ failed_proxies self) /\
                    d = Antibot.ProxyConfig.to_dict p) /\
       (proxies self = [] -> r = None) /\
       ((forall p, In p (proxies self) ->
           Antibot.ProxyConfig.host_port p ∈ failed_proxies self) ->
        r = None)) /\
  (forall self calls k,
     k ∈ failed_proxies self -> ~ In ResetFailed calls ->
     k ∈ failed_proxies (steps self calls)) /\
  (forall self proxy_dict k,
     k ∈ failed_proxies self ->
     k ∈ failed_proxies (snd (mark_success self proxy_dict))) /\
  (forall self proxy_dict k,
     extract_host_port proxy_dict = Py.Ok k ->
     k ∈ failed_proxies (snd (mark_failed self proxy_dict))).
Proof.
  split; [| split; [| split]].
  - intros pool calls self.
    assert (Hok : index_ok self) by apply steps_index_ok, init_index_ok.
    destruct (get_next_total self Hok)
      as (r & s & n & Hrun & Hn & _ & _ & _ & Hall & Hsome).
    exists r, s, n. split; [exact Hrun |]. split; [exact Hn |].
    split; [| split].
    + intros d Hd. destruct (Hsome d Hd) as (p & Hin & Hfree & Hdict).
      exists p. split; [exact Hin |]. split; [| exact Hdict].
      unfold is_failed in Hfree. now apply bool_decide_eq_false in Hfree.
    + intros Hnil. apply Hall. rewrite Hnil. constructor.
    + intros Hfailed. apply Hall. apply Forall_forall. intros p Hp.
      unfold is_failed. apply bool_decide_eq_true.
      apply Hfailed. now apply list_elem_of_In.
  - intros self calls k Hk Hno. now apply steps_keep_failed.
  - intros self d k Hk. now apply (step_keeps_failed self (MarkSuccess d)).
  - intros self d k Hk. unfold mark_failed. rewrite Hk. simpl.
    apply elem_of_union_l. now apply elem_of_singleton.
Qed.

End Proxies.

(** Two proxies, both reported as failed through the mappings that
    [to_dict] builds: [get_next] answers [None] after at most two passes. *)
Lemma proxy_rotation_skips_failed_witness :
  let p1 := Antibot.ProxyConfig.mk "10.0.0.1" 8080 None None "http" in
  let p2 := Antibot.ProxyConfig.mk "10.0.0.2" 3128 (Some "u") (Some "pw") "http" in
  let self :=
    Antibot.ProxyRotator.steps (Antibot.ProxyRotator.init [p1; p2])
      [Antibot.ProxyRotator.MarkFailed (Antibot.ProxyConfig.to_dict p1);
       Antibot.ProxyRotator.MarkFailed (Antibot.ProxyConfig.to_dict p2);
       Antibot.ProxyRotator.MarkSuccess (Antibot.ProxyConfig.to_dict p1)] in
  exists self' n,
    Antibot.ProxyRotator.get_next self = Some (Py.Ok None, self', n) /\
    (n <= 2)%nat.
Proof.
  intros p1 p2 self.
  destruct (proj1 proxy_rotation_skips_failed [p1; p2]
              [Antibot.ProxyRotator.MarkFailed (Antibot.ProxyConfig.to_dict p1);
               Antibot.ProxyRotator.MarkFailed (Antibot.ProxyConfig.to_dict p2);
               Antibot.ProxyRotator.MarkSuccess (Antibot.ProxyConfig.to_dict p1)])
    as (r & s & n & Hrun & Hn & _ & _ & Hall).
  assert (Hr : r = None).
  { apply Hall. intros p Hp. apply (bool_decide_unpack _).
    destruct Hp as [<- | [<- | []]]; vm_compute; exact I. }
  subst r. exists s, n. split; [exact Hrun | exact Hn].
Defined.

(** ** The SQLite sink ([Database]) *)
Section Sink.

Import Database.

Ltac st_unfold :=
  unfold St.bind, St.ret, St.get, St.raise, St.update, St.try_except.

Lemma find_none_existsb {A} (f : A -> bool) (l : list A) :
  List.find f l = None -> existsb f l = false.
Proof.
  induction l as [| x l IH]; simpl; [reflexivity |].
  destruct (f x); [discriminate | exact IH].
Qed.

Lemma find_some_exists {A} (f : A -> bool) (l : list A) :
  (exists x, In x l /\ f x = true) -> exists y, List.find f l = Some y.
Proof.
  induction l as [| x l IH]; simpl.
  - intros [y [[] _]].
  - intros [y [[-> | Hin] Hy]].
    + rewrite Hy. now exists y.
    + destruct (f x); [now exists x | apply IH; now exists y].
Qed.

Lemma keeps_ret {A} (a : A) : keeps_stored (St.ret a).
Proof. intros conn r conn' H. now injection H as _ <-. Qed.

Lemma keeps_raise {A} (e : Py.exn) : keeps_stored (St.raise (A := A) e).
Proof. intros conn r conn' H. now injection H as _ <-. Qed.

Lemma keeps_get : keeps_stored St.get.
Proof. intros conn r conn' H. now injection H as _ <-. Qed.

Lemma keeps_change (f : db -> db) : keeps_stored (change f).
Proof. intros conn r conn' H. now injection H as _ <-. Qed.

Lemma keeps_bind {A B} (c : M A) (k : A -> M B) :
  keeps_stored c -> (forall a, keeps_stored (k a)) -> keeps_stored (St.bind c k).
Proof.
  intros Hc Hk conn r conn' H. unfold St.bind in H.
  destruct (c conn) as [[a | e] conn1] eqn:Hrun.
  - rewrite (Hk a _ _ _ H). exact (Hc _ _ _ Hrun).
  - injection H as _ <-. exact (Hc _ _ _ Hrun).
Qed.

Lemma keeps_select_quote text : keeps_stored (select_quote text).
Proof. apply keeps_bind; [apply keeps_get | intros; apply keeps_ret]. Qed.

Lemma keeps_select_author name : keeps_stored (select_author name).
Proof. apply keeps_bind; [apply keeps_get | intros; apply keeps_ret]. Qed.

Lemma keeps_select_tag name : keeps_stored (select_tag name).
Proof. apply keeps_bind; [apply keeps_get | intros; apply keeps_ret]. Qed.

Lemma keeps_insert_author name : keeps_stored (insert_author name).
Proof.
  apply keeps_bind; [apply keeps_get | intros c].
  destruct name; [| apply keeps_raise].
  destruct (existsb _ _); [apply keeps_raise |].
  apply keeps_bind; [apply keeps_change | intros; apply keeps_ret].
Qed.

Lemma keeps_insert_tag name : keeps_stored (insert_tag name).
Proof.
  apply keeps_bind; [apply keeps_get | intros c].
  destruct name; [| apply keeps_raise].
  destruct (existsb _ _); [apply keeps_raise |].
  apply keeps_bind; [apply keeps_change | intros; apply keeps_ret].
Qed.

Lemma keeps_insert_quote_row text author_id source_url :
  keeps_stored (insert_quote_row text author_id source_url).
Proof.
  apply keeps_bind; [apply keeps_get | intros c].
  destruct text; [| apply keeps_raise].
  destruct (existsb _ _); [apply keeps_raise |].
  apply keeps_bind; [apply keeps_change | intros; apply keeps_ret].
Qed.

Lemma keeps_add_tags quote_id tags : keeps_stored (add_tags quote_id tags).
Proof.
  induction tags as [| tag_name rest IH]; simpl; [apply keeps_ret |].
  apply keeps_bind; [apply keeps_select_tag | intros tag_result].
  apply keeps_bind.
  - destruct tag_result; [apply keeps_ret | apply keeps_insert_tag].
  - intros tag_id. apply keeps_bind; [apply keeps_change | intros; exact IH].
Qed.

(** If the [try] block raises, nothing was committed. *)
Lemma insert_quote_try_raise text author tags source_url conn e conn' :
  insert_quote_try text author tags source_url conn = (Py.Raise e, conn') ->
  stored conn' = stored conn.
Proof.
  unfold insert_quote_try. unfold St.bind at 1.
  destruct (select_quote text conn) as [[found | e0] c0] eqn:H0.
  2:{ intros H. injection H as _ <-. exact (keeps_select_quote _ _ _ _ H0). }
  pose proof (keeps_select_quote _ _ _ _ H0) as K0.
  destruct found as [dup |]; [discriminate |].
  unfold St.bind at 1.
  destruct (select_author author c0) as [[result | e1] c1] eqn:H1.
  2:{ intros H. injection H as _ <-.
      rewrite (keeps_select_author _ _ _ _ H1). exact K0. }
  pose proof (keeps_select_author _ _ _ _ H1) as K1.
  unfold St.bind at 1.
  destruct ((match result with
             | Some id => St.ret id
             | None => insert_author author
             end) c1) as [[author_id | e2] c2] eqn:H2.
  2:{ intros H. injection H as _ <-.
      destruct result; [discriminate |].
      rewrite (keeps_insert_author _ _ _ _ H2). congruence. }
  assert (K2 : stored c2 = stored c1).
  { destruct result; [now injection H2 as _ <- |].
    exact (keeps_insert_author _ _ _ _ H2). }
  unfold St.bind at 1.
  destruct (insert_quote_row text author_id source_url c2)
    as [[quote_id | e3] c3] eqn:H3.
  2:{ intros H. injection H as _ <-.
      rewrite (keeps_insert_quote_row _ _ _ _ _ _ H3). congruence. }
  pose proof (keeps_insert_quote_row _ _ _ _ _ _ H3) as K3.
  unfold St.bind at 1.
  destruct (add_tags quote_id tags c3) as [[[] | e4] c4] eqn:H4.
  2:{ intros H. injection H as _ <-.
      rewrite (keeps_add_tags _ _ _ _ _ H4). congruence. }
  discriminate.
Qed.

(** C10. When a call of [insert_quote] raises, whatever it had written so
    far (an author, the quote, tags) is rolled back before the exception
    leaves the function: the database file holds what it held before the
    call. *)
Theorem insert_quote_atomic text author tags source_url file e file' :
  insert_quote text author tags source_url file = (Py.Raise e, file') ->
  file' = file.
Proof.
  unfold insert_quote, St.try_except.
  destruct (insert_quote_try text author tags source_url (get_connection file))
    as [[r | e0] conn] eqn:Htry; [discriminate |].
  apply insert_quote_try_raise in Htry.
  st_unfold. simpl. intros H. injection H as _ <-. exact Htry.
Qed.

(** What the statements before the commit do to the table [quotes]. *)
Lemma add_tags_ok quote_id tags conn :
  Forall (fun v : value => v <> None) tags ->
  exists conn',
    add_tags quote_id tags conn = (Py.Ok tt, conn') /\
    quotes (current conn') = quotes (current conn) /\
    quotes_seq (current conn') = quotes_seq (current conn).
Proof.
  intros Htags. revert conn.
  induction Htags as [| tag_name rest Htag _ IH]; intros conn.
  - exists conn. repeat split.
  - destruct tag_name as [name |]; [| congruence].
    simpl add_tags. st_unfold. simpl.
    destruct (List.find (fun r => String.eqb (snd r) name) (tags (current conn)))
      as [row |] eqn:Hfind.
    + match goal with
      | |- context [add_tags quote_id rest ?c] =>
          destruct (IH c) as (conn' & Hrun & Hq & Hs)
      end.
      exists conn'. rewrite Hrun. repeat split.
      * rewrite Hq. unfold change, St.update. simpl.
        now destruct (existsb _ _).
      * rewrite Hs. unfold change, St.update. simpl.
        now destruct (existsb _ _).
    + unfold insert_tag. st_unfold. simpl.
      rewrite (find_none_existsb _ _ Hfind). simpl.
      match goal with
      | |- context [add_tags quote_id rest ?c] =>
          destruct (IH c) as (conn' & Hrun & Hq & Hs)
      end.
      exists conn'. rewrite Hrun. repeat split.
      * rewrite Hq. simpl. now destruct (existsb _ _).
      * rewrite Hs. simpl. now destruct (existsb _ _).
Qed.

Lemma insert_quote_duplicate t author tags source_url file :
  (exists row, In row (quotes file) /\ q_text row = t) ->
  insert_quote (Some t) author tags source_url file = (Py.Ok None, file).
Proof.
  intros [row [Hin Htext]].
  destruct (find_some_exists (fun r => String.eqb (q_text r) t) (quotes file))
    as [found Hfound].
  { exists row. split; [exact Hin | now apply String.eqb_eq]. }
  unfold insert_quote, insert_quote_try, select_quote. st_unfold. simpl.
  now rewrite Hfound.
Qed.

Lemma insert_quote_fresh t a tags source_url file :
  ~ (exists row, In row (quotes file) /\ q_text row = t) ->
  Forall (fun v : value => v <> None) tags ->
  exists author_id file',
    insert_quote (Some t) (Some a) tags source_url file =
      (Py.Ok (Some (quotes_seq file + 1)), file') /\
    quotes file' =
      (quotes file ++ [mk_row (quotes_seq file + 1) t author_id source_url])%list.
Proof.
  intros Hfresh Htags.
  assert (Hnone : List.find (fun r => String.eqb (q_text r) t) (quotes file) = None).
  { destruct (List.find _ (quotes file)) as [row |] eqn:Hfind; [| reflexivity].
    exfalso. apply Hfresh. apply find_some in Hfind as [Hin Heq].
    exists row. split; [exact Hin | now apply String.eqb_eq]. }
  unfold insert_quote, insert_quote_try, select_quote, select_author,
    lookup_name, get_connection.
  st_unfold. simpl. rewrite Hnone. simpl.
  match goal with
  | |- context [List.find ?f (authors file)] =>
      destruct (List.find f (authors file)) as [arow |] eqn:Hauthor
  end.
  - unfold insert_quote_row. st_unfold. simpl.
    rewrite (find_none_existsb _ _ Hnone). simpl.
    match goal with
    | |- context [add_tags ?q tags ?c] =>
        destruct (add_tags_ok q tags c Htags) as (conn' & Hrun & Hq & Hs)
    end.
    rewrite Hrun. unfold commit, St.update. simpl.
    exists (fst arow), (current conn'). split; [reflexivity | exact Hq].
  - unfold insert_author. st_unfold. simpl.
    rewrite (find_none_existsb _ _ Hauthor). simpl.
    unfold insert_quote_row. st_unfold. simpl.
    rewrite (find_none_existsb _ _ Hnone). simpl.
    match goal with
    | |- context [add_tags ?q tags ?c] =>
        destruct (add_tags_ok q tags c Htags) as (conn' & Hrun & Hq & Hs)
    end.
    rewrite Hrun. unfold commit, St.update. simpl.
    exists (authors_seq file + 1), (current conn').
    split; [reflexivity | exact Hq].
Qed.

Lemma fresh_filter_nil t file :
  ~ (exists row, In row (quotes file) /\ q_text row = t) ->
  List.filter (fun r => String.eqb (q_text r) t) (quotes file) = [].
Proof.
  intros Hfresh. induction (quotes file) as [| row rows IH]; simpl; [reflexivity |].
  destruct (String.eqb_spec (q_text row) t) as [Heq | Hne].
  - exfalso. apply Hfresh. exists row. split; [now left | exact Heq].
  - apply IH. intros [r [Hin Hr]]. apply Hfresh. exists r. split; [now right | exact Hr].
Qed.

Lemma batch_loop_duplicate q rest source_url n_added n_skipped file t :
  text q = Some t ->
  (exists row, In row (quotes file) /\ q_text row = t) ->
  batch_loop (q :: rest) source_url n_added n_skipped file =
  batch_loop rest source_url n_added (n_skipped + 1) file.
Proof.
  intros Htext Hdup. simpl. rewrite Htext.
  now rewrite (insert_quote_duplicate t _ _ _ file Hdup).
Qed.

(** C9. A quote whose text is already in the table [quotes] is not stored
    again: [insert_quote] answers [None] and leaves the file as it was, and
    [insert_quotes_batch] counts the item as skipped.  Inserting a text that
    is not yet stored (with an author and tags that are strings) and then the
    same text again stores exactly one row with that text; the second call
    answers [None], and the batch made of the item twice reports one added
    and one skipped. *)
Theorem duplicate_quote_is_skipped :
  (forall file t author tags source_url,
     (exists row, In row (quotes file) /\ q_text row = t) ->
     insert_quote (Some t) author tags source_url file = (Py.Ok None, file)) /\
  (forall file q rest source_url n_added n_skipped t,
     text q = Some t ->
     (exists row, In row (quotes file) /\ q_text row = t) ->
     batch_loop (q :: rest) source_url n_added n_skipped file =
     batch_loop rest source_url n_added (n_skipped + 1) file) /\
  (forall file t a tags source_url,
     ~ (exists row, In row (quotes file) /\ q_text row = t) ->
     Forall (fun v : value => v <> None) tags ->
     0 <= quotes_seq file ->
     exists id file1,
       insert_quote (Some t) (Some a) tags source_url file
         = (Py.Ok (Some id), file1) /\
       stored_with_text t file1 = 1%nat /\
       insert_quote (Some t) (Some a) tags source_url file1
         = (Py.Ok None, file1) /\
       insert_quotes_batch
         [mk_item (Some t) (Some a) tags; mk_item (Some t) (Some a) tags]
         source_url file
         = (Py.Ok (mk_counts 1 1), file1)).
Proof.
  split; [| split].
  - intros file t author tags source_url Hdup.
    now apply insert_quote_duplicate.
  - intros file q rest source_url n_added n_skipped t Htext Hdup.
    now apply (batch_loop_duplicate q rest source_url n_added n_skipped file t).
  - intros file t a tags source_url Hfresh Htags Hseq.
    destruct (insert_quote_fresh t a tags source_url file Hfresh Htags)
      as (author_id & file1 & Hrun & Hquotes).
    assert (Hdup : exists row, In row (quotes file1) /\ q_text row = t).
    { exists (mk_row (quotes_seq file + 1) t author_id source_url).
      split; [| reflexivity]. rewrite Hquotes. apply in_or_app. right. now left. }
    exists (quotes_seq file + 1), file1.
    split; [exact Hrun |]. split; [| split].
    + unfold stored_with_text. rewrite Hquotes, List.filter_app.
      rewrite (fresh_filter_nil t file Hfresh). simpl.
      now rewrite String.eqb_refl.
    + now apply insert_quote_duplicate.
    + unfold insert_quotes_batch. simpl. rewrite Hrun.
      unfold Py.int_and.
      replace (quotes_seq file + 1 =? 0) with false
        by (symmetry; apply Z.eqb_neq; lia).
      simpl. now rewrite (insert_quote_duplicate t _ _ _ file1 Hdup).
Qed.

End Sink.

(** On the fresh database the quote goes in once; the second insert is a
    duplicate, and so is a later insert under another author. *)
Lemma duplicate_quote_is_skipped_witness :
  exists id file1,
    Database.insert_quote (Some "To be") (Some "W. S.") [Some "life"] None
      Database.empty = (Py.Ok (Some id), file1) /\
    Database.stored_with_text "To be" file1 = 1%nat /\
    Database.insert_quote (Some "To be") (Some "W. S.") [Some "life"] None file1
      = (Py.Ok None, file1) /\
    Database.insert_quotes_batch
      [Database.mk_item (Some "To be") (Some "W. S.") [Some "life"];
       Database.mk_item (Some "To be") (Some "W. S.") [Some "life"]]
      None Database.empty
      = (Py.Ok (Database.mk_counts 1 1), file1).
Proof.
  apply (proj2 (proj2 duplicate_quote_is_skipped) Database.empty
           "To be"%string "W. S."%string [Some "life"%string] None).
  - intros [row [[] _]].
  - repeat constructor; discriminate.
  - simpl. lia.
Defined.

(** A quote whose second tag is [None]: the author, the quote and the first
    tag are written inside the transaction, then the tag insert fails and
    the file is as before. *)
Lemma insert_quote_atomic_witness :
  (exists conn,
     Database.insert_quote_try (Some "To be") (Some "W. S.") [Some "life"; None]
       None (Database.get_connection Database.empty)
       = (Py.Raise Py.IntegrityError, conn) /\
     Database.authors (Database.current conn) = [(1, "W. S."%string)]) /\
  Database.insert_quote (Some "To be") (Some "W. S.") [Some "life"; None] None
    Database.empty = (Py.Raise Py.IntegrityError, Database.empty).
Proof.
  split.
  - eexists. split; vm_compute; reflexivity.
  - assert (H : exists file',
      Database.insert_quote (Some "To be") (Some "W. S.") [Some "life"; None] None
        Database.empty = (Py.Raise Py.IntegrityError, file')).
    { eexists. vm_compute. reflexivity. }
    destruct H as [file' H].
    rewrite H. f_equal.
    exact (insert_quote_atomic _ _ _ _ _ _ _ H).
Defined.

(** ** Fetching with retries *)
Section Fetching.

Context {unicode : Py.Unicode}.

Import FinalAntibotScraper.

Lemma choice_ok {A} (l : list A) (w : Rt.world) :
  l <> [] ->
  exists a,
    Rt.choice l w =
    (Py.Ok a,
     Rt.mk_world (Rt.script w) (Rt.clock w) (Rt.ticks w) (Rt.fetched w)
                 (S (Rt.draws w)) (Rt.slept w) (Rt.counters w) (Rt.files w)).
Proof.
  intros Hl. unfold Rt.choice.
  destruct (l !! (Rt.pick (Rt.script w) (Rt.draws w) mod length l)%nat)
    as [a |] eqn:Hget.
  - now exists a.
  - apply lookup_ge_None in Hget. destruct l; [congruence |].
    pose proof (Nat.mod_upper_bound (Rt.pick (Rt.script w) (Rt.draws w))
                  (length (a :: l))) as Hlt.
    simpl in *. lia.
Qed.

Lemma sleep_ok (x : Q) (w : Rt.world) :
  (0 <= x)%Q ->
  Rt.sleep x w =
  (Py.Ok tt,
   Rt.mk_world (Rt.script w)
     (Rt.clock w + Rt.micro x + Rt.lag (Rt.script w) (Rt.ticks w))
     (S (Rt.ticks w)) (Rt.fetched w) (Rt.draws w) (Rt.slept w ++ [x])
     (Rt.counters w) (Rt.files w)).
Proof.
  intros Hx. unfold Rt.sleep.
  destruct (Qlt_le_dec x 0) as [Hneg | _]; [| reflexivity].
  exfalso. exact (Qlt_not_le _ _ Hneg Hx).
Qed.

Lemma backoff_wait_nonneg w attempt :
  Rt.fair w -> 0 <= attempt -> (0 <= backoff_wait w attempt)%Q.
Proof.
  intros Hfair Ha. unfold backoff_wait.
  destruct (Hfair (S (Rt.draws w))) as [Hr _].
  assert (H2 : (0 <= inject_Z (2 ^ attempt))%Q).
  { change 0%Q with (inject_Z 0). rewrite <- Zle_Qle. apply Z.pow_nonneg. lia. }
  lra.
Qed.

(** What one pass through the loop of [fetch_with_retry] does, by the
    answer of the transport. *)
Lemma fetch_attempt_spec url max_retries attempt w :
  Rt.fair w -> 0 <= attempt ->
  exists c w1,
    fetch_attempt url max_retries attempt w = (Py.Ok c, w1) /\
    Rt.script w1 = Rt.script w /\ Rt.files w1 = Rt.files w /\
    Rt.fetched w1 = (Rt.fetched w ++ [url])%list /\
    (if attempt <? max_retries - 1
     then Rt.slept w1 = Rt.slept w \/
          (Rt.slept w1 = (Rt.slept w ++ [backoff_wait w attempt])%list /\
           Rt.draws w1 = S (S (Rt.draws w)))
     else Rt.slept w1 = Rt.slept w) /\
    match Rt.transport (Rt.script w) (length (Rt.fetched w)) url with
    | Rt.Response status body =>
        if is_blocked status body then
          Rt.counters w1 = bump_blocks (Rt.counters w) /\
          if attempt <? max_retries - 1
          then c = Continue /\
               Rt.slept w1 = (Rt.slept w ++ [backoff_wait w attempt])%list
          else c = Return None
        else if (400 <=? status) && (status <? 600) then
          Rt.counters w1 = bump_failed (Rt.counters w) /\ c = Continue /\
          ((attempt <? max_retries - 1) = true ->
           Rt.slept w1 = (Rt.slept w ++ [backoff_wait w attempt])%list)
        else
          Rt.counters w1 = bump_successful (Rt.counters w) /\
          c = Return (Some body) /\ Rt.slept w1 = Rt.slept w /\
          Rt.draws w1 = S (Rt.draws w)
    | Rt.Unreachable =>
        Rt.counters w1 = bump_failed (Rt.counters w) /\ c = Continue /\
        ((attempt <? max_retries - 1) = true ->
         Rt.slept w1 = (Rt.slept w ++ [backoff_wait w attempt])%list)
    end.
Proof.
  intros Hfair Hattempt.
  pose proof (backoff_wait_nonneg w attempt Hfair Hattempt) as Hwait.
  unfold fetch_attempt, Rt.try_except, St.try_except.
  unfold St.bind at 1. unfold get_headers.
  destruct (choice_ok USER_AGENTS w) as [ua Hua]; [discriminate |].
  rewrite Hua. unfold St.bind at 1. unfold Rt.requests_get.
  cbn [Rt.script Rt.fetched].
  destruct (Rt.transport (Rt.script w) (length (Rt.fetched w)) url)
    as [status body |].
  - destruct (is_blocked status body).
    + unfold St.bind at 1. unfold Rt.update, St.update.
      destruct (attempt <? max_retries - 1).
      * unfold St.bind at 1. unfold backoff. unfold St.bind at 1.
        unfold Rt.uniform, St.bind at 1, Rt.random_random, Rt.ret, St.ret.
        cbn [Rt.with_counters Rt.script Rt.clock Rt.ticks Rt.fetched Rt.draws
             Rt.slept Rt.counters Rt.files].
        fold (backoff_wait w attempt). rewrite sleep_ok by exact Hwait.
        eexists _, _. split; [reflexivity |]. cbn. repeat split. right. now split.
      * eexists _, _. split; [reflexivity |]. cbn. repeat split.
    + unfold St.bind at 1. unfold Rt.raise_for_status.
      destruct ((400 <=? status) && (status <? 600)).
      * unfold Rt.raise, St.raise. unfold St.bind at 1. unfold Rt.update, St.update.
        destruct (attempt <? max_retries - 1).
        -- unfold St.bind at 1. unfold backoff. unfold St.bind at 1.
           unfold Rt.uniform, St.bind at 1, Rt.random_random, Rt.ret, St.ret.
           cbn [Rt.with_counters Rt.script Rt.clock Rt.ticks Rt.fetched Rt.draws
                Rt.slept Rt.counters Rt.files].
           fold (backoff_wait w attempt). rewrite sleep_ok by exact Hwait.
           eexists _, _. split; [reflexivity |]. cbn. repeat split. right. now split.
        -- eexists _, _. split; [reflexivity |]. cbn. repeat split. discriminate.
      * eexists _, _. split; [reflexivity |]. cbn. repeat split.
        destruct (attempt <? max_retries - 1); [now left | reflexivity].
  - unfold St.bind at 1. unfold Rt.update, St.update.
    destruct (attempt <? max_retries - 1).
    + unfold St.bind at 1. unfold backoff. unfold St.bind at 1.
      unfold Rt.uniform, St.bind at 1, Rt.random_random, Rt.ret, St.ret.
      cbn [Rt.with_counters Rt.script Rt.clock Rt.ticks Rt.fetched Rt.draws
           Rt.slept Rt.counters Rt.files].
      fold (backoff_wait w attempt). rewrite sleep_ok by exact Hwait.
      eexists _, _. split; [reflexivity |]. cbn. repeat split. right. now split.
    + eexists _, _. split; [reflexivity |]. cbn. repeat split. discriminate.
Qed.

Lemma fair_script w w1 : Rt.script w1 = Rt.script w -> Rt.fair w -> Rt.fair w1.
Proof. intros Hs Hf k. rewrite Hs. apply Hf. Qed.

Lemma fetch_attempt_quiet url max_retries attempt w :
  Rt.fair w -> 0 <= attempt ->
  exists c w1,
    fetch_attempt url max_retries attempt w = (Py.Ok c, w1) /\
    Rt.script w1 = Rt.script w /\ Rt.files w1 = Rt.files w /\
    Rt.requests (Rt.counters w1) = Rt.requests (Rt.counters w).
Proof.
  intros Hfair Hattempt.
  destruct (fetch_attempt_spec url max_retries attempt w Hfair Hattempt)
    as (c & w1 & Hrun & Hs & Hf & _ & _ & Hcase).
  exists c, w1. repeat split; try assumption.
  destruct (Rt.transport _ _ _) as [status body |].
  - destruct (is_blocked status body).
    + destruct Hcase as [-> _]. reflexivity.
    + destruct ((400 <=? status) && (status <? 600)).
      * destruct Hcase as [-> _]. reflexivity.
      * destruct Hcase as [-> _]. reflexivity.
  - destruct Hcase as [-> _]. reflexivity.
Qed.

Lemma fetch_loop_total url max_retries attempts w :
  Rt.fair w -> Forall (fun a => 0 <= a) attempts ->
  exists o w1,
    fetch_loop url max_retries attempts w = (Py.Ok o, w1) /\
    Rt.script w1 = Rt.script w /\ Rt.files w1 = Rt.files w /\
    Rt.requests (Rt.counters w1) = Rt.requests (Rt.counters w).
Proof.
  intros Hfair Hall. revert w Hfair.
  induction Hall as [| attempt rest Ha _ IH]; intros w Hfair.
  - exists None, w. repeat split.
  - cbn [fetch_loop]. unfold St.bind.
    destruct (fetch_attempt_quiet url max_retries attempt w Hfair Ha)
      as (c & w1 & Hrun & Hs & Hf & Hr).
    rewrite Hrun. destruct c as [| r].
    + destruct (IH w1 (fair_script _ _ Hs Hfair)) as (o & w2 & Hrun2 & Hs2 & Hf2 & Hr2).
      exists o, w2. repeat split; congruence.
    + exists r, w1. repeat split; assumption.
Qed.

Lemma range_nonneg n : Forall (fun a => 0 <= a) (Py.range n).
Proof.
  unfold Py.range. apply List.Forall_forall. intros a Ha.
  apply in_map_iff in Ha as [k [<- _]]. lia.
Qed.

Lemma smart_delay_ok w :
  Rt.fair w ->
  exists w1,
    smart_delay (3 # 2) (7 # 2) w = (Py.Ok tt, w1) /\
    Rt.script w1 = Rt.script w /\ Rt.files w1 = Rt.files w /\
    Rt.counters w1 = Rt.counters w /\ Rt.fetched w1 = Rt.fetched w /\
    Rt.draws w1 = S (Rt.draws w) /\
    Rt.slept w1 =
      (Rt.slept w ++ [(3 # 2) + ((7 # 2) - (3 # 2)) * Rt.random (Rt.script w) (Rt.draws w)])%list%Q.
Proof.
  intros Hfair. unfold smart_delay. unfold St.bind at 1.
  unfold Rt.uniform, St.bind at 1, Rt.random_random, Rt.ret, St.ret.
  rewrite sleep_ok.
  - eexists. split; [reflexivity |]. cbn. repeat split.
  - destruct (Hfair (Rt.draws w)) as [Hr _]. lra.
Qed.

Lemma fetch_page_total url w :
  Rt.fair w ->
  exists o w1,
    fetch_page url w = (Py.Ok o, w1) /\
    Rt.script w1 = Rt.script w /\ Rt.files w1 = Rt.files w /\
    Rt.requests (Rt.counters w1) = Rt.requests (Rt.counters w) + 1.
Proof.
  intros Hfair. unfold fetch_page. unfold St.bind at 1.
  destruct (smart_delay_ok w Hfair) as (w1 & Hrun & Hs & Hf & Hc & _).
  rewrite Hrun. unfold fetch_with_retry. unfold St.bind at 1.
  unfold Rt.update, St.update.
  match goal with
  | |- context [fetch_loop url 3 ?l ?w2] =>
      destruct (fetch_loop_total url 3 l w2) as (o & w3 & Hrun3 & Hs3 & Hf3 & Hr3)
  end.
  { apply (fair_script w); [cbn; exact Hs | exact Hfair]. }
  { apply range_nonneg. }
  exists o, w3. split; [exact Hrun3 |]. cbn in *.
  repeat split; try congruence.
Qed.

(** 503, 503, then a page that is not blocked. *)
Lemma fetch_with_retry_third_time url w b0 b1 b2 :
  Rt.fair w ->
  Rt.transport (Rt.script w) (length (Rt.fetched w)) url = Rt.Response 503 b0 ->
  Rt.transport (Rt.script w) (S (length (Rt.fetched w))) url = Rt.Response 503 b1 ->
  Rt.transport (Rt.script w) (S (S (length (Rt.fetched w)))) url = Rt.Response 200 b2 ->
  is_blocked 200 b2 = false ->
  exists w',
    fetch_with_retry url 3 w = (Py.Ok (Some b2), w') /\
    Rt.fetched w' = (Rt.fetched w ++ [url; url; url])%list /\
    Rt.slept w' =
      (Rt.slept w ++
       [inject_Z (2 ^ 0) + (0 + (1 - 0) * Rt.random (Rt.script w) (1 + Rt.draws w));
        inject_Z (2 ^ 1) + (0 + (1 - 0) * Rt.random (Rt.script w) (3 + Rt.draws w))])%list%Q /\
    Rt.counters w' =
      bump_successful (bump_blocks (bump_blocks (bump_requests (Rt.counters w)))).
Proof.
  intros Hfair H0 H1 H2 Hok.
  unfold fetch_with_retry. unfold St.bind at 1. unfold Rt.update, St.update.
  change (Py.range 3) with [0; 1; 2].
  set (wa := Rt.with_counters bump_requests w).
  assert (Hfa : Rt.fair wa) by exact Hfair.
  (* first attempt *)
  cbn [fetch_loop]. unfold St.bind at 1.
  destruct (fetch_attempt_spec url 3 0 wa Hfa ltac:(lia))
    as (c0 & w0 & Hrun0 & Hs0 & _ & Hf0 & _ & Hcase0).
  change (Rt.transport (Rt.script wa) (length (Rt.fetched wa)) url)
    with (Rt.transport (Rt.script w) (length (Rt.fetched w)) url) in Hcase0.
  rewrite H0 in Hcase0. cbn in Hcase0. destruct Hcase0 as (Hc0 & -> & Hsl0).
  rewrite Hrun0.
  assert (Hd0 : Rt.draws w0 = S (S (Rt.draws w))).
  { destruct (fetch_attempt_spec url 3 0 wa Hfa ltac:(lia))
      as (c & w0' & Hrun & _ & _ & _ & Hsl & _).
    rewrite Hrun0 in Hrun. injection Hrun as _ <-.
    cbn in Hsl. destruct Hsl as [Hsame | [_ Hd]]; [| exact Hd].
    rewrite Hsame in Hsl0. exfalso.
    apply (f_equal (@length Q)) in Hsl0. rewrite length_app in Hsl0.
    simpl in Hsl0. lia. }
  (* second attempt *)
  pose proof (fair_script _ _ Hs0 Hfa) as Hf0'.
  unfold St.bind at 1.
  destruct (fetch_attempt_spec url 3 1 w0 Hf0' ltac:(lia))
    as (c1 & w1 & Hrun1 & Hs1 & _ & Hf1 & _ & Hcase1).
  rewrite Hs0, Hf0, length_app in Hcase1. cbn [length] in Hcase1.
  replace (length (Rt.fetched wa) + 1)%nat with (S (length (Rt.fetched w)))
    in Hcase1 by (cbn; lia).
  change (Rt.script wa) with (Rt.script w) in Hcase1.
  rewrite H1 in Hcase1. cbn in Hcase1. destruct Hcase1 as (Hc1 & -> & Hsl1).
  rewrite Hrun1.
  (* third attempt *)
  pose proof (fair_script _ _ Hs1 Hf0') as Hf1'.
  unfold St.bind at 1.
  destruct (fetch_attempt_spec url 3 2 w1 Hf1' ltac:(lia))
    as (c2 & w2 & Hrun2 & Hs2 & _ & Hf2 & _ & Hcase2).
  rewrite Hs1, Hs0, Hf1, Hf0, !length_app in Hcase2. cbn [length] in Hcase2.
  replace (length (Rt.fetched wa) + 1 + 1)%nat with (S (S (length (Rt.fetched w))))
    in Hcase2 by (cbn; lia).
  change (Rt.script wa) with (Rt.script w) in Hcase2.
  rewrite H2, Hok in Hcase2. cbn in Hcase2.
  destruct Hcase2 as (Hc2 & -> & Hsl2 & _).
  rewrite Hrun2. exists w2. split; [reflexivity |].
  split; [| split].
  - rewrite Hf2, Hf1, Hf0. cbn. now rewrite <- !app_assoc.
  - rewrite Hsl2, Hsl1, Hsl0. unfold backoff_wait.
    rewrite Hs0, Hd0. cbn. now rewrite <- !app_assoc.
  - rewrite Hc2, Hc1, Hc0. reflexivity.
Qed.

End Fetching.

Section Retrying.

Import Antibot.RetryHandler.

Variable self : t.
Hypothesis base_delay_nonneg : (0 <= base_delay self)%Q.
Hypothesis exponential_base_nonneg : (0 <= exponential_base self)%Q.
Hypothesis max_delay_nonneg : (0 <= max_delay self)%Q.

Lemma jittered_delay_nonneg attempt u :
  (-1 <= u)%Q -> (0 <= jittered_delay self attempt u)%Q.
Proof.
  intros Hu. unfold jittered_delay. apply Q.min_glb; [| exact max_delay_nonneg].
  pose proof (Qpower_0_le (exponential_base self) attempt exponential_base_nonneg)
    as Hpow.
  pose proof (Qmult_le_0_compat _ _ base_delay_nonneg Hpow) as Hraw.
  assert (Hfactor : (0 <= 1 + (1 # 4) * u)%Q) by lra.
  pose proof (Qmult_le_0_compat _ _ Hraw Hfactor) as Hprod.
  eapply Qle_trans; [exact Hprod |].
  apply Qle_lteq. right. ring.
Qed.

(** The pause between two attempts: the delay is drawn and slept. *)
Lemma pause_ok attempt w :
  Py.float_pow (exponential_base self) attempt
    = Py.Ok (exponential_base self ^ attempt)%Q ->
  Rt.fair w ->
  (do delay <- get_delay self attempt; Rt.sleep delay) w =
  (Py.Ok tt,
   Rt.mk_world (Rt.script w)
     (Rt.clock w + Rt.micro (jittered_delay self attempt (Rt.next_jitter w))
      + Rt.lag (Rt.script w) (Rt.ticks w))
     (S (Rt.ticks w)) (Rt.fetched w) (S (Rt.draws w))
     (Rt.slept w ++ [jittered_delay self attempt (Rt.next_jitter w)])
     (Rt.counters w) (Rt.files w)).
Proof.
  intros Hpow Hfair. unfold St.bind at 1. unfold get_delay. rewrite Hpow.
  unfold St.bind at 1.
  unfold Rt.uniform, St.bind at 1, Rt.random_random, Rt.ret, St.ret.
  fold (Rt.next_jitter w). rewrite sleep_ok; [reflexivity |].
  apply jittered_delay_nonneg. unfold Rt.next_jitter.
  destruct (Hfair (Rt.draws w)) as [Hr _]. lra.
Qed.

Lemma retry_loop_raise {A} (func : Rt.M A) attempt rest last w e wa :
  func w = (Py.Raise e, wa) -> attempt < max_retries self ->
  Py.float_pow (exponential_base self) attempt
    = Py.Ok (exponential_base self ^ attempt)%Q ->
  Rt.fair wa ->
  retry_loop self func (attempt :: rest) last w =
  retry_loop self func rest (Some e)
    (Rt.mk_world (Rt.script wa)
       (Rt.clock wa + Rt.micro (jittered_delay self attempt (Rt.next_jitter wa))
        + Rt.lag (Rt.script wa) (Rt.ticks wa))
       (S (Rt.ticks wa)) (Rt.fetched wa) (S (Rt.draws wa))
       (Rt.slept wa ++ [jittered_delay self attempt (Rt.next_jitter wa)])
       (Rt.counters wa) (Rt.files wa)).
Proof.
  intros Hrun Hlt Hpow Hfair. cbn [retry_loop].
  unfold Rt.try_except, St.try_except. rewrite Hrun.
  replace (attempt <? max_retries self) with true
    by (symmetry; now apply Z.ltb_lt).
  unfold St.bind at 1. now rewrite pause_ok.
Qed.

Lemma retry_loop_return {A} (func : Rt.M A) attempt rest last w a wa :
  func w = (Py.Ok a, wa) ->
  retry_loop self func (attempt :: rest) last w = (Py.Ok a, wa).
Proof.
  intros Hrun. cbn [retry_loop]. unfold Rt.try_except, St.try_except.
  now rewrite Hrun.
Qed.

End Retrying.

(** ** Requests of [advanced_scraper.py] *)
Section Requests.

Context {unicode : Py.Unicode}.

Lemma range_three n :
  3 <= n -> exists rest, Py.range n = 0 :: 1 :: 2 :: rest.
Proof.
  intros Hn. unfold Py.range.
  destruct (Z.to_nat n) as [| [| [| k]]] eqn:Hk; try lia.
  eexists. reflexivity.
Qed.

(** What [do_request] does, by the answer of the transport. *)
Lemma do_request_spec url w :
  exists r w1,
    AdvancedScraper.do_request url w = (r, w1) /\
    Rt.script w1 = Rt.script w /\ Rt.files w1 = Rt.files w /\
    Rt.fetched w1 = (Rt.fetched w ++ [url])%list /\
    Rt.draws w1 = S (Rt.draws w) /\ Rt.slept w1 = Rt.slept w /\
    Rt.requests (Rt.counters w1) = Rt.requests (Rt.counters w) /\
    match Rt.transport (Rt.script w) (length (Rt.fetched w)) url with
    | Rt.Response status body =>
        if (400 <=? status) && (status <? 600)
        then r = Py.Raise (Py.HTTPError status)
        else if AdvancedScraper.CaptchaDetector.is_blocked status (Some body)
        then exists reason, r = Py.Raise (Py.Blocked reason)
        else r = Py.Ok body /\ Rt.counters w1 = Rt.counters w
    | Rt.Unreachable => r = Py.Raise Py.ConnectionError
    end.
Proof.
  unfold AdvancedScraper.do_request. unfold St.bind at 1.
  unfold AdvancedScraper.UserAgentRotator.get_headers,
    AdvancedScraper.UserAgentRotator.get_random.
  destruct (choice_ok AdvancedScraper.UserAgentRotator.USER_AGENTS w)
    as [ua Hua]; [discriminate |].
  rewrite Hua. unfold St.bind at 1. unfold Rt.requests_get.
  cbn [Rt.script Rt.fetched].
  destruct (Rt.transport (Rt.script w) (length (Rt.fetched w)) url)
    as [status body |].
  - unfold St.bind at 1. unfold Rt.raise_for_status.
    destruct ((400 <=? status) && (status <? 600)).
    + eexists _, _. split; [reflexivity |]. cbn. repeat split.
    + cbn [Rt.ret St.ret].
      destruct (AdvancedScraper.CaptchaDetector.is_blocked status (Some body)).
      * eexists _, _. split; [reflexivity |]. cbn. repeat split. eexists. reflexivity.
      * eexists _, _. split; [reflexivity |]. cbn. repeat split.
  - eexists _, _. split; [reflexivity |]. cbn. repeat split.
Qed.

(** 503, 503, then a page that is not blocked, under [execute_with_retry]. *)
Lemma execute_with_retry_third_time (self : Antibot.RetryHandler.t) url w b0 b1 b2 :
  (0 <= Antibot.RetryHandler.base_delay self)%Q ->
  (0 <= Antibot.RetryHandler.exponential_base self)%Q ->
  (0 <= Antibot.RetryHandler.max_delay self)%Q ->
  2 <= Antibot.RetryHandler.max_retries self ->
  Rt.fair w ->
  Rt.transport (Rt.script w) (length (Rt.fetched w)) url = Rt.Response 503 b0 ->
  Rt.transport (Rt.script w) (S (length (Rt.fetched w))) url = Rt.Response 503 b1 ->
  Rt.transport (Rt.script w) (S (S (length (Rt.fetched w)))) url = Rt.Response 200 b2 ->
  AdvancedScraper.CaptchaDetector.is_blocked 200 (Some b2) = false ->
  exists w',
    Antibot.RetryHandler.execute_with_retry self (AdvancedScraper.do_request url) w
      = (Py.Ok b2, w') /\
    Rt.fetched w' = (Rt.fetched w ++ [url; url; url])%list /\
    Rt.slept w' =
      (Rt.slept w ++
       [Antibot.RetryHandler.jittered_delay self 0
          (-1 + (1 - -1) * Rt.random (Rt.script w) (1 + Rt.draws w));
        Antibot.RetryHandler.jittered_delay self 1
          (-1 + (1 - -1) * Rt.random (Rt.script w) (3 + Rt.draws w))])%list%Q.
Proof.
  intros Hbase Hexp Hmax Hretries Hfair H0 H1 H2 Hok.
  unfold Antibot.RetryHandler.execute_with_retry.
  destruct (range_three (Antibot.RetryHandler.max_retries self + 1)) as [rest ->];
    [lia |].
  (* first call *)
  destruct (do_request_spec url w)
    as (r0 & wa & Hrun0 & Hsa & _ & Hfa & Hda & Hsla & _ & Hcase0).
  rewrite H0 in Hcase0. cbn in Hcase0. subst r0.
  rewrite (retry_loop_raise self Hbase Hexp Hmax _ 0 _ _ w _ wa Hrun0);
    [| lia | apply float_pow_first; now left | exact (fair_script _ _ Hsa Hfair)].
  set (wb := Rt.mk_world _ _ _ _ _ _ _ _).
  assert (Hfb : Rt.fair wb) by (apply (fair_script w); [exact Hsa | exact Hfair]).
  (* second call *)
  destruct (do_request_spec url wb)
    as (r1 & wc & Hrun1 & Hsc & _ & Hfc & Hdc & Hslc & _ & Hcase1).
  change (Rt.script wb) with (Rt.script wa) in Hcase1, Hsc.
  change (Rt.fetched wb) with (Rt.fetched wa) in Hcase1, Hfc.
  rewrite Hsa, Hfa, length_app in Hcase1. cbn [length] in Hcase1.
  replace (length (Rt.fetched w) + 1)%nat with (S (length (Rt.fetched w)))
    in Hcase1 by lia.
  rewrite H1 in Hcase1. cbn in Hcase1. subst r1.
  rewrite (retry_loop_raise self Hbase Hexp Hmax _ 1 _ _ wb _ wc Hrun1);
    [| lia | apply float_pow_first; now right
     | apply (fair_script w); [congruence | exact Hfair]].
  set (wd := Rt.mk_world _ _ _ _ _ _ _ _).
  (* third call *)
  destruct (do_request_spec url wd)
    as (r2 & we & Hrun2 & Hse & _ & Hfe & Hde & Hsle & _ & Hcase2).
  change (Rt.script wd) with (Rt.script wc) in Hcase2, Hse.
  change (Rt.fetched wd) with (Rt.fetched wc) in Hcase2, Hfe.
  rewrite Hsc, Hsa, Hfc, Hfa, !length_app in Hcase2. cbn [length] in Hcase2.
  replace (length (Rt.fetched w) + 1 + 1)%nat with (S (S (length (Rt.fetched w))))
    in Hcase2 by lia.
  rewrite H2, Hok in Hcase2. cbn in Hcase2. destruct Hcase2 as [-> _].
  rewrite (retry_loop_return self _ 2 _ _ wd _ we Hrun2).
  exists we. split; [reflexivity |]. split.
  - rewrite Hfe, Hfc, Hfa. now rewrite <- !app_assoc.
  - rewrite Hsle. subst wd. cbn [Rt.slept]. rewrite Hslc. subst wb.
    cbn [Rt.slept]. rewrite Hsla. unfold Rt.next_jitter.
    rewrite Hdc. cbn [Rt.draws Rt.script]. rewrite Hsc, Hsa, Hda.
    now rewrite <- !app_assoc.
Qed.

End Requests.

(** ** Pagination ([FinalAntibotScraper.main]) *)
Section FinalMain.

Context {unicode : Py.Unicode}.

Import FinalAntibotScraper.

Variable MAX_PAGES : Z.
Variable parse_quotes : string -> list Rt.quote.
Variable get_next_page : string -> option string.

Local Abbreviation main_loop := (main_loop MAX_PAGES parse_quotes get_next_page).
Local Abbreviation main := (main MAX_PAGES parse_quotes get_next_page).

(** A page that the fetcher gets at the first attempt. *)
Lemma fetch_page_first_try url w status body :
  Rt.fair w ->
  Rt.transport (Rt.script w) (length (Rt.fetched w)) url = Rt.Response status body ->
  is_blocked status body = false ->
  (400 <=? status) && (status <? 600) = false ->
  exists w1,
    fetch_page url w = (Py.Ok (Some body), w1) /\
    Rt.script w1 = Rt.script w /\ Rt.files w1 = Rt.files w /\
    Rt.fetched w1 = (Rt.fetched w ++ [url])%list /\
    Rt.counters w1 = bump_successful (bump_requests (Rt.counters w)).
Proof.
  intros Hfair Htr Hok Hstatus. unfold fetch_page. unfold St.bind at 1.
  destruct (smart_delay_ok w Hfair) as (w1 & Hrun & Hs & Hf & Hc & Hfe & _).
  rewrite Hrun. unfold fetch_with_retry. unfold St.bind at 1.
  unfold Rt.update, St.update. change (Py.range 3) with [0; 1; 2].
  set (wa := Rt.with_counters bump_requests w1).
  assert (Hfa : Rt.fair wa) by (apply (fair_script w); [exact Hs | exact Hfair]).
  cbn [fetch_loop]. unfold St.bind at 1.
  destruct (fetch_attempt_spec url 3 0 wa Hfa ltac:(lia))
    as (c0 & w0 & Hrun0 & Hs0 & Hf0 & Hfe0 & _ & Hcase0).
  change (Rt.script wa) with (Rt.script w1) in Hcase0, Hs0.
  change (Rt.fetched wa) with (Rt.fetched w1) in Hcase0, Hfe0.
  change (Rt.files wa) with (Rt.files w1) in Hf0.
  rewrite Hs, Hfe, Htr, Hok, Hstatus in Hcase0.
  destruct Hcase0 as (Hc0 & -> & _).
  rewrite Hrun0. exists w0. split; [reflexivity |].
  repeat split; try congruence.
  rewrite Hc0. cbn. now rewrite Hc.
Qed.

(** A page on which the fetcher gives up: three blocked answers. *)
Lemma fetch_page_gives_up url w s0 b0 s1 b1 s2 b2 :
  Rt.fair w ->
  Rt.transport (Rt.script w) (length (Rt.fetched w)) url = Rt.Response s0 b0 ->
  Rt.transport (Rt.script w) (S (length (Rt.fetched w))) url = Rt.Response s1 b1 ->
  Rt.transport (Rt.script w) (S (S (length (Rt.fetched w)))) url = Rt.Response s2 b2 ->
  is_blocked s0 b0 = true -> is_blocked s1 b1 = true -> is_blocked s2 b2 = true ->
  exists w1,
    fetch_page url w = (Py.Ok None, w1) /\
    Rt.script w1 = Rt.script w /\ Rt.files w1 = Rt.files w /\
    Rt.fetched w1 = (Rt.fetched w ++ [url; url; url])%list.
Proof.
  intros Hfair H0 H1 H2 B0 B1 B2. unfold fetch_page. unfold St.bind at 1.
  destruct (smart_delay_ok w Hfair) as (w1 & Hrun & Hs & Hf & Hc & Hfe & _).
  rewrite Hrun. unfold fetch_with_retry. unfold St.bind at 1.
  unfold Rt.update, St.update. change (Py.range 3) with [0; 1; 2].
  set (wa := Rt.with_counters bump_requests w1).
  assert (Hfa : Rt.fair wa) by (apply (fair_script w); [exact Hs | exact Hfair]).
  cbn [fetch_loop]. unfold St.bind at 1.
  destruct (fetch_attempt_spec url 3 0 wa Hfa ltac:(lia))
    as (c0 & w0 & Hrun0 & Hs0 & Hf0 & Hfe0 & _ & Hcase0).
  change (Rt.script wa) with (Rt.script w1) in Hcase0, Hs0.
  change (Rt.fetched wa) with (Rt.fetched w1) in Hcase0, Hfe0.
  change (Rt.files wa) with (Rt.files w1) in Hf0.
  rewrite Hs, Hfe, H0, B0 in Hcase0. cbn in Hcase0.
  destruct Hcase0 as (_ & -> & _). rewrite Hrun0.
  assert (Hf0' : Rt.fair w0) by (apply (fair_script w); [congruence | exact Hfair]).
  unfold St.bind at 1.
  destruct (fetch_attempt_spec url 3 1 w0 Hf0' ltac:(lia))
    as (c1 & w2 & Hrun1 & Hs1 & Hf1 & Hfe1 & _ & Hcase1).
  rewrite Hs0, Hs, Hfe0, Hfe, length_app in Hcase1. cbn [length] in Hcase1.
  replace (length (Rt.fetched w) + 1)%nat with (S (length (Rt.fetched w)))
    in Hcase1 by lia.
  rewrite H1, B1 in Hcase1. cbn in Hcase1.
  destruct Hcase1 as (_ & -> & _). rewrite Hrun1.
  assert (Hf1' : Rt.fair w2) by (apply (fair_script w); [congruence | exact Hfair]).
  unfold St.bind at 1.
  destruct (fetch_attempt_spec url 3 2 w2 Hf1' ltac:(lia))
    as (c2 & w3 & Hrun2 & Hs2 & Hf2 & Hfe2 & _ & Hcase2).
  rewrite Hs1, Hs0, Hs, Hfe1, Hfe0, Hfe, !length_app in Hcase2.
  cbn [length] in Hcase2.
  replace (length (Rt.fetched w) + 1 + 1)%nat with (S (S (length (Rt.fetched w))))
    in Hcase2 by lia.
  rewrite H2, B2 in Hcase2. cbn in Hcase2.
  destruct Hcase2 as (_ & ->). rewrite Hrun2.
  exists w3. split; [reflexivity |].
  repeat split; try congruence.
  rewrite Hfe2, Hfe1, Hfe0, Hfe. now rewrite <- !app_assoc.
Qed.

(** The loop always comes to an end, keeps what it has collected and issues
    at most one fetch per page up to the cap. *)
Lemma main_loop_total fuel acc url page w :
  Rt.fair w -> MAX_PAGES + 1 - page <= Z.of_nat fuel ->
  exists r w',
    main_loop fuel acc url page w = (Py.Ok (Some r), w') /\
    Rt.script w' = Rt.script w /\ Rt.files w' = Rt.files w /\
    Rt.requests (Rt.counters w') - Rt.requests (Rt.counters w)
      <= Z.max 0 (MAX_PAGES + 1 - page) /\
    exists more, r = (acc ++ more)%list.
Proof.
  revert acc url page w.
  induction fuel as [| fuel IH]; intros acc url page w Hfair Hfuel.
  - cbn [FinalAntibotScraper.main_loop].
    destruct (Z.leb_spec page MAX_PAGES); [lia |]. rewrite andb_false_r.
    exists acc, w. split; [reflexivity |]. repeat split; try lia.
    exists []. now rewrite app_nil_r.
  - cbn [FinalAntibotScraper.main_loop].
    destruct (negb (String.eqb url "") && (page <=? MAX_PAGES)) eqn:Hcond.
    2:{ exists acc, w. split; [reflexivity |]. repeat split; try lia.
        exists []. now rewrite app_nil_r. }
    apply andb_true_iff in Hcond as [_ Hpage]. apply Z.leb_le in Hpage.
    unfold St.bind at 1.
    destruct (fetch_page_total url w Hfair) as (o & w1 & Hrun & Hs & Hf & Hr).
    rewrite Hrun. destruct o as [html |].
    2:{ exists acc, w1. split; [reflexivity |]. repeat split; try assumption; try lia.
        exists []. now rewrite app_nil_r. }
    destruct (get_next_page html) as [[| c rest] |].
    + exists (acc ++ parse_quotes html)%list, w1. split; [reflexivity |].
      repeat split; try assumption; try lia. now exists (parse_quotes html).
    + destruct (IH (acc ++ parse_quotes html)%list (BASE_URL +:+ String c rest)
                   (page + 1) w1 (fair_script _ _ Hs Hfair) ltac:(lia))
        as (r & w' & Hrun' & Hs' & Hf' & Hr' & more & Hmore).
      exists r, w'. split; [exact Hrun' |].
      repeat split; try congruence; try lia.
      exists (parse_quotes html ++ more)%list. now rewrite app_assoc.
    + exists (acc ++ parse_quotes html)%list, w1. split; [reflexivity |].
      repeat split; try assumption; try lia. now exists (parse_quotes html).
Qed.

(** A terminal failure of the fetcher ends the loop with what was collected. *)
Lemma main_loop_fetch_failure fuel acc url page w w1 :
  url <> ""%string -> page <= MAX_PAGES ->
  fetch_page url w = (Py.Ok None, w1) ->
  main_loop (S fuel) acc url page w = (Py.Ok (Some acc), w1).
Proof.
  intros Hurl Hpage Hrun. cbn [FinalAntibotScraper.main_loop].
  replace (String.eqb url "") with false
    by (symmetry; now apply String.eqb_neq).
  replace (page <=? MAX_PAGES) with true by (symmetry; now apply Z.leb_le).
  cbn [negb andb]. unfold St.bind at 1. now rewrite Hrun.
Qed.

(** A fetched page is read and the loop goes on to the next link. *)
Lemma main_loop_next fuel acc url page w w1 html c rest :
  url <> ""%string -> page <= MAX_PAGES ->
  fetch_page url w = (Py.Ok (Some html), w1) ->
  get_next_page html = Some (String c rest) ->
  main_loop (S fuel) acc url page w =
  main_loop fuel (acc ++ parse_quotes html) (BASE_URL +:+ String c rest)
            (page + 1) w1.
Proof.
  intros Hurl Hpage Hrun Hnext. cbn [FinalAntibotScraper.main_loop].
  replace (String.eqb url "") with false
    by (symmetry; now apply String.eqb_neq).
  replace (page <=? MAX_PAGES) with true by (symmetry; now apply Z.leb_le).
  cbn [negb andb]. unfold St.bind at 1. now rewrite Hrun, Hnext.
Qed.

(** A fetched page without a next link ends the loop. *)
Lemma main_loop_last fuel acc url page w w1 html :
  url <> ""%string -> page <= MAX_PAGES ->
  fetch_page url w = (Py.Ok (Some html), w1) ->
  get_next_page html = None \/ get_next_page html = Some ""%string ->
  main_loop (S fuel) acc url page w =
  (Py.Ok (Some (acc ++ parse_quotes html)%list), w1).
Proof.
  intros Hurl Hpage Hrun Hnext. cbn [FinalAntibotScraper.main_loop].
  replace (String.eqb url "") with false
    by (symmetry; now apply String.eqb_neq).
  replace (page <=? MAX_PAGES) with true by (symmetry; now apply Z.leb_le).
  cbn [negb andb]. unfold St.bind at 1. rewrite Hrun.
  destruct Hnext as [-> | ->]; reflexivity.
Qed.

(** What [main] does once its loop has ended. *)
Lemma main_after_loop w r w1 :
  main_loop (Z.to_nat MAX_PAGES) [] BASE_URL 1 w = (Py.Ok (Some r), w1) ->
  exists w',
    main w = (Py.Ok (Some r), w') /\
    Rt.script w' = Rt.script w1 /\ Rt.fetched w' = Rt.fetched w1 /\
    Rt.counters w' = Rt.counters w1 /\
    Rt.files w' =
      (Rt.files w1 ++
       match r with
       | [] => []
       | _ => [("data/quotes_antibot.csv"%string, r);
               ("data/quotes_antibot.json"%string, r)]
       end)%list.
Proof.
  intros Hrun. unfold FinalAntibotScraper.main. unfold St.bind at 1. rewrite Hrun.
  destruct r as [| q r].
  - exists w1. split; [reflexivity |]. repeat split. cbn. now rewrite app_nil_r.
  - eexists. split; [reflexivity |]. cbn. repeat split.
    now rewrite <- app_assoc.
Qed.

Lemma base_url_app_nonempty (next : string) : BASE_URL +:+ next <> ""%string.
Proof. discriminate. Qed.

(** Every page is fetched at once and offers a next link: the loop runs
    until the counter passes the cap. *)
Lemma main_loop_capped body c rest fuel acc url page w :
  Rt.fair w -> url <> ""%string ->
  Z.of_nat fuel = MAX_PAGES + 1 - page ->
  (forall k u, Rt.transport (Rt.script w) k u = Rt.Response 200 body) ->
  is_blocked 200 body = false ->
  get_next_page body = Some (String c rest) ->
  exists w',
    main_loop fuel acc url page w =
      (Py.Ok (Some (acc ++ concat (repeat (parse_quotes body) fuel))%list), w') /\
    Rt.script w' = Rt.script w /\ Rt.files w' = Rt.files w /\
    Rt.requests (Rt.counters w') = Rt.requests (Rt.counters w) + Z.of_nat fuel /\
    length (Rt.fetched w') = (length (Rt.fetched w) + fuel)%nat.
Proof.
  intros Hfair Hurl Hfuel Htr Hok Hnext. revert acc url page w Hfair Hurl Hfuel Htr.
  induction fuel as [| fuel IH]; intros acc url page w Hfair Hurl Hfuel Htr.
  - cbn [FinalAntibotScraper.main_loop].
    destruct (Z.leb_spec page MAX_PAGES); [lia |]. rewrite andb_false_r.
    exists w. cbn. rewrite app_nil_r. repeat split; lia.
  - destruct (fetch_page_first_try url w 200 body Hfair (Htr _ _) Hok eq_refl)
      as (w1 & Hrun & Hs & Hf & Hfe & Hc).
    rewrite (main_loop_next fuel acc url page w w1 body c rest Hurl ltac:(lia)
               Hrun Hnext).
    destruct (IH (acc ++ parse_quotes body)%list (BASE_URL +:+ String c rest)
                 (page + 1) w1 (fair_script _ _ Hs Hfair)
                 (base_url_app_nonempty _) ltac:(lia))
      as (w' & Hrun' & Hs' & Hf' & Hr' & Hfe').
    { intros k u. rewrite Hs. apply Htr. }
    exists w'. split.
    + rewrite Hrun'. cbn [repeat concat]. now rewrite <- app_assoc.
    + repeat split; try congruence.
      * rewrite Hr', Hc. cbn. lia.
      * rewrite Hfe', Hfe, length_app. cbn. lia.
Qed.

(** Three pages, the third without a next link. *)
Lemma main_three_pages w h1 h2 h3 c1 n1 c2 n2 :
  Rt.fair w -> 3 <= MAX_PAGES ->
  Rt.transport (Rt.script w) (length (Rt.fetched w)) BASE_URL
    = Rt.Response 200 h1 ->
  Rt.transport (Rt.script w) (S (length (Rt.fetched w)))
    (BASE_URL +:+ String c1 n1) = Rt.Response 200 h2 ->
  Rt.transport (Rt.script w) (S (S (length (Rt.fetched w))))
    (BASE_URL +:+ String c2 n2) = Rt.Response 200 h3 ->
  is_blocked 200 h1 = false -> is_blocked 200 h2 = false ->
  is_blocked 200 h3 = false ->
  get_next_page h1 = Some (String c1 n1) ->
  get_next_page h2 = Some (String c2 n2) ->
  get_next_page h3 = None ->
  exists w',
    main w =
      (Py.Ok (Some (parse_quotes h1 ++ parse_quotes h2 ++ parse_quotes h3)%list), w') /\
    Rt.fetched w' =
      (Rt.fetched w ++
       [BASE_URL; BASE_URL +:+ String c1 n1; BASE_URL +:+ String c2 n2])%list /\
    Rt.requests (Rt.counters w') = Rt.requests (Rt.counters w) + 3.
Proof.
  intros Hfair Hmax T1 T2 T3 B1 B2 B3 N1 N2 N3.
  destruct (Z.to_nat MAX_PAGES) as [| [| [| fuel]]] eqn:Hfuel; try lia.
  destruct (fetch_page_first_try BASE_URL w 200 h1 Hfair T1 B1 eq_refl)
    as (w1 & Hrun1 & Hs1 & Hf1 & Hfe1 & Hc1).
  assert (Hfair1 : Rt.fair w1) by exact (fair_script _ _ Hs1 Hfair).
  destruct (fetch_page_first_try (BASE_URL +:+ String c1 n1) w1 200 h2 Hfair1)
    as (w2 & Hrun2 & Hs2 & Hf2 & Hfe2 & Hc2); [| exact B2 | reflexivity |].
  { rewrite Hs1, Hfe1, length_app. cbn [length].
    replace (length (Rt.fetched w) + 1)%nat with (S (length (Rt.fetched w))) by lia.
    exact T2. }
  assert (Hfair2 : Rt.fair w2) by exact (fair_script _ _ Hs2 Hfair1).
  destruct (fetch_page_first_try (BASE_URL +:+ String c2 n2) w2 200 h3 Hfair2)
    as (w3 & Hrun3 & Hs3 & Hf3 & Hfe3 & Hc3); [| exact B3 | reflexivity |].
  { rewrite Hs2, Hs1, Hfe2, Hfe1, !length_app. cbn [length].
    replace (length (Rt.fetched w) + 1 + 1)%nat
      with (S (S (length (Rt.fetched w)))) by lia.
    exact T3. }
  assert (Hloop :
    main_loop (Z.to_nat MAX_PAGES) [] BASE_URL 1 w =
    (Py.Ok (Some (parse_quotes h1 ++ parse_quotes h2 ++ parse_quotes h3)%list), w3)).
  { rewrite Hfuel.
    rewrite (main_loop_next _ [] BASE_URL 1 w w1 h1 c1 n1
               ltac:(discriminate) ltac:(lia) Hrun1 N1).
    rewrite (main_loop_next _ _ _ (1 + 1) w1 w2 h2 c2 n2
               (base_url_app_nonempty _) ltac:(lia) Hrun2 N2).
    rewrite (main_loop_last _ _ _ (1 + 1 + 1) w2 w3 h3
               (base_url_app_nonempty _) ltac:(lia) Hrun3 (or_introl N3)).
    cbn [app]. now rewrite <- app_assoc. }
  destruct (main_after_loop w _ w3 Hloop) as (w' & Hmain & _ & Hfe' & Hc' & _).
  exists w'. split; [exact Hmain |]. split.
  - rewrite Hfe', Hfe3, Hfe2, Hfe1. now rewrite <- !app_assoc.
  - rewrite Hc', Hc3, Hc2, Hc1. cbn. lia.
Qed.

(** The first page is read, the fetcher gives up on the second. *)
Lemma main_second_page_fails w h1 c1 n1 s0 b0 s1 b1 s2 b2 :
  Rt.fair w -> 2 <= MAX_PAGES ->
  Rt.transport (Rt.script w) (length (Rt.fetched w)) BASE_URL
    = Rt.Response 200 h1 ->
  is_blocked 200 h1 = false ->
  get_next_page h1 = Some (String c1 n1) ->
  Rt.transport (Rt.script w) (1 + length (Rt.fetched w))
    (BASE_URL +:+ String c1 n1) = Rt.Response s0 b0 ->
  Rt.transport (Rt.script w) (2 + length (Rt.fetched w))
    (BASE_URL +:+ String c1 n1) = Rt.Response s1 b1 ->
  Rt.transport (Rt.script w) (3 + length (Rt.fetched w))
    (BASE_URL +:+ String c1 n1) = Rt.Response s2 b2 ->
  is_blocked s0 b0 = true -> is_blocked s1 b1 = true -> is_blocked s2 b2 = true ->
  exists w',
    main w = (Py.Ok (Some (parse_quotes h1)), w') /\
    Rt.files w' =
      (Rt.files w ++
       match parse_quotes h1 with
       | [] => []
       | _ => [("data/quotes_antibot.csv"%string, parse_quotes h1);
               ("data/quotes_antibot.json"%string, parse_quotes h1)]
       end)%list.
Proof.
  intros Hfair Hmax T1 B1 N1 T2 T3 T4 K2 K3 K4.
  destruct (Z.to_nat MAX_PAGES) as [| [| fuel]] eqn:Hfuel; try lia.
  destruct (fetch_page_first_try BASE_URL w 200 h1 Hfair T1 B1 eq_refl)
    as (w1 & Hrun1 & Hs1 & Hf1 & Hfe1 & Hc1).
  assert (Hfair1 : Rt.fair w1) by exact (fair_script _ _ Hs1 Hfair).
  assert (Hlen : length (Rt.fetched w1) = S (length (Rt.fetched w))).
  { rewrite Hfe1, length_app. cbn. lia. }
  destruct (fetch_page_gives_up (BASE_URL +:+ String c1 n1) w1 s0 b0 s1 b1 s2 b2
              Hfair1)
    as (w2 & Hrun2 & Hs2 & Hf2 & Hfe2); try assumption;
    try (rewrite Hs1, Hlen; assumption).
  assert (Hloop :
    main_loop (Z.to_nat MAX_PAGES) [] BASE_URL 1 w =
    (Py.Ok (Some (parse_quotes h1)), w2)).
  { rewrite Hfuel.
    rewrite (main_loop_next _ [] BASE_URL 1 w w1 h1 c1 n1
               ltac:(discriminate) ltac:(lia) Hrun1 N1).
    now rewrite (main_loop_fetch_failure _ _ _ (1 + 1) w1 w2
                   (base_url_app_nonempty _) ltac:(lia) Hrun2). }
  destruct (main_after_loop w _ w2 Hloop) as (w' & Hmain & _ & _ & _ & Hf').
  exists w'. split; [exact Hmain |]. rewrite Hf', Hf2, Hf1. reflexivity.
Qed.

(** [main] always comes back with the quotes it collected, after at most
    [MAX_PAGES] calls of the fetcher, and has written them if there are
    any. *)
Lemma main_total w :
  Rt.fair w ->
  exists r w',
    main w = (Py.Ok (Some r), w') /\
    Rt.requests (Rt.counters w') - Rt.requests (Rt.counters w)
      <= Z.max 0 MAX_PAGES /\
    Rt.files w' =
      (Rt.files w ++
       match r with
       | [] => []
       | _ => [("data/quotes_antibot.csv"%string, r);
               ("data/quotes_antibot.json"%string, r)]
       end)%list.
Proof.
  intros Hfair.
  destruct (main_loop_total (Z.to_nat MAX_PAGES) [] BASE_URL 1 w Hfair ltac:(lia))
    as (r & w1 & Hloop & _ & Hf & Hr & _).
  destruct (main_after_loop w r w1 Hloop) as (w' & Hmain & _ & _ & Hc' & Hf').
  exists r, w'. split; [exact Hmain |]. split.
  - rewrite Hc'. lia.
  - rewrite Hf', Hf. reflexivity.
Qed.

End FinalMain.

(** ** Pagination ([AdvancedScraper.main]) *)
Section Frames.

Context {unicode : Py.Unicode}.

Lemma frame_ret {A} (a : A) : Rt.frame_ok (Rt.ret a).
Proof. intros w r w' H. injection H as _ <-. now split. Qed.

Lemma frame_raise {A} (e : Py.exn) : Rt.frame_ok (Rt.raise (A := A) e).
Proof. intros w r w' H. injection H as _ <-. now split. Qed.

Lemma frame_bind {A B} (c : Rt.M A) (k : A -> Rt.M B) :
  Rt.frame_ok c -> (forall a, Rt.frame_ok (k a)) -> Rt.frame_ok (St.bind c k).
Proof.
  intros Hc Hk w r w' H. unfold St.bind in H.
  destruct (c w) as [[a | e] w1] eqn:Hrun.
  - destruct (Hc _ _ _ Hrun) as [F1 R1]. destruct (Hk a _ _ _ H) as [F2 R2].
    split; congruence.
  - injection H as _ <-. exact (Hc _ _ _ Hrun).
Qed.

Lemma frame_try {A} (c : Rt.M A) (h : Py.exn -> Rt.M A) :
  Rt.frame_ok c -> (forall e, Rt.frame_ok (h e)) -> Rt.frame_ok (Rt.try_except c h).
Proof.
  intros Hc Hh w r w' H. unfold Rt.try_except, St.try_except in H.
  destruct (c w) as [[a | e] w1] eqn:Hrun.
  - injection H as _ <-. exact (Hc _ _ _ Hrun).
  - destruct (Hc _ _ _ Hrun) as [F1 R1]. destruct (Hh e _ _ _ H) as [F2 R2].
    split; congruence.
Qed.

Lemma frame_now : Rt.frame_ok Rt.now.
Proof. intros w r w' H. injection H as _ <-. now split. Qed.

Lemma frame_sleep x : Rt.frame_ok (Rt.sleep x).
Proof.
  intros w r w' H. unfold Rt.sleep in H.
  destruct (Qlt_le_dec x 0); injection H as _ <-; now split.
Qed.

Lemma frame_uniform a b : Rt.frame_ok (Rt.uniform a b).
Proof. intros w r w' H. injection H as _ <-. now split. Qed.

Lemma frame_choice {A} (l : list A) : Rt.frame_ok (Rt.choice l).
Proof.
  intros w r w' H. unfold Rt.choice in H.
  destruct (l !! _); injection H as _ <-; now split.
Qed.

Lemma frame_requests_get url : Rt.frame_ok (Rt.requests_get url).
Proof.
  intros w r w' H. unfold Rt.requests_get in H.
  destruct (Rt.transport _ _ _); injection H as _ <-; now split.
Qed.

Lemma frame_raise_for_status status : Rt.frame_ok (Rt.raise_for_status status).
Proof.
  unfold Rt.raise_for_status.
  destruct (_ && _); [apply frame_raise | apply frame_ret].
Qed.

Lemma frame_do_request url : Rt.frame_ok (AdvancedScraper.do_request url).
Proof.
  unfold AdvancedScraper.do_request.
  apply frame_bind; [apply frame_choice | intros _].
  apply frame_bind; [apply frame_requests_get | intros [status text]].
  apply frame_bind; [apply frame_raise_for_status | intros _].
  destruct (AdvancedScraper.CaptchaDetector.is_blocked _ _); [| apply frame_ret].
  apply frame_bind; [| intros; apply frame_raise].
  intros w r w' H. injection H as _ <-. now split.
Qed.

Lemma frame_retry_loop {A} self (func : Rt.M A) attempts last :
  Rt.frame_ok func ->
  Rt.frame_ok (AdvancedScraper.RetryHandler.retry_loop self func attempts last).
Proof.
  intros Hfunc. revert last.
  induction attempts as [| attempt rest IH]; intros last; simpl.
  - destruct last; apply frame_raise.
  - apply frame_try; [exact Hfunc | intros e].
    apply frame_bind; [| intros; apply IH].
    destruct (attempt <? _); [| apply frame_ret].
    apply frame_bind; [| intros; apply frame_sleep].
    unfold AdvancedScraper.RetryHandler.get_delay.
    destruct (Py.overflows _); [apply frame_raise |].
    apply frame_bind; [apply frame_uniform | intros; apply frame_ret].
Qed.

Lemma frame_wait_body self : Rt.frame_ok (Antibot.RequestThrottler.wait_body self).
Proof.
  unfold Antibot.RequestThrottler.wait_body.
  apply frame_bind.
  - destruct (_ <=? _); [| apply frame_ret].
    apply frame_bind; [apply frame_now | intros now].
    destruct (Antibot.RequestThrottler.request_times self); [apply frame_raise |].
    cbv zeta. destruct (Qlt_le_dec _ _); [apply frame_sleep | apply frame_ret].
  - intros _. apply frame_bind; [apply frame_uniform | intros base].
    cbv zeta. apply frame_bind; [apply frame_sleep | intros; apply frame_now].
Qed.

Lemma frame_wait self w r self' w' :
  Antibot.RequestThrottler.wait self w = (r, self', w') ->
  Rt.files w' = Rt.files w /\
  Rt.requests (Rt.counters w') = Rt.requests (Rt.counters w).
Proof.
  unfold Antibot.RequestThrottler.wait. cbn [Rt.now].
  match goal with
  | |- context [Antibot.RequestThrottler.wait_body ?s ?w1] =>
      destruct (Antibot.RequestThrottler.wait_body s w1) as [[t | e] w2] eqn:Hbody
  end; intros H; injection H as _ _ <-;
    apply frame_wait_body in Hbody; exact Hbody.
Qed.

(** A call of the fetcher counts as one request at most and writes no
    file. *)
Lemma frame_fetch_page url throttler retry_handler w r throttler' w' :
  AdvancedScraper.fetch_page url throttler retry_handler w = (r, throttler', w') ->
  Rt.files w' = Rt.files w /\
  Rt.requests (Rt.counters w) <= Rt.requests (Rt.counters w')
    <= Rt.requests (Rt.counters w) + 1.
Proof.
  unfold AdvancedScraper.fetch_page.
  destruct (Antibot.RequestThrottler.wait throttler w) as [[[[] | e] th1] w1] eqn:Hwait;
    apply frame_wait in Hwait as [F1 R1].
  - match goal with
    | |- context [AdvancedScraper.RetryHandler.execute ?rh ?f ?w2] =>
        destruct (AdvancedScraper.RetryHandler.execute rh f w2)
          as [[html | e] w3] eqn:Hexec
    end;
      apply (frame_retry_loop _ _ _ _ (frame_do_request url)) in Hexec as [F2 R2];
      intros H; injection H as _ _ <-; cbn in *; split; try congruence; lia.
  - intros H. injection H as _ _ <-. split; [exact F1 | lia].
Qed.

End Frames.

(** ** A call of [wait] that goes through *)
Section Waiting.

Import Antibot.RequestThrottler.

(** The check of the rate limit at the head of [wait_body]. *)
Lemma limit_check_ok (self : t) (w : Rt.world) :
  (requests_per_minute self <= Z.of_nat (length (request_times self)) ->
   request_times self <> []) ->
  exists w1,
    (if requests_per_minute self <=? Z.of_nat (length (request_times self))
     then
       do now <- Rt.now;
       match request_times self with
       | [] => Rt.raise Py.IndexError
       | oldest :: _ =>
           let wait_time := wait_time (now - oldest) in
           if Qlt_le_dec 0 wait_time then Rt.sleep wait_time else Rt.ret tt
       end
     else Rt.ret tt) w = (Py.Ok tt, w1) /\
    Rt.script w1 = Rt.script w /\ Rt.draws w1 = Rt.draws w /\
    Rt.fetched w1 = Rt.fetched w /\ Rt.counters w1 = Rt.counters w /\
    Rt.files w1 = Rt.files w /\
    exists more, Rt.slept w1 = (Rt.slept w ++ more)%list /\ (length more <= 1)%nat.
Proof.
  intros Hne.
  destruct (Z.leb_spec (requests_per_minute self)
                       (Z.of_nat (length (request_times self)))) as [Hfull | _].
  - destruct (request_times self) as [| oldest rest]; [now destruct (Hne Hfull) |].
    unfold St.bind. cbn [Rt.now]. cbv zeta.
    match goal with
    | |- context [Qlt_le_dec 0 ?x] => destruct (Qlt_le_dec 0 x) as [Hpos | _]
    end.
    + rewrite sleep_ok by now apply Qlt_le_weak.
      eexists. split; [reflexivity |]. simpl.
      do 5 (split; [reflexivity |]).
      eexists. split; [reflexivity | simpl; lia].
    + eexists. split; [reflexivity |]. simpl.
      do 5 (split; [reflexivity |]).
      exists []. split; [now rewrite app_nil_r | simpl; lia].
  - eexists. split; [reflexivity |].
    do 5 (split; [reflexivity |]).
    exists []. split; [now rewrite app_nil_r | simpl; lia].
Qed.

Lemma scaled_delay_band (lo hi r : Q) (errors : Z) :
  (0 <= lo)%Q -> (lo <= hi)%Q -> (0 <= r)%Q -> (r < 1)%Q -> 0 <= errors ->
  let multiplier := (1 + inject_Z errors * (1 # 2))%Q in
  let delay := ((lo + (hi - lo) * r) * multiplier)%Q in
  (1 <= multiplier)%Q /\ (lo * multiplier <= delay)%Q /\
  (delay <= hi * multiplier)%Q /\ (0 <= delay)%Q.
Proof.
  intros Hlo Hhi Hr0 Hr1 He multiplier delay.
  assert (Hm : (1 <= multiplier)%Q).
  { unfold multiplier.
    assert (0 <= inject_Z errors)%Q
      by (change 0%Q with (inject_Z 0); now rewrite <- Zle_Qle).
    lra. }
  assert (Hb1 : (lo <= lo + (hi - lo) * r)%Q) by nra.
  assert (Hb2 : (lo + (hi - lo) * r <= hi)%Q) by nra.
  unfold delay. repeat split.
  - exact Hm.
  - apply Qmult_le_compat_r; [exact Hb1 | lra].
  - apply Qmult_le_compat_r; [exact Hb2 | lra].
  - apply Qmult_le_0_compat; lra.
Qed.

(** With a cap of at least 1, delays in order and draws in [0, 1), [wait]
    goes through: it draws once, sleeps for the scaled delay after at most
    one sleep for the window, and touches neither the requests made nor the
    counters nor the files. *)
Lemma wait_runs (self : t) (w : Rt.world) :
  Rt.fair w -> 1 <= requests_per_minute self ->
  (0 <= min_delay self)%Q -> (min_delay self <= max_delay self)%Q ->
  0 <= consecutive_errors self ->
  let multiplier := (1 + inject_Z (consecutive_errors self) * (1 # 2))%Q in
  exists self' w' earlier delay,
    wait self w = (Py.Ok tt, self', w') /\
    Rt.slept w' = (Rt.slept w ++ earlier ++ [delay])%list /\
    (length earlier <= 1)%nat /\
    delay = ((min_delay self
              + (max_delay self - min_delay self) * Rt.random (Rt.script w) (Rt.draws w))
             * multiplier)%Q /\
    (min_delay self * multiplier <= delay)%Q /\
    (delay <= max_delay self * multiplier)%Q /\
    consecutive_errors self' = consecutive_errors self /\
    Rt.draws w' = S (Rt.draws w) /\
    min_delay self' = min_delay self /\ max_delay self' = max_delay self /\
    requests_per_minute self' = requests_per_minute self /\
    Rt.script w' = Rt.script w /\ Rt.fetched w' = Rt.fetched w /\
    Rt.counters w' = Rt.counters w /\ Rt.files w' = Rt.files w.
Proof.
  intros Hfair Hcap Hlo Hhi Herr multiplier.
  unfold wait. cbn [Rt.now].
  set (w0 := Rt.with_clock _ w).
  set (self1 := with_times self _).
  destruct (limit_check_ok self1 w0)
    as (w1 & Hcheck & Hscript & Hdraws & Hfetched & Hcounters & Hfiles
        & more & Hslept & Hmore).
  { intros Hfull Hnil. rewrite Hnil in Hfull. simpl in Hfull.
    unfold self1 in Hfull. simpl in Hfull. lia. }
  cbv zeta in Hcheck.
  unfold wait_body. unfold St.bind at 1. rewrite Hcheck.
  unfold St.bind at 1. unfold Rt.uniform, St.bind at 1, Rt.random_random, Rt.ret, St.ret.
  cbn [min_delay max_delay consecutive_errors self1 with_times].
  rewrite Hscript, Hdraws.
  change (Rt.script w0) with (Rt.script w). change (Rt.draws w0) with (Rt.draws w).
  destruct (Hfair (Rt.draws w)) as [Hr0 Hr1].
  destruct (scaled_delay_band (min_delay self) (max_delay self)
              (Rt.random (Rt.script w) (Rt.draws w)) (consecutive_errors self)
              Hlo Hhi Hr0 Hr1 Herr) as (_ & Hb1 & Hb2 & Hb0).
  unfold St.bind at 1. rewrite sleep_ok by exact Hb0.
  cbn [Rt.now]. do 2 eexists. exists more. eexists.
  split; [reflexivity |]. cbn. rewrite Hslept.
  change (Rt.slept w0) with (Rt.slept w).
  split; [now rewrite app_assoc |].
  split; [exact Hmore |]. split; [reflexivity |].
  split; [exact Hb1 |]. split; [exact Hb2 |].
  do 5 (split; [reflexivity |]).
  split; [first [reflexivity | exact Hscript] |].
  split; [first [reflexivity | exact Hfetched] |].
  split; [first [reflexivity | exact Hcounters]
         | first [reflexivity | exact Hfiles]].
Qed.

End Waiting.

Section AdvancedMain.

Context {unicode : Py.Unicode}.

Import AdvancedScraper.

Variable MAX_PAGES : Z.
Variable parse_quotes : string -> list Rt.quote.
Variable get_next_page : string -> option string.

Local Abbreviation main_loop := (main_loop MAX_PAGES parse_quotes get_next_page).
Local Abbreviation main := (main MAX_PAGES parse_quotes get_next_page).

(** The loop ends before the fuel does, calls the fetcher at most once per
    page up to the cap, writes no file and keeps what it has collected. *)
Lemma advanced_main_loop_spec fuel throttler retry_handler acc url page w r th' w' :
  main_loop fuel throttler retry_handler acc url page w = (r, th', w') ->
  MAX_PAGES + 1 - page <= Z.of_nat fuel ->
  r <> Py.Ok None /\
  Rt.files w' = Rt.files w /\
  Rt.requests (Rt.counters w') - Rt.requests (Rt.counters w)
    <= Z.max 0 (MAX_PAGES + 1 - page) /\
  forall items, r = Py.Ok (Some items) -> exists more, items = (acc ++ more)%list.
Proof.
  revert throttler acc url page w.
  induction fuel as [| fuel IH]; intros throttler acc url page w Hrun Hfuel.
  - cbn [AdvancedScraper.main_loop] in Hrun.
    destruct (Z.leb_spec page MAX_PAGES); [lia |]. rewrite andb_false_r in Hrun.
    injection Hrun as <- <- <-. repeat split; try discriminate; try lia.
    intros items Hi. injection Hi as <-. exists []. now rewrite app_nil_r.
  - cbn [AdvancedScraper.main_loop] in Hrun.
    destruct (negb (String.eqb url "") && (page <=? MAX_PAGES)) eqn:Hcond.
    2:{ injection Hrun as <- <- <-. repeat split; try discriminate; try lia.
        intros items Hi. injection Hi as <-. exists []. now rewrite app_nil_r. }
    apply andb_true_iff in Hcond as [_ Hpage]. apply Z.leb_le in Hpage.
    destruct (fetch_page url throttler retry_handler w)
      as [[[[html |] | e] th1] w1] eqn:Hfetch;
      apply frame_fetch_page in Hfetch as [F1 R1].
    + destruct (CaptchaDetector.is_blocked 200 (Some html)).
      * injection Hrun as <- <- <-. cbn. repeat split; try discriminate;
          try congruence; try lia.
        intros items Hi. injection Hi as <-. exists []. now rewrite app_nil_r.
      * destruct (get_next_page html) as [[| c rest] |].
        -- injection Hrun as <- <- <-. repeat split; try discriminate;
             try congruence; try lia.
           intros items Hi. injection Hi as <-. now exists (parse_quotes html).
        -- apply IH in Hrun as (Hne & F2 & R2 & Hpre); [| lia].
           repeat split; try assumption; try congruence; try lia.
           intros items Hi. destruct (Hpre items Hi) as [more ->].
           exists (parse_quotes html ++ more)%list. now rewrite app_assoc.
        -- injection Hrun as <- <- <-. repeat split; try discriminate;
             try congruence; try lia.
           intros items Hi. injection Hi as <-. now exists (parse_quotes html).
    + injection Hrun as <- <- <-. repeat split; try discriminate;
        try congruence; try lia.
      intros items Hi. injection Hi as <-. exists []. now rewrite app_nil_r.
    + injection Hrun as <- <- <-. repeat split; try discriminate;
        try congruence; try lia.
Qed.

(** A terminal failure of the fetcher ends the loop with what was collected. *)
Lemma advanced_fetch_failure fuel throttler retry_handler acc url page w th1 w1 :
  url <> ""%string -> page <= MAX_PAGES ->
  fetch_page url throttler retry_handler w = (Py.Ok None, th1, w1) ->
  main_loop (S fuel) throttler retry_handler acc url page w
    = (Py.Ok (Some acc), th1, w1).
Proof.
  intros Hurl Hpage Hrun. cbn [AdvancedScraper.main_loop].
  replace (String.eqb url "") with false
    by (symmetry; now apply String.eqb_neq).
  replace (page <=? MAX_PAGES) with true by (symmetry; now apply Z.leb_le).
  cbn [negb andb]. now rewrite Hrun.
Qed.

(** So does a fetched page that shows a CAPTCHA. *)
Lemma advanced_captcha fuel throttler retry_handler acc url page w th1 w1 html :
  url <> ""%string -> page <= MAX_PAGES ->
  fetch_page url throttler retry_handler w = (Py.Ok (Some html), th1, w1) ->
  CaptchaDetector.is_blocked 200 (Some html) = true ->
  main_loop (S fuel) throttler retry_handler acc url page w
    = (Py.Ok (Some acc), th1,
       Rt.with_counters FinalAntibotScraper.bump_captchas w1).
Proof.
  intros Hurl Hpage Hrun Hcaptcha. cbn [AdvancedScraper.main_loop].
  replace (String.eqb url "") with false
    by (symmetry; now apply String.eqb_neq).
  replace (page <=? MAX_PAGES) with true by (symmetry; now apply Z.leb_le).
  cbn [negb andb]. now rewrite Hrun, Hcaptcha.
Qed.

(** [main] does not run out of fuel, calls the fetcher at most [MAX_PAGES]
    times and writes the quotes it answers, if there are any. *)
Lemma advanced_main_spec w r w' :
  main w = (r, w') ->
  r <> Py.Ok None /\
  Rt.requests (Rt.counters w') <= Z.max 0 MAX_PAGES /\
  forall items, r = Py.Ok (Some items) ->
    Rt.files w' =
      (Rt.files w ++
       match items with
       | [] => []
       | _ => [("data/quotes_antibot.csv"%string, items);
               ("data/quotes_antibot.json"%string, items)]
       end)%list.
Proof.
  unfold AdvancedScraper.main.
  match goal with
  | |- context [AdvancedScraper.main_loop _ _ _ ?f ?th ?rh ?acc ?u ?p ?w0] =>
      destruct (main_loop f th rh acc u p w0) as [[rl thl] wl] eqn:Hloop
  end.
  apply advanced_main_loop_spec in Hloop as (Hne & F & R & _); [| lia].
  cbn in F, R.
  destruct rl as [[items |] | e]; [| congruence |].
  - destruct items as [| q items].
    + intros H. injection H as <- <-. repeat split; try discriminate; try lia.
      intros items H'. injection H' as <-. now rewrite app_nil_r.
    + cbn. intros H. injection H as <- <-. cbn.
      repeat split; try discriminate; try lia.
      intros items' H'. injection H' as <-. rewrite F. now rewrite <- app_assoc.
  - intros H. injection H as <- <-. repeat split; try discriminate; lia.
Qed.

Local Abbreviation fit := Antibot.RequestThrottler.fit.

Lemma range_first n : 1 <= n -> exists rest, Py.range n = 0 :: rest.
Proof.
  intros Hn. unfold Py.range.
  destruct (Z.to_nat n) as [| k] eqn:Hk; [lia |].
  eexists. reflexivity.
Qed.

(** A page that the site serves at once and that is not blocked is fetched
    with one request. *)
Lemma advanced_fetch_first_try url throttler retry_handler w body :
  Rt.fair w -> fit throttler -> 0 <= RetryHandler.max_retries retry_handler ->
  Rt.transport (Rt.script w) (length (Rt.fetched w)) url = Rt.Response 200 body ->
  CaptchaDetector.is_blocked 200 (Some body) = false ->
  exists th1 w1,
    fetch_page url throttler retry_handler w = (Py.Ok (Some body), th1, w1) /\
    fit th1 /\ Rt.script w1 = Rt.script w /\ Rt.files w1 = Rt.files w /\
    Rt.fetched w1 = (Rt.fetched w ++ [url])%list /\
    Rt.requests (Rt.counters w1) = Rt.requests (Rt.counters w) + 1.
Proof.
  intros Hfair (Hcap & Hlo & Hhi & Herr) Hretries Htr Hok.
  destruct (wait_runs throttler w Hfair Hcap Hlo Hhi Herr)
    as (th0 & w0 & _ & _ & Hwait & _ & _ & _ & _ & _ & _ & _
        & Hmin & Hmax & Hrpm & Hscript & Hfetched & Hcounters & Hfiles).
  unfold fetch_page.
  change (RequestThrottler.wait throttler w)
    with (Antibot.RequestThrottler.wait throttler w).
  rewrite Hwait.
  set (wr := Rt.with_counters FinalAntibotScraper.bump_requests w0).
  destruct (do_request_spec url wr)
    as (r & w2 & Hreq & Hs2 & Hf2 & Hfe2 & _ & _ & Hr2 & Hres).
  change (Rt.script wr) with (Rt.script w0) in Hres, Hs2.
  change (Rt.fetched wr) with (Rt.fetched w0) in Hres, Hfe2.
  rewrite Hscript, Hfetched, Htr in Hres. cbn [Z.leb Z.ltb andb] in Hres.
  change ((400 <=? 200) && (200 <? 600)) with false in Hres. cbv iota in Hres.
  rewrite Hok in Hres. destruct Hres as [-> Hc2].
  destruct (range_first (RetryHandler.max_retries retry_handler + 1) ltac:(lia))
    as [rest Hrange].
  unfold RetryHandler.execute. rewrite Hrange.
  cbn [RetryHandler.retry_loop]. unfold Rt.try_except, St.try_except.
  rewrite Hreq.
  eexists _, _. split; [reflexivity |].
  split.
  { unfold Antibot.RequestThrottler.fit. cbn.
    rewrite Hrpm, Hmin, Hmax. repeat split; try assumption. lia. }
  cbn. rewrite Hs2, Hf2, Hfe2, Hc2. cbn.
  rewrite Hscript, Hfiles, Hfetched, Hcounters. repeat split.
Qed.

Lemma advanced_loop_next fuel throttler retry_handler acc url page w th1 w1
    html c rest :
  url <> ""%string -> page <= MAX_PAGES ->
  fetch_page url throttler retry_handler w = (Py.Ok (Some html), th1, w1) ->
  CaptchaDetector.is_blocked 200 (Some html) = false ->
  get_next_page html = Some (String c rest) ->
  main_loop (S fuel) throttler retry_handler acc url page w =
  main_loop fuel th1 retry_handler (acc ++ parse_quotes html)
            (BASE_URL +:+ String c rest) (page + 1) w1.
Proof.
  intros Hurl Hpage Hrun Hok Hnext. cbn [AdvancedScraper.main_loop].
  replace (String.eqb url "") with false
    by (symmetry; now apply String.eqb_neq).
  replace (page <=? MAX_PAGES) with true by (symmetry; now apply Z.leb_le).
  cbn [negb andb]. now rewrite Hrun, Hok, Hnext.
Qed.

Lemma advanced_loop_last fuel throttler retry_handler acc url page w th1 w1 html :
  url <> ""%string -> page <= MAX_PAGES ->
  fetch_page url throttler retry_handler w = (Py.Ok (Some html), th1, w1) ->
  CaptchaDetector.is_blocked 200 (Some html) = false ->
  get_next_page html = None ->
  main_loop (S fuel) throttler retry_handler acc url page w =
  (Py.Ok (Some (acc ++ parse_quotes html)%list), th1, w1).
Proof.
  intros Hurl Hpage Hrun Hok Hnext. cbn [AdvancedScraper.main_loop].
  replace (String.eqb url "") with false
    by (symmetry; now apply String.eqb_neq).
  replace (page <=? MAX_PAGES) with true by (symmetry; now apply Z.leb_le).
  cbn [negb andb]. now rewrite Hrun, Hok, Hnext.
Qed.

Lemma advanced_base_url_nonempty (next : string) : BASE_URL +:+ next <> ""%string.
Proof. discriminate. Qed.

(** Every page is fetched at once and offers a next link: the loop runs
    until the counter passes the cap. *)
Lemma advanced_loop_capped body c rest retry_handler fuel throttler acc url page w :
  Rt.fair w -> fit throttler -> 0 <= RetryHandler.max_retries retry_handler ->
  url <> ""%string ->
  Z.of_nat fuel = MAX_PAGES + 1 - page ->
  (forall k u, Rt.transport (Rt.script w) k u = Rt.Response 200 body) ->
  CaptchaDetector.is_blocked 200 (Some body) = false ->
  get_next_page body = Some (String c rest) ->
  exists th' w',
    main_loop fuel throttler retry_handler acc url page w =
      (Py.Ok (Some (acc ++ concat (repeat (parse_quotes body) fuel))%list),
       th', w') /\
    Rt.script w' = Rt.script w /\ Rt.files w' = Rt.files w /\
    Rt.requests (Rt.counters w') = Rt.requests (Rt.counters w) + Z.of_nat fuel /\
    length (Rt.fetched w') = (length (Rt.fetched w) + fuel)%nat.
Proof.
  intros Hfair Hfit Hretries Hurl Hfuel Htr Hok Hnext.
  revert throttler acc url page w Hfair Hfit Hurl Hfuel Htr.
  induction fuel as [| fuel IH];
    intros throttler acc url page w Hfair Hfit Hurl Hfuel Htr.
  - cbn [AdvancedScraper.main_loop].
    destruct (Z.leb_spec page MAX_PAGES); [lia |]. rewrite andb_false_r.
    exists throttler, w. cbn. rewrite app_nil_r. repeat split; lia.
  - destruct (advanced_fetch_first_try url throttler retry_handler w body
                Hfair Hfit Hretries (Htr _ _) Hok)
      as (th1 & w1 & Hrun & Hfit1 & Hs & Hf & Hfe & Hc).
    rewrite (advanced_loop_next fuel throttler retry_handler acc url page w th1
               w1 body c rest Hurl ltac:(lia) Hrun Hok Hnext).
    destruct (IH th1 (acc ++ parse_quotes body)%list (BASE_URL +:+ String c rest)
                 (page + 1) w1 (fair_script _ _ Hs Hfair) Hfit1
                 (advanced_base_url_nonempty _) ltac:(lia))
      as (th' & w' & Hrun' & Hs' & Hf' & Hr' & Hfe').
    { intros k u. rewrite Hs. apply Htr. }
    exists th', w'. split.
    + rewrite Hrun'. cbn [repeat concat]. now rewrite <- app_assoc.
    + repeat split; try congruence.
      * rewrite Hr', Hc. lia.
      * rewrite Hfe', Hfe, length_app. cbn. lia.
Qed.

(** What [main] does once its loop has ended with an answer. *)
Lemma advanced_main_after_loop w items th1 w1 :
  main_loop (Z.to_nat MAX_PAGES) (RequestThrottler.init (3 # 2) 3 20)
    (RetryHandler.mk 3 1) [] BASE_URL 1
    (Rt.with_counters (fun _ => Rt.no_stats) w)
    = (Py.Ok (Some items), th1, w1) ->
  exists w',
    main w = (Py.Ok (Some items), w') /\
    Rt.fetched w' = Rt.fetched w1 /\ Rt.counters w' = Rt.counters w1.
Proof.
  intros Hrun. unfold AdvancedScraper.main. cbv zeta. rewrite Hrun.
  destruct items as [| q items].
  - exists w1. now repeat split.
  - eexists. split; [reflexivity |]. now split.
Qed.

Lemma main_throttler_fit : fit (RequestThrottler.init (3 # 2) 3 20).
Proof.
  unfold Antibot.RequestThrottler.fit. cbn.
  repeat split; try lia; discriminate.
Qed.

(** [main] under a cap that every page would pass. *)
Lemma advanced_main_capped body c rest w :
  Rt.fair w -> 0 <= MAX_PAGES ->
  (forall k u, Rt.transport (Rt.script w) k u = Rt.Response 200 body) ->
  CaptchaDetector.is_blocked 200 (Some body) = false ->
  get_next_page body = Some (String c rest) ->
  exists items w',
    main w = (Py.Ok (Some items), w') /\
    Rt.requests (Rt.counters w') = MAX_PAGES /\
    length (Rt.fetched w') = (length (Rt.fetched w) + Z.to_nat MAX_PAGES)%nat.
Proof.
  intros Hfair Hmax Htr Hok Hnext.
  destruct (advanced_loop_capped body c rest (RetryHandler.mk 3 1)
              (Z.to_nat MAX_PAGES) (RequestThrottler.init (3 # 2) 3 20) []
              BASE_URL 1 (Rt.with_counters (fun _ => Rt.no_stats) w)
              Hfair main_throttler_fit ltac:(cbn; lia) ltac:(discriminate)
              ltac:(lia) Htr Hok Hnext)
    as (th' & w1 & Hloop & _ & _ & Hreq & Hlen).
  - destruct (advanced_main_after_loop w _ th' w1 Hloop) as (w' & Hmain & Hfe & Hc).
    eexists _, w'. split; [exact Hmain |]. split.
    + rewrite Hc, Hreq. cbn. lia.
    + now rewrite Hfe, Hlen.
Qed.

(** Three pages, the third without a next link. *)
Lemma advanced_main_three_pages w h1 h2 h3 c1 n1 c2 n2 :
  Rt.fair w -> 3 <= MAX_PAGES ->
  Rt.transport (Rt.script w) (length (Rt.fetched w)) BASE_URL
    = Rt.Response 200 h1 ->
  Rt.transport (Rt.script w) (S (length (Rt.fetched w)))
    (BASE_URL +:+ String c1 n1) = Rt.Response 200 h2 ->
  Rt.transport (Rt.script w) (S (S (length (Rt.fetched w))))
    (BASE_URL +:+ String c2 n2) = Rt.Response 200 h3 ->
  CaptchaDetector.is_blocked 200 (Some h1) = false ->
  CaptchaDetector.is_blocked 200 (Some h2) = false ->
  CaptchaDetector.is_blocked 200 (Some h3) = false ->
  get_next_page h1 = Some (String c1 n1) ->
  get_next_page h2 = Some (String c2 n2) ->
  get_next_page h3 = None ->
  exists w',
    main w =
      (Py.Ok (Some (parse_quotes h1 ++ parse_quotes h2 ++ parse_quotes h3)%list), w') /\
    Rt.fetched w' =
      (Rt.fetched w ++
       [BASE_URL; BASE_URL +:+ String c1 n1; BASE_URL +:+ String c2 n2])%list /\
    Rt.requests (Rt.counters w') = 3.
Proof.
  intros Hfair Hmax T1 T2 T3 B1 B2 B3 N1 N2 N3.
  set (w0 := Rt.with_counters (fun _ => Rt.no_stats) w).
  assert (Hfair0 : Rt.fair w0) by exact Hfair.
  destruct (advanced_fetch_first_try BASE_URL _ (RetryHandler.mk 3 1) w0 h1
              Hfair0 main_throttler_fit ltac:(cbn; lia) T1 B1)
    as (th1 & w1 & Hrun1 & Hfit1 & Hs1 & _ & Hfe1 & Hc1).
  assert (Hfair1 : Rt.fair w1) by exact (fair_script _ _ Hs1 Hfair0).
  assert (T2' : Rt.transport (Rt.script w1) (length (Rt.fetched w1))
                  (BASE_URL +:+ String c1 n1) = Rt.Response 200 h2).
  { rewrite Hs1, Hfe1, length_app. cbn [length].
    replace (length (Rt.fetched w0) + 1)%nat with (S (length (Rt.fetched w)))
      by (cbn; lia).
    exact T2. }
  destruct (advanced_fetch_first_try (BASE_URL +:+ String c1 n1) th1
              (RetryHandler.mk 3 1) w1 h2 Hfair1 Hfit1 ltac:(cbn; lia) T2' B2)
    as (th2 & w2 & Hrun2 & Hfit2 & Hs2 & _ & Hfe2 & Hc2).
  assert (Hfair2 : Rt.fair w2) by exact (fair_script _ _ Hs2 Hfair1).
  assert (T3' : Rt.transport (Rt.script w2) (length (Rt.fetched w2))
                  (BASE_URL +:+ String c2 n2) = Rt.Response 200 h3).
  { rewrite Hs2, Hs1, Hfe2, Hfe1, !length_app. cbn [length].
    replace (length (Rt.fetched w0) + 1 + 1)%nat
      with (S (S (length (Rt.fetched w)))) by (cbn; lia).
    exact T3. }
  destruct (advanced_fetch_first_try (BASE_URL +:+ String c2 n2) th2
              (RetryHandler.mk 3 1) w2 h3 Hfair2 Hfit2 ltac:(cbn; lia) T3' B3)
    as (th3 & w3 & Hrun3 & _ & _ & _ & Hfe3 & Hc3).
  destruct (Z.to_nat MAX_PAGES) as [| [| [| fuel]]] eqn:Hfuel; try lia.
  assert (Hloop : main_loop (S (S (S fuel))) (RequestThrottler.init (3 # 2) 3 20)
                    (RetryHandler.mk 3 1) [] BASE_URL 1 w0
                  = (Py.Ok (Some (parse_quotes h1 ++ parse_quotes h2
                                  ++ parse_quotes h3)%list), th3, w3)).
  { assert (P1 : 1 <= MAX_PAGES) by lia.
    assert (P2 : 1 + 1 <= MAX_PAGES) by lia.
    assert (P3 : 1 + 1 + 1 <= MAX_PAGES) by lia.
    assert (U1 : BASE_URL <> ""%string) by discriminate.
    rewrite (advanced_loop_next _ _ _ _ _ _ _ th1 w1 h1 c1 n1 U1 P1 Hrun1 B1 N1).
    rewrite (advanced_loop_next _ _ _ _ _ _ _ th2 w2 h2 c2 n2
               (advanced_base_url_nonempty _) P2 Hrun2 B2 N2).
    rewrite (advanced_loop_last _ _ _ _ _ _ _ th3 w3 h3
               (advanced_base_url_nonempty _) P3 Hrun3 B3 N3).
    cbn [app]. now rewrite <- app_assoc. }
  rewrite <- Hfuel in Hloop.
  destruct (advanced_main_after_loop w _ th3 w3 Hloop) as (w' & Hmain & Hfe & Hc).
  exists w'. split; [exact Hmain |]. split.
  - rewrite Hfe, Hfe3, Hfe2, Hfe1. cbn [Rt.fetched w0 Rt.with_counters].
    now rewrite <- !app_assoc.
  - rewrite Hc, Hc3, Hc2, Hc1. reflexivity.
Qed.

End AdvancedMain.

Section ThirdAttempt.

Context {unicode : Py.Unicode}.

(** C3. The transport answers 503 to the first two requests and 200 with
    a page that is not blocked to the third.  Then the fetch answers that
    page after exactly three requests to the transport, none of them after
    the success.  It sleeps twice, each time for the backoff delay of the
    attempt that has just failed: once after the first attempt and once
    after the second, and not after the third.  This holds for
    [fetch_with_retry] with its three attempts and its own backoff
    [2 ** attempt + uniform(0, 1)], and for [execute_with_retry] around
    [do_request], with [get_delay], for a handler with at least two retries
    and delays that are not negative. *)
Theorem fetch_succeeds_on_third_attempt (url : string) (w : Rt.world)
    (b0 b1 b2 : string) :
  Rt.fair w ->
  Rt.transport (Rt.script w) (length (Rt.fetched w)) url = Rt.Response 503 b0 ->
  Rt.transport (Rt.script w) (S (length (Rt.fetched w))) url = Rt.Response 503 b1 ->
  Rt.transport (Rt.script w) (S (S (length (Rt.fetched w)))) url = Rt.Response 200 b2 ->
  (FinalAntibotScraper.is_blocked 200 b2 = false ->
   exists w',
     FinalAntibotScraper.fetch_with_retry url 3 w = (Py.Ok (Some b2), w') /\
     Rt.fetched w' = (Rt.fetched w ++ [url; url; url])%list /\
     Rt.slept w' =
       (Rt.slept w ++
        [inject_Z (2 ^ 0) + (0 + (1 - 0) * Rt.random (Rt.script w) (1 + Rt.draws w));
         inject_Z (2 ^ 1) + (0 + (1 - 0) * Rt.random (Rt.script w) (3 + Rt.draws w))])%list%Q) /\
  (forall self : Antibot.RetryHandler.t,
     (0 <= Antibot.RetryHandler.base_delay self)%Q ->
     (0 <= Antibot.RetryHandler.exponential_base self)%Q ->
     (0 <= Antibot.RetryHandler.max_delay self)%Q ->
     2 <= Antibot.RetryHandler.max_retries self ->
     AdvancedScraper.CaptchaDetector.is_blocked 200 (Some b2) = false ->
     exists w',
       Antibot.RetryHandler.execute_with_retry self (AdvancedScraper.do_request url) w
         = (Py.Ok b2, w') /\
       Rt.fetched w' = (Rt.fetched w ++ [url; url; url])%list /\
       Rt.slept w' =
         (Rt.slept w ++
          [Antibot.RetryHandler.jittered_delay self 0
             (-1 + (1 - -1) * Rt.random (Rt.script w) (1 + Rt.draws w));
           Antibot.RetryHandler.jittered_delay self 1
             (-1 + (1 - -1) * Rt.random (Rt.script w) (3 + Rt.draws w))])%list%Q).
Proof.
  intros Hfair H0 H1 H2. split.
  - intros Hok.
    destruct (fetch_with_retry_third_time url w b0 b1 b2 Hfair H0 H1 H2 Hok)
      as (w' & Hrun & Hfetched & Hslept & _).
    exists w'. repeat split; assumption.
  - intros self Hbase Hexp Hmax Hretries Hok.
    exact (execute_with_retry_third_time self url w b0 b1 b2
             Hbase Hexp Hmax Hretries Hfair H0 H1 H2 Hok).
Qed.

End ThirdAttempt.

Section ThirdAttemptRun.

Local Existing Instance Py.sample_unicode.

(** A transport that answers 503 twice and then a plain page; every random
    draw is 1/2. *)
Lemma fetch_succeeds_on_third_attempt_witness :
  let script := Rt.mk_env
    (fun k _ => match k with
                | O | S O => Rt.Response 503 ""
                | _ => Rt.Response 200 "<html>hello</html>"
                end)
    (fun _ => 1 # 2) (fun _ => O) (fun _ => 0) in
  let w := Rt.mk_world script 0 O [] O [] Rt.no_stats [] in
  (exists w',
     FinalAntibotScraper.fetch_with_retry "http://a" 3 w
       = (Py.Ok (Some "<html>hello</html>"%string), w') /\
     Rt.fetched w' = ["http://a"; "http://a"; "http://a"]%string /\
     Rt.slept w' = [inject_Z (2 ^ 0) + (0 + (1 - 0) * (1 # 2));
                    inject_Z (2 ^ 1) + (0 + (1 - 0) * (1 # 2))]%Q) /\
  (exists w',
     Antibot.RetryHandler.execute_with_retry Antibot.RetryHandler.defaults
       (AdvancedScraper.do_request "http://a") w
       = (Py.Ok "<html>hello</html>"%string, w') /\
     Rt.fetched w' = ["http://a"; "http://a"; "http://a"]%string /\
     Rt.slept w' =
       [Antibot.RetryHandler.jittered_delay Antibot.RetryHandler.defaults 0
          (-1 + (1 - -1) * (1 # 2));
        Antibot.RetryHandler.jittered_delay Antibot.RetryHandler.defaults 1
          (-1 + (1 - -1) * (1 # 2))]%Q).
Proof.
  intros script w.
  assert (Hfair : Rt.fair w).
  { intros k. split; [discriminate | reflexivity]. }
  destruct (fetch_succeeds_on_third_attempt "http://a" w "" ""
              "<html>hello</html>" Hfair eq_refl eq_refl eq_refl) as [Hfinal Hhandler].
  split.
  - exact (Hfinal eq_refl).
  - apply (Hhandler Antibot.RetryHandler.defaults);
      [vm_compute; discriminate | vm_compute; discriminate
      | vm_compute; discriminate | vm_compute; discriminate | reflexivity].
Defined.

End ThirdAttemptRun.

Section Pagination.

Context {unicode : Py.Unicode}.

Variable parse_quotes : string -> list Rt.quote.
Variable get_next_page : string -> option string.

(** C6. Whatever the two HTML readers do, [main] of
    [final_antibot_scraper.py] comes back after at most [MAX_PAGES] calls of
    the fetcher, and [main] of [advanced_scraper.py], when it comes back,
    has made at most [MAX_PAGES] calls.  In both scripts, if every page is
    fetched and offers a next link, the loop still stops once the page
    counter has passed the cap: exactly [MAX_PAGES] pages are fetched (two
    for a cap of 2).  In both scripts, if pages 1 to 3 yield three items
    each and page 3 has no next link, the run answers exactly nine items and
    the fetcher is called three times, not a fourth. *)
Theorem pagination_stops_at_cap_or_last_page :
  (forall MAX_PAGES w,
     Rt.fair w ->
     exists r w',
       FinalAntibotScraper.main MAX_PAGES parse_quotes get_next_page w
         = (Py.Ok (Some r), w') /\
       Rt.requests (Rt.counters w') - Rt.requests (Rt.counters w)
         <= Z.max 0 MAX_PAGES) /\
  (forall MAX_PAGES body c rest w,
     Rt.fair w -> 0 <= MAX_PAGES ->
     (forall k u, Rt.transport (Rt.script w) k u = Rt.Response 200 body) ->
     FinalAntibotScraper.is_blocked 200 body = false ->
     get_next_page body = Some (String c rest) ->
     exists r w',
       FinalAntibotScraper.main MAX_PAGES parse_quotes get_next_page w
         = (Py.Ok (Some r), w') /\
       Rt.requests (Rt.counters w') = Rt.requests (Rt.counters w) + MAX_PAGES /\
       length (Rt.fetched w') = (length (Rt.fetched w) + Z.to_nat MAX_PAGES)%nat) /\
  (forall MAX_PAGES w h1 h2 h3 c1 n1 c2 n2,
     Rt.fair w -> 3 <= MAX_PAGES ->
     Rt.transport (Rt.script w) (length (Rt.fetched w))
       FinalAntibotScraper.BASE_URL = Rt.Response 200 h1 ->
     Rt.transport (Rt.script w) (S (length (Rt.fetched w)))
       (FinalAntibotScraper.BASE_URL +:+ String c1 n1) = Rt.Response 200 h2 ->
     Rt.transport (Rt.script w) (S (S (length (Rt.fetched w))))
       (FinalAntibotScraper.BASE_URL +:+ String c2 n2) = Rt.Response 200 h3 ->
     FinalAntibotScraper.is_blocked 200 h1 = false ->
     FinalAntibotScraper.is_blocked 200 h2 = false ->
     FinalAntibotScraper.is_blocked 200 h3 = false ->
     get_next_page h1 = Some (String c1 n1) ->
     get_next_page h2 = Some (String c2 n2) ->
     get_next_page h3 = None ->
     length (parse_quotes h1) = 3%nat -> length (parse_quotes h2) = 3%nat ->
     length (parse_quotes h3) = 3%nat ->
     exists r w',
       FinalAntibotScraper.main MAX_PAGES parse_quotes get_next_page w
         = (Py.Ok (Some r), w') /\
       r = (parse_quotes h1 ++ parse_quotes h2 ++ parse_quotes h3)%list /\
       length r = 9%nat /\
       Rt.fetched w' =
         (Rt.fetched w ++
          [FinalAntibotScraper.BASE_URL;
           FinalAntibotScraper.BASE_URL +:+ String c1 n1;
           FinalAntibotScraper.BASE_URL +:+ String c2 n2])%list /\
       Rt.requests (Rt.counters w') = Rt.requests (Rt.counters w) + 3) /\
  (forall MAX_PAGES w r w',
     AdvancedScraper.main MAX_PAGES parse_quotes get_next_page w = (r, w') ->
     r <> Py.Ok None /\ Rt.requests (Rt.counters w') <= Z.max 0 MAX_PAGES) /\
  (forall MAX_PAGES body c rest w,
     Rt.fair w -> 0 <= MAX_PAGES ->
     (forall k u, Rt.transport (Rt.script w) k u = Rt.Response 200 body) ->
     AdvancedScraper.CaptchaDetector.is_blocked 200 (Some body) = false ->
     get_next_page body = Some (String c rest) ->
     exists r w',
       AdvancedScraper.main MAX_PAGES parse_quotes get_next_page w
         = (Py.Ok (Some r), w') /\
       Rt.requests (Rt.counters w') = MAX_PAGES /\
       length (Rt.fetched w') = (length (Rt.fetched w) + Z.to_nat MAX_PAGES)%nat) /\
  (forall MAX_PAGES w h1 h2 h3 c1 n1 c2 n2,
     Rt.fair w -> 3 <= MAX_PAGES ->
     Rt.transport (Rt.script w) (length (Rt.fetched w))
       AdvancedScraper.BASE_URL = Rt.Response 200 h1 ->
     Rt.transport (Rt.script w) (S (length (Rt.fetched w)))
       (AdvancedScraper.BASE_URL +:+ String c1 n1) = Rt.Response 200 h2 ->
     Rt.transport (Rt.script w) (S (S (length (Rt.fetched w))))
       (AdvancedScraper.BASE_URL +:+ String c2 n2) = Rt.Response 200 h3 ->
     AdvancedScraper.CaptchaDetector.is_blocked 200 (Some h1) = false ->
     AdvancedScraper.CaptchaDetector.is_blocked 200 (Some h2) = false ->
     AdvancedScraper.CaptchaDetector.is_blocked 200 (Some h3) = false ->
     get_next_page h1 = Some (String c1 n1) ->
     get_next_page h2 = Some (String c2 n2) ->
     get_next_page h3 = None ->
     length (parse_quotes h1) = 3%nat -> length (parse_quotes h2) = 3%nat ->
     length (parse_quotes h3) = 3%nat ->
     exists r w',
       AdvancedScraper.main MAX_PAGES parse_quotes get_next_page w
         = (Py.Ok (Some r), w') /\
       r = (parse_quotes h1 ++ parse_quotes h2 ++ parse_quotes h3)%list /\
       length r = 9%nat /\
       Rt.fetched w' =
         (Rt.fetched w ++
          [AdvancedScraper.BASE_URL;
           AdvancedScraper.BASE_URL +:+ String c1 n1;
           AdvancedScraper.BASE_URL +:+ String c2 n2])%list /\
       Rt.requests (Rt.counters w') = 3).
Proof.
  split; [| split; [| split; [| split; [| split]]]].
  - intros MAX_PAGES w Hfair.
    destruct (main_total MAX_PAGES parse_quotes get_next_page w Hfair)
      as (r & w' & Hmain & Hreq & _).
    now exists r, w'.
  - intros MAX_PAGES body c rest w Hfair Hmax Htr Hok Hnext.
    destruct (main_loop_capped MAX_PAGES parse_quotes get_next_page body c rest
                (Z.to_nat MAX_PAGES) [] FinalAntibotScraper.BASE_URL 1 w Hfair
                ltac:(discriminate) ltac:(lia) Htr Hok Hnext)
      as (w1 & Hloop & _ & _ & Hreq & Hlen).
    destruct (main_after_loop MAX_PAGES parse_quotes get_next_page w _ w1 Hloop)
      as (w' & Hmain & _ & Hfe & Hc & _).
    eexists _, w'. split; [exact Hmain |]. split.
    + rewrite Hc, Hreq. lia.
    + now rewrite Hfe.
  - intros MAX_PAGES w h1 h2 h3 c1 n1 c2 n2 Hfair Hmax T1 T2 T3 B1 B2 B3 N1 N2 N3
           L1 L2 L3.
    destruct (main_three_pages MAX_PAGES parse_quotes get_next_page w h1 h2 h3
                c1 n1 c2 n2 Hfair Hmax T1 T2 T3 B1 B2 B3 N1 N2 N3)
      as (w' & Hmain & Hfe & Hreq).
    eexists _, w'. split; [exact Hmain |]. split; [reflexivity |].
    split; [| split; assumption].
    rewrite !length_app, L1, L2, L3. reflexivity.
  - intros MAX_PAGES w r w' Hmain.
    apply advanced_main_spec in Hmain as (Hne & Hreq & _). now split.
  - intros MAX_PAGES body c rest w Hfair Hmax Htr Hok Hnext.
    exact (advanced_main_capped MAX_PAGES parse_quotes get_next_page body c rest
             w Hfair Hmax Htr Hok Hnext).
  - intros MAX_PAGES w h1 h2 h3 c1 n1 c2 n2 Hfair Hmax T1 T2 T3 B1 B2 B3 N1 N2 N3
           L1 L2 L3.
    destruct (advanced_main_three_pages MAX_PAGES parse_quotes get_next_page w
                h1 h2 h3 c1 n1 c2 n2 Hfair Hmax T1 T2 T3 B1 B2 B3 N1 N2 N3)
      as (w' & Hmain & Hfe & Hreq).
    eexists _, w'. split; [exact Hmain |]. split; [reflexivity |].
    split; [| split; assumption].
    rewrite !length_app, L1, L2, L3. reflexivity.
Qed.


End Pagination.

Section Runs.

Local Existing Instance Py.sample_unicode.

(** Three pages of three items, the last without a next link, under a cap
    of 5; and pages that always offer a next link, under a cap of 2; each
    for the two scripts. *)
Lemma pagination_stops_at_cap_or_last_page_witness :
  let parse := fun h : string =>
    [Rt.mk_quote h "a" []; Rt.mk_quote h "b" []; Rt.mk_quote h "c" []] in
  let next := fun h : string =>
    if String.eqb h "p1" then Some "/page/2/"%string
    else if String.eqb h "p2" then Some "/page/3/"%string
    else None in
  let site := fun (k : nat) (u : string) =>
    if String.eqb u FinalAntibotScraper.BASE_URL then Rt.Response 200 "p1"
    else if String.eqb u (FinalAntibotScraper.BASE_URL +:+ "/page/2/")
         then Rt.Response 200 "p2"
    else Rt.Response 200 "p3" in
  let w := Rt.mk_world (Rt.mk_env site (fun _ => 1 # 2) (fun _ => O) (fun _ => 0))
                       0 O [] O [] Rt.no_stats [] in
  let endless := Rt.mk_world
    (Rt.mk_env (fun _ _ => Rt.Response 200 "p") (fun _ => 1 # 2) (fun _ => O)
               (fun _ => 0)) 0 O [] O [] Rt.no_stats [] in
  (exists r w',
     FinalAntibotScraper.main 5 parse next w = (Py.Ok (Some r), w') /\
     r = (parse "p1" ++ parse "p2" ++ parse "p3")%list%string /\
     length r = 9%nat /\
     Rt.fetched w' =
       (Rt.fetched w ++
        [FinalAntibotScraper.BASE_URL;
         FinalAntibotScraper.BASE_URL +:+ "/page/2/";
         FinalAntibotScraper.BASE_URL +:+ "/page/3/"])%list /\
     Rt.requests (Rt.counters w') = Rt.requests (Rt.counters w) + 3) /\
  (exists r w',
     FinalAntibotScraper.main 2 parse (fun _ => Some "/next"%string) endless
       = (Py.Ok (Some r), w') /\
     Rt.requests (Rt.counters w') = Rt.requests (Rt.counters endless) + 2 /\
     length (Rt.fetched w') = (length (Rt.fetched endless) + Z.to_nat 2)%nat) /\
  (exists r w',
     AdvancedScraper.main 5 parse next w = (Py.Ok (Some r), w') /\
     r = (parse "p1" ++ parse "p2" ++ parse "p3")%list%string /\
     length r = 9%nat /\
     Rt.fetched w' =
       (Rt.fetched w ++
        [AdvancedScraper.BASE_URL;
         AdvancedScraper.BASE_URL +:+ "/page/2/";
         AdvancedScraper.BASE_URL +:+ "/page/3/"])%list /\
     Rt.requests (Rt.counters w') = 3) /\
  (exists r w',
     AdvancedScraper.main 2 parse (fun _ => Some "/next"%string) endless
       = (Py.Ok (Some r), w') /\
     Rt.requests (Rt.counters w') = 2 /\
     length (Rt.fetched w') = (length (Rt.fetched endless) + Z.to_nat 2)%nat).
Proof.
  intros parse next site w endless.
  assert (Hfair : Rt.fair w) by (intros k; split; [discriminate | reflexivity]).
  assert (Hfair' : Rt.fair endless)
    by (intros k; split; [discriminate | reflexivity]).
  split; [| split; [| split]].
  - apply (proj1 (proj2 (proj2 (pagination_stops_at_cap_or_last_page parse next)))
             5 w "p1" "p2" "p3" "/"%char "page/2/" "/"%char "page/3/")%string;
      try reflexivity; try exact Hfair. lia.
  - apply (proj1 (proj2 (pagination_stops_at_cap_or_last_page parse
                           (fun _ => Some "/next"%string)))
             2 "p" "/"%char "next" endless)%string;
      try reflexivity; try exact Hfair'. lia.
  - apply (proj2 (proj2 (proj2 (proj2 (proj2
             (pagination_stops_at_cap_or_last_page parse next)))))
             5 w "p1" "p2" "p3" "/"%char "page/2/" "/"%char "page/3/")%string;
      try reflexivity; try exact Hfair. lia.
  - apply (proj1 (proj2 (proj2 (proj2 (proj2
             (pagination_stops_at_cap_or_last_page parse
                (fun _ => Some "/next"%string))))))
             2 "p" "/"%char "next" endless)%string;
      try reflexivity; try exact Hfair'. lia.
Defined.


(** The words ACCESS DENIED in a mix of cases inside a page, and the word
    BLOCKED spelt with the Kelvin sign, under a database that knows that
    sign. *)
Lemma block_classifier_cases_witness :
  Antibot.CaptchaDetector.is_captcha_page
    ("<h1>" +:+ "Access DENIED" +:+ "</h1>") None = true /\
  Antibot.CaptchaDetector.is_blocked 200
    (Some ("<h1>" +:+ "Access DENIED" +:+ "</h1>")) = true /\
  Antibot.CaptchaDetector.is_captcha_page
    ("<p>BLOC" +:+ Py.kelvin_sign +:+ "ED</p>") None = true.
Proof.
  destruct (@block_classifier_cases Py.sample_unicode)
    as (_ & _ & _ & _ & _ & Hcase & _ & _ & Hkelvin).
  destruct (Hcase "access denied"%string "Access DENIED"%string
              "<h1>"%string "</h1>"%string) as (Hpage & Hblocked & _).
  - simpl. tauto.
  - reflexivity.
  - split; [exact Hpage |]. split; [exact Hblocked |].
    apply Hkelvin. reflexivity.
Defined.


(** A cap of one request per minute and no delay between the requests.  The
    second call of [wait] finds the first time 2 ms old; the double nearest
    to 60 - 0.002 is below 59.998, so the sleep lasts 59.997999 s on the
    clock and the second time is recorded 59.999999 s after the first: two
    times lie in the 60 seconds up to it. *)
Lemma throttler_window_cap_fails_by_rounding :
  let w0 := Rt.mk_world
    (Rt.mk_env (fun _ _ => Rt.Unreachable) (fun _ => 0%Q) (fun _ => O)
               (fun k => if Nat.eqb k 4 then 2000 else 0)) 0 O [] O []
    Rt.no_stats [] in
  let s1 := Antibot.RequestThrottler.steps
    (Antibot.RequestThrottler.mk_session
       (Antibot.RequestThrottler.init 0 0 1) w0 [])
    [Antibot.RequestThrottler.Wait] in
  let s := Antibot.RequestThrottler.step s1 Antibot.RequestThrottler.Wait in
  Rt.steady w0 /\ Rt.fair w0 /\
  Antibot.RequestThrottler.next_age
    (Antibot.RequestThrottler.throttler s1)
    (Antibot.RequestThrottler.world s1) = Some 2000 /\
  (Antibot.RequestThrottler.wait_time 2000 < 60 - (2000 # 1000000))%Q /\
  Rt.micro (Antibot.RequestThrottler.wait_time 2000) = 59997999 /\
  Antibot.RequestThrottler.history s = [0; 59999999] /\
  Antibot.RequestThrottler.in_window 59999999
    (Antibot.RequestThrottler.history s) = 2 /\
  ~ (forall (N : Z) (min_delay max_delay : Q) (w : Rt.world)
            (calls : list Antibot.RequestThrottler.call),
       0 <= N -> Rt.steady w ->
       forall t,
         Antibot.RequestThrottler.in_window t
           (Antibot.RequestThrottler.history
              (Antibot.RequestThrottler.steps
                 (Antibot.RequestThrottler.mk_session
                    (Antibot.RequestThrottler.init min_delay max_delay N) w [])
                 calls)) <= N).
Proof.
  intros w0 s1 s.
  assert (Hsteady : Rt.steady w0).
  { intros k. cbn. destruct (Nat.eqb k 4); lia. }
  split; [exact Hsteady |].
  split; [intros k; split; [discriminate | reflexivity] |].
  split; [vm_compute; reflexivity |].
  split; [vm_compute; reflexivity |].
  split; [vm_compute; reflexivity |].
  split; [vm_compute; reflexivity |].
  split; [vm_compute; reflexivity |].
  intros Hcap.
  specialize (Hcap 1 0%Q 0%Q w0
                [Antibot.RequestThrottler.Wait; Antibot.RequestThrottler.Wait]
                ltac:(lia) Hsteady 59999999).
  vm_compute in Hcap. apply Hcap. reflexivity.
Qed.

End Runs.

(** * Further properties

    Behaviour of the embedded functions beyond the statements above:
    edge cases, invariants and the way the operations compose. *)

(** ** Strings *)
Section Strings.

Lemma append_length (a b : string) :
  String.length (a +:+ b) = (String.length a + String.length b)%nat.
Proof.
  induction a as [|x a IH]; [reflexivity |].
  rewrite append_cons. simpl. now rewrite IH.
Qed.

Lemma contains_false_startswith (p s : string) :
  Py.contains p s = false -> Py.startswith p s = false.
Proof. destruct s; simpl; intros H; now apply orb_false_elim in H. Qed.

Lemma replace_from_absent (old new s : string) :
  Py.contains old s = false -> Py.replace_from old new 0 s = s.
Proof.
  induction s as [|c s IH]; intros H; [reflexivity |].
  pose proof (contains_false_startswith _ _ H) as Hs.
  simpl in H. apply orb_false_elim in H as [_ H].
  cbn [Py.replace_from]. rewrite Hs, (IH H). reflexivity.
Qed.

Lemma replace_from_skip (old new pre s : string) :
  Py.replace_from old new (String.length pre) (pre +:+ s) =
  Py.replace_from old new 0 s.
Proof.
  induction pre as [|c pre IH]; [reflexivity |].
  rewrite append_cons. simpl. exact IH.
Qed.

Lemma replace_prefix (old s : string) :
  old <> EmptyString ->
  Py.replace old "" (old +:+ s) = Py.replace old "" s.
Proof.
  intros Hold. destruct old as [|a old]; [congruence |].
  unfold Py.replace. rewrite append_cons.
  cbn [Py.replace_from].
  assert (Hst : Py.startswith (String a old) (String a (old +:+ s)) = true)
    by (apply startswith_spec; now exists s).
  rewrite Hst.
  replace (String.length (String a old) - 1)%nat with (String.length old)
    by (simpl; lia).
  rewrite append_nil.
  apply replace_from_skip.
Qed.

Lemma split_absent (sep : ascii) (s : string) :
  Py.contains (String sep EmptyString) s = false -> Py.split sep s = [s].
Proof.
  induction s as [|c s IH]; intros H; [reflexivity |].
  simpl in H. apply orb_false_elim in H as [Hc H].
  rewrite andb_true_r in Hc.
  simpl. rewrite Ascii.eqb_sym, Hc, (IH H). reflexivity.
Qed.

Lemma split_app (sep : ascii) (a b : string) :
  Py.contains (String sep EmptyString) a = false ->
  Py.split sep (a +:+ String sep b) = a :: Py.split sep b.
Proof.
  induction a as [|c a IH]; intros H.
  - rewrite append_nil. simpl. now rewrite Ascii.eqb_refl.
  - simpl in H. apply orb_false_elim in H as [Hc H].
    rewrite andb_true_r in Hc.
    rewrite append_cons. simpl. rewrite Ascii.eqb_sym, Hc, (IH H). reflexivity.
Qed.

Lemma contains_char_app (c : ascii) (a b : string) :
  Py.contains (String c EmptyString) a = false ->
  Py.contains (String c EmptyString) b = false ->
  Py.contains (String c EmptyString) (a +:+ b) = false.
Proof.
  induction a as [|x a IH]; intros Ha Hb; [exact Hb |].
  simpl in Ha. apply orb_false_elim in Ha as [Hx Ha].
  rewrite append_cons. simpl. rewrite Hx. simpl. now apply IH.
Qed.

End Strings.


Section ProxyKeys.

Import Antibot.ProxyRotator.
Import Antibot.ProxyConfig.
Local Open Scope nat_scope.

Lemma to_dict_http (p : Antibot.ProxyConfig.t) :
  to_dict p !! "http"%string =
  Some match credentials p with
       | Some (u, pw) =>
           protocol p +:+ "://" +:+ u +:+ ":" +:+ pw +:+ "@" +:+ host_port p
       | None => protocol p +:+ "://" +:+ host_port p
       end%string.
Proof.
  unfold to_dict, credentials.
  destruct (username p) as [[|a u]|], (password p) as [[|b pw]|];
    now rewrite lookup_insert_eq.
Qed.

Lemma extract_with_credentials (p : Antibot.ProxyConfig.t) (u pw : string) :
  credentials p = Some (u, pw) ->
  Py.contains "@" (protocol p +:+ "://" +:+ u +:+ ":" +:+ pw) = false ->
  Py.contains "@" (host_port p) = false ->
  extract_host_port (to_dict p) = Py.Ok (host_port p).
Proof.
  intros Hc Hpre Hhp. unfold extract_host_port.
  rewrite to_dict_http, Hc. cbv [default from_option id].
  set (pre := (protocol p +:+ "://" +:+ u +:+ ":" +:+ pw)%string) in *.
  assert (E : (protocol p +:+ "://" +:+ u +:+ ":" +:+ pw +:+ "@" +:+ host_port p
               = pre +:+ String "@"%char (host_port p))%string).
  { unfold pre. now rewrite !append_assoc. }
  rewrite E.
  assert (Hin : Py.contains "@" (pre +:+ String "@"%char (host_port p)) = true).
  { apply contains_spec. exists pre, (host_port p). reflexivity. }
  rewrite Hin, (split_app _ _ _ Hpre), (split_absent _ _ Hhp). reflexivity.
Qed.

Lemma extract_without_credentials (p : Antibot.ProxyConfig.t) :
  credentials p = None ->
  protocol p = "http"%string \/ protocol p = "https"%string ->
  Py.contains "@" (host_port p) = false ->
  Py.contains "http://" (host_port p) = false ->
  Py.contains "https://" (host_port p) = false ->
  extract_host_port (to_dict p) = Py.Ok (host_port p).
Proof.
  intros Hc Hproto Hat Hhttp Hhttps. unfold extract_host_port.
  rewrite to_dict_http, Hc. cbv [default from_option id].
  destruct Hproto as [-> | ->].
  - assert (Hno : Py.contains "@" ("http" +:+ "://" +:+ host_port p) = false).
    { change ("http" +:+ "://" +:+ host_port p)%string
        with ("http://" +:+ host_port p)%string.
      rewrite !append_cons, append_nil. simpl. exact Hat. }
    rewrite Hno.
    change ("http" +:+ "://" +:+ host_port p)%string
      with ("http://" +:+ host_port p)%string.
    rewrite replace_prefix by discriminate.
    unfold Py.replace.
    now rewrite (replace_from_absent _ _ _ Hhttp), (replace_from_absent _ _ _ Hhttps).
  - assert (Hno : Py.contains "@" ("https" +:+ "://" +:+ host_port p) = false).
    { change ("https" +:+ "://" +:+ host_port p)%string
        with ("https://" +:+ host_port p)%string.
      rewrite !append_cons, append_nil. simpl. exact Hat. }
    rewrite Hno.
    change ("https" +:+ "://" +:+ host_port p)%string
      with ("https://" +:+ host_port p)%string.
    assert (Hno' : Py.contains "http://" ("https://" +:+ host_port p) = false).
    { rewrite !append_cons, append_nil. simpl. exact Hhttp. }
    unfold Py.replace at 2. rewrite (replace_from_absent _ _ _ Hno').
    rewrite replace_prefix by discriminate.
    unfold Py.replace. now rewrite (replace_from_absent _ _ _ Hhttps).
Qed.

End ProxyKeys.

Section ProxiesMore.

Import Antibot.ProxyRotator.
Local Open Scope nat_scope.

Lemma get_next_some (self : t) d s n :
  index_ok self ->
  get_next self = Some (Py.Ok (Some d), s, n) ->
  exists q, In q (proxies self) /\ is_failed self q = false /\
            d = Antibot.ProxyConfig.to_dict q.
Proof.
  intros Hok Hget.
  destruct (get_next_total self Hok) as (r & s' & n' & E & _ & _ & _ & _ & _ & Hsome).
  rewrite E in Hget. injection Hget as -> -> ->. now apply Hsome.
Qed.

(** X1. A proxy whose mapping [mark_failed] can read is taken out of
    rotation.  If [host:port] holds no [@] and either the proxy has both
    credentials and scheme, user and password hold no [@], or it has none,
    its scheme is [http] or [https] and [host:port] holds neither
    [http://] nor [https://], then [mark_failed(p.to_dict())] does not
    raise and files [p] as failed; as long as [reset_failed] is not called,
    no later [get_next] answers a proxy with the key of [p]. *)
Theorem mark_failed_retires_proxy (self : t) (p : Antibot.ProxyConfig.t) :
  Py.contains "@" (Antibot.ProxyConfig.host_port p) = false ->
  match Antibot.ProxyConfig.credentials p with
  | Some (u, pw) =>
      Py.contains "@" (Antibot.ProxyConfig.protocol p +:+ "://" +:+ u +:+ ":" +:+ pw)
      = false
  | None =>
      (Antibot.ProxyConfig.protocol p = "http"%string \/
       Antibot.ProxyConfig.protocol p = "https"%string) /\
      Py.contains "http://" (Antibot.ProxyConfig.host_port p) = false /\
      Py.contains "https://" (Antibot.ProxyConfig.host_port p) = false
  end ->
  let self' := snd (mark_failed self (Antibot.ProxyConfig.to_dict p)) in
  mark_failed self (Antibot.ProxyConfig.to_dict p) = (Py.Ok tt, self') /\
  is_failed self' p = true /\
  (index_ok self ->
   forall calls d s n,
     ~ In ResetFailed calls ->
     get_next (steps self' calls) = Some (Py.Ok (Some d), s, n) ->
     exists q, In q (proxies (steps self' calls)) /\
               d = Antibot.ProxyConfig.to_dict q /\
               Antibot.ProxyConfig.host_port q <> Antibot.ProxyConfig.host_port p).
Proof.
  intros Hat Hcred self'.
  assert (E : extract_host_port (Antibot.ProxyConfig.to_dict p)
              = Py.Ok (Antibot.ProxyConfig.host_port p)).
  { destruct (Antibot.ProxyConfig.credentials p) as [[u pw]|] eqn:Hc.
    - now apply (extract_with_credentials p u pw).
    - destruct Hcred as (Hproto & Hhttp & Hhttps).
      now apply extract_without_credentials. }
  assert (Hin : Antibot.ProxyConfig.host_port p ∈ failed_proxies self').
  { unfold self', mark_failed. rewrite E. simpl. set_solver. }
  split; [| split].
  - unfold self', mark_failed. now rewrite E.
  - unfold is_failed. now apply bool_decide_eq_true.
  - intros Hok calls d s n Hreset Hget.
    assert (Hok' : index_ok (steps self' calls)).
    { apply steps_index_ok.
      apply (step_index_ok self (MarkFailed (Antibot.ProxyConfig.to_dict p)) Hok). }
    destruct (get_next_some _ _ _ _ Hok' Hget) as (q & Hq & Hfq & ->).
    exists q. split; [exact Hq | split; [reflexivity |]].
    intros Heq. unfold is_failed in Hfq. apply bool_decide_eq_false in Hfq.
    apply Hfq. rewrite Heq. now apply steps_keep_failed.
Qed.

(** X2. For a proxy without credentials whose URL holds none of [@],
    [http://] and [https://] (a [socks5] proxy, say), [mark_failed] files
    the whole URL instead of [host:port]: the proxy is no more failed than
    before, and a rotator that holds only this proxy hands it out again. *)
Theorem mark_failed_misses_other_schemes (self : t) (p : Antibot.ProxyConfig.t) :
  Antibot.ProxyConfig.credentials p = None ->
  let url := (Antibot.ProxyConfig.protocol p +:+ "://"
              +:+ Antibot.ProxyConfig.host_port p)%string in
  Py.contains "@" url = false ->
  Py.contains "http://" url = false ->
  Py.contains "https://" url = false ->
  mark_failed self (Antibot.ProxyConfig.to_dict p)
    = (Py.Ok tt, snd (mark_failed self (Antibot.ProxyConfig.to_dict p))) /\
  failed_proxies (snd (mark_failed self (Antibot.ProxyConfig.to_dict p)))
    = {[url]} ∪ failed_proxies self /\
  is_failed (snd (mark_failed self (Antibot.ProxyConfig.to_dict p))) p
    = is_failed self p /\
  get_next (snd (mark_failed (init [p]) (Antibot.ProxyConfig.to_dict p)))
    = Some (Py.Ok (Some (Antibot.ProxyConfig.to_dict p)),
            snd (mark_failed (init [p]) (Antibot.ProxyConfig.to_dict p)), 1).
Proof.
  intros Hc url Hat Hhttp Hhttps.
  assert (E : extract_host_port (Antibot.ProxyConfig.to_dict p) = Py.Ok url).
  { unfold extract_host_port. rewrite to_dict_http, Hc.
    cbv [default from_option id]. fold url. rewrite Hat.
    unfold Py.replace.
    now rewrite (replace_from_absent _ _ _ Hhttp), (replace_from_absent _ _ _ Hhttps). }
  assert (Hne : Antibot.ProxyConfig.host_port p <> url).
  { intros Heq. apply (f_equal String.length) in Heq.
    unfold url in Heq. rewrite !append_length in Heq. simpl in Heq. lia. }
  assert (Hsame : forall s0, is_failed (snd (mark_failed s0 (Antibot.ProxyConfig.to_dict p))) p
                             = is_failed s0 p).
  { intros s0. unfold mark_failed. rewrite E. unfold is_failed. simpl.
    apply bool_decide_ext. rewrite elem_of_union, elem_of_singleton.
    split; [intros [Hk | Hk]; [now destruct Hne | exact Hk] | now right]. }
  split; [| split; [| split]].
  - unfold mark_failed. now rewrite E.
  - unfold mark_failed. now rewrite E.
  - apply Hsame.
  - pose proof (Hsame (init [p])) as Hp.
    unfold mark_failed in *. rewrite E in *. simpl in Hp.
    unfold get_next. simpl. rewrite Hp. reflexivity.
Qed.

Lemma get_next_while_stats (fuel attempts : nat) (self : t) r s n :
  get_next_while fuel attempts self = Some (r, s, n) ->
  proxy_stats s = proxy_stats self.
Proof.
  revert attempts self r s n.
  induction fuel as [|fuel IH]; intros attempts self r s n; simpl.
  - destruct (attempts <? length (proxies self)); [discriminate |].
    intros [= _ <- _]. reflexivity.
  - destruct (attempts <? length (proxies self)).
    + destruct (proxies self !! current_index self) as [proxy|].
      * destruct (negb (is_failed self proxy)).
        -- intros [= _ <- _]. reflexivity.
        -- destruct (get_next_while fuel (attempts + 1) _) as [[[r' s'] n']|] eqn:E;
             [| discriminate].
           intros [= _ <- _]. now apply IH in E.
      * intros [= _ <- _]. reflexivity.
    + intros [= _ <- _]. reflexivity.
Qed.

Lemma step_keeps_stats (self : t) (c : call) :
  (forall proxy, c <> AddProxy proxy) ->
  proxy_stats self = ∅ -> proxy_stats (step self c) = ∅.
Proof.
  intros Hadd Hs. destruct c as [proxy| | |d|d|]; simpl.
  - now destruct (Hadd proxy).
  - exact Hs.
  - unfold get_next. destruct (proxies self); [exact Hs |].
    destruct (get_next_while _ _ _) as [[[r s] n]|] eqn:E; [| exact Hs].
    apply get_next_while_stats in E. now rewrite E.
  - unfold mark_failed. destruct (extract_host_port d); simpl; [| exact Hs].
    rewrite Hs, lookup_empty. reflexivity.
  - unfold mark_success. destruct (extract_host_port d); simpl; [| exact Hs].
    rewrite Hs, lookup_empty. reflexivity.
  - exact Hs.
Qed.

(** X3. [proxy_stats] gets its entries from [add_proxy] only.  A rotator
    built from a list of proxies and never given one by [add_proxy] keeps
    empty statistics whatever is marked as failed or successful. *)
Theorem constructor_pool_is_never_counted
    (pool : list Antibot.ProxyConfig.t) (calls : list call) :
  (forall proxy, ~ In (AddProxy proxy) calls) ->
  proxy_stats (steps (init pool) calls) = ∅.
Proof.
  intros Hadd. unfold steps.
  assert (H0 : proxy_stats (init pool) = ∅) by reflexivity.
  revert H0 Hadd. generalize (init pool).
  induction calls as [|c calls IH]; intros self H0 Hadd; [exact H0 |].
  simpl. apply IH.
  - apply step_keeps_stats; [| exact H0].
    intros proxy ->. apply (Hadd proxy). now left.
  - intros proxy Hin. apply (Hadd proxy). now right.
Qed.

End ProxiesMore.

Section RoundRobin.

Import Antibot.ProxyRotator.
Local Open Scope nat_scope.

Lemma get_next_while_finds (j : nat) :
  forall (fuel attempts : nat) (self : t) (p : Antibot.ProxyConfig.t),
    current_index self < length (proxies self) ->
    attempts + j < length (proxies self) ->
    j < fuel ->
    (forall i, i < j ->
       exists q, proxies self !! ((current_index self + i) mod length (proxies self))
                 = Some q /\ is_failed self q = true) ->
    proxies self !! ((current_index self + j) mod length (proxies self)) = Some p ->
    is_failed self p = false ->
    get_next_while fuel attempts self =
    Some (Py.Ok (Some (Antibot.ProxyConfig.to_dict p)),
          mk (proxies self)
             ((current_index self + j + 1) mod length (proxies self))
             (failed_proxies self) (proxy_stats self),
          S j).
Proof.
  induction j as [|j IH]; intros fuel attempts self p Hidx Hatt Hfuel Hskip Hp Hok.
  - destruct fuel as [|fuel]; [lia |]. simpl.
    assert (Hlt : (attempts <? length (proxies self)) = true)
      by (apply Nat.ltb_lt; lia).
    rewrite Hlt. rewrite Nat.add_0_r in *.
    rewrite Nat.mod_small in Hp by exact Hidx.
    rewrite Hp, Hok. reflexivity.
  - destruct fuel as [|fuel]; [lia |]. simpl.
    assert (Hlt : (attempts <? length (proxies self)) = true)
      by (apply Nat.ltb_lt; lia).
    rewrite Hlt.
    destruct (Hskip 0 ltac:(lia)) as (q & Hq & Hfq).
    rewrite Nat.add_0_r, Nat.mod_small in Hq by exact Hidx.
    rewrite Hq, Hfq. simpl.
    set (self' := mk (proxies self)
                     ((current_index self + 1) mod length (proxies self))
                     (failed_proxies self) (proxy_stats self)).
    assert (Hn : length (proxies self) <> 0) by lia.
    rewrite (IH fuel (attempts + 1) self' p).
    + simpl.
      assert (E : ((current_index self + 1) mod length (proxies self) + j + 1)
                    mod length (proxies self)
                  = (current_index self + S j + 1) mod length (proxies self)).
      { rewrite <- Nat.add_assoc, Nat.Div0.add_mod_idemp_l. f_equal. lia. }
      now rewrite E.
    + simpl. now apply Nat.mod_upper_bound.
    + simpl. lia.
    + lia.
    + intros i Hi. simpl. rewrite Nat.Div0.add_mod_idemp_l.
      destruct (Hskip (S i) ltac:(lia)) as (q' & Hq' & Hfq').
      exists q'. split; [| exact Hfq'].
      rewrite <- Hq'. f_equal. f_equal. lia.
    + simpl. rewrite Nat.Div0.add_mod_idemp_l.
      rewrite <- Hp. f_equal. f_equal. lia.
    + exact Hok.
Qed.

Lemma get_next_while_fruitless (k : nat) :
  forall (fuel attempts : nat) (self : t),
    current_index self < length (proxies self) ->
    attempts + k = length (proxies self) ->
    k <= fuel ->
    Forall (fun p => is_failed self p = true) (proxies self) ->
    get_next_while fuel attempts self =
    Some (Py.Ok None,
          mk (proxies self)
             ((current_index self + k) mod length (proxies self))
             (failed_proxies self) (proxy_stats self),
          k).
Proof.
  induction k as [|k IH]; intros fuel attempts self Hidx Hatt Hfuel Hall.
  - assert (Hlt : (attempts <? length (proxies self)) = false)
      by (apply Nat.ltb_ge; lia).
    destruct fuel; simpl; rewrite Hlt, Nat.add_0_r, Nat.mod_small by exact Hidx;
      now destruct self.
  - destruct fuel as [|fuel]; [lia |]. simpl.
    assert (Hlt : (attempts <? length (proxies self)) = true)
      by (apply Nat.ltb_lt; lia).
    rewrite Hlt.
    destruct (lookup_lt_is_Some_2 (proxies self) (current_index self) Hidx)
      as [q Hq].
    rewrite Hq.
    assert (Hfq : is_failed self q = true).
    { rewrite List.Forall_forall in Hall. apply Hall.
      apply list_elem_of_In. now apply list_elem_of_lookup_2 in Hq. }
    rewrite Hfq. simpl.
    set (self' := mk (proxies self)
                     ((current_index self + 1) mod length (proxies self))
                     (failed_proxies self) (proxy_stats self)).
    assert (Hn : length (proxies self) <> 0) by lia.
    rewrite (IH fuel (attempts + 1) self').
    + simpl.
      assert (E : ((current_index self + 1) mod length (proxies self) + k)
                    mod length (proxies self)
                  = (current_index self + S k) mod length (proxies self)).
      { rewrite Nat.Div0.add_mod_idemp_l. f_equal. lia. }
      now rewrite E.
    + simpl. now apply Nat.mod_upper_bound.
    + simpl. lia.
    + lia.
    + exact Hall.
Qed.

(** X4. [get_next] hands out the first proxy that has not failed,
    counting from [current_index] round the pool, after as many passes
    through its loop as proxies were looked at, and leaves the index just
    behind that proxy. *)
Theorem get_next_takes_first_healthy (self : t) (j : nat) (p : Antibot.ProxyConfig.t) :
  current_index self < length (proxies self) ->
  j < length (proxies self) ->
  (forall i, i < j ->
     exists q, proxies self !! ((current_index self + i) mod length (proxies self))
               = Some q /\ is_failed self q = true) ->
  proxies self !! ((current_index self + j) mod length (proxies self)) = Some p ->
  is_failed self p = false ->
  get_next self =
  Some (Py.Ok (Some (Antibot.ProxyConfig.to_dict p)),
        mk (proxies self)
           ((current_index self + j + 1) mod length (proxies self))
           (failed_proxies self) (proxy_stats self),
        S j).
Proof.
  intros Hidx Hj Hskip Hp Hok. unfold get_next.
  destruct (proxies self) as [|p0 pool] eqn:Hpool; [simpl in Hidx; lia |].
  rewrite <- Hpool in *.
  now apply get_next_while_finds.
Qed.

(** X5. When every proxy of a non-empty pool has failed, [get_next]
    answers [None] after one pass per proxy and leaves the rotator as it
    was, [current_index] included. *)
Theorem get_next_fruitless_round (self : t) :
  current_index self < length (proxies self) ->
  Forall (fun p => is_failed self p = true) (proxies self) ->
  get_next self = Some (Py.Ok None, self, length (proxies self)).
Proof.
  intros Hidx Hall. unfold get_next.
  destruct (proxies self) as [|p0 pool] eqn:Hpool; [simpl in Hidx; lia |].
  rewrite <- Hpool in *.
  rewrite (get_next_while_fruitless (length (proxies self))) by (try lia; assumption).
  do 2 f_equal. f_equal.
  assert (E : (current_index self + length (proxies self)) mod length (proxies self)
              = current_index self).
  { rewrite <- (Nat.mul_1_l (length (proxies self))) at 1.
    rewrite Nat.Div0.mod_add. now apply Nat.mod_small. }
  rewrite E. now destruct self.
Qed.

Lemma choice_In {A} (l : list A) (w : Rt.world) :
  l <> [] ->
  exists a,
    In a l /\
    Rt.choice l w =
    (Py.Ok a,
     Rt.mk_world (Rt.script w) (Rt.clock w) (Rt.ticks w) (Rt.fetched w)
                 (S (Rt.draws w)) (Rt.slept w) (Rt.counters w) (Rt.files w)).
Proof.
  intros Hl. unfold Rt.choice.
  assert (Hlen : length l <> 0) by (destruct l; [congruence | discriminate]).
  destruct (lookup_lt_is_Some_2 l (Rt.pick (Rt.script w) (Rt.draws w) mod length l))
    as [a Ha]; [now apply Nat.mod_upper_bound |].
  exists a. rewrite Ha. split; [| reflexivity].
  apply list_elem_of_In. now apply list_elem_of_lookup_2 in Ha.
Qed.

(** X6. [get_random] answers [None] without drawing when every proxy has
    failed; otherwise it draws once and answers the mapping of a proxy of
    the pool that has not failed.  It never raises. *)
Theorem get_random_serves_healthy (self : t) (w : Rt.world) :
  (Forall (fun p => is_failed self p = true) (proxies self) ->
   get_random self w = (Py.Ok None, w)) /\
  (Exists (fun p => is_failed self p = false) (proxies self) ->
   exists p w',
     get_random self w = (Py.Ok (Some (Antibot.ProxyConfig.to_dict p)), w') /\
     In p (proxies self) /\ is_failed self p = false /\
     Rt.draws w' = S (Rt.draws w) /\ Rt.fetched w' = Rt.fetched w /\
     Rt.clock w' = Rt.clock w).
Proof.
  unfold get_random. split.
  - intros Hall.
    assert (E : List.filter (fun p => negb (is_failed self p)) (proxies self) = []).
    { induction Hall as [|p l Hp _ IH]; [reflexivity |].
      simpl. now rewrite Hp. }
    now rewrite E.
  - intros Hex.
    set (available := List.filter (fun p => negb (is_failed self p)) (proxies self)).
    assert (Hne : available <> []).
    { apply List.Exists_exists in Hex as (p & Hin & Hp).
      assert (Hp' : In p available).
      { apply List.filter_In. split; [exact Hin | now rewrite Hp]. }
      intros E. rewrite E in Hp'. destruct Hp'. }
    destruct (choice_In available w Hne) as (p & Hin & Hchoice).
    apply List.filter_In in Hin as [Hin Hp].
    exists p. eexists. split; [| split; [exact Hin | split]].
    + destruct available as [|a l] eqn:Ea; [congruence |].
      unfold St.bind. rewrite Hchoice. reflexivity.
    + now destruct (is_failed self p).
    + simpl. auto.
Qed.

End RoundRobin.


Section Agents.

Import Antibot.UserAgentRotator.
Local Open Scope nat_scope.

Lemma get_next_times_spec (k : nat) :
  forall self : t,
    current_index self < length (user_agents self) ->
    fst (get_next_times k self) =
      List.map (fun j =>
                  match user_agents self
                          !! ((current_index self + j) mod length (user_agents self)) with
                  | Some agent => Py.Ok agent
                  | None => Py.Raise Py.IndexError
                  end) (seq 0 k) /\
    user_agents (snd (get_next_times k self)) = user_agents self /\
    current_index (snd (get_next_times k self))
      = (current_index self + k) mod length (user_agents self).
Proof.
  induction k as [|k IH]; intros self Hidx.
  - simpl. rewrite Nat.add_0_r, Nat.mod_small by exact Hidx. auto.
  - destruct (lookup_lt_is_Some_2 (user_agents self) (current_index self) Hidx)
      as [agent Ha].
    set (self' := mk (user_agents self)
                     ((current_index self + 1) mod length (user_agents self))
                     (Some agent)).
    assert (Hg : get_next self = (Py.Ok agent, self'))
      by (unfold get_next; now rewrite Ha).
    cbn [get_next_times]. rewrite Hg.
    assert (Hn : length (user_agents self) <> 0) by lia.
    assert (Hidx' : current_index self' < length (user_agents self'))
      by (simpl; now apply Nat.mod_upper_bound).
    destruct (IH self' Hidx') as (Hanswers & Hagents & Hindex).
    destruct (get_next_times k self') as [rs self''] eqn:E.
    simpl in Hanswers, Hagents, Hindex. simpl. split; [| split].
    + rewrite Nat.add_0_r, Nat.mod_small, Ha by exact Hidx. f_equal.
      rewrite Hanswers, <- seq_shift, List.map_map.
      apply List.map_ext. intros j.
      rewrite Nat.Div0.add_mod_idemp_l.
      now replace (current_index self + 1 + j) with (current_index self + S j) by lia.
    + exact Hagents.
    + rewrite Hindex, Nat.Div0.add_mod_idemp_l. f_equal. lia.
Qed.

Lemma map_lookup_seq {A B} (f : A -> B) (d : B) (l : list A) :
  List.map (fun j => match l !! (j mod length l) with
                     | Some a => f a
                     | None => d
                     end) (seq 0 (length l))
  = List.map f l.
Proof.
  apply list_eq. intros i.
  rewrite !list_lookup_fmap.
  destruct (decide (i < length l)) as [Hi | Hi].
  - rewrite lookup_seq_lt by exact Hi. simpl.
    rewrite Nat.mod_small by exact Hi.
    destruct (lookup_lt_is_Some_2 l i Hi) as [a Ha]. now rewrite Ha.
  - rewrite lookup_seq_ge by lia.
    rewrite lookup_ge_None_2 by lia. reflexivity.
Qed.

(** X7. Successive calls of [UserAgentRotator.get_next] go round the list:
    the call number [j] answers the agent at position
    [(current_index + j) mod len], none raises, and after [k] calls the index
    is [(current_index + k) mod len].  Started at 0, one call per agent
    answers the list in order and brings the index back to 0. *)
Theorem get_next_round_robin (self : t) (k : nat) :
  current_index self < length (user_agents self) ->
  (fst (get_next_times k self) =
     List.map (fun j =>
                 match user_agents self
                         !! ((current_index self + j) mod length (user_agents self)) with
                 | Some agent => Py.Ok agent
                 | None => Py.Raise Py.IndexError
                 end) (seq 0 k)) /\
  (forall j, j < k ->
     exists agent,
       user_agents self !! ((current_index self + j) mod length (user_agents self))
         = Some agent /\
       fst (get_next_times k self) !! j = Some (Py.Ok agent)) /\
  current_index (snd (get_next_times k self))
    = (current_index self + k) mod length (user_agents self) /\
  (current_index self = 0 ->
   fst (get_next_times (length (user_agents self)) self)
     = List.map Py.Ok (user_agents self) /\
   current_index (snd (get_next_times (length (user_agents self)) self)) = 0).
Proof.
  intros Hidx.
  destruct (get_next_times_spec k self Hidx) as (Hanswers & _ & Hindex).
  split; [exact Hanswers | split; [| split; [exact Hindex |]]].
  - intros j Hj.
    assert (Hlt : (current_index self + j) mod length (user_agents self)
                  < length (user_agents self))
      by (apply Nat.mod_upper_bound; lia).
    destruct (lookup_lt_is_Some_2 _ _ Hlt) as [agent Ha].
    exists agent. split; [exact Ha |].
    rewrite Hanswers, list_lookup_fmap, lookup_seq_lt by exact Hj.
    simpl. now rewrite Ha.
  - intros H0.
    destruct (get_next_times_spec (length (user_agents self)) self Hidx)
      as (Hall & _ & Hback).
    rewrite Hall, Hback, H0. simpl. split.
    + apply map_lookup_seq.
    + apply Nat.Div0.mod_same.
Qed.

(** X8. A [UserAgentRotator] never has an empty list: without custom
    agents, or with an empty list of them, it uses the built-in
    [USER_AGENTS].  Hence the first [get_next] and [get_random] answer an
    agent of the list and record it as [last_used]; [get_random] leaves the
    index alone. *)
Theorem rotator_is_never_empty (custom_agents : option (list string)) (w : Rt.world) :
  user_agents (init custom_agents) <> [] /\
  (custom_agents = None \/ custom_agents = Some [] ->
   user_agents (init custom_agents) = USER_AGENTS) /\
  (exists agent self',
     get_next (init custom_agents) = (Py.Ok agent, self') /\
     In agent (user_agents (init custom_agents)) /\
     last_used self' = Some agent) /\
  (exists agent self' w',
     get_random (init custom_agents) w = (Py.Ok agent, self', w') /\
     In agent (user_agents (init custom_agents)) /\
     last_used self' = Some agent /\ current_index self' = 0).
Proof.
  assert (Hne : user_agents (init custom_agents) <> []).
  { destruct custom_agents as [[|a l]|]; discriminate. }
  split; [exact Hne | split; [| split]].
  - intros [-> | ->]; reflexivity.
  - unfold get_next.
    destruct (user_agents (init custom_agents)) as [|a l] eqn:E; [congruence |].
    change (current_index (init custom_agents)) with 0. simpl.
    exists a. eexists. split; [reflexivity |]. split; [now left | reflexivity].
  - destruct (choice_In (user_agents (init custom_agents)) w Hne)
      as (agent & Hin & Hchoice).
    unfold get_random. rewrite Hchoice.
    exists agent. do 2 eexists. split; [reflexivity |].
    split; [exact Hin |]. split; reflexivity.
Qed.

End Agents.

Section ThrottleMore.

Import Antibot.RequestThrottler.

Lemma sorted_filter (p : Z -> bool) (l : list Z) :
  StronglySorted Z.le l -> StronglySorted Z.le (List.filter p l).
Proof.
  induction 1 as [| a l Hs IH Ha]; simpl; [constructor |].
  destruct (p a); [| exact IH].
  constructor; [exact IH |].
  rewrite List.Forall_forall in *. intros x Hx.
  apply List.filter_In in Hx as [Hx _]. now apply Ha.
Qed.

Lemma sorted_snoc (l : list Z) (y : Z) :
  StronglySorted Z.le l -> Forall (fun x => x <= y) l ->
  StronglySorted Z.le (l ++ [y]).
Proof.
  induction 1 as [| a l Hs IH Ha]; intros Hy; simpl.
  - constructor; constructor.
  - apply List.Forall_cons_iff in Hy as [Hay Hy].
    constructor; [now apply IH |].
    apply List.Forall_app. split; [exact Ha | constructor; [exact Hay | constructor]].
Qed.

(** [wait] keeps the list ascending. *)
Lemma sorted_wait (N : Z) (s : session) :
  sound N s ->
  StronglySorted Z.le (request_times (throttler s)) ->
  StronglySorted Z.le (request_times (throttler (step s Wait))).
Proof.
  intros Hs Hsorted. pose proof (sound_times N s Hs) as Htimes.
  destruct Hs as [Hrpm Hsteady Hpast Hkept].
  unfold step.
  destruct (wait (throttler s) (world s)) as [[r self'] w'] eqn:Hrun.
  apply wait_spec in Hrun; [| exact Hsteady | exact Htimes].
  set (now0 := Rt.clock (world s) + Rt.lag (Rt.script (world s)) (Rt.ticks (world s))) in *.
  set (kept := List.filter (fun t => now0 - minute <? t)
                           (request_times (throttler s))) in *.
  destruct Hrun as (Hlater & Hnow & _ & _ & Hres).
  assert (Hclk : Rt.clock (world s) <= now0).
  { unfold now0. specialize (Hsteady (Rt.ticks (world s))). lia. }
  assert (Hks : StronglySorted Z.le kept) by now apply sorted_filter.
  assert (Hkp : Forall (fun t => t <= Rt.clock (world s)) kept).
  { apply (sublist_Forall_le _ (request_times (throttler s))); [| exact Htimes].
    apply list_filter_sublist. }
  destruct r as [[] | e]; simpl.
  - destruct Hres as (recorded & Htimes' & Hclock & _).
    rewrite Htimes'. apply sorted_snoc; [exact Hks |].
    apply (Forall_le_weaken _ (Rt.clock (world s))); [lia | exact Hkp].
  - now rewrite Hres.
Qed.

Lemma sorted_steps (N : Z) (calls : list call) (s : session) :
  sound N s ->
  StronglySorted Z.le (request_times (throttler s)) ->
  StronglySorted Z.le (request_times (throttler (steps s calls))).
Proof.
  revert s. induction calls as [| c calls IH]; intros s Hs Hsorted; simpl.
  - exact Hsorted.
  - apply IH; [now apply sound_step |].
    destruct c; [now apply (sorted_wait N) | exact Hsorted | exact Hsorted].
Qed.

(** Under the window bound [wait] leaves at most [N + 1] entries. *)
Lemma tidy_wait (N : Z) (s : session) :
  inv N s ->
  Z.of_nat (length (request_times (throttler (step s Wait)))) <= N + 1.
Proof.
  intros Hinv. pose proof (sound_times N s (inv_sound N s Hinv)) as Htimes.
  destruct Hinv as [Hrpm Hsteady Hpast Hrecent Hkept Hwindow].
  unfold step.
  destruct (wait (throttler s) (world s)) as [[r self'] w'] eqn:Hrun.
  apply wait_spec in Hrun; [| exact Hsteady | exact Htimes].
  set (now0 := Rt.clock (world s) + Rt.lag (Rt.script (world s)) (Rt.ticks (world s))) in *.
  set (kept := List.filter (fun t => now0 - minute <? t)
                           (request_times (throttler s))) in *.
  destruct Hrun as (Hlater & Hnow & Hrpm' & _ & Hres).
  assert (Hclk : Rt.clock (world s) <= now0).
  { unfold now0. specialize (Hsteady (Rt.ticks (world s))). lia. }
  assert (F2 : Z.of_nat (length kept) <= N).
  { change (Z.of_nat (length kept))
      with (newer_than (now0 - minute) (request_times (throttler s))).
    rewrite <- Hrecent by lia.
    rewrite <- in_window_past; [apply Hwindow |].
    now apply (Forall_le_weaken _ (Rt.clock (world s))). }
  destruct r as [[] | e]; simpl.
  - destruct Hres as (recorded & Htimes' & _ & _).
    rewrite Htimes', length_app. simpl. lia.
  - rewrite Hres. lia.
Qed.

Lemma tidy_steps (N : Z) (calls : list call) (s : session) :
  inv N s ->
  exact_waits s calls = true \/ (Rt.fair (world s) /\ paced (throttler s)) ->
  Z.of_nat (length (request_times (throttler s))) <= N + 1 ->
  Z.of_nat (length (request_times (throttler (steps s calls)))) <= N + 1.
Proof.
  revert s. induction calls as [| c calls IH]; intros s Hinv Hexact Hl; simpl.
  - exact Hl.
  - destruct (inv_next N c calls s Hinv Hexact) as [Hstep Hrest].
    apply IH; [exact Hstep | exact Hrest |].
    destruct c; [now apply tidy_wait | exact Hl | exact Hl].
Qed.


(** With a cap of zero or less the throttler never lets a request pass. *)
Lemma zero_cap_wait (self : t) (w : Rt.world) :
  requests_per_minute self <= 0 -> request_times self = [] ->
  wait self w =
  (Py.Raise Py.IndexError, self,
   let w1 := Rt.with_clock (Rt.clock w + Rt.lag (Rt.script w) (Rt.ticks w)) w in
   Rt.with_clock (Rt.clock w1 + Rt.lag (Rt.script w1) (Rt.ticks w1)) w1).
Proof.
  intros Hcap Hempty. unfold wait. cbn [Rt.now].
  rewrite Hempty. simpl List.filter. unfold wait_body.
  cbn [with_times request_times requests_per_minute length].
  replace (requests_per_minute self <=? Z.of_nat 0) with true
    by (symmetry; apply Z.leb_le; simpl; lia).
  unfold St.bind at 1. unfold St.bind at 1. cbn [Rt.now]. unfold Rt.raise, St.raise.
  f_equal. f_equal. destruct self; simpl in *. now subst.
Qed.

(** X10. With [requests_per_minute <= 0] every call of [wait] on a
    fresh throttler raises [IndexError] at [self.request_times[0]]: nothing
    is ever recorded and the throttler never sleeps. *)
Theorem zero_cap_blocks_every_request (N : Z) (min_delay max_delay : Q)
    (w0 : Rt.world) (calls : list call) :
  N <= 0 ->
  let s := steps (mk_session (init min_delay max_delay N) w0 []) calls in
  history s = [] /\
  request_times (throttler s) = [] /\
  Rt.slept (world s) = Rt.slept w0 /\
  exists self' w', wait (throttler s) (world s) = (Py.Raise Py.IndexError, self', w').
Proof.
  intros HN s.
  assert (H : history s = [] /\ request_times (throttler s) = [] /\
              Rt.slept (world s) = Rt.slept w0 /\
              requests_per_minute (throttler s) <= 0).
  { unfold s, steps.
    assert (H0 : history (mk_session (init min_delay max_delay N) w0 []) = [] /\
                 request_times (throttler (mk_session (init min_delay max_delay N) w0 [])) = [] /\
                 Rt.slept (world (mk_session (init min_delay max_delay N) w0 [])) = Rt.slept w0 /\
                 requests_per_minute (throttler (mk_session (init min_delay max_delay N) w0 [])) <= 0)
      by (simpl; auto).
    revert H0. generalize (mk_session (init min_delay max_delay N) w0 []).
    induction calls as [| c calls IH]; intros s0 H0; [exact H0 |].
    simpl. apply IH. destruct H0 as (Hh & Ht & Hsl & Hc).
    destruct c; simpl.
    - rewrite (zero_cap_wait _ _ Hc Ht). simpl. auto.
    - auto.
    - auto. }
  destruct H as (Hh & Ht & Hsl & Hc).
  split; [exact Hh | split; [exact Ht | split; [exact Hsl |]]].
  rewrite (zero_cap_wait _ _ Hc Ht). eauto.
Qed.

End ThrottleMore.

Section ThrottleDelay.

Import Antibot.RequestThrottler.

(** X11. With a cap of at least 1, [0 <= min_delay <= max_delay], no
    negative error count and draws in [0, 1), [wait] does not raise.  Its
    last sleep is the drawn delay times [1 + 0.5 * consecutive_errors], which
    lies between [min_delay] and [max_delay] times that factor; at most one
    sleep (the wait for the window) precedes it, and the error count is
    kept. *)
Theorem wait_succeeds_and_scales_delay (self : t) (w : Rt.world) :
  Rt.fair w -> 1 <= requests_per_minute self ->
  (0 <= min_delay self)%Q -> (min_delay self <= max_delay self)%Q ->
  0 <= consecutive_errors self ->
  let multiplier := (1 + inject_Z (consecutive_errors self) * (1 # 2))%Q in
  exists self' w' earlier delay,
    wait self w = (Py.Ok tt, self', w') /\
    Rt.slept w' = (Rt.slept w ++ earlier ++ [delay])%list /\
    (length earlier <= 1)%nat /\
    delay = ((min_delay self
              + (max_delay self - min_delay self) * Rt.random (Rt.script w) (Rt.draws w))
             * multiplier)%Q /\
    (min_delay self * multiplier <= delay)%Q /\
    (delay <= max_delay self * multiplier)%Q /\
    consecutive_errors self' = consecutive_errors self /\
    Rt.draws w' = S (Rt.draws w).
Proof.
  intros Hfair Hcap Hlo Hhi Herr multiplier.
  destruct (wait_runs self w Hfair Hcap Hlo Hhi Herr)
    as (self' & w' & earlier & delay & Hrun & Hslept & Hlen & Hdelay & Hb1 & Hb2
        & Herrors & Hdraws & _).
  exists self', w', earlier, delay.
  split; [exact Hrun |]. split; [exact Hslept |]. split; [exact Hlen |].
  split; [exact Hdelay |]. split; [exact Hb1 |]. split; [exact Hb2 |].
  split; assumption.
Qed.

End ThrottleDelay.


Section ClassifierMore.

Context {unicode : Py.Unicode}.

Import Antibot.CaptchaDetector.

Lemma is_captcha_page_or (html : string) (url : option string) :
  is_captcha_page html url =
  existsb (fun indicator => Py.contains indicator (Py.lower html)) CAPTCHA_INDICATORS
  || Py.str_and url (fun u =>
       existsb (fun pattern => Py.contains pattern (Py.lower u)) CAPTCHA_URLS)
  || existsb (fun element => Py.contains element (Py.lower html)) captcha_elements.
Proof.
  unfold is_captcha_page.
  destruct (existsb _ CAPTCHA_INDICATORS); [reflexivity |].
  destruct (Py.str_and url _); [reflexivity |].
  now destruct (existsb _ captcha_elements).
Qed.

Lemma is_captcha_page_nonempty (url : option string) :
  is_captcha_page "" None = false.
Proof. reflexivity. Qed.

(** X12. Text put before and after a page cannot hide what the detector
    found: if [is_captcha_page] or [is_blocked] holds of a page, it holds of
    that page with any prefix and suffix. *)
Theorem captcha_survives_embedding (html pre post : string) :
  (forall url, is_captcha_page html url = true ->
               is_captcha_page (pre +:+ html +:+ post) url = true) /\
  (forall status_code, is_blocked status_code (Some html) = true ->
                       is_blocked status_code (Some (pre +:+ html +:+ post)) = true).
Proof.
  assert (H : forall url, is_captcha_page html url = true ->
                          is_captcha_page (pre +:+ html +:+ post) url = true).
  { intros url. rewrite !is_captcha_page_or.
    rewrite !orb_true_iff. intros [[H | H] | H].
    - left. left. now apply existsb_lower_embedded.
    - left. now right.
    - right. now apply existsb_lower_embedded. }
  split; [exact H |].
  intros status_code. unfold is_blocked.
  destruct (Py.in_codes status_code blocked_codes); [reflexivity |].
  destruct html as [| c html]; [discriminate |].
  cbn [Py.str_and]. intros Hb.
  destruct (is_captcha_page (String c html) None) eqn:E; [| discriminate].
  apply H in E.
  destruct (pre +:+ String c html +:+ post) as [| c' rest] eqn:E'.
  - now rewrite is_captcha_page_nonempty in E.
  - cbn [Py.str_and]. now rewrite E.
Qed.

(** X13. [get_block_reason] answers a reason other than
    ["Unknown block reason"] exactly when [is_blocked] answers [True]. *)
Theorem block_reason_matches_verdict (status_code : Z) (html : option string) :
  is_blocked status_code html = true <->
  get_block_reason status_code html <> "Unknown block reason"%string.
Proof.
  unfold is_blocked, get_block_reason, Py.in_codes, blocked_codes. simpl existsb.
  destruct (status_code =? 403); [split; [discriminate | reflexivity] |].
  destruct (status_code =? 429); [split; [discriminate | reflexivity] |].
  destruct (status_code =? 503); [split; [discriminate | reflexivity] |].
  simpl.
  destruct (Py.str_and html _); split; try discriminate; try reflexivity.
  intros H. now destruct H.
Qed.

Lemma existsb_incl {A} (f : A -> bool) (l1 l2 : list A) :
  incl l1 l2 -> existsb f l1 = true -> existsb f l2 = true.
Proof.
  intros Hincl. rewrite !existsb_exists. intros (x & Hx & Hf).
  exists x. split; [now apply Hincl | exact Hf].
Qed.

(** X14. The three block tests are ordered: what [is_blocked] of
    [final_antibot_scraper.py] reports, [CaptchaDetector.is_blocked] of
    [advanced_scraper.py] reports, and what that one reports, the one of
    [src/antibot.py] reports.  Without a page, all three go by the status
    code alone. *)
Theorem detectors_are_nested (status_code : Z) (html : string) :
  (FinalAntibotScraper.is_blocked status_code html = true ->
   AdvancedScraper.CaptchaDetector.is_blocked status_code (Some html) = true) /\
  (AdvancedScraper.CaptchaDetector.is_blocked status_code (Some html) = true ->
   is_blocked status_code (Some html) = true) /\
  (forall code, AdvancedScraper.CaptchaDetector.is_blocked code None
                = FinalAntibotScraper.is_blocked code "" /\
                is_blocked code None = FinalAntibotScraper.is_blocked code "").
Proof.
  split; [| split].
  - unfold FinalAntibotScraper.is_blocked, AdvancedScraper.CaptchaDetector.is_blocked.
    destruct (Py.in_codes status_code [403; 429; 503]); [reflexivity |].
    destruct html as [| c html]; [discriminate |].
    cbn [Py.str_and]. apply existsb_incl.
    intros p Hp. simpl in Hp. simpl. intuition.
  - unfold AdvancedScraper.CaptchaDetector.is_blocked, is_blocked, blocked_codes.
    destruct (Py.in_codes status_code [403; 429; 503]); [reflexivity |].
    destruct html as [| c html]; [discriminate |].
    cbn [Py.str_and]. intros H.
    rewrite is_captcha_page_or.
    assert (E : existsb (fun indicator => Py.contains indicator (Py.lower (String c html)))
                        CAPTCHA_INDICATORS = true).
    { revert H. apply existsb_incl. intros p Hp. simpl in Hp. simpl. intuition. }
    now rewrite E.
  - intros code.
    unfold FinalAntibotScraper.is_blocked, AdvancedScraper.CaptchaDetector.is_blocked,
      is_blocked, blocked_codes.
    destruct (Py.in_codes code [403; 429; 503]); split; reflexivity.
Qed.

End ClassifierMore.

Section BackoffMore.

Import Antibot.RetryHandler.
Local Open Scope Q_scope.


(** X16. For every attempt [>= 0] and every draw, [get_delay] of the
    [RetryHandler] written out in [advanced_scraper.py] computes the delay
    of [antibot.RetryHandler] with [max_delay = 60] and
    [exponential_base = 2]. *)
Theorem inline_retry_handler_agrees (self : AdvancedScraper.RetryHandler.t)
    (attempt : Z) (u : Q) :
  (0 <= attempt)%Z ->
  AdvancedScraper.RetryHandler.jittered_delay self attempt u ==
  jittered_delay
    (mk (AdvancedScraper.RetryHandler.max_retries self)
        (AdvancedScraper.RetryHandler.base_delay self) 60 2) attempt u.
Proof.
  intros Ha. unfold AdvancedScraper.RetryHandler.jittered_delay, jittered_delay.
  simpl. rewrite (Zpower_Qpower 2 attempt Ha). reflexivity.
Qed.

End BackoffMore.

Section GivingUp.

Import Antibot.RetryHandler.

Lemma range_snoc (n : Z) : 0 <= n -> Py.range (n + 1) = (Py.range n ++ [n])%list.
Proof.
  intros Hn. unfold Py.range.
  replace (Z.to_nat (n + 1)) with (S (Z.to_nat n)) by lia.
  rewrite seq_S, List.map_app. simpl. now rewrite Z2Nat.id by exact Hn.
Qed.

Lemma range_lt (n a : Z) : In a (Py.range n) -> 0 <= a < n.
Proof.
  unfold Py.range. intros Ha. apply in_map_iff in Ha as (k & <- & Hk).
  apply in_seq in Hk. lia.
Qed.

Lemma range_length (n : Z) : length (Py.range n) = Z.to_nat n.
Proof. unfold Py.range. now rewrite length_map, length_seq. Qed.

Lemma range_retries (n : Z) :
  0 <= n ->
  length (List.filter (fun a => a <? n) (Py.range (n + 1))) = Z.to_nat n.
Proof.
  intros Hn. rewrite range_snoc by exact Hn.
  rewrite List.filter_app. simpl. rewrite Z.ltb_irrefl, app_nil_r.
  rewrite <- (range_length n). f_equal.
  apply List.forallb_filter_id. apply forallb_forall. intros a Ha.
  apply range_lt in Ha. apply Z.ltb_lt. lia.
Qed.

Variable self : t.
Hypothesis base_delay_nonneg : (0 <= base_delay self)%Q.
Hypothesis exponential_base_nonneg : (0 <= exponential_base self)%Q.
Hypothesis max_delay_nonneg : (0 <= max_delay self)%Q.

Variable A : Type.
Variable func : Rt.M A.
Variable url : string.
Variable surroundings : Rt.env.

(** In these surroundings [func] fails whenever it is called, after one
    request. *)
Hypothesis func_fails :
  forall w, Rt.script w = surroundings ->
    exists e w',
      func w = (Py.Raise e, w') /\ Rt.script w' = Rt.script w /\
      Rt.slept w' = Rt.slept w /\ Rt.fetched w' = (Rt.fetched w ++ [url])%list.

(** Before every pause the numbers of [get_delay] fit a double. *)
Hypothesis delays_fit :
  forall attempt, 0 <= attempt < max_retries self -> in_range self attempt.

Lemma retry_loop_gives_up (attempts : list Z) :
  Forall (fun a => 0 <= a) attempts ->
  forall last w,
    Rt.fair w -> Rt.script w = surroundings ->
    exists e w',
      retry_loop self func attempts last w = (Py.Raise e, w') /\
      Rt.script w' = Rt.script w /\
      Rt.fetched w' = (Rt.fetched w ++ repeat url (length attempts))%list /\
      (exists pauses,
         Rt.slept w' = (Rt.slept w ++ pauses)%list /\
         length pauses
           = length (List.filter (fun a => a <? max_retries self) attempts) /\
         Forall (fun d => (0 <= d)%Q /\ (d <= max_delay self)%Q) pauses) /\
      (attempts <> [] -> exists w0 w1, func w0 = (Py.Raise e, w1)) /\
      (attempts = [] -> e = match last with Some e0 => e0 | None => Py.TypeError end).
Proof.
  induction attempts as [| attempt rest IH]; intros Hpos last w Hfair Hscript.
  - simpl. destruct last as [e0 |].
    + exists e0, w. repeat split; try now rewrite app_nil_r.
      * exists []. now rewrite app_nil_r.
      * congruence.
    + exists Py.TypeError, w. repeat split; try now rewrite app_nil_r.
      * exists []. now rewrite app_nil_r.
      * congruence.
  - apply Forall_cons_iff in Hpos as [Hattempt Hpos]. specialize (IH Hpos).
    destruct (func_fails w Hscript) as (e & wa & Hrun & Hs & Hsl & Hf).
    assert (Hfair_a : Rt.fair wa) by (apply (fair_script w); assumption).
    destruct (Z.ltb_spec attempt (max_retries self)) as [Hlt | Hge].
    + assert (Hpow : Py.float_pow (exponential_base self) attempt
                     = Py.Ok (exponential_base self ^ attempt)%Q).
      { destruct (delays_fit attempt ltac:(lia)) as (Hint & Hfit & _).
        now apply float_pow_fits. }
      rewrite (retry_loop_raise self base_delay_nonneg exponential_base_nonneg
                 max_delay_nonneg func attempt rest last w e wa Hrun Hlt Hpow
                 Hfair_a).
      match goal with
      | |- context [retry_loop self func rest (Some e) ?w2] =>
          destruct (IH (Some e) w2) as (e' & w' & Hloop & Hs' & Hf' & Hp' & Hfrom & Hlast)
      end.
      { apply (fair_script wa); [reflexivity | exact Hfair_a]. }
      { cbn [Rt.script]. congruence. }
      destruct Hp' as (pauses & Hsl' & Hlen & Hall).
      cbn [Rt.script Rt.fetched Rt.slept] in Hs', Hf', Hsl'.
      exists e', w'. split; [exact Hloop |]. split; [congruence |].
      split; [| split; [| split]].
      * rewrite Hf', Hf, <- app_assoc. reflexivity.
      * exists (jittered_delay self attempt (Rt.next_jitter wa) :: pauses).
        split; [| split].
        -- rewrite Hsl', Hsl, <- app_assoc. reflexivity.
        -- simpl. replace (attempt <? max_retries self) with true
             by (symmetry; now apply Z.ltb_lt). simpl. now rewrite Hlen.
        -- constructor; [| exact Hall]. split.
           ++ apply (jittered_delay_nonneg self base_delay_nonneg
                       exponential_base_nonneg max_delay_nonneg).
              unfold Rt.next_jitter. destruct (Hfair_a (Rt.draws wa)) as [Hr _]. lra.
           ++ apply jittered_delay_le_cap.
      * intros _. destruct rest as [| a rest'].
        -- rewrite (Hlast eq_refl). eauto.
        -- apply Hfrom. discriminate.
      * discriminate.
    + cbn [retry_loop]. unfold Rt.try_except, St.try_except. rewrite Hrun.
      replace (attempt <? max_retries self) with false
        by (symmetry; now apply Z.ltb_ge).
      unfold St.bind at 1. unfold Rt.ret, St.ret.
      destruct (IH (Some e) wa Hfair_a ltac:(congruence))
        as (e' & w' & Hloop & Hs' & Hf' & Hp' & Hfrom & Hlast).
      destruct Hp' as (pauses & Hsl' & Hlen & Hall).
      exists e', w'. split; [exact Hloop |]. split; [congruence |].
      split; [| split; [| split]].
      * rewrite Hf', Hf, <- app_assoc. reflexivity.
      * exists pauses. split; [congruence |]. split; [| exact Hall].
        simpl. replace (attempt <? max_retries self) with false
          by (symmetry; now apply Z.ltb_ge). exact Hlen.
      * intros _. destruct rest as [| a rest'].
        -- rewrite (Hlast eq_refl). eauto.
        -- apply Hfrom. discriminate.
      * discriminate.
Qed.

End GivingUp.


(** X18. With a negative [max_retries] the loop of
    [execute_with_retry] has no pass: the function is not called and
    [raise last_exception] raises [TypeError], [last_exception] being
    [None]. *)
Theorem execute_with_retry_negative_budget (self : Antibot.RetryHandler.t)
    {A : Type} (func : Rt.M A) (w : Rt.world) :
  Antibot.RetryHandler.max_retries self < 0 ->
  Antibot.RetryHandler.execute_with_retry self func w = (Py.Raise Py.TypeError, w).
Proof.
  intros Hneg. unfold Antibot.RetryHandler.execute_with_retry, Py.range.
  replace (Z.to_nat (Antibot.RetryHandler.max_retries self + 1)) with O by lia.
  reflexivity.
Qed.

Section FetchAccounts.

Context {unicode : Py.Unicode}.

Import FinalAntibotScraper.

(** The answer of [fetch_loop] and the requests it made. *)
Lemma fetch_loop_account url max_retries attempts :
  forall w,
    Rt.fair w -> Forall (fun a => 0 <= a) attempts ->
    exists o w' k,
      fetch_loop url max_retries attempts w = (Py.Ok o, w') /\
      Rt.script w' = Rt.script w /\
      (k <= length attempts)%nat /\
      Rt.fetched w' = (Rt.fetched w ++ repeat url k)%list /\
      Rt.requests (Rt.counters w') = Rt.requests (Rt.counters w) /\
      Rt.captchas (Rt.counters w') = Rt.captchas (Rt.counters w) /\
      Rt.successful (Rt.counters w')
        = Rt.successful (Rt.counters w) + match o with Some _ => 1 | None => 0 end /\
      Rt.failed (Rt.counters w') + Rt.blocks (Rt.counters w')
        = Rt.failed (Rt.counters w) + Rt.blocks (Rt.counters w)
          + Z.of_nat k - match o with Some _ => 1 | None => 0 end /\
      match o with
      | Some body =>
          exists status k',
            k = S k' /\
            Rt.transport (Rt.script w) (length (Rt.fetched w) + k') url
              = Rt.Response status body /\
            is_blocked status body = false /\
            (400 <=? status) && (status <? 600) = false
      | None => True
      end.
Proof.
  induction attempts as [| attempt rest IH]; intros w Hfair Hall.
  - exists None, w, O. simpl. rewrite app_nil_r. repeat split; lia.
  - apply List.Forall_cons_iff in Hall as [Ha Hall].
    cbn [fetch_loop]. unfold St.bind.
    destruct (fetch_attempt_spec url max_retries attempt w Hfair Ha)
      as (c & w1 & Hrun & Hs & _ & Hf & _ & Hcase).
    rewrite Hrun.
    assert (Hfair1 : Rt.fair w1) by (apply (fair_script w); assumption).
    assert (Hnext : forall cs,
              Rt.counters w1 = cs ->
              Rt.requests cs = Rt.requests (Rt.counters w) ->
              Rt.captchas cs = Rt.captchas (Rt.counters w) ->
              Rt.successful cs = Rt.successful (Rt.counters w) ->
              Rt.failed cs + Rt.blocks cs
                = Rt.failed (Rt.counters w) + Rt.blocks (Rt.counters w) + 1 ->
              exists o w' k,
                fetch_loop url max_retries rest w1 = (Py.Ok o, w') /\
                Rt.script w' = Rt.script w /\
                (k <= length (attempt :: rest))%nat /\
                Rt.fetched w' = (Rt.fetched w ++ repeat url k)%list /\
                Rt.requests (Rt.counters w') = Rt.requests (Rt.counters w) /\
                Rt.captchas (Rt.counters w') = Rt.captchas (Rt.counters w) /\
                Rt.successful (Rt.counters w')
                  = Rt.successful (Rt.counters w) + match o with Some _ => 1 | None => 0 end /\
                Rt.failed (Rt.counters w') + Rt.blocks (Rt.counters w')
                  = Rt.failed (Rt.counters w) + Rt.blocks (Rt.counters w)
                    + Z.of_nat k - match o with Some _ => 1 | None => 0 end /\
                match o with
                | Some body =>
                    exists status k',
                      k = S k' /\
                      Rt.transport (Rt.script w) (length (Rt.fetched w) + k') url
                        = Rt.Response status body /\
                      is_blocked status body = false /\
                      (400 <=? status) && (status <? 600) = false
                | None => True
                end).
    { intros cs Hcs R1 R2 R3 R4.
      destruct (IH w1 Hfair1 Hall)
        as (o & w' & k & Hloop & Hs' & Hk & Hf' & Q1 & Q2 & Q3 & Q4 & Hres).
      rewrite Hcs in Q1, Q2, Q3, Q4.
      exists o, w', (S k). split; [exact Hloop |]. split; [congruence |].
      split; [simpl; lia |].
      split; [rewrite Hf', Hf, <- app_assoc; reflexivity |].
      split; [congruence |]. split; [congruence |]. split; [congruence |].
      split; [lia |].
      destruct o as [body |]; [| exact I].
      destruct Hres as (status & k' & -> & Ht & Hb & He).
      exists status, (S k'). split; [reflexivity |].
      rewrite Hs, Hf, length_app in Ht. simpl in Ht.
      replace (length (Rt.fetched w) + S k')%nat
        with (length (Rt.fetched w) + 1 + k')%nat by lia.
      auto. }
    destruct (Rt.transport (Rt.script w) (length (Rt.fetched w)) url)
      as [status body |] eqn:Ht.
    + destruct (is_blocked status body) eqn:Hb.
      * destruct Hcase as [Hc Hcase].
        destruct (attempt <? max_retries - 1).
        -- destruct Hcase as [-> _].
           apply (Hnext _ Hc); simpl; lia.
        -- subst c. exists None, w1, 1%nat.
           split; [reflexivity |]. rewrite Hc. simpl.
           repeat split; try assumption; lia.
      * destruct ((400 <=? status) && (status <? 600)) eqn:He.
        -- destruct Hcase as (Hc & -> & _).
           apply (Hnext _ Hc); simpl; lia.
        -- destruct Hcase as (Hc & -> & _).
           exists (Some body), w1, 1%nat.
           split; [reflexivity |]. rewrite Hc. simpl.
           repeat split; try assumption; try lia.
           exists status, O. rewrite Nat.add_0_r. auto.
    + destruct Hcase as (Hc & -> & _).
      apply (Hnext _ Hc); simpl; lia.
Qed.

(** X19. With draws in [0, 1), [fetch_with_retry] does not raise and
    makes at most [max_retries] requests.  It counts one request in [Stats];
    [Stats.successful] goes up by one exactly when a page is answered, and
    every other request made is counted in [Stats.failed] or
    [Stats.blocks].  A page that is answered is the body of the last
    response, which was not blocked and had a status outside 400..599. *)
Theorem fetch_with_retry_accounts (url : string) (max_retries : Z) (w : Rt.world) :
  Rt.fair w ->
  exists o w' k,
    fetch_with_retry url max_retries w = (Py.Ok o, w') /\
    (Z.of_nat k <= Z.max 0 max_retries) /\
    Rt.fetched w' = (Rt.fetched w ++ repeat url k)%list /\
    Rt.requests (Rt.counters w') = Rt.requests (Rt.counters w) + 1 /\
    Rt.captchas (Rt.counters w') = Rt.captchas (Rt.counters w) /\
    Rt.successful (Rt.counters w')
      = Rt.successful (Rt.counters w) + match o with Some _ => 1 | None => 0 end /\
    Rt.failed (Rt.counters w') + Rt.blocks (Rt.counters w')
      = Rt.failed (Rt.counters w) + Rt.blocks (Rt.counters w)
        + Z.of_nat k - match o with Some _ => 1 | None => 0 end /\
    match o with
    | Some body =>
        exists status k',
          k = S k' /\
          Rt.transport (Rt.script w) (length (Rt.fetched w) + k') url
            = Rt.Response status body /\
          is_blocked status body = false /\
          (400 <=? status) && (status <? 600) = false
    | None => True
    end.
Proof.
  intros Hfair. unfold fetch_with_retry. unfold St.bind at 1.
  unfold Rt.update, St.update.
  match goal with
  | |- context [fetch_loop url max_retries ?l ?w2] =>
      destruct (fetch_loop_account url max_retries l w2)
        as (o & w' & k & Hloop & _ & Hk & Hf & Q1 & Q2 & Q3 & Q4 & Hres)
  end.
  { apply (fair_script w); [reflexivity | exact Hfair]. }
  { apply range_nonneg. }
  exists o, w', k. split; [exact Hloop |].
  assert (Hlen : length (Py.range max_retries) = Z.to_nat max_retries)
    by (unfold Py.range; now rewrite length_map, length_seq).
  rewrite Hlen in Hk. cbn in Hf, Q1, Q2, Q3, Q4, Hres.
  repeat split; try assumption; lia.
Qed.



Lemma backoff_wait_band w attempt :
  Rt.fair w ->
  (inject_Z (2 ^ attempt) <= backoff_wait w attempt)%Q /\
  (backoff_wait w attempt < inject_Z (2 ^ attempt) + 1)%Q.
Proof.
  intros Hfair. unfold backoff_wait.
  destruct (Hfair (S (Rt.draws w))) as [Hr0 Hr1]. split; lra.
Qed.

(** The site never gives a page that passes: it blocks, answers an HTTP
    error, or cannot be reached. *)
Lemma fetch_loop_exhausts url max_retries (n : nat) :
  forall (i : nat) w,
    Rt.fair w ->
    n = O \/ Z.of_nat (i + n) = max_retries ->
    (forall k, match Rt.transport (Rt.script w) k url with
               | Rt.Response status body =>
                   is_blocked status body = true \/
                   (400 <=? status) && (status <? 600) = true
               | Rt.Unreachable => True
               end) ->
    exists w' pauses,
      fetch_loop url max_retries (List.map Z.of_nat (seq i n)) w = (Py.Ok None, w') /\
      Rt.script w' = Rt.script w /\
      Rt.fetched w' = (Rt.fetched w ++ repeat url n)%list /\
      Rt.slept w' = (Rt.slept w ++ pauses)%list /\
      Forall2 (fun attempt d =>
                 (inject_Z (2 ^ attempt) <= d)%Q /\ (d < inject_Z (2 ^ attempt) + 1)%Q)
              (List.map Z.of_nat (seq i (pred n))) pauses.
Proof.
  induction n as [| n IH]; intros i w Hfair Hn Hbad.
  - exists w, []. simpl. rewrite !app_nil_r. repeat split. constructor.
  - destruct Hn as [Hn | Hn]; [discriminate |].
    cbn [seq List.map fetch_loop]. unfold St.bind.
    destruct (fetch_attempt_spec url max_retries (Z.of_nat i) w Hfair ltac:(lia))
      as (c & w1 & Hrun & Hs & _ & Hf & Hquiet & Hcase).
    rewrite Hrun.
    assert (Hfair1 : Rt.fair w1) by (apply (fair_script w); assumption).
    assert (Hbad1 : forall k, match Rt.transport (Rt.script w1) k url with
               | Rt.Response status body =>
                   is_blocked status body = true \/
                   (400 <=? status) && (status <? 600) = true
               | Rt.Unreachable => True
               end) by (now rewrite Hs).
    specialize (Hbad (length (Rt.fetched w))).
    destruct n as [| n'].
    + (* the last attempt *)
      assert (Hlast : (Z.of_nat i <? max_retries - 1) = false)
        by (apply Z.ltb_ge; lia).
      rewrite Hlast in Hquiet, Hcase.
      assert (Hc : c = Continue \/ c = Return None).
      { destruct (Rt.transport (Rt.script w) (length (Rt.fetched w)) url)
          as [status body |].
        - destruct (is_blocked status body).
          + destruct Hcase as [_ ->]. now right.
          + destruct Hbad as [Hb | He]; [discriminate |].
            rewrite He in Hcase. destruct Hcase as (_ & -> & _). now left.
        - destruct Hcase as (_ & -> & _). now left. }
      exists w1, []. rewrite app_nil_r.
      split; [destruct Hc as [-> | ->]; reflexivity |].
      repeat split; try assumption. constructor.
    + assert (Hmore : (Z.of_nat i <? max_retries - 1) = true)
        by (apply Z.ltb_lt; lia).
      rewrite Hmore in Hcase.
      assert (Hgo : c = Continue /\
                    Rt.slept w1 = (Rt.slept w ++ [backoff_wait w (Z.of_nat i)])%list).
      { destruct (Rt.transport (Rt.script w) (length (Rt.fetched w)) url)
          as [status body |].
        - destruct (is_blocked status body).
          + destruct Hcase as [_ [-> Hsl]]. now split.
          + destruct Hbad as [Hb | He]; [discriminate |].
            rewrite He in Hcase. destruct Hcase as (_ & -> & Hsl). split; auto.
        - destruct Hcase as (_ & -> & Hsl). split; auto. }
      destruct Hgo as [-> Hsl].
      destruct (IH (S i) w1 Hfair1 ltac:(right; lia) Hbad1)
        as (w' & pauses & Hloop & Hs' & Hf' & Hsl' & Hall).
      exists w', (backoff_wait w (Z.of_nat i) :: pauses).
      split; [exact Hloop |]. split; [congruence |].
      split; [rewrite Hf', Hf, <- app_assoc; reflexivity |].
      split; [rewrite Hsl', Hsl, <- app_assoc; reflexivity |].
      cbn [pred seq List.map]. constructor; [| exact Hall].
      now apply backoff_wait_band.
Qed.

(** X20. When every answer is a block, an HTTP error or no connection,
    [fetch_with_retry] answers [None] after exactly [max_retries] requests
    (none if [max_retries <= 0]); it sleeps [max_retries - 1] times, the
    pause after attempt [j] being at least [2^j] and less than [2^j + 1]
    seconds, and counts every
    request as failed or blocked and none as successful. *)
Theorem fetch_with_retry_gives_up (url : string) (max_retries : Z) (w : Rt.world) :
  Rt.fair w ->
  (forall k, match Rt.transport (Rt.script w) k url with
             | Rt.Response status body =>
                 is_blocked status body = true \/
                 (400 <=? status) && (status <? 600) = true
             | Rt.Unreachable => True
             end) ->
  exists w' pauses,
    fetch_with_retry url max_retries w = (Py.Ok None, w') /\
    Rt.fetched w' = (Rt.fetched w ++ repeat url (Z.to_nat max_retries))%list /\
    Rt.slept w' = (Rt.slept w ++ pauses)%list /\
    Forall2 (fun attempt d =>
               (inject_Z (2 ^ attempt) <= d)%Q /\ (d < inject_Z (2 ^ attempt) + 1)%Q)
            (Py.range (max_retries - 1)) pauses /\
    Rt.requests (Rt.counters w') = Rt.requests (Rt.counters w) + 1 /\
    Rt.successful (Rt.counters w') = Rt.successful (Rt.counters w) /\
    Rt.failed (Rt.counters w') + Rt.blocks (Rt.counters w')
      = Rt.failed (Rt.counters w) + Rt.blocks (Rt.counters w) + Z.max 0 max_retries.
Proof.
  intros Hfair Hbad.
  assert (Hfair' : Rt.fair (Rt.with_counters bump_requests w))
    by (apply (fair_script w); [reflexivity | exact Hfair]).
  destruct (fetch_loop_account url max_retries (Py.range max_retries)
              (Rt.with_counters bump_requests w) Hfair' (range_nonneg _))
    as (o & w' & k & Hrun & _ & _ & Hf & Q1 & _ & Q3 & Q4 & _).
  cbn in Hf, Q1, Q3, Q4.
  revert Hrun. unfold Py.range at 1.
  destruct (fetch_loop_exhausts url max_retries (Z.to_nat max_retries) 0
              (Rt.with_counters bump_requests w))
    as (w2' & pauses & Hloop & _ & Hf2 & Hsl2 & Hall).
  { apply (fair_script w); [reflexivity | exact Hfair]. }
  { destruct (Z.le_gt_cases max_retries 0); [left | right]; lia. }
  { exact Hbad. }
  rewrite Hloop. intros [= <- <-]. cbn in Hf2, Hsl2.
  exists w2', pauses.
  split; [unfold fetch_with_retry, Rt.update, St.update, Py.range;
          unfold St.bind at 1; exact Hloop |].
  split; [exact Hf2 |]. split; [exact Hsl2 |].
  split.
  { unfold Py.range. now replace (Z.to_nat (max_retries - 1))
      with (pred (Z.to_nat max_retries)) by lia. }
  rewrite Hf in Hf2. apply app_inv_head in Hf2.
  apply (f_equal (@length string)) in Hf2. rewrite !repeat_length in Hf2.
  repeat split; try assumption; lia.
Qed.

End FetchAccounts.


Section Tally.

Context {unicode : Py.Unicode}.


Lemma tally_ret {A} (a : A) : Rt.tally_ok (Rt.ret a).
Proof. intros w r w' H. now injection H as _ <-. Qed.

Lemma tally_raise {A} (e : Py.exn) : Rt.tally_ok (Rt.raise (A := A) e).
Proof. intros w r w' H. now injection H as _ <-. Qed.

Lemma tally_bind {A B} (c : Rt.M A) (k : A -> Rt.M B) :
  Rt.tally_ok c -> (forall a, Rt.tally_ok (k a)) -> Rt.tally_ok (St.bind c k).
Proof.
  intros Hc Hk w r w' H. unfold St.bind in H.
  destruct (c w) as [[a | e] w1] eqn:Hrun.
  - rewrite (Hk a _ _ _ H). exact (Hc _ _ _ Hrun).
  - injection H as _ <-. exact (Hc _ _ _ Hrun).
Qed.

Lemma tally_try {A} (c : Rt.M A) (h : Py.exn -> Rt.M A) :
  Rt.tally_ok c -> (forall e, Rt.tally_ok (h e)) -> Rt.tally_ok (Rt.try_except c h).
Proof.
  intros Hc Hh w r w' H. unfold Rt.try_except, St.try_except in H.
  destruct (c w) as [[a | e] w1] eqn:Hrun.
  - injection H as _ <-. exact (Hc _ _ _ Hrun).
  - rewrite (Hh e _ _ _ H). exact (Hc _ _ _ Hrun).
Qed.

Lemma tally_now : Rt.tally_ok Rt.now.
Proof. intros w r w' H. now injection H as _ <-. Qed.

Lemma tally_sleep x : Rt.tally_ok (Rt.sleep x).
Proof.
  intros w r w' H. unfold Rt.sleep in H.
  destruct (Qlt_le_dec x 0); now injection H as _ <-.
Qed.

Lemma tally_uniform a b : Rt.tally_ok (Rt.uniform a b).
Proof. intros w r w' H. now injection H as _ <-. Qed.

Lemma tally_choice {A} (l : list A) : Rt.tally_ok (Rt.choice l).
Proof.
  intros w r w' H. unfold Rt.choice in H.
  destruct (l !! _); now injection H as _ <-.
Qed.

Lemma tally_requests_get url : Rt.tally_ok (Rt.requests_get url).
Proof.
  intros w r w' H. unfold Rt.requests_get in H.
  destruct (Rt.transport _ _ _); now injection H as _ <-.
Qed.

Lemma tally_raise_for_status status : Rt.tally_ok (Rt.raise_for_status status).
Proof.
  unfold Rt.raise_for_status.
  destruct (_ && _); [apply tally_raise | apply tally_ret].
Qed.

Lemma tally_do_request url : Rt.tally_ok (AdvancedScraper.do_request url).
Proof.
  unfold AdvancedScraper.do_request.
  apply tally_bind; [apply tally_choice | intros _].
  apply tally_bind; [apply tally_requests_get | intros [status text]].
  apply tally_bind; [apply tally_raise_for_status | intros _].
  destruct (AdvancedScraper.CaptchaDetector.is_blocked _ _); [| apply tally_ret].
  apply tally_bind; [| intros; apply tally_raise].
  intros w r w' H. now injection H as _ <-.
Qed.

Lemma tally_retry_loop {A} self (func : Rt.M A) attempts last :
  Rt.tally_ok func ->
  Rt.tally_ok (AdvancedScraper.RetryHandler.retry_loop self func attempts last).
Proof.
  intros Hfunc. revert last.
  induction attempts as [| attempt rest IH]; intros last; simpl.
  - destruct last; apply tally_raise.
  - apply tally_try; [exact Hfunc | intros e].
    apply tally_bind; [| intros; apply IH].
    destruct (attempt <? _); [| apply tally_ret].
    apply tally_bind; [| intros; apply tally_sleep].
    unfold AdvancedScraper.RetryHandler.get_delay.
    destruct (Py.overflows _); [apply tally_raise |].
    apply tally_bind; [apply tally_uniform | intros; apply tally_ret].
Qed.

Lemma tally_wait_body self : Rt.tally_ok (Antibot.RequestThrottler.wait_body self).
Proof.
  unfold Antibot.RequestThrottler.wait_body.
  apply tally_bind.
  - destruct (_ <=? _); [| apply tally_ret].
    apply tally_bind; [apply tally_now | intros now].
    destruct (Antibot.RequestThrottler.request_times self); [apply tally_raise |].
    cbv zeta. destruct (Qlt_le_dec _ _); [apply tally_sleep | apply tally_ret].
  - intros _. apply tally_bind; [apply tally_uniform | intros base].
    cbv zeta. apply tally_bind; [apply tally_sleep | intros; apply tally_now].
Qed.

Lemma tally_wait self w r self' w' :
  Antibot.RequestThrottler.wait self w = (r, self', w') ->
  Rt.tally w' = Rt.tally w /\
  Antibot.RequestThrottler.consecutive_errors self'
    = Antibot.RequestThrottler.consecutive_errors self.
Proof.
  unfold Antibot.RequestThrottler.wait. cbn [Rt.now].
  match goal with
  | |- context [Antibot.RequestThrottler.wait_body ?s ?w1] =>
      destruct (Antibot.RequestThrottler.wait_body s w1) as [[t | e] w2] eqn:Hbody
  end; intros H; injection H as _ <- <-;
    apply tally_wait_body in Hbody; split; try exact Hbody; reflexivity.
Qed.

(** An answer of the retry loop is an answer of the call it repeats. *)
Lemma retry_loop_origin {A} self (func : Rt.M A) attempts :
  forall last w a w',
    AdvancedScraper.RetryHandler.retry_loop self func attempts last w = (Py.Ok a, w') ->
    exists w0, func w0 = (Py.Ok a, w').
Proof.
  induction attempts as [| attempt rest IH]; intros last w a w'; simpl.
  - destruct last; discriminate.
  - unfold Rt.try_except, St.try_except.
    destruct (func w) as [[a0 | e] w1] eqn:Hrun.
    + intros [= <- <-]. now exists w.
    + unfold St.bind at 1.
      match goal with
      | |- context [(if ?b then ?c1 else ?c2) w1] =>
          destruct ((if b then c1 else c2) w1) as [[[] | e'] w2]
      end; [| discriminate].
      apply IH.
Qed.

(** X21. The nested [do_request] ends in one of four ways: the body of a
    response with a status outside 400..599 that passes the block test (it
    then also passes the test that [main] makes with status 200); an
    [HTTPError], raised before the block test, so that 403, 429 and 503 are
    never counted in [stats['blocks']]; a block, counted once, whose reason
    is always ["Unknown"]; or a connection error. *)
Theorem do_request_outcomes (url : string) (w : Rt.world) :
  exists r w1,
    AdvancedScraper.do_request url w = (r, w1) /\
    match r with
    | Py.Ok body =>
        Rt.counters w1 = Rt.counters w /\
        AdvancedScraper.CaptchaDetector.is_blocked 200 (Some body) = false /\
        exists status,
          Rt.transport (Rt.script w) (length (Rt.fetched w)) url
            = Rt.Response status body /\
          ~ (400 <= status < 600)
    | Py.Raise (Py.HTTPError status) =>
        Rt.counters w1 = Rt.counters w /\ 400 <= status < 600 /\
        exists body,
          Rt.transport (Rt.script w) (length (Rt.fetched w)) url
            = Rt.Response status body
    | Py.Raise (Py.Blocked reason) =>
        reason = "Unknown"%string /\
        Rt.counters w1 = FinalAntibotScraper.bump_blocks (Rt.counters w)
    | Py.Raise Py.ConnectionError =>
        Rt.counters w1 = Rt.counters w /\
        Rt.transport (Rt.script w) (length (Rt.fetched w)) url = Rt.Unreachable
    | Py.Raise _ => False
    end.
Proof.
  unfold AdvancedScraper.do_request. unfold St.bind at 1.
  unfold AdvancedScraper.UserAgentRotator.get_headers,
    AdvancedScraper.UserAgentRotator.get_random.
  destruct (choice_ok AdvancedScraper.UserAgentRotator.USER_AGENTS w)
    as [ua Hua]; [discriminate |].
  rewrite Hua. unfold St.bind at 1. unfold Rt.requests_get.
  cbn [Rt.script Rt.fetched].
  destruct (Rt.transport (Rt.script w) (length (Rt.fetched w)) url)
    as [status body |].
  - unfold St.bind at 1. unfold Rt.raise_for_status.
    destruct ((400 <=? status) && (status <? 600)) eqn:He.
    + eexists _, _. split; [reflexivity |]. cbn.
      apply andb_true_iff in He as [H1 H2].
      apply Z.leb_le in H1. apply Z.ltb_lt in H2.
      split; [reflexivity |]. split; [lia | now exists body].
    + unfold Rt.ret, St.ret.
      destruct (AdvancedScraper.CaptchaDetector.is_blocked status (Some body)) eqn:Hb.
      * eexists _, _. split; [reflexivity |]. cbn. split; [| reflexivity].
        unfold AdvancedScraper.CaptchaDetector.get_reason.
        destruct (Z.eqb_spec status 403) as [-> | _]; [discriminate |].
        destruct (Z.eqb_spec status 429) as [-> | _]; [discriminate |].
        destruct (Z.eqb_spec status 503) as [-> | _]; [discriminate |].
        reflexivity.
      * eexists _, _. split; [reflexivity |]. cbn.
        split; [reflexivity |]. split.
        -- revert Hb. unfold AdvancedScraper.CaptchaDetector.is_blocked.
           destruct (Py.in_codes status [403; 429; 503]); [discriminate |].
           replace (Py.in_codes 200 [403; 429; 503]) with false by reflexivity.
           trivial.
        -- exists status. split; [reflexivity |].
           intros [H1 H2]. apply andb_false_iff in He as [He | He].
           ++ apply Z.leb_gt in He. lia.
           ++ apply Z.ltb_ge in He. lia.
  - eexists _, _. split; [reflexivity |]. cbn. now split.
Qed.



Lemma is_blocked_200 (status : Z) (html : option string) :
  AdvancedScraper.CaptchaDetector.is_blocked status html = false ->
  AdvancedScraper.CaptchaDetector.is_blocked 200 html = false.
Proof.
  unfold AdvancedScraper.CaptchaDetector.is_blocked.
  destruct (Py.in_codes status [403; 429; 503]); [discriminate |].
  replace (Py.in_codes 200 [403; 429; 503]) with false by reflexivity.
  trivial.
Qed.

Lemma do_request_passes url w body w1 :
  AdvancedScraper.do_request url w = (Py.Ok body, w1) ->
  AdvancedScraper.CaptchaDetector.is_blocked 200 (Some body) = false.
Proof.
  intros Hrun.
  destruct (do_request_spec url w) as (r & w1' & Hrun' & _ & _ & _ & _ & _ & _ & Hcase).
  rewrite Hrun in Hrun'. injection Hrun' as <- <-.
  destruct (Rt.transport _ _ _) as [status body' |]; [| discriminate].
  destruct ((400 <=? status) && (status <? 600)); [discriminate |].
  destruct (AdvancedScraper.CaptchaDetector.is_blocked status (Some body')) eqn:Hb.
  - destruct Hcase as [reason Hcase]. discriminate.
  - destruct Hcase as [[= <-] _]. now apply (is_blocked_200 status).
Qed.


Lemma fetch_page_tally url throttler retry_handler w r throttler' w' :
  AdvancedScraper.fetch_page url throttler retry_handler w = (r, throttler', w') ->
  Rt.captchas (Rt.counters w') = Rt.captchas (Rt.counters w) /\
  match r with
  | Py.Ok (Some html) =>
      Rt.requests (Rt.counters w') = Rt.requests (Rt.counters w) + 1 /\
      Rt.successful (Rt.counters w') = Rt.successful (Rt.counters w) + 1 /\
      Rt.failed (Rt.counters w') = Rt.failed (Rt.counters w) /\
      AdvancedScraper.CaptchaDetector.is_blocked 200 (Some html) = false
  | Py.Ok None =>
      Rt.requests (Rt.counters w') = Rt.requests (Rt.counters w) + 1 /\
      Rt.successful (Rt.counters w') = Rt.successful (Rt.counters w) /\
      Rt.failed (Rt.counters w') = Rt.failed (Rt.counters w) + 1
  | Py.Raise _ =>
      Rt.requests (Rt.counters w') = Rt.requests (Rt.counters w) /\
      Rt.successful (Rt.counters w') = Rt.successful (Rt.counters w) /\
      Rt.failed (Rt.counters w') = Rt.failed (Rt.counters w)
  end.
Proof.
  unfold AdvancedScraper.fetch_page.
  destruct (Antibot.RequestThrottler.wait throttler w) as [[[[] | e] th1] w1] eqn:Hwait;
    apply tally_wait in Hwait as [T1 E1]; unfold Rt.tally in T1;
    injection T1 as R1 S1 F1 C1.
  - match goal with
    | |- context [AdvancedScraper.RetryHandler.execute ?rh ?f ?w2] =>
        destruct (AdvancedScraper.RetryHandler.execute rh f w2)
          as [[html | e] w3] eqn:Hexec
    end.
    + pose proof (tally_retry_loop _ _ _ _ (tally_do_request url) _ _ _ Hexec) as T2.
      unfold Rt.tally in T2. injection T2 as R2 S2 F2 C2. cbn in R2, S2, F2, C2.
      apply retry_loop_origin in Hexec as [w0 Hexec].
      apply do_request_passes in Hexec.
      intros H. injection H as <- <- <-. cbn.
      repeat split; try assumption; try reflexivity; lia.
    + pose proof (tally_retry_loop _ _ _ _ (tally_do_request url) _ _ _ Hexec) as T2.
      unfold Rt.tally in T2. injection T2 as R2 S2 F2 C2. cbn in R2, S2, F2, C2.
      intros H. injection H as <- <- <-. cbn.
      repeat split; try assumption; try reflexivity; lia.
  - intros H. injection H as <- <- <-. repeat split; assumption.
Qed.

(** X22. Every call of [fetch_page] of [advanced_scraper.py] that gets
    past the throttler is counted in [stats['requests']] and once more as
    successful or as failed; a success resets the error count of the
    throttler and hands over a page that passes the block test with status
    200, a failure adds one to it.  If the throttler raises, nothing is
    counted.  [stats['captchas']] is left alone. *)
Theorem fetch_page_accounts url throttler retry_handler w r throttler' w' :
  AdvancedScraper.fetch_page url throttler retry_handler w = (r, throttler', w') ->
  Rt.captchas (Rt.counters w') = Rt.captchas (Rt.counters w) /\
  match r with
  | Py.Ok (Some html) =>
      Rt.requests (Rt.counters w') = Rt.requests (Rt.counters w) + 1 /\
      Rt.successful (Rt.counters w') = Rt.successful (Rt.counters w) + 1 /\
      Rt.failed (Rt.counters w') = Rt.failed (Rt.counters w) /\
      Antibot.RequestThrottler.consecutive_errors throttler' = 0 /\
      AdvancedScraper.CaptchaDetector.is_blocked 200 (Some html) = false
  | Py.Ok None =>
      Rt.requests (Rt.counters w') = Rt.requests (Rt.counters w) + 1 /\
      Rt.successful (Rt.counters w') = Rt.successful (Rt.counters w) /\
      Rt.failed (Rt.counters w') = Rt.failed (Rt.counters w) + 1 /\
      Antibot.RequestThrottler.consecutive_errors throttler'
        = Antibot.RequestThrottler.consecutive_errors throttler + 1
  | Py.Raise _ =>
      Rt.requests (Rt.counters w') = Rt.requests (Rt.counters w) /\
      Rt.successful (Rt.counters w') = Rt.successful (Rt.counters w) /\
      Rt.failed (Rt.counters w') = Rt.failed (Rt.counters w) /\
      Antibot.RequestThrottler.consecutive_errors throttler'
        = Antibot.RequestThrottler.consecutive_errors throttler
  end.
Proof.
  intros Hrun.
  destruct (fetch_page_tally _ _ _ _ _ _ _ Hrun) as [Hc Hcase].
  split; [exact Hc |].
  revert Hrun. unfold AdvancedScraper.fetch_page.
  destruct (Antibot.RequestThrottler.wait throttler w) as [[[[] | e] th1] w1] eqn:Hwait;
    apply tally_wait in Hwait as [_ E1].
  - match goal with
    | |- context [AdvancedScraper.RetryHandler.execute ?rh ?f ?w2] =>
        destruct (AdvancedScraper.RetryHandler.execute rh f w2) as [[html | e] w3]
    end; intros H; injection H as <- <- <-; cbn in *; intuition lia.
  - intros H. injection H as <- <- <-. intuition lia.
Qed.



End Tally.

Section AdvancedTally.

Context {unicode : Py.Unicode}.


Import AdvancedScraper.

Variable MAX_PAGES : Z.
Variable parse_quotes : string -> list Rt.quote.
Variable get_next_page : string -> option string.

Local Abbreviation main_loop := (main_loop MAX_PAGES parse_quotes get_next_page).
Local Abbreviation main := (main MAX_PAGES parse_quotes get_next_page).

Lemma main_loop_tally fuel throttler retry_handler acc url page w r th' w' :
  main_loop fuel throttler retry_handler acc url page w = (r, th', w') ->
  Rt.captchas (Rt.counters w') = Rt.captchas (Rt.counters w) /\
  Rt.requests (Rt.counters w') - Rt.requests (Rt.counters w)
    = (Rt.successful (Rt.counters w') - Rt.successful (Rt.counters w))
      + (Rt.failed (Rt.counters w') - Rt.failed (Rt.counters w)) /\
  0 <= Rt.failed (Rt.counters w') - Rt.failed (Rt.counters w) <= 1 /\
  0 <= Rt.successful (Rt.counters w') - Rt.successful (Rt.counters w).
Proof.
  revert throttler acc url page w.
  induction fuel as [| fuel IH]; intros throttler acc url page w Hrun.
  - cbn [AdvancedScraper.main_loop] in Hrun.
    destruct (_ && _); injection Hrun as _ _ <-; lia.
  - cbn [AdvancedScraper.main_loop] in Hrun.
    destruct (negb (String.eqb url "") && (page <=? MAX_PAGES)).
    2:{ injection Hrun as _ _ <-. lia. }
    destruct (fetch_page url throttler retry_handler w)
      as [[[[html |] | e] th1] w1] eqn:Hfetch;
      apply fetch_page_tally in Hfetch as [C1 Hcase].
    + destruct Hcase as (R1 & S1 & F1 & Hpass). rewrite Hpass in Hrun.
      destruct (get_next_page html) as [[| c rest] |].
      * injection Hrun as _ _ <-. lia.
      * apply IH in Hrun. lia.
      * injection Hrun as _ _ <-. lia.
    + injection Hrun as _ _ <-. lia.
    + injection Hrun as _ _ <-. lia.
Qed.

(** X23. However [main] of [advanced_scraper.py] ends: the CAPTCHA branch
    of its loop is never taken, so [stats['captchas']] is 0; every request
    is counted as successful or failed; at most one is failed (the loop
    stops there), and at most [MAX_PAGES] are made. *)
Theorem advanced_main_tally (w : Rt.world) r w' :
  main w = (r, w') ->
  Rt.captchas (Rt.counters w') = 0 /\
  Rt.requests (Rt.counters w')
    = Rt.successful (Rt.counters w') + Rt.failed (Rt.counters w') /\
  0 <= Rt.failed (Rt.counters w') <= 1 /\
  0 <= Rt.successful (Rt.counters w') /\
  Rt.requests (Rt.counters w') <= Z.max 0 MAX_PAGES.
Proof.
  intros Hmain.
  pose proof (advanced_main_spec MAX_PAGES parse_quotes get_next_page w r w' Hmain)
    as (_ & Hcap & _).
  revert Hmain. unfold AdvancedScraper.main.
  match goal with
  | |- context [AdvancedScraper.main_loop _ _ _ ?f ?th ?rh ?acc ?u ?p ?w0] =>
      destruct (main_loop f th rh acc u p w0) as [[rl thl] wl] eqn:Hloop
  end.
  apply main_loop_tally in Hloop. cbn in Hloop.
  destruct rl as [[items |] | e].
  - destruct items as [| q items].
    + intros H. injection H as _ <-. lia.
    + cbn. intros H. injection H as _ <-. cbn in *. lia.
  - intros H. injection H as _ <-. lia.
  - intros H. injection H as _ <-. lia.
Qed.

End AdvancedTally.


Section Integrity.

Import Database.

Ltac st_unfold :=
  unfold St.bind, St.ret, St.get, St.raise, St.update, St.try_except.

Lemma nodup_snoc {A B} (f : A -> B) (l : list A) (x : A) :
  List.NoDup (List.map f l) -> ~ In (f x) (List.map f l) ->
  List.NoDup (List.map f (l ++ [x])).
Proof.
  intros Hl Hx. rewrite List.map_app. simpl.
  apply List.NoDup_app; [exact Hl | constructor; [intros [] | constructor] |].
  intros a Ha [<- | []]. now apply Hx.
Qed.

Lemma fresh_id {A} (f : A -> Z) (l : list A) (s : Z) :
  Forall (fun r => 1 <= f r <= s) l -> ~ In (s + 1) (List.map f l).
Proof.
  intros Hl Hin. apply in_map_iff in Hin as (r & Hr & Hin).
  rewrite List.Forall_forall in Hl. specialize (Hl r Hin). lia.
Qed.

Lemma fresh_name {A} (g : A -> string) (l : list A) (n : string) :
  existsb (fun r => String.eqb (g r) n) l = false -> ~ In n (List.map g l).
Proof.
  intros Hex Hin. apply in_map_iff in Hin as (r & Hr & Hin).
  assert (existsb (fun r => String.eqb (g r) n) l = true).
  { apply existsb_exists. exists r. split; [exact Hin | now apply String.eqb_eq]. }
  congruence.
Qed.

Lemma range_snoc_ok {A} (f : A -> Z) (l : list A) (x : A) (s : Z) :
  0 <= s -> f x = s + 1 ->
  Forall (fun r => 1 <= f r <= s) l ->
  Forall (fun r => 1 <= f r <= s + 1) (l ++ [x]).
Proof.
  intros Hs Hx Hl. apply List.Forall_app. split.
  - eapply List.Forall_impl; [| exact Hl]. simpl. intros r Hr. lia.
  - constructor; [lia | constructor].
Qed.

Lemma lookup_name_in (n : string) (rows : list (Z * string)) (id : Z) :
  lookup_name (Some n) rows = Some id -> In (id, n) rows.
Proof.
  unfold lookup_name.
  destruct (List.find _ rows) as [[i m] |] eqn:Hfind; [| discriminate].
  intros [= <-]. apply find_some in Hfind as [Hin Heq].
  simpl in Heq. apply String.eqb_eq in Heq. now subst.
Qed.

Lemma unique_name (rows : list (Z * string)) (x y : Z) (n : string) :
  List.NoDup (List.map snd rows) -> In (x, n) rows -> In (y, n) rows -> x = y.
Proof.
  induction rows as [| [i m] rows IH]; simpl; intros Hnd Hx Hy; [destruct Hx |].
  apply List.NoDup_cons_iff in Hnd as [Hm Hnd].
  destruct Hx as [Hx | Hx], Hy as [Hy | Hy].
  - congruence.
  - injection Hx as -> ->. exfalso. apply Hm. apply in_map_iff. now exists (y, n).
  - injection Hy as -> ->. exfalso. apply Hm. apply in_map_iff. now exists (x, n).
  - now apply IH.
Qed.

Lemma in_map_fst {A B} (a : A) (b : B) (l : list (A * B)) :
  In (a, b) l -> In a (List.map fst l).
Proof. intros H. apply in_map_iff. now exists (a, b). Qed.

Lemma consistent_add_author (d : db) (n : string) :
  consistent d -> ~ In n (List.map snd (authors d)) ->
  consistent (mk_db (authors d ++ [(authors_seq d + 1, n)]) (authors_seq d + 1)
                    (quotes d) (quotes_seq d) (tags d) (tags_seq d) (quote_tags d)).
Proof.
  intros [] Hn. destruct counters_start0 as (Ha & Hq & Ht).
  constructor; simpl; try assumption.
  - apply nodup_snoc; [assumption |]. now apply fresh_id.
  - now apply nodup_snoc.
  - now apply range_snoc_ok.
  - eapply List.Forall_impl; [| exact quote_author0]. simpl. intros r Hr.
    rewrite List.map_app. apply in_or_app. now left.
  - repeat split; lia.
Qed.

Lemma consistent_add_quote (d : db) (t : string) (aid : Z) (url : value) :
  consistent d -> ~ In t (List.map q_text (quotes d)) ->
  In aid (List.map fst (authors d)) ->
  consistent (mk_db (authors d) (authors_seq d)
                    (quotes d ++ [mk_row (quotes_seq d + 1) t aid url])
                    (quotes_seq d + 1) (tags d) (tags_seq d) (quote_tags d)).
Proof.
  intros [] Ht Haid. destruct counters_start0 as (Ha & Hq & Htg).
  constructor; simpl; try assumption.
  - apply nodup_snoc; [assumption |]. now apply fresh_id.
  - now apply nodup_snoc.
  - now apply range_snoc_ok.
  - apply List.Forall_app. split; [assumption |].
    constructor; [exact Haid | constructor].
  - eapply List.Forall_impl; [| exact link_ends0]. simpl. intros l [H1 H2].
    split; [| exact H2]. rewrite List.map_app. apply in_or_app. now left.
  - repeat split; lia.
Qed.

Lemma consistent_add_tag (d : db) (n : string) :
  consistent d -> ~ In n (List.map snd (tags d)) ->
  consistent (mk_db (authors d) (authors_seq d) (quotes d) (quotes_seq d)
                    (tags d ++ [(tags_seq d + 1, n)]) (tags_seq d + 1)
                    (quote_tags d)).
Proof.
  intros [] Hn. destruct counters_start0 as (Ha & Hq & Ht).
  constructor; simpl; try assumption.
  - apply nodup_snoc; [assumption |]. now apply fresh_id.
  - now apply nodup_snoc.
  - now apply range_snoc_ok.
  - eapply List.Forall_impl; [| exact link_ends0]. simpl. intros l [H1 H2].
    split; [exact H1 |]. rewrite List.map_app. apply in_or_app. now left.
  - repeat split; lia.
Qed.

Lemma consistent_add_link (d : db) (q t : Z) :
  consistent d -> In q (List.map q_id (quotes d)) ->
  In t (List.map fst (tags d)) ->
  existsb (fun r => (fst r =? q) && (snd r =? t)) (quote_tags d) = false ->
  consistent (mk_db (authors d) (authors_seq d) (quotes d) (quotes_seq d)
                    (tags d) (tags_seq d) (quote_tags d ++ [(q, t)])).
Proof.
  intros [] Hq Ht Hnew.
  constructor; simpl; try assumption.
  - apply List.NoDup_app; [assumption | constructor; [intros [] | constructor] |].
    intros l Hl [<- | []].
    assert (existsb (fun r => (fst r =? q) && (snd r =? t)) (quote_tags d) = true).
    { apply existsb_exists. exists (q, t). split; [exact Hl |].
      simpl. now rewrite !Z.eqb_refl. }
    congruence.
  - apply List.Forall_app. split; [assumption |].
    constructor; [now split | constructor].
Qed.


(** The loop over the tags keeps the content sound and links every tag. *)
Lemma add_tags_links (quote_id : Z) (tags0 : list value) :
  forall c c',
    consistent (current c) ->
    In quote_id (List.map q_id (quotes (current c))) ->
    add_tags quote_id tags0 c = (Py.Ok tt, c') ->
    consistent (current c') /\ stored c' = stored c /\
    authors (current c') = authors (current c) /\
    quotes (current c') = quotes (current c) /\
    quotes_seq (current c') = quotes_seq (current c) /\
    (exists more_tags more_links,
       tags (current c') = (tags (current c) ++ more_tags)%list /\
       quote_tags (current c') = (quote_tags (current c) ++ more_links)%list) /\
    Forall (fun tag => exists name tag_id,
                         tag = Some name /\
                         In (tag_id, name) (tags (current c')) /\
                         In (quote_id, tag_id) (quote_tags (current c')))
           tags0.
Proof.
  induction tags0 as [| tag_name rest IH]; intros c c' Hc Hq.
  - simpl. st_unfold. intros [= <-].
    do 5 (split; [assumption || reflexivity |]).
    split; [exists [], []; now rewrite !app_nil_r | constructor].
  - simpl add_tags. unfold St.bind at 1. unfold select_tag. st_unfold.
    (* the id of the tag, found or made *)
    assert (Hstep : forall c1 tag_id,
              (match lookup_name tag_name (tags (current c)) with
               | Some id => fun s => (Py.Ok id, s)
               | None => insert_tag tag_name
               end) c = (Py.Ok tag_id, c1) ->
              consistent (current c1) /\ stored c1 = stored c /\
              authors (current c1) = authors (current c) /\
              quotes (current c1) = quotes (current c) /\
              quotes_seq (current c1) = quotes_seq (current c) /\
              quote_tags (current c1) = quote_tags (current c) /\
              (exists more, tags (current c1) = (tags (current c) ++ more)%list) /\
              exists name, tag_name = Some name /\
                           In (tag_id, name) (tags (current c1))).
    { intros c1 tag_id.
      destruct (lookup_name tag_name (tags (current c))) as [id |] eqn:Hfind.
      - intros [= <- <-].
        do 6 (split; [assumption || reflexivity |]).
        split; [exists []; now rewrite app_nil_r |].
        destruct tag_name as [name |]; [| discriminate].
        exists name. split; [reflexivity | now apply lookup_name_in].
      - unfold insert_tag. st_unfold.
        destruct tag_name as [name |]; [| discriminate].
        destruct (existsb _ (tags (current c))) eqn:Hex; [discriminate |].
        unfold change, St.update. intros H. injection H as <- <-. simpl.
        split; [apply consistent_add_tag; [exact Hc | now apply fresh_name] |].
        do 5 (split; [reflexivity |]).
        split; [now eexists |].
        exists name. split; [reflexivity |]. apply in_or_app. right. now left. }
    match goal with
    | |- (let (_, _) := ?X in _) = _ -> _ =>
        destruct X as [[tag_id | e] c1] eqn:Hid; [| intros H; discriminate H]
    end.
    destruct (Hstep c1 tag_id Hid)
      as (Hc1 & Hs1 & Ha1 & Hq1 & Hqs1 & Hl1 & (more1 & Ht1) & name & -> & Hin1).
    unfold insert_quote_tag, change, St.update.
    set (c2 := mk_conn (stored c1) _).
    intros Hrest.
    assert (Hc2 : consistent (current c2)).
    { unfold c2. simpl.
      destruct (existsb _ (quote_tags (current c1))) eqn:Hex; [exact Hc1 |].
      apply consistent_add_link; try assumption.
      - now rewrite Hq1.
      - now apply (in_map_fst _ name). }
    assert (Hq2 : quotes (current c2) = quotes (current c1))
      by (unfold c2; simpl; now destruct (existsb _ _)).
    assert (Ha2 : authors (current c2) = authors (current c1))
      by (unfold c2; simpl; now destruct (existsb _ _)).
    assert (Hqs2 : quotes_seq (current c2) = quotes_seq (current c1))
      by (unfold c2; simpl; now destruct (existsb _ _)).
    assert (Ht2 : tags (current c2) = tags (current c1))
      by (unfold c2; simpl; now destruct (existsb _ _)).
    assert (Hl2 : In (quote_id, tag_id) (quote_tags (current c2)) /\
                  exists more, quote_tags (current c2)
                               = (quote_tags (current c1) ++ more)%list).
    { unfold c2. simpl.
      destruct (existsb _ (quote_tags (current c1))) eqn:Hex.
      - split; [| exists []; now rewrite app_nil_r].
        apply existsb_exists in Hex as ([q t] & Hin & Heq). simpl in Heq.
        apply andb_true_iff in Heq as [Hq' Ht'].
        apply Z.eqb_eq in Hq'. apply Z.eqb_eq in Ht'. now subst.
      - simpl. split; [apply in_or_app; right; now left | now eexists]. }
    destruct Hl2 as (Hlink & more2 & Hl2).
    destruct (IH c2 c' Hc2 ltac:(rewrite Hq2, Hq1; exact Hq) Hrest)
      as (Hc' & Hs' & Ha' & Hq' & Hqs' & (mt & ml & Ht' & Hl') & Hall).
    split; [exact Hc' |]. split; [now rewrite Hs', <- Hs1 |].
    split; [congruence |]. split; [congruence |]. split; [congruence |].
    split.
    { exists (more1 ++ mt)%list, (more2 ++ ml)%list.
      rewrite Ht', Ht2, Ht1, Hl', Hl2, Hl1, <- !app_assoc. now split. }
    constructor; [| exact Hall].
    exists name, tag_id. split; [reflexivity |].
    split.
    + rewrite Ht', Ht2. apply in_or_app. now left.
    + rewrite Hl'. apply in_or_app. now left.
Qed.


Lemma find_text_in (t : string) (rows : list quote_row) (row : quote_row) :
  List.find (fun r => String.eqb (q_text r) t) rows = Some row ->
  In t (List.map q_text rows).
Proof.
  intros Hfind. apply find_some in Hfind as [Hin Heq].
  apply String.eqb_eq in Heq. apply in_map_iff. now exists row.
Qed.

Lemma select_quote_run text conn :
  select_quote text conn =
  (Py.Ok match text with
         | None => None
         | Some t =>
             match List.find (fun r => String.eqb (q_text r) t)
                             (quotes (current conn)) with
             | Some r => Some (q_id r)
             | None => None
             end
         end, conn).
Proof. reflexivity. Qed.

Lemma select_author_run name conn :
  select_author name conn = (Py.Ok (lookup_name name (authors (current conn))), conn).
Proof. reflexivity. Qed.

(** The author of a quote, found or made. *)
Lemma author_step author conn r c1 :
  consistent (current conn) ->
  (match lookup_name author (authors (current conn)) with
   | Some id => St.ret id
   | None => insert_author author
   end) conn = (r, c1) ->
  stored c1 = stored conn /\
  forall author_id, r = Py.Ok author_id ->
    consistent (current c1) /\
    quotes (current c1) = quotes (current conn) /\
    quotes_seq (current c1) = quotes_seq (current conn) /\
    exists a, author = Some a /\ In (author_id, a) (authors (current c1)) /\
      (authors (current c1) = authors (current conn) \/
       (~ In a (List.map snd (authors (current conn))) /\
        authors (current c1) = (authors (current conn) ++ [(author_id, a)])%list)).
Proof.
  intros Hc.
  destruct (lookup_name author (authors (current conn))) as [id |] eqn:Hfound.
  - intros H. injection H as <- <-. split; [reflexivity |].
    intros author_id [= <-].
    do 3 (split; [assumption || reflexivity |]).
    destruct author as [a |]; [| discriminate].
    exists a. split; [reflexivity |].
    split; [now apply lookup_name_in | now left].
  - intros Hrun. split; [exact (keeps_insert_author _ _ _ _ Hrun) |].
    intros author_id ->. revert Hrun.
    unfold insert_author. st_unfold.
    destruct author as [a |]; [| intros H; discriminate H].
    destruct (existsb _ (authors (current conn))) eqn:Hex; [intros H; discriminate H |].
    unfold change, St.update. intros H. injection H as <- <-. simpl.
    assert (Hnew : ~ In a (List.map snd (authors (current conn))))
      by now apply fresh_name.
    split; [now apply consistent_add_author |].
    do 2 (split; [reflexivity |]).
    exists a. split; [reflexivity |].
    split; [apply in_or_app; right; now left |].
    right. now split.
Qed.

(** The row of the quote. *)
Lemma quote_row_step text author_id source_url conn r c1 :
  consistent (current conn) ->
  In author_id (List.map fst (authors (current conn))) ->
  insert_quote_row text author_id source_url conn = (r, c1) ->
  forall quote_id, r = Py.Ok quote_id ->
    consistent (current c1) /\
    authors (current c1) = authors (current conn) /\
    quotes_seq (current c1) = quote_id /\
    quote_id = quotes_seq (current conn) + 1 /\
    exists t, text = Some t /\
      ~ In t (List.map q_text (quotes (current conn))) /\
      quotes (current c1) =
        (quotes (current conn) ++ [mk_row quote_id t author_id source_url])%list.
Proof.
  intros Hc Haid Hrun quote_id ->. revert Hrun.
  unfold insert_quote_row. st_unfold.
  destruct text as [t |]; [| intros H; discriminate H].
  destruct (existsb _ (quotes (current conn))) eqn:Hex; [intros H; discriminate H |].
  unfold change, St.update. intros H. injection H as <- <-. simpl.
  assert (Hnew : ~ In t (List.map q_text (quotes (current conn))))
    by now apply fresh_name.
  split; [now apply consistent_add_quote |].
  do 3 (split; [reflexivity |]).
  exists t. now repeat split.
Qed.

Lemma bind_ok {S A B} (c : St.M S A) (k : A -> St.M S B) s b s' :
  St.bind c k s = (Py.Ok b, s') ->
  exists a s1, c s = (Py.Ok a, s1) /\ k a s1 = (Py.Ok b, s').
Proof.
  unfold St.bind. destruct (c s) as [[a | e] s1]; [| discriminate].
  intros H. now exists a, s1.
Qed.

(** Past the duplicate check the [try] block answers an id. *)
Lemma tail_answers_id text author tags0 source_url conn conn' :
  (do result <- select_author author;
   do author_id <- match result with
                   | Some id => St.ret id
                   | None => insert_author author
                   end;
   do quote_id <- insert_quote_row text author_id source_url;
   run add_tags quote_id tags0;
   run commit;
   St.ret (Some quote_id)) conn <> (Py.Ok None, conn').
Proof.
  intros H.
  apply bind_ok in H as (result & s1 & _ & H).
  apply bind_ok in H as (author_id & s2 & _ & H).
  apply bind_ok in H as (quote_id & s3 & _ & H).
  apply bind_ok in H as ([] & s4 & _ & H).
  apply bind_ok in H as ([] & s5 & _ & H).
  discriminate H.
Qed.

(** The three ways in which the [try] block of [insert_quote] ends. *)
Lemma insert_quote_try_cases text author tags0 source_url conn r conn' :
  consistent (current conn) ->
  insert_quote_try text author tags0 source_url conn = (r, conn') ->
  match r with
  | Py.Raise _ => stored conn' = stored conn
  | Py.Ok None =>
      conn' = conn /\
      exists t, text = Some t /\ In t (List.map q_text (quotes (current conn)))
  | Py.Ok (Some quote_id) =>
      stored conn' = current conn' /\ consistent (current conn') /\
      exists t a author_id,
        text = Some t /\ author = Some a /\
        ~ In t (List.map q_text (quotes (current conn))) /\
        quote_id = quotes_seq (current conn) + 1 /\
        quotes_seq (current conn') = quote_id /\
        quotes (current conn') =
          (quotes (current conn) ++ [mk_row quote_id t author_id source_url])%list /\
        In (author_id, a) (authors (current conn')) /\
        (authors (current conn') = authors (current conn) \/
         (~ In a (List.map snd (authors (current conn))) /\
          authors (current conn') = (authors (current conn) ++ [(author_id, a)])%list)) /\
        Forall (fun tag => exists name tag_id,
                             tag = Some name /\
                             In (tag_id, name) (tags (current conn')) /\
                             In (quote_id, tag_id) (quote_tags (current conn')))
               tags0
  end.
Proof.
  intros Hc Hrun.
  destruct r as [[quote_id |] | e];
    [| | exact (insert_quote_try_raise _ _ _ _ _ _ _ Hrun)].
  - revert Hrun. unfold insert_quote_try. unfold St.bind at 1.
    rewrite select_quote_run.
    destruct (match text with
              | Some t => _
              | None => None
              end) as [dup |]; [intros H; discriminate H |].
    unfold St.bind at 1. rewrite select_author_run.
    unfold St.bind at 1.
    match goal with
    | |- (let (_, _) := ?X in _) = _ -> _ =>
        destruct X as [[author_id | e1] c1] eqn:H1; [| intros H; discriminate H]
    end.
    destruct (author_step _ _ _ _ Hc H1) as [Hs1 Hstep1].
    destruct (Hstep1 author_id eq_refl)
      as (Hc1 & Hq1 & Hqs1 & a & -> & Hin1 & Hgrow).
    unfold St.bind at 1.
    destruct (insert_quote_row text author_id source_url c1)
      as [[qid | e2] c2] eqn:H2; [| intros H; discriminate H].
    destruct (quote_row_step _ _ _ _ _ _ Hc1 (in_map_fst _ _ _ Hin1) H2 qid eq_refl)
      as (Hc2 & Ha2 & Hqs2 & -> & t & -> & Hfresh & Hq2).
    unfold St.bind at 1.
    destruct (add_tags (quotes_seq (current c1) + 1) tags0 c2)
      as [[[] | e3] c3] eqn:H3; [| intros H; discriminate H].
    apply add_tags_links in H3 as (Hc3 & Hs3 & Ha3 & Hq3 & Hqs3 & _ & Hall);
      [| exact Hc2
       | rewrite Hq2, List.map_app; apply in_or_app; right; now left].
    unfold St.bind at 1. unfold commit, St.update, St.ret.
    intros H. injection H as <- <-. simpl.
    split; [reflexivity |]. split; [exact Hc3 |].
    exists t, a, author_id. rewrite Hqs3, Hqs2, Hq3, Hq2, Ha3, Ha2, Hq1, Hqs1.
    rewrite Hqs1 in Hall. try rewrite Hq1 in Hfresh.
    do 2 (split; [reflexivity |]).
    split; [exact Hfresh |]. split; [reflexivity |].
    split; [reflexivity |].
    split; [reflexivity |]. split; [exact Hin1 |].
    split; [exact Hgrow | exact Hall].
  - revert Hrun. unfold insert_quote_try. unfold St.bind at 1.
    rewrite select_quote_run.
    destruct text as [t |].
    + destruct (List.find _ (quotes (current conn))) as [row |] eqn:Hfind.
      * unfold St.ret. intros H. injection H as <-.
        split; [reflexivity |]. exists t.
        split; [reflexivity | now apply (find_text_in t _ row)].
      * intros H. exfalso. now apply tail_answers_id in H.
    + intros H. exfalso. now apply tail_answers_id in H.
Qed.


(** The three ways in which [insert_quote] ends. *)
Lemma insert_quote_cases text author tags0 source_url file r file' :
  consistent file ->
  insert_quote text author tags0 source_url file = (r, file') ->
  match r with
  | Py.Raise _ => file' = file
  | Py.Ok None =>
      file' = file /\
      exists t, text = Some t /\ In t (List.map q_text (quotes file))
  | Py.Ok (Some quote_id) =>
      consistent file' /\
      exists t a author_id,
        text = Some t /\ author = Some a /\
        ~ In t (List.map q_text (quotes file)) /\
        quote_id = quotes_seq file + 1 /\
        quotes_seq file' = quote_id /\
        quotes file' =
          (quotes file ++ [mk_row quote_id t author_id source_url])%list /\
        In (author_id, a) (authors file') /\
        (authors file' = authors file \/
         (~ In a (List.map snd (authors file)) /\
          authors file' = (authors file ++ [(author_id, a)])%list)) /\
        Forall (fun tag => exists name tag_id,
                             tag = Some name /\
                             In (tag_id, name) (tags file') /\
                             In (quote_id, tag_id) (quote_tags file'))
               tags0
  end.
Proof.
  intros Hfile. unfold insert_quote, St.try_except.
  destruct (insert_quote_try text author tags0 source_url (get_connection file))
    as [[result | e] conn] eqn:Htry;
    apply insert_quote_try_cases in Htry; try exact Hfile.
  - intros H. injection H as <- <-. destruct result as [quote_id |].
    + destruct Htry as (Hs & Hc & Hrest). unfold close. rewrite Hs.
      split; [exact Hc | exact Hrest].
    + destruct Htry as [-> Hrest]. split; [reflexivity | exact Hrest].
  - unfold rollback. st_unfold. intros H. injection H as <- <-.
    unfold close. simpl. exact Htry.
Qed.

Lemma consistent_empty : consistent empty.
Proof.
  constructor; simpl; try constructor; lia.
Qed.

(** X24. The empty database is sound, and [insert_quote] and
    [insert_quotes_batch] keep it sound whatever they are given and however
    they end: ids and UNIQUE columns stay free of duplicates, ids stay
    between 1 and the AUTOINCREMENT counters, every quote points to an
    author and every link of [quote_tags] to a quote and a tag. *)
Theorem insert_quote_keeps_integrity :
  consistent empty /\
  (forall text author tags0 source_url file r file',
     consistent file ->
     insert_quote text author tags0 source_url file = (r, file') ->
     consistent file') /\
  (forall quotes0 source_url file r file',
     consistent file ->
     insert_quotes_batch quotes0 source_url file = (r, file') ->
     consistent file').
Proof.
  split; [exact consistent_empty |].
  assert (Hone : forall text author tags0 source_url file r file',
            consistent file ->
            insert_quote text author tags0 source_url file = (r, file') ->
            consistent file').
  { intros text author tags0 source_url file r file' Hfile Hrun.
    apply insert_quote_cases in Hrun; [| exact Hfile].
    destruct r as [[quote_id |] | e].
    - now destruct Hrun.
    - destruct Hrun as [-> _]. exact Hfile.
    - now subst. }
  split; [exact Hone |].
  intros quotes0 source_url file r file'. unfold insert_quotes_batch.
  generalize 0 at 2 as s. generalize 0 as a. revert file.
  induction quotes0 as [| q rest IH]; intros file a s Hfile; simpl.
  - intros H. now injection H as _ <-.
  - destruct (insert_quote (text q) (author q) (item_tags q) source_url file)
      as [[result | e] file1] eqn:Hrun; apply Hone in Hrun; try exact Hfile.
    + destruct (Py.int_and result _); now apply IH.
    + intros H. now injection H as _ <-.
Qed.

(** X25. A call of [insert_quote] on a sound database that answers an
    id has appended one row to [quotes]: its id is the counter plus one,
    positive and new; it holds the text, the source URL and the id of a row
    of [authors] with the given name, which is the row that was there if
    there was one (the table is then unchanged).  Every tag of the call is a
    row of [tags] linked to the quote. *)
Theorem insert_quote_stores_and_links text author tags0 source_url file quote_id file' :
  consistent file ->
  insert_quote text author tags0 source_url file = (Py.Ok (Some quote_id), file') ->
  1 <= quote_id /\ ~ In quote_id (List.map q_id (quotes file)) /\
  quotes_seq file' = quote_id /\
  exists t a author_id,
    text = Some t /\ author = Some a /\
    quotes file' = (quotes file ++ [mk_row quote_id t author_id source_url])%list /\
    In (author_id, a) (authors file') /\
    (forall known, In (known, a) (authors file) ->
       author_id = known /\ authors file' = authors file) /\
    Forall (fun tag => exists name tag_id,
                         tag = Some name /\
                         In (tag_id, name) (tags file') /\
                         In (quote_id, tag_id) (quote_tags file'))
           tags0.
Proof.
  intros Hfile Hrun.
  apply insert_quote_cases in Hrun; [| exact Hfile].
  destruct Hrun as (Hfile' & t & a & author_id & -> & -> & Hfresh & -> & Hseq' & Hq
                    & Hin & Hgrow & Hall).
  pose proof (counters_start _ Hfile) as (_ & Hseq & _).
  split; [lia |]. split; [apply fresh_id; exact (quote_range _ Hfile) |].
  split; [exact Hseq' |].
  exists t, a, author_id.
  do 3 (split; [reflexivity || assumption |]).
  split; [exact Hin |]. split; [| exact Hall].
  intros known Hknown.
  destruct Hgrow as [Hsame | [Hnew _]].
  - split; [| exact Hsame]. rewrite Hsame in Hin.
    exact (unique_name _ _ _ _ (author_names _ Hfile) Hin Hknown).
  - exfalso. apply Hnew. apply in_map_iff. now exists (known, a).
Qed.


Lemma text_known_or_fresh (t : string) (file : db) :
  (exists row, In row (quotes file) /\ q_text row = t) \/
  ~ (exists row, In row (quotes file) /\ q_text row = t).
Proof.
  destruct (List.find (fun r => String.eqb (q_text r) t) (quotes file))
    as [row |] eqn:Hfind.
  - left. apply find_some in Hfind as [Hin Heq]. apply String.eqb_eq in Heq. eauto.
  - right. intros (row & Hin & Heq).
    apply (find_none _ _ Hfind) in Hin. apply String.eqb_neq in Hin. congruence.
Qed.

(** X26. Given strings for text, author and tags, [insert_quote] violates
    no constraint of the schema, whatever the database holds: it does not
    raise [IntegrityError].  With [None] for the text it raises, and so it
    does with [None] for the author of a text that is not stored; the file
    is then as before. *)
Theorem insert_quote_constraints (file : db) (source_url : value) :
  (forall t a tags0 file',
     Forall (fun v : value => v <> None) tags0 ->
     insert_quote (Some t) (Some a) tags0 source_url file
       <> (Py.Raise Py.IntegrityError, file')) /\
  (forall author tags0,
     exists e,
       insert_quote None author tags0 source_url file = (Py.Raise e, file)) /\
  (forall t tags0,
     ~ (exists row, In row (quotes file) /\ q_text row = t) ->
     exists e,
       insert_quote (Some t) None tags0 source_url file = (Py.Raise e, file)).
Proof.
  split; [| split].
  - intros t a tags0 file' Htags.
    destruct (text_known_or_fresh t file) as [Hdup | Hfresh].
    + rewrite (insert_quote_duplicate t _ _ _ file Hdup). discriminate.
    + destruct (insert_quote_fresh t a tags0 source_url file Hfresh Htags)
        as (author_id & file1 & Hrun & _).
      rewrite Hrun. discriminate.
  - intros author tags0. exists Py.IntegrityError.
    assert (Htry : exists c',
              insert_quote_try None author tags0 source_url (get_connection file)
                = (Py.Raise Py.IntegrityError, c') /\ stored c' = file).
    { unfold insert_quote_try. unfold St.bind at 1. rewrite select_quote_run.
      unfold St.bind at 1. rewrite select_author_run.
      destruct (lookup_name author (authors (current (get_connection file))))
        as [id |] eqn:Hfound.
      - unfold St.bind at 1. unfold St.ret at 1.
        unfold St.bind at 1. unfold insert_quote_row. st_unfold.
        eexists. split; reflexivity.
      - unfold St.bind at 1. unfold insert_author. st_unfold.
        destruct author as [a |]; [| eexists; split; reflexivity].
        destruct (existsb _ _); [eexists; split; reflexivity |].
        unfold change, St.update, insert_quote_row. st_unfold.
        eexists. split; reflexivity. }
    destruct Htry as (c' & Htry & Hs).
    unfold insert_quote, St.try_except. rewrite Htry.
    unfold rollback. st_unfold. unfold close. simpl. now rewrite Hs.
  - intros t tags0 Hfresh. exists Py.IntegrityError.
    assert (Hnone : List.find (fun r => String.eqb (q_text r) t) (quotes file) = None).
    { destruct (List.find _ (quotes file)) as [row |] eqn:Hfind; [| reflexivity].
      exfalso. apply Hfresh. apply find_some in Hfind as [Hin Heq].
      exists row. split; [exact Hin | now apply String.eqb_eq]. }
    unfold insert_quote, insert_quote_try, St.try_except.
    unfold St.bind at 1. rewrite select_quote_run.
    unfold get_connection. cbn [current]. rewrite Hnone.
    reflexivity.
Qed.

(** What a batch that ends without an exception has done. *)
Lemma batch_loop_sound (items : list item) (source_url : value) :
  forall n_added n_skipped file c file',
    consistent file ->
    batch_loop items source_url n_added n_skipped file = (Py.Ok c, file') ->
    consistent file' /\
    n_added <= added c /\ n_skipped <= skipped c /\
    added c + skipped c = n_added + n_skipped + Z.of_nat (length items) /\
    Z.of_nat (length (quotes file'))
      = Z.of_nat (length (quotes file)) + (added c - n_added) /\
    (exists more, quotes file' = (quotes file ++ more)%list) /\
    Forall (fun q => exists t, text q = Some t /\
                               In t (List.map q_text (quotes file'))) items.
Proof.
  induction items as [| q rest IH]; intros n_added n_skipped file c file' Hfile.
  - simpl. intros H. injection H as <- <-. simpl.
    split; [exact Hfile |]. do 2 (split; [lia |]). split; [lia |].
    split; [lia |]. split; [exists []; now rewrite app_nil_r | constructor].
  - simpl.
    destruct (insert_quote (text q) (author q) (item_tags q) source_url file)
      as [[result | e] file1] eqn:Hrun; [| intros H; discriminate H].
    apply insert_quote_cases in Hrun; [| exact Hfile].
    destruct result as [quote_id |].
    + destruct Hrun as (Hfile1 & t & a & author_id & Ht & _ & _ & Hid & _ & Hq & _).
      pose proof (counters_start _ Hfile) as (_ & Hseq & _).
      assert (Htruthy : Py.int_and (Some quote_id) (fun _ => true) = true).
      { unfold Py.int_and. destruct (Z.eqb_spec quote_id 0); [lia | reflexivity]. }
      rewrite Htruthy. intros Hrest.
      apply IH in Hrest as (Hc & Ha & Hs & Hsum & Hlen & (more & Hmore) & Hall);
        [| exact Hfile1].
      rewrite Hq in Hlen, Hmore. rewrite length_app in Hlen. simpl in Hlen.
      split; [exact Hc |]. do 2 (split; [lia |]).
      split; [simpl length; lia |]. split; [lia |].
      split; [eexists; rewrite Hmore, <- app_assoc; reflexivity |].
      constructor; [| exact Hall].
      exists t. split; [exact Ht |].
      rewrite Hmore, !List.map_app. apply in_or_app. left.
      apply in_or_app. right. now left.
    + destruct Hrun as (-> & t & Ht & Hin). simpl. intros Hrest.
      apply IH in Hrest as (Hc & Ha & Hs & Hsum & Hlen & (more & Hmore) & Hall);
        [| exact Hfile].
      split; [exact Hc |]. do 2 (split; [lia |]).
      split; [simpl length; lia |]. split; [lia |].
      split; [now exists more |].
      constructor; [| exact Hall].
      exists t. split; [exact Ht |].
      rewrite Hmore, List.map_app. apply in_or_app. now left.
Qed.

(** A batch whose texts are all stored skips every item. *)
Lemma batch_loop_all_known (items : list item) (source_url : value) (file : db) :
  Forall (fun q => exists t, text q = Some t /\
                             In t (List.map q_text (quotes file))) items ->
  forall n_added n_skipped,
    batch_loop items source_url n_added n_skipped file
    = (Py.Ok (mk_counts n_added (n_skipped + Z.of_nat (length items))), file).
Proof.
  induction 1 as [| q rest (t & Ht & Hin) _ IH]; intros n_added n_skipped.
  - simpl. now rewrite Z.add_0_r.
  - rewrite (batch_loop_duplicate q rest source_url n_added n_skipped file t Ht).
    + rewrite IH. do 3 f_equal. simpl length. lia.
    + apply in_map_iff in Hin as (row & Hrow & Hin). now exists row.
Qed.

(** X27. A batch on a sound database that ends without an exception
    has counted every item once, as added or as skipped; [quotes] has grown
    by [added] rows at its end, and the text of every item is stored. *)
Theorem batch_counts_every_item (items : list item) (source_url : value)
    (file : db) (c : counts) (file' : db) :
  consistent file ->
  insert_quotes_batch items source_url file = (Py.Ok c, file') ->
  0 <= added c /\ 0 <= skipped c /\
  added c + skipped c = Z.of_nat (length items) /\
  Z.of_nat (length (quotes file')) = Z.of_nat (length (quotes file)) + added c /\
  (exists more, quotes file' = (quotes file ++ more)%list) /\
  Forall (fun q => exists t, text q = Some t /\
                             In t (List.map q_text (quotes file'))) items.
Proof.
  intros Hfile Hrun. unfold insert_quotes_batch in Hrun.
  apply batch_loop_sound in Hrun as (_ & Ha & Hs & Hsum & Hlen & Hmore & Hall);
    [| exact Hfile].
  repeat (split; [assumption || lia |]). exact Hall.
Qed.

(** X28. Running the same items again, whatever the source URL, after a
    batch that ended without an exception stores nothing: all items are
    skipped and the file is unchanged. *)
Theorem batch_twice_adds_nothing (items : list item) (source_url other_url : value)
    (file : db) (c : counts) (file' : db) :
  consistent file ->
  insert_quotes_batch items source_url file = (Py.Ok c, file') ->
  insert_quotes_batch items other_url file'
    = (Py.Ok (mk_counts 0 (Z.of_nat (length items))), file').
Proof.
  intros Hfile Hrun. unfold insert_quotes_batch in *.
  apply batch_loop_sound in Hrun as (_ & _ & _ & _ & _ & _ & Hall);
    [| exact Hfile].
  now rewrite (batch_loop_all_known items other_url file' Hall).
Qed.

Lemma batch_loop_shift (items : list item) (source_url : value) :
  forall n_added n_skipped file,
    batch_loop items source_url n_added n_skipped file =
    match batch_loop items source_url 0 0 file with
    | (Py.Ok c, file') =>
        (Py.Ok (mk_counts (n_added + added c) (n_skipped + skipped c)), file')
    | (Py.Raise e, file') => (Py.Raise e, file')
    end.
Proof.
  induction items as [| q rest IH]; intros n_added n_skipped file.
  - simpl. now rewrite !Z.add_0_r.
  - simpl.
    destruct (insert_quote (text q) (author q) (item_tags q) source_url file)
      as [[result | e] file1]; [| reflexivity].
    destruct (Py.int_and result _).
    + rewrite (IH (n_added + 1)), (IH (0 + 1)).
      destruct (batch_loop rest source_url 0 0 file1) as [[c | e] file2];
        [| reflexivity].
      simpl. do 2 f_equal. f_equal; lia.
    + rewrite (IH n_added (n_skipped + 1)), (IH 0 (0 + 1)).
      destruct (batch_loop rest source_url 0 0 file1) as [[c | e] file2];
        [| reflexivity].
      simpl. do 2 f_equal. f_equal; lia.
Qed.

Lemma batch_loop_app (l1 l2 : list item) (source_url : value) :
  forall n_added n_skipped file,
    batch_loop (l1 ++ l2) source_url n_added n_skipped file =
    match batch_loop l1 source_url n_added n_skipped file with
    | (Py.Ok c, file1) => batch_loop l2 source_url (added c) (skipped c) file1
    | (Py.Raise e, file1) => (Py.Raise e, file1)
    end.
Proof.
  induction l1 as [| q rest IH]; intros n_added n_skipped file; [reflexivity |].
  simpl.
  destruct (insert_quote (text q) (author q) (item_tags q) source_url file)
    as [[result | e] file1]; [| reflexivity].
  destruct (Py.int_and result _); apply IH.
Qed.

(** X29. A batch is the sequence of its parts: after a first part that
    ended without an exception, the whole batch ends as the second part does
    on the file that the first part left, with the counts added up.  If the
    second part raises, what the first part stored stays. *)
Theorem batch_runs_in_sequence (l1 l2 : list item) (source_url : value)
    (file file1 : db) (c1 : counts) r2 file2 :
  insert_quotes_batch l1 source_url file = (Py.Ok c1, file1) ->
  insert_quotes_batch l2 source_url file1 = (r2, file2) ->
  insert_quotes_batch (l1 ++ l2) source_url file =
  (match r2 with
   | Py.Ok c2 => Py.Ok (mk_counts (added c1 + added c2) (skipped c1 + skipped c2))
   | Py.Raise e => Py.Raise e
   end, file2).
Proof.
  unfold insert_quotes_batch. intros H1 H2.
  rewrite batch_loop_app, H1, batch_loop_shift, H2.
  now destruct r2.
Qed.

End Integrity.

(** ** The database scraper ([DbScraper.main]) *)
Section DbScraperMain.

Import DbScraper.

Lemma db_fetch_page_total url w :
  Rt.fair w ->
  exists o w',
    fetch_page url w = (Py.Ok o, w') /\
    Rt.script w' = Rt.script w /\
    Rt.fetched w' = (Rt.fetched w ++ [url])%list.
Proof.
  intros Hfair. unfold fetch_page. unfold St.bind at 1.
  unfold Rt.uniform, St.bind at 1, Rt.random_random, Rt.ret, St.ret.
  unfold St.bind at 1. rewrite sleep_ok.
  2:{ destruct (Hfair (Rt.draws w)) as [Hr _]. lra. }
  unfold St.bind at 1.
  match goal with
  | |- context [Rt.choice USER_AGENTS ?w1] =>
      destruct (choice_ok USER_AGENTS w1) as [ua Hua]; [discriminate |];
      rewrite Hua
  end.
  unfold Rt.try_except, St.try_except. unfold St.bind at 1.
  unfold Rt.requests_get. cbn [Rt.script Rt.fetched].
  destruct (Rt.transport (Rt.script w) (length (Rt.fetched w)) url)
    as [status body |].
  - unfold St.bind at 1. unfold Rt.raise_for_status.
    destruct ((400 <=? status) && (status <? 600)).
    + eexists _, _. split; [reflexivity |]. now split.
    + eexists _, _. split; [reflexivity |]. now split.
  - eexists _, _. split; [reflexivity |]. now split.
Qed.

Lemma insert_quote_strings_ok t a (names : list string) source_url file :
  exists r file',
    Database.insert_quote (Some t) (Some a) (List.map Some names) source_url file
    = (Py.Ok r, file').
Proof.
  assert (Htags : Forall (fun v : Database.value => v <> None) (List.map Some names)).
  { apply List.Forall_forall. intros v Hv.
    apply in_map_iff in Hv as (n & <- & _). discriminate. }
  destruct (text_known_or_fresh t file) as [Hdup | Hfresh].
  - rewrite (insert_quote_duplicate t _ _ _ file Hdup). eauto.
  - destruct (insert_quote_fresh t a _ source_url file Hfresh Htags)
      as (author_id & file' & Hrun & _).
    rewrite Hrun. eauto.
Qed.

Lemma batch_strings_ok (quotes : list Rt.quote) source_url :
  forall n_added n_skipped file,
    exists c file',
      Database.batch_loop (List.map to_item quotes) source_url n_added n_skipped file
      = (Py.Ok c, file').
Proof.
  induction quotes as [| q rest IH]; intros n_added n_skipped file; simpl.
  - eauto.
  - destruct (insert_quote_strings_ok (Rt.text q) (Rt.author q) (Rt.tags q)
                source_url file) as (r & file1 & Hrun).
    rewrite Hrun. destruct (Py.int_and r _); apply IH.
Qed.

Variable MAX_PAGES : Z.
Variable parse_quotes : string -> list Rt.quote.
Variable get_next_page : string -> option string.

Local Abbreviation main_loop := (main_loop MAX_PAGES parse_quotes get_next_page).
Local Abbreviation main := (main MAX_PAGES parse_quotes get_next_page).

Lemma db_main_loop_spec (fuel : nat) :
  forall l w file,
    Rt.fair w -> Database.consistent file ->
    MAX_PAGES - pages_scraped l <= Z.of_nat fuel ->
    exists l' w' file',
      main_loop fuel l w file = Some (None, l', w', file') /\
      Database.consistent file' /\
      pages_scraped l <= pages_scraped l' <= Z.max (pages_scraped l) MAX_PAGES /\
      Z.of_nat (length (Rt.fetched w'))
        = Z.of_nat (length (Rt.fetched w)) + (pages_scraped l' - pages_scraped l) /\
      total_added l <= total_added l' /\
      total_skipped l <= total_skipped l' /\
      Z.of_nat (length (Database.quotes file'))
        = Z.of_nat (length (Database.quotes file)) + (total_added l' - total_added l).
Proof.
  induction fuel as [| fuel IH]; intros l w file Hfair Hfile Hfuel.
  - cbn [DbScraper.main_loop].
    destruct (Z.ltb_spec (pages_scraped l) MAX_PAGES); [lia |].
    rewrite andb_false_r. exists l, w, file. split; [reflexivity |].
    split; [assumption |]. repeat split; lia.
  - cbn [DbScraper.main_loop].
    destruct (negb (String.eqb (current_url l) "") && (pages_scraped l <? MAX_PAGES))
      eqn:Hcond.
    2:{ exists l, w, file. split; [reflexivity |].
        split; [assumption |]. repeat split; lia. }
    apply andb_true_iff in Hcond as [_ Hpage]. apply Z.ltb_lt in Hpage.
    cbn [current_url pages_scraped total_added total_skipped].
    destruct (db_fetch_page_total (current_url l) w Hfair)
      as (o & w1 & Hfetch & Hs & Hf).
    rewrite Hfetch.
    assert (Hlen1 : Z.of_nat (length (Rt.fetched w1))
                    = Z.of_nat (length (Rt.fetched w)) + 1)
      by (rewrite Hf, length_app; simpl; lia).
    destruct o as [html |].
    2:{ eexists _, w1, file. split; [reflexivity |]. simpl.
        split; [assumption |]. repeat split; lia. }
    unfold Database.insert_quotes_batch.
    destruct (batch_strings_ok (parse_quotes html) (Some (current_url l)) 0 0 file)
      as (c & file1 & Hbatch).
    rewrite Hbatch.
    apply batch_loop_sound in Hbatch
      as (Hfile1 & Ha & Hsk & _ & Hq & _); [| exact Hfile].
    assert (Hfair1 : Rt.fair w1) by (apply (fair_script w); assumption).
    destruct (get_next_page html) as [[| ch rest] |].
    + eexists _, w1, file1. split; [reflexivity |]. simpl.
      split; [assumption |]. repeat split; lia.
    + match goal with
      | |- context [DbScraper.main_loop _ _ _ fuel ?l1 w1 file1] =>
          destruct (IH l1 w1 file1 Hfair1 Hfile1)
            as (l' & w' & file' & Hloop & Hfile' & Hp & Hfetched & Had & Hskp & Hquotes)
      end.
      { simpl. lia. }
      simpl in Hp, Hfetched, Had, Hskp, Hquotes.
      exists l', w', file'. split; [exact Hloop |].
      split; [assumption |]. repeat split; lia.
    + eexists _, w1, file1. split; [reflexivity |]. simpl.
      split; [assumption |]. repeat split; lia.
Qed.

(** X30. With draws in [0, 1) and a sound database, [main] of
    [db_scraper.py] ends and leaves the database sound.  It adds one row to
    [scraping_sessions], which ends as completed with the number of pages
    requested (at most [MAX_PAGES], a page that could not be fetched
    included) and the totals of added and skipped quotes; [quotes] has grown
    by exactly the total of added quotes. *)
Theorem db_main_completes_session (st : state) :
  Rt.fair (world st) -> Database.consistent (file st) ->
  exists st' pages n_added n_skipped,
    main st = Some st' /\
    Database.consistent (file st') /\
    In (Database.mk_session_row (Database.sessions_seq (session_log st) + 1) true pages n_added n_skipped
                       "completed")
       (Database.session_rows (session_log st')) /\
    length (Database.session_rows (session_log st')) = S (length (Database.session_rows (session_log st))) /\
    0 <= pages <= Z.max 0 MAX_PAGES /\
    Z.of_nat (length (Rt.fetched (world st')))
      = Z.of_nat (length (Rt.fetched (world st))) + pages /\
    0 <= n_added /\ 0 <= n_skipped /\
    Z.of_nat (length (Database.quotes (file st')))
      = Z.of_nat (length (Database.quotes (file st))) + n_added.
Proof.
  intros Hfair Hfile. unfold DbScraper.main, Database.start_session.
  destruct (db_main_loop_spec (Z.to_nat MAX_PAGES) (mk_locals 0 0 0 BASE_URL)
              (world st) (file st) Hfair Hfile)
    as (l' & w' & file' & Hloop & Hfile' & Hp & Hfetched & Ha & Hs & Hq).
  { simpl. lia. }
  rewrite Hloop. simpl in Hp, Hfetched, Ha, Hs, Hq.
  eexists _, (pages_scraped l'), (total_added l'), (total_skipped l').
  split; [reflexivity |]. cbn [file world session_log].
  split; [exact Hfile' |].
  split.
  { unfold Database.update_session. cbn [Database.session_rows].
    apply in_map_iff.
    exists (Database.mk_session_row (Database.sessions_seq (session_log st) + 1) false 0 0 0 "running").
    split.
    - cbn [Database.s_id]. now rewrite Z.eqb_refl.
    - apply in_or_app. right. now left. }
  split.
  { unfold Database.update_session. cbn [Database.session_rows].
    rewrite length_map, length_app. simpl. lia. }
  repeat split; lia.
Qed.

End DbScraperMain.

(** ** Instances

    A site that cannot be reached, draws that are always 1/2 and a clock
    without lag; two proxies without credentials and one with. *)
Section Instances.

Local Existing Instance Py.sample_unicode.


Lemma inline_retry_handler_agrees_witness :
  (AdvancedScraper.RetryHandler.jittered_delay
     (AdvancedScraper.RetryHandler.mk 3 1) 2 (1 # 2)
   == Antibot.RetryHandler.jittered_delay Antibot.RetryHandler.defaults 2 (1 # 2))%Q.
Proof.
  apply (inline_retry_handler_agrees (AdvancedScraper.RetryHandler.mk 3 1) 2 (1 # 2)).
  lia.
Defined.


Lemma execute_with_retry_negative_budget_witness :
  let w := Rt.mk_world
    (Rt.mk_env (fun _ _ => Rt.Unreachable) (fun _ => 1 # 2) (fun _ => O) (fun _ => 0))
    0 O [] O [] Rt.no_stats [] in
  Antibot.RetryHandler.execute_with_retry (Antibot.RetryHandler.mk (-1) 1 60 2)
    (Rt.ret tt) w = (Py.Raise Py.TypeError, w).
Proof.
  intros w.
  apply (execute_with_retry_negative_budget (Antibot.RetryHandler.mk (-1) 1 60 2)).
  simpl. lia.
Defined.

Lemma get_next_takes_first_healthy_witness :
  let p1 := Antibot.ProxyConfig.mk "10.0.0.1" 8080 None None "http" in
  let p2 := Antibot.ProxyConfig.mk "10.0.0.2" 3128 (Some "u") (Some "pw") "http" in
  let p3 := Antibot.ProxyConfig.mk "10.0.0.3" 1080 None None "socks5" in
  let self :=
    Antibot.ProxyRotator.steps (Antibot.ProxyRotator.init [p1; p2; p3])
      [Antibot.ProxyRotator.MarkFailed (Antibot.ProxyConfig.to_dict p1)] in
  exists self',
    Antibot.ProxyRotator.get_next self
      = Some (Py.Ok (Some (Antibot.ProxyConfig.to_dict p2)), self', 2%nat) /\
    Antibot.ProxyRotator.current_index self' = 2%nat.
Proof.
  intros p1 p2 p3 self. eexists. split.
  - apply (get_next_takes_first_healthy self 1 p2).
    + vm_compute. lia.
    + vm_compute. lia.
    + intros i Hi. assert (i = O) by lia. subst i.
      exists p1. split; [reflexivity | vm_compute; reflexivity].
    + reflexivity.
    + vm_compute. reflexivity.
  - reflexivity.
Defined.

Lemma get_next_fruitless_round_witness :
  let p1 := Antibot.ProxyConfig.mk "10.0.0.1" 8080 None None "http" in
  let p2 := Antibot.ProxyConfig.mk "10.0.0.2" 3128 (Some "u") (Some "pw") "http" in
  let self :=
    Antibot.ProxyRotator.steps (Antibot.ProxyRotator.init [p1; p2])
      [Antibot.ProxyRotator.GetNext;
       Antibot.ProxyRotator.MarkFailed (Antibot.ProxyConfig.to_dict p1);
       Antibot.ProxyRotator.MarkFailed (Antibot.ProxyConfig.to_dict p2)] in
  Antibot.ProxyRotator.current_index self = 1%nat /\
  Antibot.ProxyRotator.get_next self = Some (Py.Ok None, self, 2%nat).
Proof.
  intros p1 p2 self. split; [reflexivity |].
  apply (get_next_fruitless_round self).
  - vm_compute. lia.
  - repeat constructor.
Defined.

Lemma get_random_serves_healthy_witness :
  let p1 := Antibot.ProxyConfig.mk "10.0.0.1" 8080 None None "http" in
  let p2 := Antibot.ProxyConfig.mk "10.0.0.2" 3128 (Some "u") (Some "pw") "http" in
  let self :=
    Antibot.ProxyRotator.steps (Antibot.ProxyRotator.init [p1; p2])
      [Antibot.ProxyRotator.MarkFailed (Antibot.ProxyConfig.to_dict p1)] in
  let w := Rt.mk_world
    (Rt.mk_env (fun _ _ => Rt.Unreachable) (fun _ => 1 # 2) (fun _ => O) (fun _ => 0))
    0 O [] O [] Rt.no_stats [] in
  exists p w',
    Antibot.ProxyRotator.get_random self w
      = (Py.Ok (Some (Antibot.ProxyConfig.to_dict p)), w') /\
    Antibot.ProxyRotator.is_failed self p = false.
Proof.
  intros p1 p2 self w.
  destruct (proj2 (get_random_serves_healthy self w))
    as (p & w' & Hrun & _ & Hp & _).
  - apply List.Exists_cons_tl. apply List.Exists_cons_hd. vm_compute. reflexivity.
  - exists p, w'. split; assumption.
Defined.

Lemma mark_failed_retires_proxy_witness :
  let p1 := Antibot.ProxyConfig.mk "10.0.0.1" 8080 None None "http" in
  let p2 := Antibot.ProxyConfig.mk "10.0.0.2" 3128 (Some "u") (Some "pw") "http" in
  Antibot.ProxyRotator.is_failed
    (snd (Antibot.ProxyRotator.mark_failed (Antibot.ProxyRotator.init [p1; p2])
            (Antibot.ProxyConfig.to_dict p1))) p1 = true /\
  Antibot.ProxyRotator.is_failed
    (snd (Antibot.ProxyRotator.mark_failed (Antibot.ProxyRotator.init [p1; p2])
            (Antibot.ProxyConfig.to_dict p2))) p2 = true.
Proof.
  intros p1 p2. split.
  - apply (mark_failed_retires_proxy (Antibot.ProxyRotator.init [p1; p2]) p1).
    + vm_compute. reflexivity.
    + split; [left; reflexivity | split; vm_compute; reflexivity].
  - apply (mark_failed_retires_proxy (Antibot.ProxyRotator.init [p1; p2]) p2).
    + vm_compute. reflexivity.
    + vm_compute. reflexivity.
Defined.

Lemma mark_failed_misses_other_schemes_witness :
  let p3 := Antibot.ProxyConfig.mk "10.0.0.3" 1080 None None "socks5" in
  let self := Antibot.ProxyRotator.init [p3] in
  Antibot.ProxyRotator.is_failed
    (snd (Antibot.ProxyRotator.mark_failed self (Antibot.ProxyConfig.to_dict p3))) p3
    = false /\
  Antibot.ProxyRotator.get_next
    (snd (Antibot.ProxyRotator.mark_failed self (Antibot.ProxyConfig.to_dict p3)))
    = Some (Py.Ok (Some (Antibot.ProxyConfig.to_dict p3)),
            snd (Antibot.ProxyRotator.mark_failed self (Antibot.ProxyConfig.to_dict p3)),
            1%nat).
Proof.
  intros p3 self.
  destruct (mark_failed_misses_other_schemes self p3) as (_ & _ & Hsame & Hnext).
  - reflexivity.
  - vm_compute. reflexivity.
  - vm_compute. reflexivity.
  - vm_compute. reflexivity.
  - split; [rewrite Hsame; vm_compute; reflexivity | exact Hnext].
Defined.

Lemma constructor_pool_is_never_counted_witness :
  let p1 := Antibot.ProxyConfig.mk "10.0.0.1" 8080 None None "http" in
  Antibot.ProxyRotator.proxy_stats
    (Antibot.ProxyRotator.steps (Antibot.ProxyRotator.init [p1])
       [Antibot.ProxyRotator.MarkFailed (Antibot.ProxyConfig.to_dict p1);
        Antibot.ProxyRotator.GetNext;
        Antibot.ProxyRotator.MarkSuccess (Antibot.ProxyConfig.to_dict p1)]) = ∅.
Proof.
  intros p1. apply constructor_pool_is_never_counted.
  intros proxy [H | [H | [H | []]]]; discriminate H.
Defined.

Lemma get_next_round_robin_witness :
  fst (Antibot.UserAgentRotator.get_next_times 13
         (Antibot.UserAgentRotator.init None))
    = List.map Py.Ok Antibot.UserAgentRotator.USER_AGENTS /\
  Antibot.UserAgentRotator.current_index
    (snd (Antibot.UserAgentRotator.get_next_times 15
            (Antibot.UserAgentRotator.init None))) = 2%nat.
Proof.
  split.
  - apply (proj2 (proj2 (proj2
      (get_next_round_robin (Antibot.UserAgentRotator.init None) 13
         ltac:(simpl; lia))))).
    reflexivity.
  - rewrite (proj1 (proj2 (proj2
      (get_next_round_robin (Antibot.UserAgentRotator.init None) 15
         ltac:(simpl; lia))))).
    reflexivity.
Defined.


Lemma zero_cap_blocks_every_request_witness :
  let w0 := Rt.mk_world
    (Rt.mk_env (fun _ _ => Rt.Unreachable) (fun _ => 1 # 2) (fun _ => O)
               (fun _ => 1000)) 0 O [] O [] Rt.no_stats [] in
  let s := Antibot.RequestThrottler.steps
    (Antibot.RequestThrottler.mk_session
       (Antibot.RequestThrottler.init 1 3 0) w0 [])
    [Antibot.RequestThrottler.Wait; Antibot.RequestThrottler.RecordError;
     Antibot.RequestThrottler.Wait] in
  Antibot.RequestThrottler.history s = [] /\ Rt.slept (Antibot.RequestThrottler.world s) = [].
Proof.
  intros w0 s.
  destruct (zero_cap_blocks_every_request 0 1 3 w0
              [Antibot.RequestThrottler.Wait; Antibot.RequestThrottler.RecordError;
               Antibot.RequestThrottler.Wait] ltac:(lia))
    as (Hhistory & _ & Hslept & _).
  split; [exact Hhistory | exact Hslept].
Defined.

Lemma wait_succeeds_and_scales_delay_witness :
  let w := Rt.mk_world
    (Rt.mk_env (fun _ _ => Rt.Unreachable) (fun _ => 1 # 2) (fun _ => O) (fun _ => 0))
    0 O [] O [] Rt.no_stats [] in
  let self := Antibot.RequestThrottler.record_error
                (Antibot.RequestThrottler.record_error
                   (Antibot.RequestThrottler.init 1 3 20)) in
  exists self' w' delay,
    Antibot.RequestThrottler.wait self w = (Py.Ok tt, self', w') /\
    Rt.slept w' = [delay] /\ (1 * 2 <= delay)%Q /\ (delay <= 3 * 2)%Q.
Proof.
  intros w self.
  destruct (wait_succeeds_and_scales_delay self w)
    as (self' & w' & earlier & delay & Hrun & Hslept & _ & Hdelay & _).
  - intros k. split; [discriminate | reflexivity].
  - simpl. lia.
  - unfold Qle. simpl. lia.
  - unfold Qle. simpl. lia.
  - simpl. lia.
  - exists self', w', delay. split; [exact Hrun |].
    assert (E : Antibot.RequestThrottler.wait self w = (Py.Ok tt, self', w'))
      by exact Hrun.
    vm_compute in E. injection E as _ <-.
    split; [| subst delay; split; unfold Qle; simpl; lia].
    subst delay. reflexivity.
Defined.

Lemma captcha_survives_embedding_witness :
  Antibot.CaptchaDetector.is_captcha_page "<p>Solve the CAPTCHA</p>" None = true /\
  Antibot.CaptchaDetector.is_blocked 200 (Some "<p>Solve the CAPTCHA</p>") = true.
Proof.
  split.
  - apply (proj1 (captcha_survives_embedding "Solve the CAPTCHA" "<p>" "</p>") None).
    reflexivity.
  - apply (proj2 (captcha_survives_embedding "Solve the CAPTCHA" "<p>" "</p>") 200).
    reflexivity.
Defined.

Lemma detectors_are_nested_witness :
  AdvancedScraper.CaptchaDetector.is_blocked 200 (Some "You have been BLOCKED") = true /\
  Antibot.CaptchaDetector.is_blocked 200 (Some "Checking your browser - Cloudflare")
    = true.
Proof.
  split.
  - apply (proj1 (detectors_are_nested 200 "You have been BLOCKED")). reflexivity.
  - apply (proj1 (proj2 (detectors_are_nested 200 "Checking your browser - Cloudflare"))).
    reflexivity.
Defined.

Lemma fetch_with_retry_accounts_witness :
  let w := Rt.mk_world
    (Rt.mk_env (fun k _ => match k with
                           | O => Rt.Response 500 "oops"
                           | _ => Rt.Response 200 "<html>page</html>"
                           end)
               (fun _ => 1 # 2) (fun _ => O) (fun _ => 0))
    0 O [] O [] Rt.no_stats [] in
  FinalAntibotScraper.fetch_with_retry "u" 3 w
    = (Py.Ok (Some "<html>page</html>"),
       snd (FinalAntibotScraper.fetch_with_retry "u" 3 w)) /\
  exists k,
    Z.of_nat k <= 3 /\
    Rt.fetched (snd (FinalAntibotScraper.fetch_with_retry "u" 3 w)) = repeat "u"%string k /\
    Rt.successful (Rt.counters (snd (FinalAntibotScraper.fetch_with_retry "u" 3 w))) = 0 + 1.
Proof.
  intros w.
  assert (E : FinalAntibotScraper.fetch_with_retry "u" 3 w
              = (Py.Ok (Some "<html>page</html>"%string),
                 snd (FinalAntibotScraper.fetch_with_retry "u" 3 w)))
    by (vm_compute; reflexivity).
  split; [exact E |].
  destruct (fetch_with_retry_accounts "u" 3 w)
    as (o & w' & k & Hrun & Hk & Hfetched & _ & _ & Hok & _).
  - intros j. split; [discriminate | reflexivity].
  - rewrite E in Hrun. injection Hrun as <- <-.
    exists k. split; [exact Hk |]. split; [exact Hfetched | exact Hok].
Defined.

Lemma fetch_with_retry_gives_up_witness :
  let w := Rt.mk_world
    (Rt.mk_env (fun _ _ => Rt.Unreachable) (fun _ => 1 # 2) (fun _ => O) (fun _ => 0))
    0 O [] O [] Rt.no_stats [] in
  exists w' pauses,
    FinalAntibotScraper.fetch_with_retry "u" 3 w = (Py.Ok None, w') /\
    Rt.fetched w' = ["u"; "u"; "u"]%string /\
    Rt.slept w' = pauses /\ length pauses = 2%nat /\
    Rt.failed (Rt.counters w') + Rt.blocks (Rt.counters w') = 3.
Proof.
  intros w.
  destruct (fetch_with_retry_gives_up "u" 3 w)
    as (w' & pauses & Hrun & Hfetched & Hslept & Hall & _ & _ & Hko).
  - intros j. split; [discriminate | reflexivity].
  - intros j. exact I.
  - exists w', pauses. split; [exact Hrun |]. split; [exact Hfetched |].
    split; [exact Hslept |]. split; [| exact Hko].
    apply Forall2_length in Hall. now rewrite <- Hall.
Defined.

Lemma fetch_page_accounts_witness :
  let w := Rt.mk_world
    (Rt.mk_env (fun _ _ => Rt.Unreachable) (fun _ => 1 # 2) (fun _ => O) (fun _ => 0))
    0 O [] O [] Rt.no_stats [] in
  let out := AdvancedScraper.fetch_page "u" (Antibot.RequestThrottler.init 1 3 20)
               (AdvancedScraper.RetryHandler.mk 1 1) w in
  fst (fst out) = Py.Ok None /\
  Rt.failed (Rt.counters (snd out)) = 1 /\
  Antibot.RequestThrottler.consecutive_errors (snd (fst out)) = 1.
Proof.
  intros w out.
  assert (E : AdvancedScraper.fetch_page "u" (Antibot.RequestThrottler.init 1 3 20)
                (AdvancedScraper.RetryHandler.mk 1 1) w
              = (Py.Ok None, snd (fst out), snd out))
    by (vm_compute; reflexivity).
  destruct (fetch_page_accounts _ _ _ _ _ _ _ E) as (_ & _ & _ & Hfailed & Herrors).
  split; [vm_compute; reflexivity |]. split; [exact Hfailed | exact Herrors].
Defined.

Lemma advanced_main_tally_witness :
  let w := Rt.mk_world
    (Rt.mk_env (fun _ _ => Rt.Response 200 "Please solve this captcha")
               (fun _ => 1 # 2) (fun _ => O) (fun _ => 0))
    0 O [] O [] Rt.no_stats [] in
  let out := AdvancedScraper.main 5 (fun _ => []) (fun _ => None) w in
  Rt.captchas (Rt.counters (snd out)) = 0 /\
  Rt.requests (Rt.counters (snd out))
    = Rt.successful (Rt.counters (snd out)) + Rt.failed (Rt.counters (snd out)).
Proof.
  intros w out.
  destruct (advanced_main_tally 5 (fun _ => []) (fun _ => None) w (fst out) (snd out))
    as (Hcaptchas & Hsum & _).
  - subst out. now destruct (AdvancedScraper.main _ _ _ _) as [r w'].
  - split; [exact Hcaptchas | exact Hsum].
Defined.

Lemma insert_quote_keeps_integrity_witness :
  Database.consistent
    (snd (Database.insert_quotes_batch
            [Database.mk_item (Some "To be") (Some "W. S.") [Some "life"];
             Database.mk_item (Some "To be") (Some "W. S.") [Some "life"; None]]
            None Database.empty)).
Proof.
  destruct insert_quote_keeps_integrity as (Hempty & _ & Hbatch).
  destruct (Database.insert_quotes_batch _ None Database.empty) as [r file'] eqn:E.
  exact (Hbatch _ _ _ _ _ Hempty E).
Defined.

Lemma insert_quote_stores_and_links_witness :
  exists file',
    Database.insert_quote (Some "To be") (Some "W. S.") [Some "life"; Some "life"]
      (Some "https://quotes.toscrape.com") Database.empty = (Py.Ok (Some 1), file') /\
    Database.quotes file' =
      [Database.mk_row 1 "To be" 1 (Some "https://quotes.toscrape.com")] /\
    Database.quote_tags file' = [(1, 1)].
Proof.
  destruct (Database.insert_quote (Some "To be") (Some "W. S.")
              [Some "life"; Some "life"] (Some "https://quotes.toscrape.com")
              Database.empty) as [r file'] eqn:E.
  assert (E' := E). vm_compute in E'. injection E' as <- <-.
  destruct (insert_quote_stores_and_links _ _ _ _ _ _ _
              consistent_empty E)
    as (_ & _ & _ & t & a & author_id & _).
  eexists. split; [reflexivity |]. split; reflexivity.
Defined.

Lemma insert_quote_constraints_witness :
  Database.insert_quote (Some "") (Some "") [Some ""] None Database.empty
    <> (Py.Raise Py.IntegrityError, Database.empty) /\
  exists e,
    Database.insert_quote (Some "To be") None [] None Database.empty
      = (Py.Raise e, Database.empty).
Proof.
  destruct (insert_quote_constraints Database.empty None) as (Hok & _ & Hnone).
  split.
  - apply Hok. repeat constructor. discriminate.
  - apply Hnone. intros (row & Hin & _). exact Hin.
Defined.

Lemma batch_counts_every_item_witness :
  let items :=
    [Database.mk_item (Some "To be") (Some "W. S.") [Some "life"];
     Database.mk_item (Some "Not to be") (Some "W. S.") [];
     Database.mk_item (Some "To be") (Some "Anon") []] in
  let out := Database.insert_quotes_batch items None Database.empty in
  fst out = Py.Ok (Database.mk_counts 2 1) /\
  Z.of_nat (length (Database.quotes (snd out))) = 0 + 2.
Proof.
  intros items out.
  assert (E : out = (Py.Ok (Database.mk_counts 2 1), snd out))
    by (vm_compute; reflexivity).
  destruct (batch_counts_every_item items None Database.empty
              (Database.mk_counts 2 1) (snd out))
    as (_ & _ & _ & Hlen & _).
  - exact consistent_empty.
  - exact E.
  - split; [now rewrite E | exact Hlen].
Defined.

Lemma batch_twice_adds_nothing_witness :
  let items :=
    [Database.mk_item (Some "To be") (Some "W. S.") [Some "life"];
     Database.mk_item (Some "Not to be") (Some "W. S.") []] in
  let file' := snd (Database.insert_quotes_batch items None Database.empty) in
  Database.insert_quotes_batch items (Some "again") file'
    = (Py.Ok (Database.mk_counts 0 2), file').
Proof.
  intros items file'.
  apply (batch_twice_adds_nothing items None (Some "again") Database.empty
           (Database.mk_counts 2 0) file').
  - exact consistent_empty.
  - vm_compute. reflexivity.
Defined.

Lemma batch_runs_in_sequence_witness :
  let good := [Database.mk_item (Some "To be") (Some "W. S.") [Some "life"]] in
  let bad := [Database.mk_item (Some "Not to be") None []] in
  let file1 := snd (Database.insert_quotes_batch good None Database.empty) in
  Database.insert_quotes_batch (good ++ bad) None Database.empty
    = (Py.Raise Py.IntegrityError, file1) /\
  length (Database.quotes file1) = 1%nat.
Proof.
  intros good bad file1. split; [| reflexivity].
  apply (batch_runs_in_sequence good bad None Database.empty file1
           (Database.mk_counts 1 0) (Py.Raise Py.IntegrityError) file1).
  - vm_compute. reflexivity.
  - vm_compute. reflexivity.
Defined.

Lemma db_main_completes_session_witness :
  let parse := fun h : string =>
    [Rt.mk_quote h "a" ["x"]; Rt.mk_quote "again" "b" []]%string in
  let next := fun h : string =>
    if String.eqb h "p1" then Some "/page/2/"%string else None in
  let site := fun (k : nat) (u : string) =>
    if String.eqb u DbScraper.BASE_URL then Rt.Response 200 "p1"
    else Rt.Response 200 "p2" in
  let st := DbScraper.mk_state
    (Rt.mk_world (Rt.mk_env site (fun _ => 1 # 2) (fun _ => O) (fun _ => 0))
                 0 O [] O [] Rt.no_stats [])
    Database.empty (Database.mk_sessions [] 0) in
  exists st',
    DbScraper.main 10 parse next st = Some st' /\
    Database.session_rows (DbScraper.session_log st')
      = [Database.mk_session_row 1 true 2 3 1 "completed"] /\
    length (Database.quotes (DbScraper.file st')) = 3%nat.
Proof.
  intros parse next site st.
  destruct (db_main_completes_session 10 parse next st)
    as (st' & pages & n_added & n_skipped & Hmain & _).
  - intros k. split; [discriminate | reflexivity].
  - exact consistent_empty.
  - exists st'. split; [exact Hmain |].
    assert (E : DbScraper.main 10 parse next st = Some st') by exact Hmain.
    vm_compute in E. injection E as <-. split; reflexivity.
Defined.

End Instances.
